(** * BreezyBox virtual terminal manager (vterm.c, zero-copy / swap variant)

    A shallow embedding of the terminal core of [src/vterm.c]: the cell
    grid, the escape-sequence interpreter, the write paths, the buffer
    swap of [vterm_switch] and the hotkey detector of [vterm_input_feed],
    followed by the properties of the specification that concern them. *)

From Stdlib Require Import ZArith Ascii String List Lia Bool.
From stdpp Require Import base list list_numbers.
Import ListNotations.
Local Open Scope Z_scope.

(** ** C integers

    [int] is 32 bits wide on the target.  Signed arithmetic is written with
    its two's-complement wrap-around, which is what the generated code
    does; [uint8_t] stores keep the low eight bits. *)

Definition INT_MIN : Z := -2147483648.
Definition INT_MAX : Z := 2147483647.

Definition wrap_int (z : Z) : Z := (z + 2147483648) mod 4294967296 - 2147483648.

Definition int_add (a b : Z) : Z := wrap_int (a + b).
Definition int_sub (a b : Z) : Z := wrap_int (a - b).
Definition int_mul (a b : Z) : Z := wrap_int (a * b).

Definition to_uint8 (z : Z) : Z := z mod 256.

Definition is_int (z : Z) : Prop := INT_MIN <= z <= INT_MAX.

(** ** Characters *)

Definition code (c : ascii) : Z := Z.of_N (N_of_ascii c).

Definition NUL : ascii := "000"%char.
Definition ESC : ascii := "027"%char.

Definition is_digit (c : ascii) : bool := (48 <=? code c) && (code c <=? 57).
Definition is_upper (c : ascii) : bool := (65 <=? code c) && (code c <=? 90).
Definition is_lower (c : ascii) : bool := (97 <=? code c) && (code c <=? 122).
Definition is_alpha (c : ascii) : bool := is_upper c || is_lower c.

(** [c >= 32 && c < 127] *)
Definition is_printable (c : ascii) : bool := (32 <=? code c) && (code c <? 127).

Definition ascii_eqb (a b : ascii) : bool := Ascii.eqb a b.

(** ** vterm.h *)

Definition VTERM_COUNT : Z := 4.
Definition VTERM_COLS : Z := 128.
Definition VTERM_ROWS : Z := 37.

Definition VTERM_BLACK : Z := 0.
Definition VTERM_RED : Z := 1.
Definition VTERM_WHITE : Z := 7.
Definition VTERM_BRIGHT : Z := 8.

Definition VTERM_ATTR (fg bg : Z) : Z := Z.lor (Z.shiftl bg 4) (Z.land fg 15).
Definition VTERM_ATTR_FG (a : Z) : Z := Z.land a 15.
Definition VTERM_ATTR_BG (a : Z) : Z := Z.land (Z.shiftr a 4) 15.
Definition VTERM_DEFAULT_ATTR : Z := VTERM_ATTR VTERM_WHITE VTERM_BLACK.

Record vterm_cell_t := Cell { ch : ascii; attr : Z }.

Definition blank_cell : vterm_cell_t := Cell " " VTERM_DEFAULT_ATTR.

(** Number of cells of one grid, [VTERM_ROWS * VTERM_COLS]. *)
Definition GRID_CELLS : Z := VTERM_ROWS * VTERM_COLS.

(** ** The session structure

    [cells] is the array the C field [cells] points to at the time of the
    call (the shared fast buffer for the active session, the session's own
    backing store otherwise); the pointer itself is modelled with the
    session pool further down. *)

Record vterm_t := Vterm {
  cells : list vterm_cell_t;
  cursor_x : Z;
  cursor_y : Z;
  current_attr : Z;
  escape_state : Z;
  escape_buf : list ascii;
  escape_len : Z;
  dirty : Z
}.

Definition set_cells (vt : vterm_t) (v : list vterm_cell_t) : vterm_t :=
  Vterm v (cursor_x vt) (cursor_y vt) (current_attr vt)
        (escape_state vt) (escape_buf vt) (escape_len vt) (dirty vt).
Definition set_cursor_x (vt : vterm_t) (v : Z) : vterm_t :=
  Vterm (cells vt) v (cursor_y vt) (current_attr vt)
        (escape_state vt) (escape_buf vt) (escape_len vt) (dirty vt).
Definition set_cursor_y (vt : vterm_t) (v : Z) : vterm_t :=
  Vterm (cells vt) (cursor_x vt) v (current_attr vt)
        (escape_state vt) (escape_buf vt) (escape_len vt) (dirty vt).
Definition set_current_attr (vt : vterm_t) (v : Z) : vterm_t :=
  Vterm (cells vt) (cursor_x vt) (cursor_y vt) v
        (escape_state vt) (escape_buf vt) (escape_len vt) (dirty vt).
Definition set_escape_state (vt : vterm_t) (v : Z) : vterm_t :=
  Vterm (cells vt) (cursor_x vt) (cursor_y vt) (current_attr vt)
        v (escape_buf vt) (escape_len vt) (dirty vt).
Definition set_escape_buf (vt : vterm_t) (v : list ascii) : vterm_t :=
  Vterm (cells vt) (cursor_x vt) (cursor_y vt) (current_attr vt)
        (escape_state vt) v (escape_len vt) (dirty vt).
Definition set_escape_len (vt : vterm_t) (v : Z) : vterm_t :=
  Vterm (cells vt) (cursor_x vt) (cursor_y vt) (current_attr vt)
        (escape_state vt) (escape_buf vt) v (dirty vt).
Definition set_dirty (vt : vterm_t) (v : Z) : vterm_t :=
  Vterm (cells vt) (cursor_x vt) (cursor_y vt) (current_attr vt)
        (escape_state vt) (escape_buf vt) (escape_len vt) v.

(** ** Array primitives

    The lists model the arrays themselves, not the memory around them.
    The C code stores through [cells] without a bounds check: with an
    index outside the array the store lands in other memory, which is
    undefined behaviour and is not described here; the array itself is
    then left as it is (stdpp's insert ignores an index past the end,
    [store_cell] one before the start).  The definitions are the program's
    while the cursor is inside the grid, and the statements about writes
    carry that hypothesis ([cursor_ok], [stays_in_grid]). *)

Definition store_cell (cs : list vterm_cell_t) (i : Z) (v : vterm_cell_t)
  : list vterm_cell_t :=
  if 0 <=? i then <[Z.to_nat i := v]> cs else cs.

(** [for (x = from; x < to; x++) base[x] = v] *)
Definition fill_cells (cs : list vterm_cell_t) (base from to : Z)
  (v : vterm_cell_t) : list vterm_cell_t :=
  foldl (fun acc x => store_cell acc (base + x) v) cs (seqZ from (to - from)).

(** [cs[i]] where the array has a cell at [i]. *)
Definition load_cell (cs : list vterm_cell_t) (i : Z) : option vterm_cell_t :=
  if 0 <=? i then cs !! Z.to_nat i else None.

(** [memmove(&cs[dst], &cs[src], n * sizeof(vterm_cell_t))]: cell [dst + k]
    receives what cell [src + k] held before the call, for [k < n].  The
    array keeps its size; where the source lies outside of it the
    destination cell is left as it was. *)
Definition memmove_cells (cs : list vterm_cell_t) (dst src n : Z)
  : list vterm_cell_t :=
  imap (fun j old =>
          if (dst <=? Z.of_nat j) && (Z.of_nat j <? dst + n)
          then default old (load_cell cs (Z.of_nat j - dst + src))
          else old) cs.

(** ** Internal functions *)

Definition vterm_scroll (vt : vterm_t) : vterm_t :=
  let cs := memmove_cells (cells vt) 0 VTERM_COLS ((VTERM_ROWS - 1) * VTERM_COLS) in
  let cs := fill_cells cs ((VTERM_ROWS - 1) * VTERM_COLS) 0 VTERM_COLS blank_cell in
  set_cursor_y (set_cells vt cs) (VTERM_ROWS - 1).

(** Index of the cell under the cursor, [cursor_y * VTERM_COLS + cursor_x]. *)
Definition cursor_index (vt : vterm_t) : Z :=
  int_add (int_mul (cursor_y vt) VTERM_COLS) (cursor_x vt).

(** [cursor_x = 0; cursor_y++; if (cursor_y >= VTERM_ROWS) vterm_scroll(vt);] *)
Definition newline (vt : vterm_t) : vterm_t :=
  let vt := set_cursor_x vt 0 in
  let vt := set_cursor_y vt (int_add (cursor_y vt) 1) in
  if VTERM_ROWS <=? cursor_y vt then vterm_scroll vt else vt.

(** The [do ... while] loop of the tab case; [cell] is the index the local
    pointer has reached.  Eight consecutive columns always contain a
    multiple of eight, so seven re-entries are all the loop can make. *)
Fixpoint tab_loop (fuel : nat) (vt : vterm_t) (cell : Z) : vterm_t :=
  let vt := set_cells vt (store_cell (cells vt) cell (Cell " " (current_attr vt))) in
  let vt := set_cursor_x vt (int_add (cursor_x vt) 1) in
  match fuel with
  | O => vt
  | S fuel' =>
      if (cursor_x vt <? VTERM_COLS) && negb (Z.rem (cursor_x vt) 8 =? 0)
      then tab_loop fuel' vt (cell + 1)
      else vt
  end.

Definition vterm_putchar_internal (vt : vterm_t) (c : ascii) : vterm_t :=
  let cell := cursor_index vt in
  if code c =? 10 then newline vt
  else if code c =? 13 then set_cursor_x vt 0
  else if code c =? 8 then
    if 0 <? cursor_x vt then
      let vt := set_cursor_x vt (int_sub (cursor_x vt) 1) in
      set_cells vt (store_cell (cells vt) (cell - 1) (Cell " " (current_attr vt)))
    else vt
  else if code c =? 9 then
    let vt := tab_loop 7 vt cell in
    if VTERM_COLS <=? cursor_x vt then newline vt else vt
  else if is_printable c then
    let vt := set_cells vt (store_cell (cells vt) cell (Cell c (current_attr vt))) in
    let vt := set_cursor_x vt (int_add (cursor_x vt) 1) in
    if VTERM_COLS <=? cursor_x vt then newline vt else vt
  else vt.

Definition vterm_clear_internal (vt : vterm_t) : vterm_t :=
  let cs := fill_cells (cells vt) 0 0 GRID_CELLS blank_cell in
  set_current_attr (set_cursor_y (set_cursor_x (set_cells vt cs) 0) 0) VTERM_DEFAULT_ATTR.

(** ** C strings and the libc functions the interpreter calls *)

(** The string held in a character array: everything before the first NUL. *)
Fixpoint c_string (buf : list ascii) : list ascii :=
  match buf with
  | [] => []
  | c :: buf' => if ascii_eqb c NUL then [] else c :: c_string buf'
  end.

Fixpoint str_eqb (a b : list ascii) : bool :=
  match a, b with
  | [], [] => true
  | x :: a', y :: b' => ascii_eqb x y && str_eqb a' b'
  | _, _ => false
  end.

(** [buf[i]], NUL past the end of the modelled array. *)
Definition char_at (buf : list ascii) (i : Z) : ascii :=
  if 0 <=? i then nth (Z.to_nat i) buf NUL else NUL.

(** [buf[i] = c] *)
Definition store_char (buf : list ascii) (i : Z) (c : ascii) : list ascii :=
  if 0 <=? i then <[Z.to_nat i := c]> buf else buf.

(** [isspace] in the C locale. *)
Definition is_space (c : ascii) : bool :=
  (code c =? 32) || ((9 <=? code c) && (code c <=? 13)).

Fixpoint skip_spaces (s : list ascii) : list ascii :=
  match s with
  | c :: s' => if is_space c then skip_spaces s' else s
  | [] => []
  end.

(** Value of the leading run of decimal digits, and what follows it. *)
Fixpoint digits_value (s : list ascii) (acc : Z) : Z * list ascii :=
  match s with
  | c :: s' => if is_digit c then digits_value s' (acc * 10 + (code c - 48)) else (acc, s)
  | [] => (acc, [])
  end.

(** [strtol] saturates at the ends of the 32-bit [long] of the target. *)
Definition clamp_int (z : Z) : Z := Z.max INT_MIN (Z.min INT_MAX z).

(** One [%d] conversion: optional blanks, optional sign, at least one
    digit; [None] when no number is there. *)
Definition scan_int (s : list ascii) : option (Z * list ascii) :=
  let s := skip_spaces s in
  let '(neg, body) :=
    match s with
    | c :: s' => if ascii_eqb c "-" then (true, s')
                 else if ascii_eqb c "+" then (false, s') else (false, s)
    | [] => (false, [])
    end in
  match body with
  | d :: _ =>
      if is_digit d then
        let '(v, rest) := digits_value body 0 in
        Some (clamp_int (if neg then - v else v), rest)
      else None
  | [] => None
  end.

(** [atoi(s)]: as [strtol], 0 when no number is there. *)
Definition atoi (s : list ascii) : Z :=
  match scan_int s with
  | Some (v, _) => v
  | None => 0
  end.

(** [sscanf(s, "%d;%d", &row, &col)], from the initial values of the two
    variables to their final ones. *)
Definition sscanf_row_col (s : list ascii) (row col : Z) : Z * Z :=
  match scan_int s with
  | None => (row, col)
  | Some (r, rest) =>
      match rest with
      | c :: rest' =>
          if ascii_eqb c ";" then
            match scan_int rest' with
            | Some (c2, _) => (r, c2)
            | None => (r, col)
            end
          else (r, col)
      | [] => (r, col)
      end
  end.

(** Decimal digits of a non-negative number, most significant first. *)
Definition digit_char (d : Z) : ascii := ascii_of_N (Z.to_N (48 + d)).

Fixpoint dec_digits (fuel : nat) (n : Z) (acc : list ascii) : list ascii :=
  let acc' := digit_char (n mod 10) :: acc in
  match fuel with
  | O => acc'
  | S fuel' => if n <? 10 then acc' else dec_digits fuel' (n / 10) acc'
  end.

(** What [%d] prints. *)
Definition dec_chars (z : Z) : list ascii :=
  if z <? 0 then "-"%char :: dec_digits (Z.to_nat (Z.log2 (- z))) (- z) []
  else dec_digits (Z.to_nat (Z.log2 z)) z [].

(** ** SGR *)

Fixpoint sgr_digits (p : list ascii) (num : Z) : Z * list ascii :=
  match p with
  | c :: p' =>
      if is_digit c then sgr_digits p' (int_add (int_mul num 10) (int_sub (code c) 48))
      else (num, p)
  | [] => (num, [])
  end.

(** [sgr_parse_num(&p)]: the number read and the advanced pointer. *)
Definition sgr_parse_num (p : list ascii) : Z * list ascii :=
  let '(num, p) := sgr_digits p 0 in
  match p with
  | c :: p' => if ascii_eqb c ";" then (num, p') else (num, p)
  | [] => (num, [])
  end.

(** The sub-parameters of an extended colour ([38] and [48]) are read and
    dropped. *)
Definition sgr_skip_extended (p : list ascii) : list ascii :=
  let '(mode, p) := sgr_parse_num p in
  if mode =? 5 then snd (sgr_parse_num p)
  else if mode =? 2 then snd (sgr_parse_num (snd (sgr_parse_num (snd (sgr_parse_num p)))))
  else p.

(** One turn of the parameter loop, on the number just read. *)
Definition sgr_code (attr bright num : Z) (p : list ascii) : Z * Z * list ascii :=
  if (90 <=? num) && (num <=? 97) then
    let fg := to_uint8 (Z.lor (num - 90) VTERM_BRIGHT) in
    (to_uint8 (VTERM_ATTR fg (VTERM_ATTR_BG attr)), bright, p)
  else if (30 <=? num) && (num <=? 37) then
    let fg := to_uint8 (Z.lor (num - 30) bright) in
    (to_uint8 (VTERM_ATTR fg (VTERM_ATTR_BG attr)), bright, p)
  else if num =? 0 then (VTERM_DEFAULT_ATTR, 0, p)
  else if num =? 1 then
    (to_uint8 (VTERM_ATTR (Z.lor (VTERM_ATTR_FG attr) VTERM_BRIGHT) (VTERM_ATTR_BG attr)),
     VTERM_BRIGHT, p)
  else if num =? 22 then
    (to_uint8 (VTERM_ATTR (Z.land (VTERM_ATTR_FG attr) 7) (VTERM_ATTR_BG attr)), 0, p)
  else if num =? 38 then (attr, bright, sgr_skip_extended p)
  else if num =? 39 then
    (to_uint8 (VTERM_ATTR VTERM_WHITE (VTERM_ATTR_BG attr)), bright, p)
  else if (40 <=? num) && (num <=? 47) then
    (to_uint8 (VTERM_ATTR (VTERM_ATTR_FG attr) (to_uint8 (num - 40))), bright, p)
  else if num =? 48 then (attr, bright, sgr_skip_extended p)
  else if num =? 49 then
    (to_uint8 (VTERM_ATTR (VTERM_ATTR_FG attr) VTERM_BLACK), bright, p)
  else if (100 <=? num) && (num <=? 107) then
    (to_uint8 (VTERM_ATTR (VTERM_ATTR_FG attr)
                 (to_uint8 (Z.lor (num - 100) VTERM_BRIGHT))), bright, p)
  else (attr, bright, p).

(** The loop itself.  [sgr_parse_num] moves the pointer only over digits
    and one semicolon: at any other character the C loop reads 0, resets
    the attribute and comes back to the same character for ever.  [None]
    is that case (the call does not return); [fuel] bounds the turns and
    is given as the length of the string, one character at least being
    consumed per turn otherwise. *)
Fixpoint sgr_loop (fuel : nat) (attr bright : Z) (p : list ascii) : option Z :=
  match p with
  | [] => Some attr
  | c :: _ =>
      if negb (is_digit c || ascii_eqb c ";") then None
      else
        match fuel with
        | O => None
        | S fuel' =>
            let '(num, p1) := sgr_parse_num p in
            let '(attr', bright', p2) := sgr_code attr bright num p1 in
            sgr_loop fuel' attr' bright' p2
        end
  end.

(** The attribute [vterm_apply_sgr] computes from the current one. *)
Definition sgr_attr (current : Z) (params : list ascii) : option Z :=
  let reset :=
    match params with
    | [] => true
    | c :: rest =>
        ascii_eqb c "0" &&
        match rest with [] => true | d :: _ => ascii_eqb d ";" end
    end in
  let attr := if reset then VTERM_DEFAULT_ATTR else current in
  let p := if reset then
             let p := match params with
                      | c :: rest => if ascii_eqb c "0" then rest else params
                      | [] => []
                      end in
             match p with
             | c :: rest => if ascii_eqb c ";" then rest else p
             | [] => []
             end
           else params in
  sgr_loop (length p) attr 0 p.

Definition vterm_apply_sgr (vt : vterm_t) (params : list ascii) : option vterm_t :=
  match sgr_attr (current_attr vt) params with
  | Some a => Some (set_current_attr vt a)
  | None => None
  end.

(** ** The escape-sequence interpreter *)

Definition str (s : String.string) : list ascii := String.list_ascii_of_string s.

(** [int n = 1; if (escape_buf[0]) n = atoi(escape_buf); if (n < 1) n = 1;] *)
Definition csi_count (buf : list ascii) : Z :=
  let n := if ascii_eqb (char_at buf 0) NUL then 1 else atoi (c_string buf) in
  if n <? 1 then 1 else n.

(** [for (y = y0; y < y1; y++)] clear row [y] to space and default attribute. *)
Definition clear_rows (cs : list vterm_cell_t) (y0 y1 : Z) : list vterm_cell_t :=
  foldl (fun acc y => fill_cells acc (int_mul y VTERM_COLS) 0 VTERM_COLS blank_cell)
        cs (seqZ y0 (y1 - y0)).

(** [if (cursor_y >= VTERM_ROWS - 1) vterm_scroll(vt); else cursor_y++;] *)
Definition index_down (vt : vterm_t) : vterm_t :=
  if VTERM_ROWS - 1 <=? cursor_y vt then vterm_scroll vt
  else set_cursor_y vt (int_add (cursor_y vt) 1).

(** Reverse index: scroll down at the top row, else one row up. *)
Definition reverse_index (vt : vterm_t) : vterm_t :=
  if cursor_y vt <=? 0 then
    let cs := memmove_cells (cells vt) VTERM_COLS 0 ((VTERM_ROWS - 1) * VTERM_COLS) in
    set_cells vt (fill_cells cs 0 0 VTERM_COLS blank_cell)
  else set_cursor_y vt (int_sub (cursor_y vt) 1).

(** The [switch (c)] on the final byte of a CSI sequence; [buf] is
    [escape_buf] with the final byte already overwritten by NUL.  The
    second component lists the bytes handed to
    [vterm_send_input(s_active_vt, .)], in order. *)
Definition csi_dispatch (vt : vterm_t) (c : ascii) : option (vterm_t * list ascii) :=
  let buf := escape_buf vt in
  let s := c_string buf in
  if ascii_eqb c "m" then
    match vterm_apply_sgr vt s with
    | Some vt' => Some (vt', [])
    | None => None
    end
  else if ascii_eqb c "J" then
    if str_eqb s (str "2") || str_eqb s [] then Some (vterm_clear_internal vt, [])
    else Some (vt, [])
  else if ascii_eqb c "H" || ascii_eqb c "f" then
    if ascii_eqb (char_at buf 0) NUL || str_eqb s (str "1;1") then
      Some (set_cursor_y (set_cursor_x vt 0) 0, [])
    else
      let '(row, col) := sscanf_row_col s 1 1 in
      let vt := set_cursor_y vt (if 0 <? row then int_sub row 1 else 0) in
      let vt := set_cursor_x vt (if 0 <? col then int_sub col 1 else 0) in
      let vt := if VTERM_ROWS <=? cursor_y vt then set_cursor_y vt (VTERM_ROWS - 1) else vt in
      let vt := if VTERM_COLS <=? cursor_x vt then set_cursor_x vt (VTERM_COLS - 1) else vt in
      Some (vt, [])
  else if ascii_eqb c "A" then
    let vt := set_cursor_y vt (int_sub (cursor_y vt) (csi_count buf)) in
    Some (if cursor_y vt <? 0 then set_cursor_y vt 0 else vt, [])
  else if ascii_eqb c "B" then
    let vt := set_cursor_y vt (int_add (cursor_y vt) (csi_count buf)) in
    Some (if VTERM_ROWS <=? cursor_y vt then set_cursor_y vt (VTERM_ROWS - 1) else vt, [])
  else if ascii_eqb c "C" then
    let vt := set_cursor_x vt (int_add (cursor_x vt) (csi_count buf)) in
    Some (if VTERM_COLS <=? cursor_x vt then set_cursor_x vt (VTERM_COLS - 1) else vt, [])
  else if ascii_eqb c "D" then
    let vt := set_cursor_x vt (int_sub (cursor_x vt) (csi_count buf)) in
    Some (if cursor_x vt <? 0 then set_cursor_x vt 0 else vt, [])
  else if ascii_eqb c "K" then
    let mode := if ascii_eqb (char_at buf 0) NUL then 0 else atoi s in
    let start := if mode =? 0 then cursor_x vt else 0 in
    let stop := if mode =? 0 then VTERM_COLS
                else if mode =? 1 then int_add (cursor_x vt) 1 else VTERM_COLS in
    Some (set_cells vt (fill_cells (cells vt) (int_mul (cursor_y vt) VTERM_COLS)
                          start stop (Cell " " (current_attr vt))), [])
  else if ascii_eqb c "X" then
    let n := csi_count buf in
    let stop := int_add (cursor_x vt) n in
    let stop := if VTERM_COLS <? stop then VTERM_COLS else stop in
    Some (set_cells vt (fill_cells (cells vt) (int_mul (cursor_y vt) VTERM_COLS)
                          (cursor_x vt) stop (Cell " " (current_attr vt))), [])
  else if ascii_eqb c "L" then
    let n := csi_count buf in
    let n := if int_sub VTERM_ROWS (cursor_y vt) <? n
             then int_sub VTERM_ROWS (cursor_y vt) else n in
    let lines_to_move := int_sub (int_sub VTERM_ROWS (cursor_y vt)) n in
    let cs := if 0 <? lines_to_move then
                memmove_cells (cells vt)
                  (int_mul (int_add (cursor_y vt) n) VTERM_COLS)
                  (int_mul (cursor_y vt) VTERM_COLS)
                  (int_mul lines_to_move VTERM_COLS)
              else cells vt in
    Some (set_cells vt (clear_rows cs (cursor_y vt) (int_add (cursor_y vt) n)), [])
  else if ascii_eqb c "M" then
    let n := csi_count buf in
    let n := if int_sub VTERM_ROWS (cursor_y vt) <? n
             then int_sub VTERM_ROWS (cursor_y vt) else n in
    let lines_to_move := int_sub (int_sub VTERM_ROWS (cursor_y vt)) n in
    let cs := if 0 <? lines_to_move then
                memmove_cells (cells vt)
                  (int_mul (cursor_y vt) VTERM_COLS)
                  (int_mul (int_add (cursor_y vt) n) VTERM_COLS)
                  (int_mul lines_to_move VTERM_COLS)
              else cells vt in
    Some (set_cells vt (clear_rows cs (int_sub VTERM_ROWS n) VTERM_ROWS), [])
  else if ascii_eqb c "n" then
    if ascii_eqb (char_at buf 0) "6" && ascii_eqb (char_at buf 1) NUL then
      Some (vt, take 31 (ESC :: "["%char :: dec_chars (int_add (cursor_y vt) 1)
                           ++ ";"%char :: dec_chars (int_add (cursor_x vt) 1)
                           ++ ["R"%char]))
    else Some (vt, [])
  else Some (vt, []).

(** [if (escape_len < sizeof(escape_buf) - 1) { escape_buf[escape_len++] = c;
    escape_buf[escape_len] = 0; }] *)
Definition escape_collect (vt : vterm_t) (c : ascii) : vterm_t :=
  if escape_len vt <? 31 then
    let vt := set_escape_buf vt (store_char (escape_buf vt) (escape_len vt) c) in
    let vt := set_escape_len vt (int_add (escape_len vt) 1) in
    set_escape_buf vt (store_char (escape_buf vt) (escape_len vt) NUL)
  else vt.

(** [escape_buf[escape_len - 1] = 0] *)
Definition escape_cut (vt : vterm_t) : vterm_t :=
  set_escape_buf vt (store_char (escape_buf vt) (escape_len vt - 1) NUL).

(** [escape_state = 0; escape_len = 0;] *)
Definition escape_done (vt : vterm_t) : vterm_t :=
  set_escape_len (set_escape_state vt 0) 0.

(** [vterm_handle_escape(vt, c)]: whether the byte was consumed, the
    session afterwards and the bytes sent to the active session's input
    queue; [None] when the call does not return (see [sgr_loop]). *)
Definition vterm_handle_escape (vt : vterm_t) (c : ascii)
  : option (bool * vterm_t * list ascii) :=
  if escape_state vt =? 0 then
    if ascii_eqb c ESC then
      Some (true, set_escape_len (set_escape_state vt 1) 0, [])
    else Some (false, vt, [])
  else if escape_state vt =? 1 then
    if ascii_eqb c "[" then Some (true, set_escape_state vt 2, [])
    else if ascii_eqb c "D" then
      Some (true, set_escape_state (set_dirty (index_down vt) 1) 0, [])
    else if ascii_eqb c "M" then
      Some (true, set_escape_state (set_dirty (reverse_index vt) 1) 0, [])
    else if ascii_eqb c "E" then
      Some (true, set_escape_state (set_dirty (index_down (set_cursor_x vt 0)) 1) 0, [])
    else Some (false, set_escape_state vt 0, [])
  else
    let vt := escape_collect vt c in
    if is_alpha c then
      let vt := escape_cut vt in
      if ascii_eqb (char_at (escape_buf vt) 0) "?" then Some (true, escape_done vt, [])
      else
        match csi_dispatch vt c with
        | Some (vt, out) => Some (true, escape_done vt, out)
        | None => None
        end
    else Some (true, vt, []).

(** ** The write paths, on one session

    The body of [vterm_putchar] between taking and giving the mutex. *)
Definition putchar_body (vt : vterm_t) (c : ascii) : option (vterm_t * list ascii) :=
  match vterm_handle_escape vt c with
  | None => None
  | Some (handled, vt, out) =>
      let vt := if handled then vt else vterm_putchar_internal vt c in
      Some (set_dirty vt 1, out)
  end.

(** The [while (p < end)] loop of [vterm_write] with its cached locals:
    [cx], [cy], [attr_c] ([current_attr]) and [esc] ([escape_mode]);
    [cursor_ptr] and [row_end] are kept as indices from [cells_base]
    (integers without a bound; the pointers of the C code are 32 bits
    wide, which makes no difference while the cursor is inside the grid).
    [out] collects the bytes sent to the active session's input queue. *)
Fixpoint write_loop (data : list ascii) (vt : vterm_t)
  (cx cy attr_c esc cursor_ptr row_end : Z) (out : list ascii)
  : option (vterm_t * list ascii) :=
  match data with
  | [] =>
      let vt := set_cursor_x vt cx in
      let vt := set_cursor_y vt cy in
      let vt := set_current_attr vt attr_c in
      let vt := set_escape_state vt esc in
      Some (set_dirty vt 1, out)
  | c :: rest =>
      if (esc =? 0) && is_printable c then
        let vt := set_cells vt (store_cell (cells vt) cursor_ptr (Cell c attr_c)) in
        let cursor_ptr := cursor_ptr + 1 in
        let cx := int_add cx 1 in
        if row_end <=? cursor_ptr then
          let cx := 0 in
          let cy := int_add cy 1 in
          if VTERM_ROWS <=? cy then
            let vt := set_cursor_y (set_cursor_x vt cx) cy in
            let vt := vterm_scroll vt in
            let cy := cursor_y vt in
            write_loop rest vt cx cy attr_c esc
              (int_add (int_mul cy VTERM_COLS) cx)
              (int_add (int_mul cy VTERM_COLS) VTERM_COLS) out
          else
            write_loop rest vt cx cy attr_c esc cursor_ptr (row_end + VTERM_COLS) out
        else write_loop rest vt cx cy attr_c esc cursor_ptr row_end out
      else
        let vt := set_cursor_x vt cx in
        let vt := set_cursor_y vt cy in
        let vt := set_current_attr vt attr_c in
        let vt := set_escape_state vt esc in
        match vterm_handle_escape vt c with
        | None => None
        | Some (handled, vt, o) =>
            let vt := if handled then vt else vterm_putchar_internal vt c in
            let esc := escape_state vt in
            let attr_c := current_attr vt in
            if negb (cursor_x vt =? cx) || negb (cursor_y vt =? cy) then
              let cx := cursor_x vt in
              let cy := cursor_y vt in
              write_loop rest vt cx cy attr_c esc
                (int_add (int_mul cy VTERM_COLS) cx)
                (int_add (int_mul cy VTERM_COLS) VTERM_COLS) (out ++ o)
            else write_loop rest vt cx cy attr_c esc cursor_ptr row_end (out ++ o)
        end
  end.

(** The body of [vterm_write] between taking and giving the mutex. *)
Definition write_body (vt : vterm_t) (data : list ascii) : option (vterm_t * list ascii) :=
  let cx := cursor_x vt in
  let cy := cursor_y vt in
  write_loop data vt cx cy (current_attr vt) (escape_state vt)
    (int_add (int_mul cy VTERM_COLS) cx)
    (int_add (int_mul cy VTERM_COLS) VTERM_COLS) [].

(** Byte-at-a-time processing: [putchar_body] for each byte in order. *)
Fixpoint putchar_seq (vt : vterm_t) (data : list ascii) (out : list ascii)
  : option (vterm_t * list ascii) :=
  match data with
  | [] => Some (vt, out)
  | c :: rest =>
      match putchar_body vt c with
      | None => None
      | Some (vt', o) => putchar_seq vt' rest (out ++ o)
      end
  end.

(** ** The session pool

    The file-scope state of vterm.c.  A session's [cells] pointer is a tag:
    it designates either the shared fast buffer [s_iram_buffer] or the
    session's own [storage_cells].  In a [session], [cells (fields s)] is the
    [storage_cells] array; every access to the grid goes through [view]
    and [commit], which follow the tag. *)

Definition INPUT_QUEUE_SIZE : Z := 64.

Inductive cells_ptr := IN_IRAM | IN_STORAGE.

Record session := Session {
  cells_at : cells_ptr;
  fields : vterm_t;
  input_queue : list ascii
}.

(** One invocation of a registered callback, with its argument. *)
Inductive callback_call :=
| SwitchCb (new_vt : Z)
| RenderCb (vt_id : Z).

Record vterm_pool := Pool {
  s_iram_buffer : list vterm_cell_t;
  s_vterms : list session;
  s_active_vt : Z;
  s_on_switch_cb : bool;
  s_on_render_cb : bool;
  calls : list callback_call;
  s_esc_buf : list ascii;
  s_esc_len : Z;
  s_esc_start : Z
}.

Definition set_iram (p : vterm_pool) (v : list vterm_cell_t) : vterm_pool :=
  Pool v (s_vterms p) (s_active_vt p) (s_on_switch_cb p) (s_on_render_cb p)
       (calls p) (s_esc_buf p) (s_esc_len p) (s_esc_start p).
Definition set_vterms (p : vterm_pool) (v : list session) : vterm_pool :=
  Pool (s_iram_buffer p) v (s_active_vt p) (s_on_switch_cb p) (s_on_render_cb p)
       (calls p) (s_esc_buf p) (s_esc_len p) (s_esc_start p).
Definition set_active (p : vterm_pool) (v : Z) : vterm_pool :=
  Pool (s_iram_buffer p) (s_vterms p) v (s_on_switch_cb p) (s_on_render_cb p)
       (calls p) (s_esc_buf p) (s_esc_len p) (s_esc_start p).
Definition set_calls (p : vterm_pool) (v : list callback_call) : vterm_pool :=
  Pool (s_iram_buffer p) (s_vterms p) (s_active_vt p) (s_on_switch_cb p)
       (s_on_render_cb p) v (s_esc_buf p) (s_esc_len p) (s_esc_start p).
Definition set_esc (p : vterm_pool) (buf : list ascii) (len : Z) : vterm_pool :=
  Pool (s_iram_buffer p) (s_vterms p) (s_active_vt p) (s_on_switch_cb p)
       (s_on_render_cb p) (calls p) buf len (s_esc_start p).
Definition set_esc_start (p : vterm_pool) (v : Z) : vterm_pool :=
  Pool (s_iram_buffer p) (s_vterms p) (s_active_vt p) (s_on_switch_cb p)
       (s_on_render_cb p) (calls p) (s_esc_buf p) (s_esc_len p) v.

Definition valid_id (vt_id : Z) : bool := (0 <=? vt_id) && (vt_id <? VTERM_COUNT).

(** [&s_vterms[vt_id]] *)
Definition get_session (p : vterm_pool) (vt_id : Z) : option session :=
  if 0 <=? vt_id then s_vterms p !! Z.to_nat vt_id else None.

Definition put_session (p : vterm_pool) (vt_id : Z) (s : session) : vterm_pool :=
  set_vterms p (<[Z.to_nat vt_id := s]> (s_vterms p)).

(** The session with the array its [cells] pointer designates. *)
Definition view (p : vterm_pool) (s : session) : vterm_t :=
  match cells_at s with
  | IN_IRAM => set_cells (fields s) (s_iram_buffer p)
  | IN_STORAGE => fields s
  end.

(** Writing a session back: the grid goes where the pointer points. *)
Definition commit (p : vterm_pool) (vt_id : Z) (s : session) (vt : vterm_t)
  : vterm_pool :=
  match cells_at s with
  | IN_IRAM =>
      put_session (set_iram p (cells vt)) vt_id
        (Session IN_IRAM (set_cells vt (cells (fields s))) (input_queue s))
  | IN_STORAGE =>
      put_session p vt_id (Session IN_STORAGE vt (input_queue s))
  end.

(** The grid and registers of session [vt_id] as a caller observes them. *)
Definition session_view (p : vterm_pool) (vt_id : Z) : option vterm_t :=
  match get_session p vt_id with
  | Some s => Some (view p s)
  | None => None
  end.

(** [xQueueSend(q, &c, 0)]: the byte is dropped when the queue is full. *)
Definition queue_send (q : list ascii) (c : ascii) : list ascii :=
  if Z.of_nat (length q) <? INPUT_QUEUE_SIZE then q ++ [c] else q.

Definition vterm_send_input (p : vterm_pool) (vt_id : Z) (c : ascii) : vterm_pool :=
  if valid_id vt_id then
    match get_session p vt_id with
    | Some s =>
        put_session p vt_id
          (Session (cells_at s) (fields s) (queue_send (input_queue s) c))
    | None => p
    end
  else p.

Definition send_all (p : vterm_pool) (vt_id : Z) (out : list ascii) : vterm_pool :=
  foldl (fun p c => vterm_send_input p vt_id c) p out.

(** [memcpy(dst, src, n * sizeof(vterm_cell_t))]: the first [n] cells of
    [dst] receive those of [src]; [dst] keeps its size. *)
Definition memcpy_cells (dst src : list vterm_cell_t) (n : Z) : list vterm_cell_t :=
  imap (fun j old => if Z.of_nat j <? n then default old (src !! j) else old) dst.

Definition vterm_switch (p : vterm_pool) (vt_id : Z) : vterm_pool :=
  if (vt_id <? 0) || (VTERM_COUNT <=? vt_id) then p
  else if vt_id =? s_active_vt p then p
  else
    match get_session p (s_active_vt p), get_session p vt_id with
    | Some old_vt, Some new_vt =>
        let saved := memcpy_cells (cells (fields old_vt)) (s_iram_buffer p) GRID_CELLS in
        let old_vt := Session IN_STORAGE (set_cells (fields old_vt) saved)
                              (input_queue old_vt) in
        let loaded := memcpy_cells (s_iram_buffer p) (cells (fields new_vt)) GRID_CELLS in
        let new_vt := Session IN_IRAM (fields new_vt) (input_queue new_vt) in
        let p' := put_session (put_session (set_iram p loaded) (s_active_vt p) old_vt)
                              vt_id new_vt in
        let p' := set_active p' vt_id in
        if s_on_switch_cb p' then set_calls p' (calls p' ++ [SwitchCb vt_id]) else p'
    | _, _ => p
    end.

(** [vterm_putchar(vt_id, c)]; [None] when the call does not return. *)
Definition vterm_putchar (p : vterm_pool) (vt_id : Z) (c : ascii) : option vterm_pool :=
  if (vt_id <? 0) || (VTERM_COUNT <=? vt_id) then Some p
  else
    match get_session p vt_id with
    | Some s =>
        match putchar_body (view p s) c with
        | Some (vt, out) => Some (send_all (commit p vt_id s vt) (s_active_vt p) out)
        | None => None
        end
    | None => Some p
    end.

(** [vterm_write(vt_id, data, len)] with [data] the [len] bytes passed. *)
Definition vterm_write (p : vterm_pool) (vt_id : Z) (data : list ascii)
  : option vterm_pool :=
  if (vt_id <? 0) || (VTERM_COUNT <=? vt_id) then Some p
  else
    match get_session p vt_id with
    | Some s =>
        match write_body (view p s) data with
        | Some (vt, out) => Some (send_all (commit p vt_id s vt) (s_active_vt p) out)
        | None => None
        end
    | None => Some p
    end.

(** [vterm_putchar(vt_id, b)] for each byte [b] of [data], in order. *)
Fixpoint putchar_each (p : vterm_pool) (vt_id : Z) (data : list ascii)
  : option vterm_pool :=
  match data with
  | [] => Some p
  | c :: rest =>
      match vterm_putchar p vt_id c with
      | Some p' => putchar_each p' vt_id rest
      | None => None
      end
  end.

Definition vterm_set_switch_callback (p : vterm_pool) (cb : bool) : vterm_pool :=
  Pool (s_iram_buffer p) (s_vterms p) (s_active_vt p) cb (s_on_render_cb p)
       (calls p) (s_esc_buf p) (s_esc_len p) (s_esc_start p).
Definition vterm_set_render_callback (p : vterm_pool) (cb : bool) : vterm_pool :=
  Pool (s_iram_buffer p) (s_vterms p) (s_active_vt p) (s_on_switch_cb p) cb
       (calls p) (s_esc_buf p) (s_esc_len p) (s_esc_start p).
Definition vterm_get_active (p : vterm_pool) : Z := s_active_vt p.

Definition vterm_clear (p : vterm_pool) (vt_id : Z) : vterm_pool :=
  if (vt_id <? 0) || (VTERM_COUNT <=? vt_id) then p
  else
    match get_session p vt_id with
    | Some s => commit p vt_id s (vterm_clear_internal (view p s))
    | None => p
    end.

(** [vterm_init], once every allocation has succeeded: all grids cleared,
    session 0 placed in the fast buffer. *)
Definition fresh_fields : vterm_t :=
  vterm_clear_internal
    (Vterm (replicate (Z.to_nat GRID_CELLS) (Cell NUL 0)) 0 0 0 0
           (replicate 32 NUL) 0 0).

Definition vterm_init : vterm_pool :=
  let s := Session IN_STORAGE fresh_fields [] in
  Pool (memcpy_cells (replicate (Z.to_nat GRID_CELLS) (Cell NUL 0))
          (cells fresh_fields) GRID_CELLS)
       [Session IN_IRAM fresh_fields []; s; s; s]
       0 false false [] (replicate 16 NUL) 0 0.

(** ** The hotkey detector *)

(** [P], [Q], [R], [S] select sessions 0 to 3. *)
Definition fkey (c : ascii) : option Z :=
  if ascii_eqb c "P" then Some 0
  else if ascii_eqb c "Q" then Some 1
  else if ascii_eqb c "R" then Some 2
  else if ascii_eqb c "S" then Some 3
  else None.

(** Skip a run of digits. *)
Fixpoint skip_digits (p : list ascii) : list ascii :=
  match p with
  | c :: p' => if is_digit c then skip_digits p' else p
  | [] => []
  end.

(** The [ESC O ...] patterns. *)
Definition match_ss3 (buf : list ascii) (len : Z) : option Z :=
  if (3 <=? len) && ascii_eqb (char_at buf 1) "O" then
    match fkey (char_at buf 2) with
    | Some k => Some k
    | None =>
        if (4 <=? len) && ascii_eqb (char_at buf 2) "5" then fkey (char_at buf 3)
        else None
    end
  else None.

(** The [ESC \[ 1 ; 5 P..S] pattern. *)
Definition match_xterm (buf : list ascii) (len : Z) : option Z :=
  if (len =? 6) && ascii_eqb (char_at buf 2) "1" && ascii_eqb (char_at buf 3) ";"
     && ascii_eqb (char_at buf 4) "5"
  then fkey (char_at buf 5) else None.

(** The [ESC \[ num ~] pattern, with or without a modifier. *)
Definition match_tilde (buf : list ascii) (len : Z) : option Z :=
  if ascii_eqb (char_at buf (len - 1)) "~" then
    let '(num, _) := sgr_digits (drop 2 buf) 0 in
    if (11 <=? num) && (num <=? 14) then Some (int_sub num 11) else None
  else None.

(** The [ESC \[ codepoint ; modifier u] pattern. *)
Definition match_csi_u (buf : list ascii) (len : Z) : option Z :=
  if ascii_eqb (char_at buf (len - 1)) "u" then
    let '(codepoint, p) := sgr_digits (drop 2 buf) 0 in
    let modifier :=
      match p with
      | c :: p' => if ascii_eqb c ";" then fst (sgr_digits p' 0) else 0
      | [] => 0
      end in
    if (modifier =? 5) && (49 <=? codepoint) && (codepoint <=? 52)
    then Some (int_sub codepoint 49) else None
  else None.

(** [match_vt_hotkey()]: the session number or -1, and [s_esc_buf]
    afterwards (the function writes a terminating NUL into it). *)
Definition match_vt_hotkey (buf : list ascii) (len : Z) : Z * list ascii :=
  if len <? 2 then (-1, buf)
  else if negb (ascii_eqb (char_at buf 0) ESC) then (-1, buf)
  else
    match match_ss3 buf len with
    | Some k => (k, buf)
    | None =>
        if (3 <=? len) && ascii_eqb (char_at buf 1) "[" then
          let buf := store_char buf len NUL in
          match match_xterm buf len with
          | Some k => (k, buf)
          | None =>
              match match_tilde buf len with
              | Some k => (k, buf)
              | None =>
                  match match_csi_u buf len with
                  | Some k => (k, buf)
                  | None => (-1, buf)
                  end
              end
          end
        else (-1, buf)
    end.

Definition could_be_hotkey (buf : list ascii) (len : Z) : bool :=
  if len =? 0 then false
  else if negb (ascii_eqb (char_at buf 0) ESC) then false
  else if len =? 1 then true
  else
    let c1 := char_at buf 1 in
    if ascii_eqb c1 "O" || ascii_eqb c1 "[" then
      if 10 <? len then false
      else if 3 <=? len then
        let last := char_at buf (len - 1) in
        if ascii_eqb last "~" || ascii_eqb last "u" || is_upper last
           || (ascii_eqb c1 "O" && (3 <=? len)
               && (code "P" <=? code last) && (code last <=? code "S"))
        then false else true
      else true
    else false.

(** [for (i = 0; i < s_esc_len; i++) vterm_send_input(s_active_vt, s_esc_buf[i]);] *)
Definition flush_input_buffer (p : vterm_pool) : vterm_pool :=
  let p := foldl (fun p i => vterm_send_input p (s_active_vt p) (char_at (s_esc_buf p) i))
                 p (seqZ 0 (s_esc_len p)) in
  set_esc p (s_esc_buf p) 0.

Section Hotkey.

(** The tick rate is part of the FreeRTOS configuration of the
    application, not of this repository. *)
Variable configTICK_RATE_HZ : Z.

(** [pdMS_TO_TICKS(ms)] *)
Definition pdMS_TO_TICKS (ms : Z) : Z := (ms * configTICK_RATE_HZ) / 1000.

(** Unsigned 32-bit tick difference. *)
Definition ticks_since (now start : Z) : Z := (now - start) mod 4294967296.

(** [vterm_input_feed(c)], with [now] the value [xTaskGetTickCount()]
    returns during the call: the result and the pool afterwards. *)
Definition vterm_input_feed (p : vterm_pool) (now : Z) (c : ascii) : Z * vterm_pool :=
  let p :=
    if (0 <? s_esc_len p) && (pdMS_TO_TICKS 20 <? ticks_since now (s_esc_start p))
    then flush_input_buffer p else p in
  if (s_esc_len p =? 0) && ascii_eqb c ESC then
    let p := set_esc p (store_char (s_esc_buf p) (s_esc_len p) c)
                     (int_add (s_esc_len p) 1) in
    (0, set_esc_start p now)
  else if 0 <? s_esc_len p then
    let p :=
      if s_esc_len p <? 15 then
        set_esc p (store_char (s_esc_buf p) (s_esc_len p) c) (int_add (s_esc_len p) 1)
      else p in
    let '(vt, buf) := match_vt_hotkey (s_esc_buf p) (s_esc_len p) in
    let p := set_esc p buf (s_esc_len p) in
    if 0 <=? vt then
      let p := set_esc p (s_esc_buf p) 0 in
      (1, vterm_switch p vt)
    else if could_be_hotkey (s_esc_buf p) (s_esc_len p) then (0, p)
    else (0, flush_input_buffer p)
  else (0, vterm_send_input p (s_active_vt p) c).

(** Feeding a sequence of bytes, each with the tick count at its arrival;
    the results are returned oldest first. *)
Fixpoint feed_all (p : vterm_pool) (input : list (Z * ascii)) : list Z * vterm_pool :=
  match input with
  | [] => ([], p)
  | (now, c) :: rest =>
      let '(r, p') := vterm_input_feed p now c in
      let '(rs, p'') := feed_all p' rest in
      (r :: rs, p'')
  end.

End Hotkey.

(** ** Reading input *)

(** [vterm_getchar(vt_id, timeout_ms)]: the value returned and the pool
    afterwards.  [xQueueReceive] takes the oldest byte of the queue.  On an
    empty queue the call gives up when the timeout is over and returns -1;
    with a negative timeout it waits for a byte without limit
    ([portMAX_DELAY]), and in a run in which nothing else sends it does not
    return: [None]. *)
Definition vterm_getchar (p : vterm_pool) (vt_id timeout_ms : Z)
  : option (Z * vterm_pool) :=
  if (vt_id <? 0) || (VTERM_COUNT <=? vt_id) then Some (-1, p)
  else
    match get_session p vt_id with
    | Some s =>
        match input_queue s with
        | c :: q => Some (code c, put_session p vt_id (Session (cells_at s) (fields s) q))
        | [] => if timeout_ms <? 0 then None else Some (-1, p)
        end
    | None => Some (-1, p)
    end.

(** [n] calls of [vterm_getchar(vt_id, timeout_ms)] in a row, with the
    values they return. *)
Fixpoint getchar_each (p : vterm_pool) (vt_id timeout_ms : Z) (n : nat)
  : option (list Z * vterm_pool) :=
  match n with
  | O => Some ([], p)
  | S n' =>
      match vterm_getchar p vt_id timeout_ms with
      | Some (r, p') =>
          match getchar_each p' vt_id timeout_ms n' with
          | Some (rs, p'') => Some (r :: rs, p'')
          | None => None
          end
      | None => None
      end
  end.

(** ** The task map

    [s_task_map] binds task handles to sessions.  A handle is a pointer,
    modelled by its address; the null handle marks a free entry. *)

Definition MAX_TASKS : Z := 8.
Definition NULL : Z := 0.

Record task_map_entry_t := Entry { task : Z; vt_id : Z }.

(** The map as [vterm_init] leaves it. *)
Definition task_map_init : list task_map_entry_t :=
  replicate (Z.to_nat MAX_TASKS) (Entry NULL (-1)).

(** The [for] loop of [vterm_set_task] from entry [i] on: [inl] the index
    of the entry that holds [t], at which the function stores and returns,
    or else [inr] the value of [empty_slot] when the loop is over. *)
Fixpoint set_task_scan (m : list task_map_entry_t) (i empty_slot t : Z) : Z + Z :=
  match m with
  | [] => inr empty_slot
  | e :: m' =>
      if task e =? t then inl i
      else set_task_scan m' (i + 1)
             (if (empty_slot <? 0) && (task e =? NULL) then i else empty_slot) t
  end.

Definition vterm_set_task (m : list task_map_entry_t) (t v : Z)
  : list task_map_entry_t :=
  match set_task_scan m 0 (-1) t with
  | inl i => alter (fun e => Entry (task e) v) (Z.to_nat i) m
  | inr empty_slot =>
      if 0 <=? empty_slot then <[Z.to_nat empty_slot := Entry t v]> m else m
  end.

Fixpoint vterm_get_task_vt (m : list task_map_entry_t) (t : Z) : Z :=
  match m with
  | [] => -1
  | e :: m' => if task e =? t then vt_id e else vterm_get_task_vt m' t
  end.

(** [cur] is the handle [xTaskGetCurrentTaskHandle()] returns. *)
Definition vterm_get_current_vt (m : list task_map_entry_t) (p : vterm_pool) (cur : Z)
  : Z :=
  let vt := vterm_get_task_vt m cur in
  if 0 <=? vt then vt else s_active_vt p.

(** ** The palette

    [s_palette]: sixteen RGB565 colours, each a [uint16_t], a value in
    0 .. 65535. *)

Definition s_palette : list Z :=
  [0x0000; 0x8000; 0x0400; 0x8400; 0x0010; 0x8010; 0x0410; 0xC618;
   0x8410; 0xF800; 0x07E0; 0xFFE0; 0x001F; 0xF81F; 0x07FF; 0xFFFF].

Definition vterm_set_palette_color (pal : list Z) (index rgb565 : Z) : list Z :=
  if (0 <=? index) && (index <? 16) then <[Z.to_nat index := rgb565]> pal else pal.

Definition vterm_get_palette_color (pal : list Z) (index : Z) : Z :=
  if (0 <=? index) && (index <? 16) then default 0 (pal !! Z.to_nat index) else 0.

(** [for (i = 0; i < 16; i++) s_palette[i] = palette[i];] *)
Definition vterm_set_palette (pal palette : list Z) : list Z :=
  imap (fun i old => if Z.of_nat i <? 16 then default old (palette !! i) else old) pal.

Definition vterm_get_palette (pal : list Z) : list Z := pal.

(** [vterm_refresh()]: the active session is marked for redrawing. *)
Definition vterm_refresh (p : vterm_pool) : vterm_pool :=
  match get_session p (s_active_vt p) with
  | Some s => commit p (s_active_vt p) s (set_dirty (view p s) 1)
  | None => p
  end.

(** ** The buffer the display reads *)

Definition vterm_get_direct_buffer (p : vterm_pool) : list vterm_cell_t :=
  s_iram_buffer p.

(** * Properties *)

(** Case analysis on every integer comparison of the goal. *)
Ltac case_leb := match goal with |- context [?x <=? ?y] => destruct (Z.leb_spec x y) end.
Ltac case_ltb := match goal with |- context [?x <? ?y] => destruct (Z.ltb_spec x y) end.
Ltac case_eqb := match goal with |- context [?x =? ?y] => destruct (Z.eqb_spec x y) end.
Ltac case_cmp := repeat first [case_leb | case_ltb | case_eqb]; cbn [andb orb negb].

(** ** Integers *)

Lemma wrap_int_small z : INT_MIN <= z <= INT_MAX -> wrap_int z = z.
Proof.
  unfold wrap_int, INT_MIN, INT_MAX. intros H.
  rewrite Z.mod_small by lia. lia.
Qed.

Lemma int_add_small a b : INT_MIN <= a + b <= INT_MAX -> int_add a b = a + b.
Proof. apply wrap_int_small. Qed.

Lemma int_sub_small a b : INT_MIN <= a - b <= INT_MAX -> int_sub a b = a - b.
Proof. apply wrap_int_small. Qed.

Lemma int_mul_small a b : INT_MIN <= a * b <= INT_MAX -> int_mul a b = a * b.
Proof. apply wrap_int_small. Qed.

(** ** Arrays of cells *)

Lemma store_cell_length cs i v : length (store_cell cs i v) = length cs.
Proof. unfold store_cell. destruct (0 <=? i); [apply length_insert | reflexivity]. Qed.

Lemma store_cell_lookup_eq cs i v :
  0 <= i < Z.of_nat (length cs) -> store_cell cs i v !! Z.to_nat i = Some v.
Proof.
  intros H. unfold store_cell.
  destruct (Z.leb_spec 0 i); [|lia].
  apply list_lookup_insert_eq. lia.
Qed.

Lemma store_cell_lookup_ne cs i v (j : nat) :
  Z.of_nat j <> i -> store_cell cs i v !! j = cs !! j.
Proof.
  intros H. unfold store_cell.
  destruct (Z.leb_spec 0 i); [|reflexivity].
  apply list_lookup_insert_ne. lia.
Qed.

Lemma store_cell_lookup cs i v (j : nat) :
  store_cell cs i v !! j =
  if (Z.of_nat j =? i) && (Z.of_nat j <? Z.of_nat (length cs)) then Some v else cs !! j.
Proof.
  destruct (Z.eqb_spec (Z.of_nat j) i) as [E|E]; simpl.
  - destruct (Z.ltb_spec (Z.of_nat j) (Z.of_nat (length cs))).
    + subst i. pose proof (store_cell_lookup_eq cs (Z.of_nat j) v) as E.
      rewrite Nat2Z.id in E. apply E. lia.
    + unfold store_cell. destruct (0 <=? i); [|reflexivity].
      rewrite list_insert_ge by lia. reflexivity.
  - apply store_cell_lookup_ne, E.
Qed.

Lemma fill_fold_lookup v base (n : nat) : forall from cs (j : nat),
  foldl (fun acc x => store_cell acc (base + x) v) cs (seqZ from (Z.of_nat n)) !! j =
  if (base + from <=? Z.of_nat j) && (Z.of_nat j <? base + from + Z.of_nat n)
     && (Z.of_nat j <? Z.of_nat (length cs))
  then Some v else cs !! j.
Proof.
  induction n as [|n IH]; intros from cs j.
  - rewrite seqZ_nil by lia. simpl foldl.
    case_cmp; try reflexivity; lia.
  - rewrite seqZ_cons by lia. simpl foldl.
    replace (Z.pred (Z.of_nat (S n))) with (Z.of_nat n) by lia.
    rewrite IH, store_cell_length, store_cell_lookup.
    destruct (Z.ltb_spec (Z.of_nat j) (Z.of_nat (length cs))).
    + rewrite !andb_true_r. case_cmp; try reflexivity; lia.
    + rewrite !andb_false_r. reflexivity.
Qed.

Lemma fill_cells_lookup cs base from to v (j : nat) :
  fill_cells cs base from to v !! j =
  if (base + from <=? Z.of_nat j) && (Z.of_nat j <? base + to)
     && (Z.of_nat j <? Z.of_nat (length cs))
  then Some v else cs !! j.
Proof.
  unfold fill_cells.
  destruct (Z.le_gt_cases (to - from) 0) as [H|H].
  - rewrite seqZ_nil by lia. simpl foldl.
    case_cmp; try reflexivity; lia.
  - rewrite <- (Z2Nat.id (to - from)) by lia.
    rewrite fill_fold_lookup. rewrite Z2Nat.id by lia.
    replace (base + from + (to - from)) with (base + to) by lia. reflexivity.
Qed.

Lemma fill_cells_length cs base from to v :
  length (fill_cells cs base from to v) = length cs.
Proof.
  unfold fill_cells. generalize (seqZ from (to - from)) as l. intros l.
  revert cs. induction l as [|x l IH]; intros cs; simpl; [reflexivity|].
  rewrite IH. apply store_cell_length.
Qed.

Lemma memmove_cells_length cs dst src n :
  length (memmove_cells cs dst src n) = length cs.
Proof. apply length_imap. Qed.

Lemma memmove_cells_lookup cs dst src n (j : nat) :
  0 <= dst -> 0 <= src -> 0 <= n ->
  src + n <= Z.of_nat (length cs) -> dst + n <= Z.of_nat (length cs) ->
  memmove_cells cs dst src n !! j =
  if (dst <=? Z.of_nat j) && (Z.of_nat j <? dst + n)
  then cs !! Z.to_nat (Z.of_nat j - dst + src) else cs !! j.
Proof.
  intros Hd Hs Hn Hsrc Hdst. unfold memmove_cells. rewrite list_lookup_imap.
  destruct (Z.leb_spec dst (Z.of_nat j)) as [H1|H1];
    destruct (Z.ltb_spec (Z.of_nat j) (dst + n)) as [H2|H2]; cbn [andb];
    try (destruct (cs !! j); reflexivity).
  destruct (lookup_lt_is_Some_2 cs j ltac:(lia)) as [old Hold].
  destruct (lookup_lt_is_Some_2 cs (Z.to_nat (Z.of_nat j - dst + src)) ltac:(lia))
    as [x Hx].
  rewrite Hold, Hx. cbn. unfold load_cell.
  destruct (Z.leb_spec 0 (Z.of_nat j - dst + src)); [|lia].
  rewrite Hx. reflexivity.
Qed.

Lemma memcpy_cells_length dst src n : length (memcpy_cells dst src n) = length dst.
Proof. apply length_imap. Qed.

(** A whole-buffer copy between two buffers of the same size is exact. *)
Lemma memcpy_cells_all dst src :
  length dst = length src -> memcpy_cells dst src (Z.of_nat (length src)) = src.
Proof.
  intros H. apply list_eq. intros j. unfold memcpy_cells.
  rewrite list_lookup_imap.
  destruct (Nat.lt_ge_cases j (length src)) as [Hj|Hj].
  - destruct (lookup_lt_is_Some_2 src j Hj) as [x Hx].
    destruct (lookup_lt_is_Some_2 dst j ltac:(lia)) as [y Hy].
    rewrite Hx, Hy. cbn. destruct (Z.ltb_spec (Z.of_nat j) (Z.of_nat (length src))); [|lia].
    reflexivity.
  - rewrite (lookup_ge_None_2 src j Hj), (lookup_ge_None_2 dst j ltac:(lia)). reflexivity.
Qed.

(** ** Scrolling *)

Lemma grid_cells_value : GRID_CELLS = 4736.
Proof. reflexivity. Qed.

Lemma vterm_scroll_length vt :
  Z.of_nat (length (cells vt)) = GRID_CELLS ->
  length (cells (vterm_scroll vt)) = length (cells vt).
Proof.
  intros H. rewrite grid_cells_value in H. unfold vterm_scroll.
  cbn [cells set_cells set_cursor_y].
  rewrite fill_cells_length. apply memmove_cells_length.
Qed.

Lemma vterm_scroll_lookup vt (j : nat) :
  Z.of_nat (length (cells vt)) = GRID_CELLS ->
  cells (vterm_scroll vt) !! j =
  if Z.of_nat j <? GRID_CELLS - VTERM_COLS then cells vt !! Z.to_nat (Z.of_nat j + VTERM_COLS)
  else if Z.of_nat j <? GRID_CELLS then Some blank_cell else None.
Proof.
  intros H. rewrite grid_cells_value in *. unfold vterm_scroll.
  cbn [cells set_cells set_cursor_y].
  rewrite fill_cells_lookup.
  rewrite memmove_cells_length.
  rewrite memmove_cells_lookup by (unfold VTERM_COLS, VTERM_ROWS; lia).
  unfold VTERM_COLS, VTERM_ROWS. rewrite H.
  case_cmp; try reflexivity; try lia.
  all: first [apply lookup_ge_None; lia | f_equal; lia].
Qed.

(** ** Printable bytes *)

Arguments vterm_scroll : simpl never.
Arguments memmove_cells : simpl never.
Arguments fill_cells : simpl never.
Arguments store_cell : simpl never.
Arguments wrap_int : simpl never.

(** The cursor invariant of a session, and the size of its grid. *)
Definition cursor_ok (vt : vterm_t) : Prop :=
  0 <= cursor_x vt < VTERM_COLS /\ 0 <= cursor_y vt < VTERM_ROWS.

Definition grid_ok (vt : vterm_t) : Prop :=
  Z.of_nat (length (cells vt)) = GRID_CELLS.

(** Row-major position of the cursor. *)
Definition lin (vt : vterm_t) : Z := cursor_y vt * VTERM_COLS + cursor_x vt.

Lemma code_ESC : code ESC = 27.
Proof. reflexivity. Qed.

Lemma ascii_eqb_code a b : ascii_eqb a b = true -> code a = code b.
Proof. unfold ascii_eqb. intros H. apply Ascii.eqb_eq in H. now subst. Qed.

Lemma ascii_eqb_code_ne a b : code a <> code b -> ascii_eqb a b = false.
Proof.
  intros H. destruct (ascii_eqb a b) eqn:E; [|reflexivity].
  apply ascii_eqb_code in E. contradiction.
Qed.

Lemma printable_code c : is_printable c = true -> 32 <= code c < 127.
Proof. unfold is_printable. intros H. apply andb_true_iff in H. lia. Qed.

Lemma cursor_index_lin vt : cursor_ok vt -> cursor_index vt = lin vt.
Proof.
  unfold cursor_ok, cursor_index, lin, VTERM_COLS, VTERM_ROWS. intros [Hx Hy].
  rewrite int_mul_small by (unfold INT_MIN, INT_MAX; lia).
  apply int_add_small. unfold INT_MIN, INT_MAX. lia.
Qed.

Lemma handle_escape_normal vt c :
  escape_state vt = 0 -> code c <> 27 ->
  vterm_handle_escape vt c = Some (false, vt, []).
Proof.
  intros H Hc. unfold vterm_handle_escape. rewrite H. cbn [Z.eqb].
  rewrite ascii_eqb_code_ne by (rewrite code_ESC; exact Hc). reflexivity.
Qed.

Lemma vterm_scroll_fields vt :
  cursor_x (vterm_scroll vt) = cursor_x vt /\
  cursor_y (vterm_scroll vt) = VTERM_ROWS - 1 /\
  current_attr (vterm_scroll vt) = current_attr vt /\
  escape_state (vterm_scroll vt) = escape_state vt /\
  escape_buf (vterm_scroll vt) = escape_buf vt /\
  escape_len (vterm_scroll vt) = escape_len vt /\
  dirty (vterm_scroll vt) = dirty vt.
Proof. repeat split. Qed.

(** What [vterm_putchar_internal] does with a printable byte. *)
Definition put_printable (vt : vterm_t) (c : ascii) : vterm_t :=
  let vt := set_cells vt (store_cell (cells vt) (cursor_index vt) (Cell c (current_attr vt))) in
  let vt := set_cursor_x vt (int_add (cursor_x vt) 1) in
  if VTERM_COLS <=? cursor_x vt then newline vt else vt.

Lemma putchar_internal_printable vt c :
  is_printable c = true -> vterm_putchar_internal vt c = put_printable vt c.
Proof.
  intros H. pose proof (printable_code c H) as Hc.
  unfold vterm_putchar_internal, put_printable. rewrite H.
  destruct (Z.eqb_spec (code c) 10); [lia|].
  destruct (Z.eqb_spec (code c) 13); [lia|].
  destruct (Z.eqb_spec (code c) 8); [lia|].
  destruct (Z.eqb_spec (code c) 9); [lia|]. reflexivity.
Qed.

Lemma putchar_body_printable vt c :
  escape_state vt = 0 -> is_printable c = true ->
  putchar_body vt c = Some (set_dirty (put_printable vt c) 1, []).
Proof.
  intros Hs H. pose proof (printable_code c H) as Hc.
  unfold putchar_body. rewrite handle_escape_normal by (auto; lia).
  rewrite putchar_internal_printable by exact H. reflexivity.
Qed.

(** One printable byte, in terms of the row-major cursor position: the
    cell under the cursor is stored and the cursor moves on by one; when
    that leaves the grid the grid scrolls once and the cursor returns to
    the start of the last row. *)
Lemma put_printable_step vt c :
  cursor_ok vt -> grid_ok vt ->
  let vt' := put_printable vt c in
  let stored := store_cell (cells vt) (lin vt) (Cell c (current_attr vt)) in
  cursor_ok vt' /\ grid_ok vt' /\
  escape_state vt' = escape_state vt /\ current_attr vt' = current_attr vt /\
  escape_buf vt' = escape_buf vt /\ escape_len vt' = escape_len vt /\
  ((lin vt + 1 < GRID_CELLS /\ lin vt' = lin vt + 1 /\ cells vt' = stored) \/
   (lin vt + 1 = GRID_CELLS /\ lin vt' = GRID_CELLS - VTERM_COLS /\
    forall j : nat,
      cells vt' !! j =
      if Z.of_nat j <? GRID_CELLS - VTERM_COLS
      then stored !! Z.to_nat (Z.of_nat j + VTERM_COLS)
      else if Z.of_nat j <? GRID_CELLS then Some blank_cell else None)).
Proof.
  intros Hc Hg. pose proof (cursor_index_lin vt Hc) as Hi.
  destruct Hc as [Hx Hy]. unfold grid_ok in Hg.
  cbv zeta. unfold put_printable. rewrite Hi.
  set (stored := store_cell (cells vt) (lin vt) (Cell c (current_attr vt))).
  assert (Hlen : Z.of_nat (length stored) = GRID_CELLS).
  { unfold stored. rewrite store_cell_length. exact Hg. }
  cbn [cursor_x set_cursor_x set_cells].
  rewrite int_add_small by (unfold INT_MIN, INT_MAX, VTERM_COLS in *; lia).
  unfold newline. cbn [cursor_x cursor_y set_cursor_x set_cursor_y set_cells].
  rewrite int_add_small by (unfold INT_MIN, INT_MAX, VTERM_ROWS in *; lia).
  unfold cursor_ok, grid_ok, lin.
  destruct (Z.leb_spec VTERM_COLS (cursor_x vt + 1)) as [Hw|Hw].
  - destruct (Z.leb_spec VTERM_ROWS (cursor_y vt + 1)) as [Hr|Hr].
    + match goal with |- context [vterm_scroll ?x] => set (w := x) end.
      assert (Hw' : Z.of_nat (length (cells w)) = GRID_CELLS) by exact Hlen.
      pose proof (vterm_scroll_length w Hw') as Hsl.
      pose proof (vterm_scroll_lookup w) as Hl.
      destruct (vterm_scroll_fields w) as (Fx & Fy & Fa & Fs & Fb & Fl & _).
      rewrite Fx, Fy, Fa, Fs, Fb, Fl, Hsl.
      change (cells w) with stored in *. change (cursor_x w) with 0.
      change (current_attr w) with (current_attr vt).
      change (escape_state w) with (escape_state vt).
      change (escape_buf w) with (escape_buf vt).
      change (escape_len w) with (escape_len vt).
      rewrite grid_cells_value in *. unfold VTERM_COLS, VTERM_ROWS in *.
      repeat split; try lia.
      right. repeat split; try lia.
      intros j. apply Hl. exact Hlen.
    + simpl. rewrite grid_cells_value in *. unfold VTERM_COLS, VTERM_ROWS in *.
      repeat split; try lia. left. repeat split; lia.
  - simpl. rewrite grid_cells_value in *. unfold VTERM_COLS, VTERM_ROWS in *.
    repeat split; try lia. left. repeat split; lia.
Qed.

(** *** The closed form of a run of printable bytes

    [scrolls P n] is how many times the grid scrolls while [n] bytes are
    written from row-major position [P]; [typed_cell] is the cell found at
    index [j] afterwards: a byte of the input, an old cell carried up by
    the scrolling, or a blank of a scrolled-in row. *)

Definition scrolls (P n : Z) : Z :=
  if P + n <? GRID_CELLS then 0 else (P + n - GRID_CELLS) / VTERM_COLS + 1.

Definition typed_cell (old : list vterm_cell_t) (P a : Z) (data : list ascii)
  (j : nat) : option vterm_cell_t :=
  let n := Z.of_nat (length data) in
  let v := Z.of_nat j + scrolls P n * VTERM_COLS in
  if negb (Z.of_nat j <? GRID_CELLS) then None
  else if (P <=? v) && (v <? P + n) then
    (fun c => Cell c a) <$> data !! Z.to_nat (v - P)
  else if v <? GRID_CELLS then old !! Z.to_nat v
  else Some blank_cell.

Lemma scrolls_nonneg P n : 0 <= P -> 0 <= n -> 0 <= scrolls P n.
Proof.
  intros. unfold scrolls. rewrite grid_cells_value. unfold VTERM_COLS.
  case_cmp; [lia|]. Z.div_mod_to_equations. lia.
Qed.

Lemma scrolls_shift P m : scrolls (P + 1) m = scrolls P (m + 1).
Proof. unfold scrolls. replace (P + 1 + m) with (P + (m + 1)) by lia. reflexivity. Qed.

Lemma scrolls_wrap m :
  0 <= m -> scrolls (GRID_CELLS - 1) (m + 1) = scrolls (GRID_CELLS - VTERM_COLS) m + 1.
Proof.
  intros. unfold scrolls. rewrite grid_cells_value. unfold VTERM_COLS.
  case_cmp; try lia; Z.div_mod_to_equations; lia.
Qed.

Lemma lookup_cons_Z {A} (x : A) (l : list A) k :
  1 <= k -> (x :: l) !! Z.to_nat k = l !! Z.to_nat (k - 1).
Proof.
  intros H. replace (Z.to_nat k) with (S (Z.to_nat (k - 1))) by lia. reflexivity.
Qed.

Lemma typed_cell_nil old P a (j : nat) :
  0 <= P < GRID_CELLS -> Z.of_nat (length old) = GRID_CELLS ->
  typed_cell old P a [] j = old !! j.
Proof.
  intros HP Hlen. unfold typed_cell, scrolls. cbn [length].
  rewrite grid_cells_value in *. unfold VTERM_COLS.
  case_cmp; try lia.
  all: first [symmetry; apply lookup_ge_None; lia | f_equal; lia].
Qed.

(** First byte stored without leaving the grid. *)
Lemma typed_cell_cons_stay old P a c rest (j : nat) :
  0 <= P -> P + 1 < GRID_CELLS -> Z.of_nat (length old) = GRID_CELLS ->
  typed_cell (store_cell old P (Cell c a)) (P + 1) a rest j =
  typed_cell old P a (c :: rest) j.
Proof.
  intros HP Hlt Hlen. unfold typed_cell.
  cbn [length]. rewrite Nat2Z.inj_succ, <- Z.add_1_r.
  rewrite scrolls_shift.
  pose proof (scrolls_nonneg P (Z.of_nat (length rest) + 1)) as Hs.
  set (s := scrolls P (Z.of_nat (length rest) + 1)) in *.
  rewrite grid_cells_value in *. unfold VTERM_COLS.
  destruct (Z.ltb_spec (Z.of_nat j) 4736) as [Hj|Hj]; cbn [negb]; [|reflexivity].
  set (v := Z.of_nat j + s * 128).
  destruct (Z.eq_dec v P) as [E|E].
  - (* the cell just stored *)
    destruct (Z.leb_spec (P + 1) v); [lia|]. cbn [andb].
    destruct (Z.leb_spec P v); [|lia].
    destruct (Z.ltb_spec v (P + (Z.of_nat (length rest) + 1))); [|lia].
    cbn [andb]. destruct (Z.ltb_spec v 4736); [|lia].
    rewrite E, store_cell_lookup_eq by lia.
    replace (P - P) with 0 by lia. reflexivity.
  - destruct (Z.leb_spec (P + 1) v), (Z.ltb_spec v (P + 1 + Z.of_nat (length rest)));
      cbn [andb].
    + destruct (Z.leb_spec P v); [|lia].
      destruct (Z.ltb_spec v (P + (Z.of_nat (length rest) + 1))); [|lia].
      cbn [andb]. rewrite lookup_cons_Z by lia. do 2 f_equal. lia.
    + destruct (Z.leb_spec P v); [|lia].
      destruct (Z.ltb_spec v (P + (Z.of_nat (length rest) + 1))); [lia|].
      cbn [andb]. destruct (Z.ltb_spec v 4736); [|reflexivity].
      apply store_cell_lookup_ne. lia.
    + destruct (Z.leb_spec P v); [lia|]. cbn [andb].
      destruct (Z.ltb_spec v 4736); [|reflexivity].
      apply store_cell_lookup_ne. lia.
    + lia.
Qed.

(** First byte stored in the last cell: the grid scrolls once. *)
Lemma typed_cell_cons_wrap old scrolled a c rest (j : nat) :
  Z.of_nat (length old) = GRID_CELLS ->
  (forall i : nat,
      scrolled !! i =
      if Z.of_nat i <? GRID_CELLS - VTERM_COLS
      then store_cell old (GRID_CELLS - 1) (Cell c a) !! Z.to_nat (Z.of_nat i + VTERM_COLS)
      else if Z.of_nat i <? GRID_CELLS then Some blank_cell else None) ->
  typed_cell scrolled (GRID_CELLS - VTERM_COLS) a rest j =
  typed_cell old (GRID_CELLS - 1) a (c :: rest) j.
Proof.
  intros Hlen Hsc. unfold typed_cell.
  cbn [length]. rewrite Nat2Z.inj_succ, <- Z.add_1_r.
  rewrite scrolls_wrap by lia.
  pose proof (scrolls_nonneg (GRID_CELLS - VTERM_COLS) (Z.of_nat (length rest))) as Hs.
  set (s := scrolls (GRID_CELLS - VTERM_COLS) (Z.of_nat (length rest))) in *.
  rewrite grid_cells_value in *. unfold VTERM_COLS in *.
  specialize (Hs ltac:(lia) ltac:(lia)).
  destruct (Z.ltb_spec (Z.of_nat j) 4736) as [Hj|Hj]; cbn [negb]; [|reflexivity].
  set (v := Z.of_nat j + s * 128).
  replace (Z.of_nat j + (s + 1) * 128) with (v + 128) by (unfold v; lia).
  assert (Hv : 0 <= v) by (unfold v; lia).
  destruct (Z.leb_spec (4736 - 128) v), (Z.ltb_spec v (4736 - 128 + Z.of_nat (length rest)));
    cbn [andb].
  - destruct (Z.leb_spec (4736 - 1) (v + 128)); [|lia].
    destruct (Z.ltb_spec (v + 128) (4736 - 1 + (Z.of_nat (length rest) + 1))); [|lia].
    cbn [andb]. rewrite lookup_cons_Z by lia. do 2 f_equal. lia.
  - destruct (Z.leb_spec (4736 - 1) (v + 128)); [|lia].
    destruct (Z.ltb_spec (v + 128) (4736 - 1 + (Z.of_nat (length rest) + 1))); [lia|].
    cbn [andb]. destruct (Z.ltb_spec (v + 128) 4736); [lia|].
    destruct (Z.ltb_spec v 4736); [|reflexivity].
    rewrite Hsc. rewrite Z2Nat.id by lia.
    destruct (Z.ltb_spec v (4736 - 128)); [lia|].
    destruct (Z.ltb_spec v 4736); [reflexivity|lia].
  - destruct (Z.ltb_spec v 4736); [|lia].
    rewrite Hsc. rewrite Z2Nat.id by lia.
    destruct (Z.ltb_spec v (4736 - 128)); [|lia].
    destruct (Z.eq_dec (v + 128) (4736 - 1)) as [E|E].
    + destruct (Z.leb_spec (4736 - 1) (v + 128)); [|lia].
      destruct (Z.ltb_spec (v + 128) (4736 - 1 + (Z.of_nat (length rest) + 1))); [|lia].
      cbn [andb]. rewrite E, store_cell_lookup_eq by lia.
      replace (4736 - 1 - (4736 - 1)) with 0 by lia. reflexivity.
    + destruct (Z.leb_spec (4736 - 1) (v + 128)); [lia|]. cbn [andb].
      destruct (Z.ltb_spec (v + 128) 4736); [|lia].
      apply store_cell_lookup_ne. lia.
  - lia.
Qed.

Lemma lin_bounds vt : cursor_ok vt -> 0 <= lin vt < GRID_CELLS.
Proof.
  unfold cursor_ok, lin. rewrite grid_cells_value.
  unfold VTERM_COLS, VTERM_ROWS. lia.
Qed.

(** A position and the cursor invariant determine the cursor. *)
Lemma lin_cursor vt :
  cursor_ok vt ->
  cursor_x vt = lin vt mod VTERM_COLS /\ cursor_y vt = lin vt / VTERM_COLS.
Proof.
  unfold cursor_ok, lin, VTERM_COLS, VTERM_ROWS. intros [Hx Hy].
  Z.div_mod_to_equations. lia.
Qed.

(** A run of printable bytes through [vterm_putchar], on a session whose
    parser is idle. *)
Lemma printable_run data : forall vt out,
  cursor_ok vt -> grid_ok vt -> escape_state vt = 0 ->
  Forall (fun c => is_printable c = true) data ->
  exists vt',
    putchar_seq vt data out = Some (vt', out) /\
    cursor_ok vt' /\ grid_ok vt' /\ escape_state vt' = 0 /\
    current_attr vt' = current_attr vt /\
    escape_buf vt' = escape_buf vt /\ escape_len vt' = escape_len vt /\
    lin vt' = lin vt + Z.of_nat (length data)
              - scrolls (lin vt) (Z.of_nat (length data)) * VTERM_COLS /\
    forall j : nat,
      cells vt' !! j = typed_cell (cells vt) (lin vt) (current_attr vt) data j.
Proof.
  induction data as [|c rest IH]; intros vt out Hc Hg Hs Hp.
  - exists vt. pose proof (lin_bounds vt Hc) as HP.
    do 7 (split; [solve [reflexivity | assumption]|]). split.
    + unfold scrolls. cbn [length]. rewrite grid_cells_value in *.
      case_cmp; lia.
    + intros j. symmetry. apply typed_cell_nil; assumption.
  - inversion Hp as [|? ? Hpc Hpr]; subst.
    cbn [putchar_seq]. rewrite putchar_body_printable by assumption.
    rewrite app_nil_r.
    destruct (put_printable_step vt c Hc Hg) as (Hc1 & Hg1 & Hs1 & Ha1 & Hb1 & Hl1 & Hstep).
    set (vt1 := set_dirty (put_printable vt c) 1).
    assert (Hc1' : cursor_ok vt1) by exact Hc1.
    assert (Hg1' : grid_ok vt1) by exact Hg1.
    assert (Hs1' : escape_state vt1 = 0) by (rewrite <- Hs; exact Hs1).
    destruct (IH vt1 out Hc1' Hg1' Hs1' Hpr)
      as (vt' & Hrun & Hc' & Hg' & Hs' & Ha' & Hb' & Hl' & Hlin & Hcells).
    exists vt'.
    change (current_attr vt1) with (current_attr (put_printable vt c)) in *.
    change (escape_buf vt1) with (escape_buf (put_printable vt c)) in *.
    change (escape_len vt1) with (escape_len (put_printable vt c)) in *.
    change (lin vt1) with (lin (put_printable vt c)) in *.
    change (cells vt1) with (cells (put_printable vt c)) in *.
    pose proof (lin_bounds vt Hc) as HP.
    do 4 (split; [assumption|]). do 3 (split; [congruence|]). split.
    + rewrite Hlin. cbn [length]. rewrite Nat2Z.inj_succ, <- Z.add_1_r.
      destruct Hstep as [(Hlt & Hl1' & _) | (Heq & Hl1' & _)]; rewrite Hl1'.
      * rewrite scrolls_shift. lia.
      * replace (lin vt) with (GRID_CELLS - 1) by lia.
        rewrite scrolls_wrap by lia. lia.
    + intros j. rewrite Hcells, Ha1.
      destruct Hstep as [(Hlt & Hl1' & Hst) | (Heq & Hl1' & Hst)]; rewrite Hl1'.
      * rewrite Hst. apply typed_cell_cons_stay; [lia | lia | exact Hg].
      * replace (lin vt) with (GRID_CELLS - 1) in * by lia.
        apply typed_cell_cons_wrap; [exact Hg | exact Hst].
Qed.

(** Full evaluation of field reads and writes on a session record. *)
Ltac eval_fields :=
  cbv beta iota zeta delta
    [set_cells set_cursor_x set_cursor_y set_current_attr set_escape_state
     set_escape_buf set_escape_len set_dirty
     cells cursor_x cursor_y current_attr escape_state escape_buf escape_len dirty].

(** Case analysis on a condition that contains no conditional itself. *)
Ltac case_inner_if :=
  match goal with
  | |- context [if ?k then _ else _] =>
      lazymatch k with
      | context [if _ then _ else _] => fail
      | _ => destruct k
      end
  end.

(** ** The [dirty] flag

    No function reads [dirty]; changing it beforehand changes nothing else
    in what a function computes. *)

Definition nd (vt : vterm_t) : vterm_t := set_dirty vt 1.

Lemma nd_inv W V : nd W = nd V -> W = set_dirty V (dirty W).
Proof.
  destruct W, V. unfold nd, set_dirty. cbn. intros [= -> -> -> -> -> -> ->].
  reflexivity.
Qed.

Lemma nd_set_dirty vt d : nd (set_dirty vt d) = nd vt.
Proof. reflexivity. Qed.

Lemma vterm_scroll_dirty vt d :
  vterm_scroll (set_dirty vt d) = set_dirty (vterm_scroll vt) d.
Proof. reflexivity. Qed.

Lemma newline_dirty vt d : newline (set_dirty vt d) = set_dirty (newline vt) d.
Proof.
  unfold newline. cbn [cursor_y set_cursor_y set_cursor_x set_dirty].
  destruct (VTERM_ROWS <=? int_add (cursor_y vt) 1); reflexivity.
Qed.

Lemma tab_loop_dirty fuel : forall vt cell d,
  tab_loop fuel (set_dirty vt d) cell = set_dirty (tab_loop fuel vt cell) d.
Proof.
  induction fuel as [|fuel IH]; intros vt cell d; cbn [tab_loop]; [reflexivity|].
  cbn [cursor_x set_cursor_x set_cells set_dirty current_attr cells].
  destruct ((int_add (cursor_x vt) 1 <? VTERM_COLS)
            && negb (Z.rem (int_add (cursor_x vt) 1) 8 =? 0)); [|reflexivity].
  rewrite <- IH. reflexivity.
Qed.

Lemma wrap_dirty vt d :
  (if VTERM_COLS <=? cursor_x (set_dirty vt d)
   then newline (set_dirty vt d) else set_dirty vt d) =
  set_dirty (if VTERM_COLS <=? cursor_x vt then newline vt else vt) d.
Proof.
  cbn [cursor_x set_dirty].
  destruct (VTERM_COLS <=? cursor_x vt); [apply newline_dirty | reflexivity].
Qed.

Lemma putchar_internal_dirty vt c d :
  vterm_putchar_internal (set_dirty vt d) c = set_dirty (vterm_putchar_internal vt c) d.
Proof.
  unfold vterm_putchar_internal.
  destruct (code c =? 10); [apply newline_dirty|].
  destruct (code c =? 13); [reflexivity|].
  destruct (code c =? 8).
  { cbn [cursor_x set_dirty]. destruct (0 <? cursor_x vt); reflexivity. }
  destruct (code c =? 9).
  { change (cursor_index (set_dirty vt d)) with (cursor_index vt).
    rewrite tab_loop_dirty. apply wrap_dirty. }
  destruct (is_printable c); [|reflexivity].
  exact (wrap_dirty
           (set_cursor_x
              (set_cells vt (store_cell (cells vt) (cursor_index vt)
                               (Cell c (current_attr vt))))
              (int_add (cursor_x vt) 1)) d).
Qed.

Lemma index_down_dirty vt d : index_down (set_dirty vt d) = set_dirty (index_down vt) d.
Proof.
  unfold index_down. cbn [cursor_y set_dirty].
  destruct (VTERM_ROWS - 1 <=? cursor_y vt); reflexivity.
Qed.

Lemma reverse_index_dirty vt d :
  reverse_index (set_dirty vt d) = set_dirty (reverse_index vt) d.
Proof.
  unfold reverse_index. cbn [cursor_y set_dirty].
  destruct (cursor_y vt <=? 0); reflexivity.
Qed.

Lemma apply_sgr_dirty vt s d :
  vterm_apply_sgr (set_dirty vt d) s =
  match vterm_apply_sgr vt s with
  | Some v => Some (set_dirty v d)
  | None => None
  end.
Proof.
  unfold vterm_apply_sgr. cbn [current_attr set_dirty].
  destruct (sgr_attr (current_attr vt) s); reflexivity.
Qed.

Lemma csi_dispatch_dirty vt c d :
  csi_dispatch (set_dirty vt d) c =
  match csi_dispatch vt c with
  | Some (v, o) => Some (set_dirty v d, o)
  | None => None
  end.
Proof.
  unfold csi_dispatch.
  destruct (ascii_eqb c "m").
  { cbn [escape_buf set_dirty]. rewrite apply_sgr_dirty.
    destruct (vterm_apply_sgr vt _); reflexivity. }
  destruct vt as [cs x y a e b l d0]. eval_fields.
  destruct (sscanf_row_col (c_string b) 1 1) as [row col].
  repeat (case_inner_if; eval_fields); reflexivity.
Qed.

Lemma escape_collect_dirty vt c d :
  escape_collect (set_dirty vt d) c = set_dirty (escape_collect vt c) d.
Proof.
  unfold escape_collect. cbn [escape_len set_dirty].
  destruct (escape_len vt <? 31); reflexivity.
Qed.

Lemma handle_escape_dirty vt c d :
  match vterm_handle_escape vt c with
  | Some (h, v, o) =>
      exists v', vterm_handle_escape (set_dirty vt d) c = Some (h, v', o) /\ nd v' = nd v
  | None => vterm_handle_escape (set_dirty vt d) c = None
  end.
Proof.
  unfold vterm_handle_escape. cbn [escape_state set_dirty].
  destruct (escape_state vt =? 0).
  { destruct (ascii_eqb c ESC); eexists; split; reflexivity. }
  destruct (escape_state vt =? 1).
  { destruct (ascii_eqb c "["); [eexists; split; reflexivity|].
    destruct (ascii_eqb c "D").
    { rewrite index_down_dirty. eexists; split; reflexivity. }
    destruct (ascii_eqb c "M").
    { rewrite reverse_index_dirty. eexists; split; reflexivity. }
    destruct (ascii_eqb c "E").
    { change (set_cursor_x (set_dirty vt d) 0) with (set_dirty (set_cursor_x vt 0) d).
      rewrite index_down_dirty. eexists; split; reflexivity. }
    eexists; split; reflexivity. }
  rewrite escape_collect_dirty. cbv zeta.
  set (X := escape_collect vt c).
  destruct (is_alpha c); [|eexists; split; reflexivity].
  change (escape_cut (set_dirty X d)) with (set_dirty (escape_cut X) d).
  cbn [escape_buf set_dirty].
  destruct (ascii_eqb (char_at (escape_buf (escape_cut X)) 0) "?");
    [eexists; split; reflexivity|].
  rewrite csi_dispatch_dirty.
  destruct (csi_dispatch (escape_cut X) c) as [[v o]|]; [|reflexivity].
  eexists; split; reflexivity.
Qed.

(** ** The batched write path against byte-at-a-time processing *)

Definition in_grid (vt : vterm_t) : bool :=
  (0 <=? cursor_x vt) && (cursor_x vt <? VTERM_COLS)
  && (0 <=? cursor_y vt) && (cursor_y vt <? VTERM_ROWS).

(** The cursor is inside the grid before every byte of the byte-at-a-time
    run.  (Outside of it the C code indexes the cell array out of bounds.) *)
Fixpoint stays_in_grid (vt : vterm_t) (data : list ascii) : bool :=
  match data with
  | [] => true
  | c :: rest =>
      in_grid vt &&
      match putchar_body vt c with
      | Some (vt', _) => stays_in_grid vt' rest
      | None => true
      end
  end.

Lemma in_grid_cursor_ok vt : in_grid vt = true <-> cursor_ok vt.
Proof.
  unfold in_grid, cursor_ok. rewrite !andb_true_iff.
  rewrite !Z.leb_le, !Z.ltb_lt. tauto.
Qed.

Lemma stays_in_grid_last vt c : cursor_ok vt -> stays_in_grid vt [c] = true.
Proof.
  intros H. cbn [stays_in_grid]. apply in_grid_cursor_ok in H. rewrite H.
  destruct (putchar_body vt c) as [[w o]|]; reflexivity.
Qed.

(** The byte-at-a-time run of [data] on session [vt_id] of the pool keeps
    the cursor inside the grid before every byte (see [stays_in_grid]); a
    call with [vt_id] out of range touches no session. *)
Definition stays_in_grid_at (p : vterm_pool) (vt_id : Z) (data : list ascii) : bool :=
  match session_view p vt_id with
  | Some v => stays_in_grid v data
  | None => true
  end.

Lemma stays_in_grid_at_view p i s d :
  get_session p i = Some s -> stays_in_grid_at p i d = stays_in_grid (view p s) d.
Proof. intros H. unfold stays_in_grid_at, session_view. rewrite H. reflexivity. Qed.

(** The session with the cached locals of [vterm_write] written back. *)
Definition sync (vt : vterm_t) (cx cy a e : Z) : vterm_t :=
  set_escape_state (set_current_attr (set_cursor_y (set_cursor_x vt cx) cy) a) e.

Lemma sync_self vt :
  sync vt (cursor_x vt) (cursor_y vt) (current_attr vt) (escape_state vt) = vt.
Proof. destruct vt. reflexivity. Qed.

Definition nd_result (r : option (vterm_t * list ascii)) : option (vterm_t * list ascii) :=
  match r with
  | Some (v, o) => Some (nd v, o)
  | None => None
  end.

Lemma cell_pointers cx cy :
  0 <= cx < VTERM_COLS -> 0 <= cy < VTERM_ROWS ->
  int_add (int_mul cy VTERM_COLS) cx = cy * VTERM_COLS + cx /\
  int_add (int_mul cy VTERM_COLS) VTERM_COLS = cy * VTERM_COLS + VTERM_COLS.
Proof.
  unfold VTERM_COLS, VTERM_ROWS. intros Hx Hy.
  rewrite int_mul_small by (unfold INT_MIN, INT_MAX; lia).
  rewrite !int_add_small by (unfold INT_MIN, INT_MAX; lia). split; reflexivity.
Qed.

(** The fast path of the loop is [vterm_putchar_internal] on a printable byte. *)
Lemma write_loop_fast vt cx cy a cptr rend out c rest :
  0 <= cx < VTERM_COLS -> 0 <= cy < VTERM_ROWS ->
  cptr = int_add (int_mul cy VTERM_COLS) cx ->
  rend = int_add (int_mul cy VTERM_COLS) VTERM_COLS ->
  is_printable c = true ->
  exists vt1 cx1 cy1 cptr1 rend1,
    write_loop (c :: rest) vt cx cy a 0 cptr rend out =
    write_loop rest vt1 cx1 cy1 a 0 cptr1 rend1 out /\
    sync vt1 cx1 cy1 a 0 = put_printable (sync vt cx cy a 0) c /\
    cptr1 = int_add (int_mul cy1 VTERM_COLS) cx1 /\
    rend1 = int_add (int_mul cy1 VTERM_COLS) VTERM_COLS.
Proof.
  intros Hx Hy Hc Hr Hp. destruct (cell_pointers cx cy Hx Hy) as [Ec Er].
  cbn [write_loop]. rewrite Hp. cbn [Z.eqb andb].
  unfold put_printable, newline, cursor_index.
  cbn [sync cells cursor_x cursor_y current_attr set_cells set_cursor_x set_cursor_y
       set_current_attr set_escape_state].
  rewrite <- Hc.
  assert (E1 : int_add cx 1 = cx + 1).
  { apply int_add_small. unfold INT_MIN, INT_MAX, VTERM_COLS in *. lia. }
  assert (E2 : int_add cy 1 = cy + 1).
  { apply int_add_small. unfold INT_MIN, INT_MAX, VTERM_ROWS in *. lia. }
  rewrite E1, E2.
  destruct (Z.leb_spec rend (cptr + 1)) as [Hw|Hw];
    destruct (Z.leb_spec VTERM_COLS (cx + 1)) as [Hw'|Hw']; try lia.
  - destruct (Z.leb_spec VTERM_ROWS (cy + 1)) as [Hs|Hs].
    + do 5 eexists. split; [reflexivity|]. split; [|split; reflexivity].
      destruct vt. reflexivity.
    + do 5 eexists. split; [reflexivity|]. split; [destruct vt; reflexivity|].
      assert (Hy' : 0 <= cy + 1 < VTERM_ROWS) by lia.
      assert (Hx' : 0 <= 0 < VTERM_COLS) by (unfold VTERM_COLS; lia).
      destruct (cell_pointers 0 (cy + 1) Hx' Hy') as [Ec' Er'].
      rewrite Ec', Er'. lia.
  - do 5 eexists. split; [reflexivity|]. split; [destruct vt; reflexivity|].
    assert (Hx' : 0 <= cx + 1 < VTERM_COLS) by lia.
    destruct (cell_pointers (cx + 1) cy Hx' Hy) as [Ec' Er'].
    rewrite Ec', Er'. lia.
Qed.

(** The slow path hands the byte to the interpreter and reloads the locals. *)
Lemma write_loop_slow vt cx cy a e cptr rend out c rest :
  (e =? 0) && is_printable c = false ->
  cptr = int_add (int_mul cy VTERM_COLS) cx ->
  rend = int_add (int_mul cy VTERM_COLS) VTERM_COLS ->
  write_loop (c :: rest) vt cx cy a e cptr rend out =
  match vterm_handle_escape (sync vt cx cy a e) c with
  | None => None
  | Some (handled, v, o) =>
      let v := if handled then v else vterm_putchar_internal v c in
      write_loop rest v (cursor_x v) (cursor_y v) (current_attr v) (escape_state v)
        (int_add (int_mul (cursor_y v) VTERM_COLS) (cursor_x v))
        (int_add (int_mul (cursor_y v) VTERM_COLS) VTERM_COLS) (out ++ o)
  end.
Proof.
  intros Hf Hc Hr. cbn [write_loop]. rewrite Hf. fold (sync vt cx cy a e).
  destruct (vterm_handle_escape (sync vt cx cy a e) c) as [[[h v] o]|]; [|reflexivity].
  cbv zeta. set (v' := if h then v else vterm_putchar_internal v c).
  destruct (Z.eqb_spec (cursor_x v') cx) as [Ex|Ex];
    destruct (Z.eqb_spec (cursor_y v') cy) as [Ey|Ey]; cbn [negb orb];
    try reflexivity.
  rewrite Ex, Ey, <- Hc, <- Hr. reflexivity.
Qed.

Lemma nd_fields W V :
  nd W = nd V ->
  cursor_x W = cursor_x V /\ cursor_y W = cursor_y V /\
  current_attr W = current_attr V /\ escape_state W = escape_state V /\
  cells W = cells V /\ escape_buf W = escape_buf V /\ escape_len W = escape_len V.
Proof. intros H. rewrite (nd_inv W V H). repeat split. Qed.

Lemma putchar_body_nd W V c :
  nd W = nd V ->
  match vterm_handle_escape W c with
  | None => putchar_body V c = None
  | Some (h, v, o) =>
      exists V', putchar_body V c = Some (V', o) /\
                 nd (if h then v else vterm_putchar_internal v c) = nd V'
  end.
Proof.
  intros H. apply eq_sym, nd_inv in H. rewrite H.
  pose proof (handle_escape_dirty W c (dirty V)) as Hd.
  unfold putchar_body.
  destruct (vterm_handle_escape W c) as [[[h v] o]|].
  - destruct Hd as (v' & -> & Hnd). eexists. split; [reflexivity|].
    destruct h.
    + symmetry. exact Hnd.
    + rewrite (nd_inv v' v Hnd), putchar_internal_dirty. reflexivity.
  - rewrite Hd. reflexivity.
Qed.

(** The loop of [vterm_write] and byte-at-a-time processing step together:
    when the cached locals agree with a session [V], the loop ends where
    the bytes put one by one into [V] end. *)
Lemma write_loop_sim data : forall vt cx cy a e cptr rend out V,
  nd (sync vt cx cy a e) = nd V ->
  cptr = int_add (int_mul cy VTERM_COLS) cx ->
  rend = int_add (int_mul cy VTERM_COLS) VTERM_COLS ->
  stays_in_grid V data = true ->
  write_loop data vt cx cy a e cptr rend out = nd_result (putchar_seq V data out).
Proof.
  induction data as [|c rest IH]; intros vt cx cy a e cptr rend out V Hnd Hc Hr Hg.
  - cbn [write_loop putchar_seq nd_result]. fold (sync vt cx cy a e).
    fold (nd (sync vt cx cy a e)). rewrite Hnd. reflexivity.
  - cbn [stays_in_grid] in Hg. apply andb_true_iff in Hg as [Hin Hg].
    apply in_grid_cursor_ok in Hin. destruct Hin as [Hx Hy].
    destruct (nd_fields _ _ Hnd) as (Fx & Fy & Fa & Fe & _).
    cbn in Fx, Fy, Fa, Fe. rewrite <- Fx in Hx. rewrite <- Fy in Hy.
    cbn [putchar_seq].
    destruct ((e =? 0) && is_printable c) eqn:Hfast.
    + apply andb_true_iff in Hfast as [He Hp]. apply Z.eqb_eq in He.
      rewrite He in *. clear He.
      destruct (write_loop_fast vt cx cy a cptr rend out c rest Hx Hy Hc Hr Hp)
        as (vt1 & cx1 & cy1 & cptr1 & rend1 & Hstep & Hsync & Hc1 & Hr1).
      rewrite Hstep.
      rewrite putchar_body_printable in * by auto.
      rewrite app_nil_r.
      apply IH; try assumption.
      rewrite Hsync. apply eq_sym, nd_inv in Hnd. rewrite Hnd.
      rewrite <- !putchar_internal_printable by exact Hp.
      rewrite putchar_internal_dirty. reflexivity.
    + rewrite write_loop_slow by assumption.
      pose proof (putchar_body_nd (sync vt cx cy a e) V c Hnd) as Hb.
      destruct (vterm_handle_escape (sync vt cx cy a e) c) as [[[h v] o]|].
      * destruct Hb as (V' & HV & Hnd'). rewrite HV in *.
        cbv zeta. apply IH; try reflexivity; try assumption.
      * rewrite Hb. reflexivity.
Qed.

(** [vterm_write] on a session, against [vterm_putchar] byte by byte. *)
Lemma write_body_putchar_seq vt data :
  stays_in_grid vt data = true ->
  write_body vt data = nd_result (putchar_seq vt data []).
Proof.
  intros H. unfold write_body.
  apply write_loop_sim; try reflexivity; assumption.
Qed.

Lemma putchar_seq_dirty data : forall vt out vt' out',
  data <> [] -> putchar_seq vt data out = Some (vt', out') -> dirty vt' = 1.
Proof.
  induction data as [|c rest IH]; intros vt out vt' out' Hne H; [congruence|].
  cbn [putchar_seq] in H.
  destruct (putchar_body vt c) as [[v o]|] eqn:Hb; [|discriminate].
  destruct rest as [|c' rest'].
  - cbn [putchar_seq] in H. injection H as <- _.
    unfold putchar_body in Hb.
    destruct (vterm_handle_escape vt c) as [[[h w] o']|]; [|discriminate].
    injection Hb as <- _. reflexivity.
  - eapply IH; [discriminate | exact H].
Qed.

(** ** Sessions in the pool *)

(** Writing a session of the pool back through its [cells] pointer. *)
Definition store_view (p : vterm_pool) (vt_id : Z) (vt : vterm_t) : vterm_pool :=
  match get_session p vt_id with
  | Some s => commit p vt_id s vt
  | None => p
  end.

Lemma get_put_eq p vt_id s s0 :
  get_session p vt_id = Some s0 -> get_session (put_session p vt_id s) vt_id = Some s.
Proof.
  unfold get_session, put_session. destruct (0 <=? vt_id); [|discriminate].
  intros H. cbn [s_vterms set_vterms].
  apply list_lookup_insert_eq. eapply lookup_lt_Some, H.
Qed.

Lemma get_put_ne p vt_id k s :
  0 <= vt_id -> 0 <= k -> vt_id <> k ->
  get_session (put_session p vt_id s) k = get_session p k.
Proof.
  intros H1 H2 H3. unfold get_session, put_session.
  destruct (0 <=? k); [|reflexivity]. cbn [s_vterms set_vterms].
  apply list_lookup_insert_ne. lia.
Qed.

Lemma get_session_nonneg p vt_id s : get_session p vt_id = Some s -> 0 <= vt_id.
Proof. unfold get_session. destruct (Z.leb_spec 0 vt_id); [auto|discriminate]. Qed.

Lemma get_session_set_iram p v k : get_session (set_iram p v) k = get_session p k.
Proof. reflexivity. Qed.

Lemma set_cells_twice vt a b : set_cells (set_cells vt a) b = set_cells vt b.
Proof. reflexivity. Qed.

Lemma set_cells_self vt : set_cells vt (cells vt) = vt.
Proof. destruct vt. reflexivity. Qed.

(** Reading back what was written. *)
Lemma view_store_view p vt_id vt s :
  get_session p vt_id = Some s ->
  session_view (store_view p vt_id vt) vt_id = Some vt.
Proof.
  intros H. unfold store_view, session_view. rewrite H. unfold commit.
  destruct (cells_at s) eqn:E.
  - erewrite get_put_eq by (rewrite get_session_set_iram; exact H).
    unfold view. cbn [cells_at fields]. cbn [put_session set_vterms set_iram s_iram_buffer].
    rewrite set_cells_twice. rewrite set_cells_self. reflexivity.
  - erewrite get_put_eq by exact H. reflexivity.
Qed.

(** A session the write does not address keeps its view. *)
Lemma view_store_view_other p vt_id vt k s sk :
  get_session p vt_id = Some s -> get_session p k = Some sk ->
  vt_id <> k ->
  (cells_at s = IN_IRAM -> cells_at sk = IN_STORAGE) ->
  session_view (store_view p vt_id vt) k = session_view p k.
Proof.
  intros H Hk Hne Hx. unfold store_view, session_view. rewrite H, Hk. unfold commit.
  pose proof (get_session_nonneg _ _ _ H). pose proof (get_session_nonneg _ _ _ Hk).
  destruct (cells_at s) eqn:E.
  - rewrite get_put_ne, get_session_set_iram, Hk by assumption.
    unfold view. rewrite (Hx eq_refl). reflexivity.
  - rewrite get_put_ne, Hk by assumption. reflexivity.
Qed.

Lemma put_session_twice p vt_id s s' :
  put_session (put_session p vt_id s) vt_id s' = put_session p vt_id s'.
Proof.
  unfold put_session. destruct p. cbn. f_equal. apply list_insert_insert_eq.
Qed.

(** The session record [commit] leaves at [vt_id]. *)
Definition committed (s : session) (vt : vterm_t) : session :=
  match cells_at s with
  | IN_IRAM => Session IN_IRAM (set_cells vt (cells (fields s))) (input_queue s)
  | IN_STORAGE => Session IN_STORAGE vt (input_queue s)
  end.

Lemma get_commit p vt_id s vt :
  get_session p vt_id = Some s ->
  get_session (commit p vt_id s vt) vt_id = Some (committed s vt).
Proof.
  intros H. unfold commit, committed. destruct (cells_at s).
  - eapply get_put_eq. rewrite get_session_set_iram. exact H.
  - eapply get_put_eq, H.
Qed.

Lemma store_view_twice p vt_id vt vt' :
  store_view (store_view p vt_id vt) vt_id vt' = store_view p vt_id vt'.
Proof.
  unfold store_view. destruct (get_session p vt_id) as [s|] eqn:H.
  - rewrite (get_commit _ _ _ _ H).
    unfold commit, committed. destruct (cells_at s) eqn:E; cbn [cells_at fields input_queue].
    + destruct p. unfold put_session, set_iram, set_vterms. cbn.
      rewrite list_insert_insert_eq. reflexivity.
    + apply put_session_twice.
  - rewrite H. reflexivity.
Qed.

(** The session record after one byte was offered to its queue. *)
Definition queued (s : session) (c : ascii) : session :=
  Session (cells_at s) (fields s) (queue_send (input_queue s) c).

Lemma committed_queued s vt c : committed (queued s c) vt = queued (committed s vt) c.
Proof. unfold committed, queued. cbn. destruct (cells_at s); reflexivity. Qed.

Lemma commit_as_put p vt_id s vt :
  commit p vt_id s vt =
  put_session
    (match cells_at s with IN_IRAM => set_iram p (cells vt) | IN_STORAGE => p end)
    vt_id (committed s vt).
Proof. unfold commit, committed. destruct (cells_at s); reflexivity. Qed.

Lemma send_input_as_put p vt_id c :
  vterm_send_input p vt_id c =
  if valid_id vt_id then
    match get_session p vt_id with
    | Some s => put_session p vt_id (queued s c)
    | None => p
    end
  else p.
Proof. reflexivity. Qed.

Lemma put_session_comm p i j s t :
  0 <= i -> 0 <= j -> i <> j ->
  put_session (put_session p i s) j t = put_session (put_session p j t) i s.
Proof.
  intros. unfold put_session. destruct p. cbn. f_equal.
  apply list_insert_insert_ne. lia.
Qed.

(** A queue send and a session write-back commute. *)
Lemma store_view_send p act c vt_id vt :
  store_view (vterm_send_input p act c) vt_id vt =
  vterm_send_input (store_view p vt_id vt) act c.
Proof.
  rewrite !send_input_as_put. destruct (valid_id act) eqn:Hv; [|reflexivity].
  assert (Hact : 0 <= act) by (unfold valid_id in Hv; lia).
  unfold store_view.
  destruct (get_session p act) as [sa|] eqn:Ha.
  - destruct (Z.eq_dec act vt_id) as [->|Hne].
    + rewrite (get_put_eq _ _ _ _ Ha), Ha, (get_commit _ _ _ _ Ha).
      rewrite !commit_as_put, committed_queued. cbn [queued cells_at].
      destruct (cells_at sa); destruct p; unfold put_session, set_iram, set_vterms;
        cbn; rewrite !list_insert_insert_eq; reflexivity.
    + destruct (get_session p vt_id) as [s|] eqn:Hs.
      * pose proof (get_session_nonneg _ _ _ Hs) as Hid.
        rewrite get_put_ne, Hs by assumption.
        rewrite !commit_as_put.
        assert (Hg : get_session
                  (put_session
                     match cells_at s with
                     | IN_IRAM => set_iram p (cells vt)
                     | IN_STORAGE => p
                     end vt_id (committed s vt)) act = Some sa).
        { rewrite get_put_ne by auto. destruct (cells_at s); exact Ha. }
        rewrite Hg.
        rewrite (put_session_comm _ vt_id act) by auto.
        destruct (cells_at s); reflexivity.
      * destruct (Z.le_gt_cases 0 vt_id).
        -- rewrite get_put_ne, Hs, Ha by auto. reflexivity.
        -- unfold get_session at 1. destruct (Z.leb_spec 0 vt_id); [lia|].
           rewrite Ha. reflexivity.
  - destruct (get_session p vt_id) as [s|] eqn:Hs; [|rewrite Ha; reflexivity].
    pose proof (get_session_nonneg _ _ _ Hs) as Hid.
    assert (Hne : vt_id <> act) by congruence.
    rewrite commit_as_put, get_put_ne by auto.
    destruct (cells_at s); rewrite ?get_session_set_iram, Ha; reflexivity.
Qed.

Lemma store_view_send_all out : forall p act vt_id vt,
  store_view (send_all p act out) vt_id vt = send_all (store_view p vt_id vt) act out.
Proof.
  induction out as [|c out IH]; intros p act vt_id vt; [reflexivity|].
  unfold send_all in *. cbn [foldl]. rewrite IH, store_view_send. reflexivity.
Qed.

Lemma send_all_app p act o1 o2 :
  send_all p act (o1 ++ o2) = send_all (send_all p act o1) act o2.
Proof. unfold send_all. apply foldl_app. Qed.

Lemma view_send p act c k : session_view (vterm_send_input p act c) k = session_view p k.
Proof.
  rewrite send_input_as_put. destruct (valid_id act) eqn:Hv; [|reflexivity].
  assert (Hact : 0 <= act) by (unfold valid_id in Hv; lia).
  destruct (get_session p act) as [sa|] eqn:Ha; [|reflexivity].
  unfold session_view.
  destruct (Z.eq_dec act k) as [->|Hne].
  - rewrite (get_put_eq _ _ _ _ Ha), Ha. reflexivity.
  - destruct (Z.le_gt_cases 0 k).
    + rewrite get_put_ne by auto. destruct (get_session p k); reflexivity.
    + unfold get_session. destruct (Z.leb_spec 0 k); [lia|reflexivity].
Qed.

Lemma view_send_all out : forall p act k,
  session_view (send_all p act out) k = session_view p k.
Proof.
  induction out as [|c out IH]; intros p act k; [reflexivity|].
  unfold send_all in *. cbn [foldl]. rewrite IH. apply view_send.
Qed.

Lemma active_send p act c : s_active_vt (vterm_send_input p act c) = s_active_vt p.
Proof.
  rewrite send_input_as_put. destruct (valid_id act); [|reflexivity].
  destruct (get_session p act); reflexivity.
Qed.

Lemma active_send_all out : forall p act, s_active_vt (send_all p act out) = s_active_vt p.
Proof.
  induction out as [|c out IH]; intros p act; [reflexivity|].
  unfold send_all in *. cbn [foldl]. rewrite IH. apply active_send.
Qed.

Lemma active_store_view p vt_id vt : s_active_vt (store_view p vt_id vt) = s_active_vt p.
Proof.
  unfold store_view. destruct (get_session p vt_id) as [s|]; [|reflexivity].
  unfold commit. destruct (cells_at s); reflexivity.
Qed.

Lemma session_view_get p vt_id v :
  session_view p vt_id = Some v ->
  exists s, get_session p vt_id = Some s /\ view p s = v.
Proof.
  unfold session_view. destruct (get_session p vt_id) as [s|]; [|discriminate].
  intros [= <-]. eauto.
Qed.

Lemma store_view_self p vt_id s :
  get_session p vt_id = Some s -> store_view p vt_id (view p s) = p.
Proof.
  intros H. unfold store_view. rewrite H. unfold commit, view.
  assert (Hl : s_vterms p !! Z.to_nat vt_id = Some s).
  { unfold get_session in H. destruct (0 <=? vt_id); [exact H|discriminate]. }
  destruct s as [ptr f q]. destruct f. cbn [cells_at fields input_queue].
  destruct ptr; unfold put_session, set_iram, set_vterms; destruct p; cbn in *;
    rewrite list_insert_id by exact Hl; reflexivity.
Qed.

Lemma vterm_putchar_store p vt_id c s :
  valid_id vt_id = true -> get_session p vt_id = Some s ->
  vterm_putchar p vt_id c =
  match putchar_body (view p s) c with
  | Some (vt, o) => Some (send_all (store_view p vt_id vt) (s_active_vt p) o)
  | None => None
  end.
Proof.
  intros Hv H. unfold vterm_putchar, store_view. rewrite H.
  unfold valid_id in Hv.
  destruct (Z.ltb_spec vt_id 0), (Z.leb_spec VTERM_COUNT vt_id); try lia.
  reflexivity.
Qed.

Lemma vterm_write_store p vt_id data s :
  valid_id vt_id = true -> get_session p vt_id = Some s ->
  vterm_write p vt_id data =
  match write_body (view p s) data with
  | Some (vt, o) => Some (send_all (store_view p vt_id vt) (s_active_vt p) o)
  | None => None
  end.
Proof.
  intros Hv H. unfold vterm_write, store_view. rewrite H.
  unfold valid_id in Hv.
  destruct (Z.ltb_spec vt_id 0), (Z.leb_spec VTERM_COUNT vt_id); try lia.
  reflexivity.
Qed.

(** [vterm_putchar] byte by byte, in terms of the addressed session alone. *)
Lemma putchar_each_seq vt_id data : forall p0 s0 vt0 out0,
  valid_id vt_id = true -> get_session p0 vt_id = Some s0 ->
  putchar_each (send_all (store_view p0 vt_id vt0) (s_active_vt p0) out0) vt_id data =
  match putchar_seq vt0 data out0 with
  | Some (vt, out) => Some (send_all (store_view p0 vt_id vt) (s_active_vt p0) out)
  | None => None
  end.
Proof.
  induction data as [|c rest IH]; intros p0 s0 vt0 out0 Hv H0; [reflexivity|].
  cbn [putchar_each putchar_seq].
  set (p := send_all (store_view p0 vt_id vt0) (s_active_vt p0) out0).
  assert (Hview : session_view p vt_id = Some vt0).
  { unfold p. rewrite view_send_all. eapply view_store_view, H0. }
  destruct (session_view_get _ _ _ Hview) as (s & Hs & Hvs).
  rewrite (vterm_putchar_store p vt_id c s Hv Hs), Hvs.
  destruct (putchar_body vt0 c) as [[vt1 o]|]; [|reflexivity].
  assert (Hact : s_active_vt p = s_active_vt p0).
  { unfold p. rewrite active_send_all. apply active_store_view. }
  rewrite Hact. unfold p.
  rewrite store_view_send_all, store_view_twice, <- send_all_app.
  eapply IH; eassumption.
Qed.

Lemma putchar_each_session p vt_id data s :
  valid_id vt_id = true -> get_session p vt_id = Some s ->
  putchar_each p vt_id data =
  match putchar_seq (view p s) data [] with
  | Some (vt, out) => Some (send_all (store_view p vt_id vt) (s_active_vt p) out)
  | None => None
  end.
Proof.
  intros Hv H.
  rewrite <- (putchar_each_seq vt_id data p s (view p s) [] Hv H).
  cbn [send_all foldl]. unfold send_all. cbn [foldl].
  rewrite (store_view_self p vt_id s H). reflexivity.
Qed.

(** ** Claims about the write paths *)

Lemma printable_stays_in_grid data : forall vt,
  cursor_ok vt -> grid_ok vt -> escape_state vt = 0 ->
  Forall (fun c => is_printable c = true) data ->
  stays_in_grid vt data = true.
Proof.
  induction data as [|c rest IH]; intros vt Hc Hg Hs Hp; [reflexivity|].
  inversion Hp as [|? ? Hpc Hpr]; subst.
  cbn [stays_in_grid]. apply andb_true_iff. split; [apply in_grid_cursor_ok, Hc|].
  rewrite putchar_body_printable by assumption.
  destruct (put_printable_step vt c Hc Hg) as (Hc1 & Hg1 & Hs1 & _).
  apply IH; try assumption. cbn [escape_state set_dirty]. congruence.
Qed.

Lemma nd_of_dirty vt : dirty vt = 1 -> nd vt = vt.
Proof. destruct vt. unfold nd. cbn. intros ->. reflexivity. Qed.

(** What the fields named by the refinement claim say of two sessions. *)
Definition same_terminal_state (v1 v2 : vterm_t) : Prop :=
  cells v1 = cells v2 /\ cursor_x v1 = cursor_x v2 /\ cursor_y v1 = cursor_y v2 /\
  current_attr v1 = current_attr v2 /\ escape_state v1 = escape_state v2 /\
  escape_buf v1 = escape_buf v2 /\ escape_len v1 = escape_len v2.

(** C5: for every pool, session and byte string whose byte-at-a-time run
    keeps the cursor inside the grid, [vterm_write(id, data, len)] and
    [vterm_putchar(id, b)] for each byte [b] of [data] in order either both
    fail to return or leave the session with the same cells, cursor,
    current attribute and escape-parser state; for a non-empty string the
    whole pool (input queues and [dirty] included) is the same. *)
Theorem vterm_write_refines_putchar p vt_id s data :
  valid_id vt_id = true -> get_session p vt_id = Some s ->
  stays_in_grid (view p s) data = true ->
  match vterm_write p vt_id data, putchar_each p vt_id data with
  | Some p1, Some p2 =>
      (exists v1 v2,
          session_view p1 vt_id = Some v1 /\ session_view p2 vt_id = Some v2 /\
          same_terminal_state v1 v2) /\
      (data <> [] -> p1 = p2)
  | None, None => True
  | _, _ => False
  end.
Proof.
  intros Hv Hs Hg.
  rewrite (vterm_write_store p vt_id data s Hv Hs).
  rewrite (putchar_each_session p vt_id data s Hv Hs).
  rewrite (write_body_putchar_seq _ _ Hg).
  destruct (putchar_seq (view p s) data []) as [[vt out]|] eqn:Hrun; cbn [nd_result];
    [|exact I].
  split.
  - exists (nd vt), vt. rewrite !view_send_all.
    rewrite (view_store_view p vt_id (nd vt) s Hs), (view_store_view p vt_id vt s Hs).
    repeat split.
  - intros Hne. rewrite (nd_of_dirty vt); [reflexivity|].
    eapply putchar_seq_dirty; eassumption.
Qed.

(** *** The pool after [vterm_init] *)

Definition session0 : session := Session IN_IRAM fresh_fields [].

Lemma init_session0 : get_session vterm_init 0 = Some session0.
Proof. reflexivity. Qed.

Lemma fresh_fields_grid : grid_ok fresh_fields.
Proof.
  unfold grid_ok, fresh_fields, vterm_clear_internal.
  cbn [cells set_cells set_cursor_x set_cursor_y set_current_attr].
  rewrite fill_cells_length, length_replicate. apply Z2Nat.id.
  rewrite grid_cells_value. lia.
Qed.

Lemma init_view0_grid : grid_ok (view vterm_init session0).
Proof.
  pose proof fresh_fields_grid as H. unfold grid_ok in *.
  unfold view, session0, vterm_init.
  cbn [cells_at fields s_iram_buffer cells set_cells].
  rewrite memcpy_cells_length, length_replicate.
  rewrite grid_cells_value in *. lia.
Qed.

Lemma init_view0_cursor : cursor_ok (view vterm_init session0).
Proof. apply in_grid_cursor_ok. reflexivity. Qed.

Lemma init_view0_idle : escape_state (view vterm_init session0) = 0.
Proof. reflexivity. Qed.

Lemma init_view0_state :
  length (escape_buf (view vterm_init session0)) = 32%nat /\
  lin (view vterm_init session0) + 1 < GRID_CELLS /\
  current_attr (view vterm_init session0) = VTERM_DEFAULT_ATTR.
Proof. repeat split. Qed.

(** The batched and the byte-wise path agree on an input that mixes text,
    colours, cursor addressing, a status report and a line wrap. *)
Lemma vterm_write_refines_putchar_witness :
  let data := str "ab" ++ ESC :: str "[1;31mX" ++ ESC :: str "[5;127HYZ" ++ ESC :: str "[6n"
              ++ [ascii_of_nat 9; ascii_of_nat 10; ascii_of_nat 8] in
  match vterm_write vterm_init 0 data, putchar_each vterm_init 0 data with
  | Some p1, Some p2 =>
      (exists v1 v2,
          session_view p1 0 = Some v1 /\ session_view p2 0 = Some v2 /\
          same_terminal_state v1 v2) /\
      (data <> [] -> p1 = p2)
  | None, None => True
  | _, _ => False
  end.
Proof.
  intros data.
  apply (vterm_write_refines_putchar vterm_init 0 session0 data).
  - reflexivity.
  - exact init_session0.
  - reflexivity.
Defined.

Lemma typed_cell_no_scroll old P a data (j : nat) :
  0 <= P -> P + Z.of_nat (length data) < GRID_CELLS ->
  Z.of_nat (length old) = GRID_CELLS ->
  typed_cell old P a data j =
  if (P <=? Z.of_nat j) && (Z.of_nat j <? P + Z.of_nat (length data))
  then (fun c => Cell c a) <$> data !! Z.to_nat (Z.of_nat j - P)
  else old !! j.
Proof.
  intros HP Hlt Hlen. unfold typed_cell, scrolls.
  destruct (Z.ltb_spec (P + Z.of_nat (length data)) GRID_CELLS); [|lia].
  replace (Z.of_nat j + 0 * VTERM_COLS) with (Z.of_nat j) by lia.
  destruct (Z.ltb_spec (Z.of_nat j) GRID_CELLS); cbn [negb].
  - destruct ((P <=? Z.of_nat j) && (Z.of_nat j <? P + Z.of_nat (length data)));
      [reflexivity|]. rewrite Nat2Z.id. reflexivity.
  - destruct (Z.leb_spec P (Z.of_nat j)), (Z.ltb_spec (Z.of_nat j) (P + Z.of_nat (length data)));
      cbn [andb]; try lia; symmetry; apply lookup_ge_None; lia.
Qed.

(** What a run of printable bytes typed into session [vt] must leave in
    [vt']: the cursor [n] positions further in row-major order, wrapped at
    [VTERM_COLS] and held on the last row by the scrolls; every cell as
    [typed_cell] says; and, as long as nothing scrolled, every cell outside
    the typed range as it was. *)
Definition typed_into (vt vt' : vterm_t) (data : list ascii) : Prop :=
  let P := lin vt in
  let n := Z.of_nat (length data) in
  cursor_ok vt' /\
  cursor_x vt' = (P + n) mod VTERM_COLS /\
  cursor_y vt' = (P + n) / VTERM_COLS - scrolls P n /\
  current_attr vt' = current_attr vt /\ escape_state vt' = 0 /\
  (forall j : nat, cells vt' !! j = typed_cell (cells vt) P (current_attr vt) data j) /\
  (P + n < GRID_CELLS ->
   forall j : nat,
     cells vt' !! j =
     if (P <=? Z.of_nat j) && (Z.of_nat j <? P + n)
     then (fun c => Cell c (current_attr vt)) <$> data !! Z.to_nat (Z.of_nat j - P)
     else cells vt !! j).

Lemma printable_run_typed vt data out :
  cursor_ok vt -> grid_ok vt -> escape_state vt = 0 ->
  Forall (fun c => is_printable c = true) data ->
  exists vt', putchar_seq vt data out = Some (vt', out) /\ typed_into vt vt' data.
Proof.
  intros Hc Hg Hs Hp.
  destruct (printable_run data vt out Hc Hg Hs Hp)
    as (vt' & Hrun & Hc' & Hg' & Hs' & Ha' & _ & _ & Hlin & Hcells).
  exists vt'. split; [exact Hrun|].
  pose proof (lin_bounds vt Hc) as HP.
  destruct (lin_cursor vt' Hc') as [Hx Hy].
  pose proof (scrolls_nonneg (lin vt) (Z.of_nat (length data))) as Hsn.
  unfold typed_into. cbv zeta.
  split; [exact Hc'|]. split; [|split; [|split; [exact Ha'|split; [exact Hs'|split]]]].
  - rewrite Hx, Hlin.
    replace (lin vt + Z.of_nat (length data)
             - scrolls (lin vt) (Z.of_nat (length data)) * VTERM_COLS)
      with (lin vt + Z.of_nat (length data)
            + (- scrolls (lin vt) (Z.of_nat (length data))) * VTERM_COLS) by lia.
    apply Z.mod_add. unfold VTERM_COLS. lia.
  - rewrite Hy, Hlin.
    replace (lin vt + Z.of_nat (length data)
             - scrolls (lin vt) (Z.of_nat (length data)) * VTERM_COLS)
      with (lin vt + Z.of_nat (length data)
            + (- scrolls (lin vt) (Z.of_nat (length data))) * VTERM_COLS) by lia.
    rewrite Z.div_add by (unfold VTERM_COLS; lia). lia.
  - exact Hcells.
  - intros Hlt j. rewrite Hcells. apply typed_cell_no_scroll; [lia | exact Hlt | exact Hg].
Qed.

(** C1: on a session whose parser is idle and whose cursor is in the grid,
    every sequence of printable bytes written with [vterm_write], or with
    [vterm_putchar] byte by byte, returns and leaves the bytes placed left
    to right, top to bottom from the cursor, wrapping at [VTERM_COLS] and
    scrolling at [VTERM_ROWS]; no other cell changes (other than by being
    carried up by a scroll). *)
Theorem printable_writes_fill_grid p vt_id s data :
  valid_id vt_id = true -> get_session p vt_id = Some s ->
  cursor_ok (view p s) -> grid_ok (view p s) -> escape_state (view p s) = 0 ->
  Forall (fun c => is_printable c = true) data ->
  (exists p1 v1, vterm_write p vt_id data = Some p1 /\
                 session_view p1 vt_id = Some v1 /\ typed_into (view p s) v1 data) /\
  (exists p2 v2, putchar_each p vt_id data = Some p2 /\
                 session_view p2 vt_id = Some v2 /\ typed_into (view p s) v2 data).
Proof.
  intros Hv Hs Hc Hg He Hp.
  destruct (printable_run_typed (view p s) data [] Hc Hg He Hp) as (vt' & Hrun & Ht).
  split.
  - rewrite (vterm_write_store p vt_id data s Hv Hs).
    rewrite write_body_putchar_seq by (apply printable_stays_in_grid; assumption).
    rewrite Hrun. cbn [nd_result].
    eexists. exists (nd vt'). split; [reflexivity|].
    split; [rewrite view_send_all; eapply view_store_view, Hs|].
    exact Ht.
  - rewrite (putchar_each_session p vt_id data s Hv Hs), Hrun.
    eexists. exists vt'. split; [reflexivity|].
    split; [rewrite view_send_all; eapply view_store_view, Hs|].
    exact Ht.
Qed.

(** Two printable bytes typed into the fresh session 0. *)
Lemma printable_writes_fill_grid_witness :
  let p := vterm_init in
  let data := str "Hi" in
  (exists p1 v1, vterm_write p 0 data = Some p1 /\
                 session_view p1 0 = Some v1 /\ typed_into (view p session0) v1 data) /\
  (exists p2 v2, putchar_each p 0 data = Some p2 /\
                 session_view p2 0 = Some v2 /\ typed_into (view p session0) v2 data).
Proof.
  intros p data.
  apply (printable_writes_fill_grid p 0 session0 data).
  - reflexivity.
  - exact init_session0.
  - exact init_view0_cursor.
  - exact init_view0_grid.
  - exact init_view0_idle.
  - repeat constructor.
Defined.

(** ** Scrolling keeps the newest rows *)

Lemma clear_internal_lookup vt (j : nat) :
  grid_ok vt ->
  cells (vterm_clear_internal vt) !! j =
  if Z.of_nat j <? GRID_CELLS then Some blank_cell else None.
Proof.
  unfold grid_ok. intros Hg. unfold vterm_clear_internal.
  cbn [cells set_cells set_cursor_x set_cursor_y set_current_attr].
  rewrite fill_cells_lookup, Hg.
  destruct (Z.leb_spec (0 + 0) (Z.of_nat j)); [|lia].
  replace (0 + GRID_CELLS) with GRID_CELLS by lia.
  destruct (Z.ltb_spec (Z.of_nat j) GRID_CELLS); cbn [andb]; [reflexivity|].
  apply lookup_ge_None. lia.
Qed.

Lemma clear_internal_state vt :
  grid_ok vt ->
  cursor_ok (vterm_clear_internal vt) /\ grid_ok (vterm_clear_internal vt) /\
  lin (vterm_clear_internal vt) = 0 /\
  current_attr (vterm_clear_internal vt) = VTERM_DEFAULT_ATTR /\
  escape_state (vterm_clear_internal vt) = escape_state vt.
Proof.
  intros Hg. unfold cursor_ok, grid_ok, lin, vterm_clear_internal.
  cbn [cells cursor_x cursor_y current_attr escape_state
       set_cells set_cursor_x set_cursor_y set_current_attr].
  rewrite fill_cells_length. unfold VTERM_COLS, VTERM_ROWS.
  repeat split; try lia. exact Hg.
Qed.

Lemma vterm_clear_store p vt_id s :
  valid_id vt_id = true -> get_session p vt_id = Some s ->
  vterm_clear p vt_id = store_view p vt_id (vterm_clear_internal (view p s)).
Proof.
  intros Hv H. unfold vterm_clear, store_view. rewrite H.
  unfold valid_id in Hv.
  destruct (Z.ltb_spec vt_id 0), (Z.leb_spec VTERM_COUNT vt_id); try lia.
  reflexivity.
Qed.

(** The first [k] cells of the last row show the last [k] bytes of [data]. *)
Definition last_row_shows (v : vterm_t) (data : list ascii) (k : Z) : Prop :=
  forall c, 0 <= c < k ->
    exists x,
      data !! Z.to_nat (Z.of_nat (length data) - k + c) = Some x /\
      cells v !! Z.to_nat ((VTERM_ROWS - 1) * VTERM_COLS + c)
      = Some (Cell x VTERM_DEFAULT_ATTR).

(** The rows above the last one show the last [VTERM_ROWS - 1] full rows
    of [data], a full row being [VTERM_COLS] consecutive bytes counted from
    the start of the input. *)
Definition upper_rows_show (v : vterm_t) (data : list ascii) : Prop :=
  let q := Z.of_nat (length data) / VTERM_COLS in
  forall r c, 0 <= r < VTERM_ROWS - 1 -> 0 <= c < VTERM_COLS ->
    exists x,
      data !! Z.to_nat ((q - (VTERM_ROWS - 1) + r) * VTERM_COLS + c) = Some x /\
      cells v !! Z.to_nat (r * VTERM_COLS + c) = Some (Cell x VTERM_DEFAULT_ATTR).

(** The last row is blank from column [k] on. *)
Definition last_row_blank_from (v : vterm_t) (k : Z) : Prop :=
  forall c, k <= c < VTERM_COLS ->
    cells v !! Z.to_nat ((VTERM_ROWS - 1) * VTERM_COLS + c) = Some blank_cell.

Lemma lookup_in_range {A} (l : list A) (i : Z) :
  0 <= i < Z.of_nat (length l) -> exists x, l !! Z.to_nat i = Some x.
Proof. intros H. apply lookup_lt_is_Some. lia. Qed.

Lemma overflow_rows cleared data v :
  Z.of_nat (length cleared) = GRID_CELLS ->
  GRID_CELLS <= Z.of_nat (length data) ->
  (forall j : nat, cells v !! j = typed_cell cleared 0 VTERM_DEFAULT_ATTR data j) ->
  upper_rows_show v data /\
  last_row_shows v data (Z.of_nat (length data) mod VTERM_COLS) /\
  last_row_blank_from v (Z.of_nat (length data) mod VTERM_COLS).
Proof.
  intros Hlen HN Hcells.
  unfold upper_rows_show, last_row_shows, last_row_blank_from. cbv zeta.
  set (N := Z.of_nat (length data)) in *.
  assert (Hs : scrolls 0 N = N / VTERM_COLS - VTERM_ROWS + 1).
  { unfold scrolls. rewrite grid_cells_value in *. unfold VTERM_COLS, VTERM_ROWS.
    destruct (Z.ltb_spec (0 + N) 4736); [exfalso; lia|]. Z.div_mod_to_equations. lia. }
  assert (Hq : N / VTERM_COLS * VTERM_COLS + N mod VTERM_COLS = N).
  { unfold VTERM_COLS. Z.div_mod_to_equations. lia. }
  assert (Hm : 0 <= N mod VTERM_COLS < VTERM_COLS).
  { apply Z.mod_pos_bound. unfold VTERM_COLS. lia. }
  assert (Hqr : VTERM_ROWS <= N / VTERM_COLS).
  { rewrite grid_cells_value in *. unfold VTERM_COLS, VTERM_ROWS in *.
    Z.div_mod_to_equations. lia. }
  set (q := N / VTERM_COLS) in *. set (m := N mod VTERM_COLS) in *.
  clearbody q m.
  rewrite grid_cells_value in *. unfold VTERM_COLS, VTERM_ROWS in *.
  repeat split.
  - intros r c Hr Hc.
    destruct (lookup_in_range data ((q - (37 - 1) + r) * 128 + c)) as [x Hx].
    { fold N. unfold VTERM_COLS, VTERM_ROWS in *. lia. }
    exists x. split; [exact Hx|].
    rewrite Hcells. unfold typed_cell. fold N. rewrite Hs.
    rewrite Z2Nat.id by (unfold VTERM_COLS, VTERM_ROWS in *; lia).
    rewrite ?grid_cells_value. unfold VTERM_COLS, VTERM_ROWS.
    destruct (Z.ltb_spec (r * 128 + c) 4736); [|exfalso; lia]. cbn [negb].
    destruct (Z.leb_spec 0 (r * 128 + c + (q - 37 + 1) * 128)); [|exfalso; lia].
    destruct (Z.ltb_spec (r * 128 + c + (q - 37 + 1) * 128) (0 + N)); [|exfalso; lia].
    cbn [andb].
    replace (r * 128 + c + (q - 37 + 1) * 128 - 0) with ((q - (37 - 1) + r) * 128 + c) by lia.
    rewrite Hx. reflexivity.
  - intros c Hc.
    destruct (lookup_in_range data (N - m + c)) as [x Hx]; [fold N; lia|].
    exists x. split; [exact Hx|].
    rewrite Hcells. unfold typed_cell. fold N. rewrite Hs.
    rewrite Z2Nat.id by (unfold VTERM_COLS, VTERM_ROWS in *; lia).
    rewrite ?grid_cells_value. unfold VTERM_COLS, VTERM_ROWS.
    destruct (Z.ltb_spec ((37 - 1) * 128 + c) 4736); [|exfalso; lia]. cbn [negb].
    destruct (Z.leb_spec 0 ((37 - 1) * 128 + c + (q - 37 + 1) * 128)); [|exfalso; lia].
    destruct (Z.ltb_spec ((37 - 1) * 128 + c + (q - 37 + 1) * 128) (0 + N)); [|exfalso; lia].
    cbn [andb].
    replace ((37 - 1) * 128 + c + (q - 37 + 1) * 128 - 0) with (N - m + c) by lia.
    rewrite Hx. reflexivity.
  - intros c Hc.
    rewrite Hcells. unfold typed_cell. fold N. rewrite Hs.
    rewrite Z2Nat.id by (unfold VTERM_COLS, VTERM_ROWS in *; lia).
    rewrite ?grid_cells_value. unfold VTERM_COLS, VTERM_ROWS.
    destruct (Z.ltb_spec ((37 - 1) * 128 + c) 4736); [|exfalso; lia]. cbn [negb].
    destruct (Z.leb_spec 0 ((37 - 1) * 128 + c + (q - 37 + 1) * 128)); [|exfalso; lia].
    destruct (Z.ltb_spec ((37 - 1) * 128 + c + (q - 37 + 1) * 128) (0 + N)); [exfalso; lia|].
    cbn [andb].
    destruct (Z.ltb_spec ((37 - 1) * 128 + c + (q - 37 + 1) * 128) 4736); [exfalso; lia|].
    reflexivity.
Qed.

(** What [vterm_scroll] does to the grid, row by row. *)
Lemma vterm_scroll_rows vt r c :
  grid_ok vt -> 0 <= r < VTERM_ROWS -> 0 <= c < VTERM_COLS ->
  cells (vterm_scroll vt) !! Z.to_nat (r * VTERM_COLS + c) =
  if r <? VTERM_ROWS - 1 then cells vt !! Z.to_nat ((r + 1) * VTERM_COLS + c)
  else Some blank_cell.
Proof.
  intros Hg Hr Hc. rewrite (vterm_scroll_lookup vt _ Hg).
  rewrite grid_cells_value. unfold VTERM_COLS, VTERM_ROWS in *.
  rewrite Z2Nat.id by lia.
  destruct (Z.ltb_spec r (37 - 1)).
  - destruct (Z.ltb_spec (r * 128 + c) (4736 - 128)); [|lia]. f_equal. lia.
  - destruct (Z.ltb_spec (r * 128 + c) (4736 - 128)); [lia|].
    destruct (Z.ltb_spec (r * 128 + c) 4736); [reflexivity|lia].
Qed.

Lemma newline_on_last_row vt :
  cursor_y vt = VTERM_ROWS - 1 ->
  newline vt = vterm_scroll (set_cursor_y (set_cursor_x vt 0) VTERM_ROWS).
Proof.
  intros H. unfold newline. cbn [cursor_y set_cursor_x set_cursor_y]. rewrite H.
  reflexivity.
Qed.

(** Filling the cleared grid and beyond: what [vterm_write] leaves. *)
Lemma overflow_write p vt_id s data :
  valid_id vt_id = true -> get_session p vt_id = Some s ->
  grid_ok (view p s) -> escape_state (view p s) = 0 ->
  Forall (fun c => is_printable c = true) data ->
  GRID_CELLS <= Z.of_nat (length data) ->
  exists p' v,
    vterm_write (vterm_clear p vt_id) vt_id data = Some p' /\
    session_view p' vt_id = Some v /\
    upper_rows_show v data /\
    last_row_shows v data (Z.of_nat (length data) mod VTERM_COLS) /\
    last_row_blank_from v (Z.of_nat (length data) mod VTERM_COLS).
Proof.
  intros Hv Hs Hg He Hp HN.
  rewrite (vterm_clear_store p vt_id s Hv Hs).
  set (cleared := vterm_clear_internal (view p s)).
  destruct (clear_internal_state (view p s) Hg) as (Cc & Cg & Cl & Ca & Ce).
  fold cleared in Cc, Cg, Cl, Ca, Ce.
  assert (Hview : session_view (store_view p vt_id cleared) vt_id = Some cleared)
    by (eapply view_store_view, Hs).
  destruct (session_view_get _ _ _ Hview) as (s1 & Hs1 & Hv1).
  rewrite (vterm_write_store _ vt_id data s1 Hv Hs1), Hv1.
  assert (Ce' : escape_state cleared = 0) by congruence.
  rewrite write_body_putchar_seq by (apply printable_stays_in_grid; assumption).
  destruct (printable_run data cleared [] Cc Cg Ce' Hp)
    as (v & Hrun & _ & _ & _ & _ & _ & _ & _ & Hcells).
  rewrite Hrun. cbn [nd_result].
  eexists. exists (nd v). split; [reflexivity|].
  split; [rewrite view_send_all; eapply view_store_view, Hs1|].
  rewrite Cl, Ca in Hcells.
  exact (overflow_rows (cells cleared) data (nd v) Cg HN Hcells).
Qed.

(** C3 (amended): when the cursor advances past the last row the grid
    scrolls: rows 1..ROWS-1 move to rows 0..ROWS-2 and the last row is
    cleared to space and default attribute.  Writing COLS*ROWS + k printable
    bytes (k >= 1) into a cleared session leaves the last ROWS-1 full rows of
    the input on rows 0..ROWS-2 and, on the final row, the [k mod COLS]
    bytes that follow them, then blanks; that is [k] bytes only when
    [k < COLS]. *)
Theorem scroll_drops_oldest p vt_id s data k :
  valid_id vt_id = true -> get_session p vt_id = Some s ->
  grid_ok (view p s) -> escape_state (view p s) = 0 ->
  Forall (fun c => is_printable c = true) data ->
  Z.of_nat (length data) = VTERM_COLS * VTERM_ROWS + k -> 1 <= k ->
  (forall vt, grid_ok vt ->
     cursor_y (vterm_scroll vt) = VTERM_ROWS - 1 /\
     forall r c, 0 <= r < VTERM_ROWS -> 0 <= c < VTERM_COLS ->
       cells (vterm_scroll vt) !! Z.to_nat (r * VTERM_COLS + c) =
       if r <? VTERM_ROWS - 1 then cells vt !! Z.to_nat ((r + 1) * VTERM_COLS + c)
       else Some blank_cell) /\
  (forall vt, cursor_y vt = VTERM_ROWS - 1 ->
     newline vt = vterm_scroll (set_cursor_y (set_cursor_x vt 0) VTERM_ROWS)) /\
  exists p' v,
    vterm_write (vterm_clear p vt_id) vt_id data = Some p' /\
    session_view p' vt_id = Some v /\
    upper_rows_show v data /\
    last_row_shows v data (k mod VTERM_COLS) /\
    last_row_blank_from v (k mod VTERM_COLS) /\
    (k < VTERM_COLS -> last_row_shows v data k).
Proof.
  intros Hv Hs Hg He Hp Hlen Hk.
  split; [|split].
  - intros vt Hvt. split; [reflexivity|].
    intros r c Hr Hc. apply vterm_scroll_rows; assumption.
  - apply newline_on_last_row.
  - assert (HN : GRID_CELLS <= Z.of_nat (length data)).
    { rewrite Hlen, grid_cells_value. unfold VTERM_COLS, VTERM_ROWS. lia. }
    destruct (overflow_write p vt_id s data Hv Hs Hg He Hp HN)
      as (p' & v & Hw & Hview & Hu & Hl & Hb).
    assert (Hmod : Z.of_nat (length data) mod VTERM_COLS = k mod VTERM_COLS).
    { rewrite Hlen. rewrite Z.add_comm, Z.mul_comm. apply Z.mod_add.
      unfold VTERM_COLS. lia. }
    rewrite Hmod in Hl, Hb.
    exists p', v. do 4 (split; [assumption|]). split; [exact Hb|].
    intros Hlt. rewrite Z.mod_small in Hl by lia. exact Hl.
Qed.

Lemma x_printable : is_printable "x" = true.
Proof. reflexivity. Qed.

(** 128 * 37 + 5 bytes into the fresh session 0. *)
Lemma scroll_drops_oldest_witness :
  let data := replicate (Z.to_nat (VTERM_COLS * VTERM_ROWS + 5)) "x"%char in
  exists p' v,
    vterm_write (vterm_clear vterm_init 0) 0 data = Some p' /\
    session_view p' 0 = Some v /\
    upper_rows_show v data /\ last_row_shows v data 5.
Proof.
  intros data.
  destruct (scroll_drops_oldest vterm_init 0 session0 data 5)
    as (_ & _ & p' & v & Hw & Hv & Hu & _ & _ & Hl).
  - reflexivity.
  - exact init_session0.
  - exact init_view0_grid.
  - exact init_view0_idle.
  - apply Forall_replicate. exact x_printable.
  - unfold data. rewrite length_replicate. apply Z2Nat.id.
    unfold VTERM_COLS, VTERM_ROWS. lia.
  - lia.
  - exists p', v. repeat split; try assumption. apply Hl. unfold VTERM_COLS. lia.
Defined.

(** C3 as stated fails at k = COLS: after 128 * 37 + 128 bytes the final row
    is blank, it does not show the last 128 bytes of the input. *)
Lemma scroll_drops_oldest_counterexample :
  let data := replicate (Z.to_nat (VTERM_COLS * VTERM_ROWS + 128)) "x"%char in
  exists p' v,
    vterm_write (vterm_clear vterm_init 0) 0 data = Some p' /\
    session_view p' 0 = Some v /\
    cells v !! Z.to_nat ((VTERM_ROWS - 1) * VTERM_COLS) = Some blank_cell /\
    ~ last_row_shows v data 128.
Proof.
  intros data.
  assert (Hlen : Z.of_nat (length data) = VTERM_COLS * VTERM_ROWS + 128).
  { unfold data. rewrite length_replicate. apply Z2Nat.id.
    unfold VTERM_COLS, VTERM_ROWS. lia. }
  assert (Hp : Forall (fun c => is_printable c = true) data)
    by (apply Forall_replicate; exact x_printable).
  assert (HN : GRID_CELLS <= Z.of_nat (length data)).
  { rewrite Hlen, grid_cells_value. unfold VTERM_COLS, VTERM_ROWS. lia. }
  destruct (overflow_write vterm_init 0 session0 data eq_refl init_session0
              init_view0_grid init_view0_idle Hp HN)
    as (p' & v & Hw & Hv & _ & _ & Hb).
  assert (Hmod : Z.of_nat (length data) mod VTERM_COLS = 0).
  { rewrite Hlen. unfold VTERM_COLS, VTERM_ROWS. reflexivity. }
  rewrite Hmod in Hb.
  assert (Hcell : cells v !! Z.to_nat ((VTERM_ROWS - 1) * VTERM_COLS) = Some blank_cell).
  { specialize (Hb 0). rewrite Z.add_0_r in Hb. apply Hb. unfold VTERM_COLS. lia. }
  exists p', v. split; [exact Hw|]. split; [exact Hv|]. split; [exact Hcell|].
  intros H. destruct (H 0 ltac:(lia)) as (x & Hx & Hc).
  rewrite Z.add_0_r, Hcell in Hc.
  unfold data in Hx. apply lookup_replicate in Hx. destruct Hx as [-> _].
  discriminate Hc.
Qed.

(** ** The size of the grid

    No operation changes the number of cells of a session. *)

Lemma scroll_length vt : length (cells (vterm_scroll vt)) = length (cells vt).
Proof.
  unfold vterm_scroll. cbn [cells set_cells set_cursor_y].
  rewrite fill_cells_length. apply memmove_cells_length.
Qed.

Lemma newline_length vt : length (cells (newline vt)) = length (cells vt).
Proof.
  unfold newline. destruct (VTERM_ROWS <=? _); [rewrite scroll_length|]; reflexivity.
Qed.

Lemma tab_loop_length fuel : forall vt cell,
  length (cells (tab_loop fuel vt cell)) = length (cells vt).
Proof.
  induction fuel as [|fuel IH]; intros vt cell; cbn [tab_loop].
  - cbn [cells set_cells set_cursor_x]. apply store_cell_length.
  - destruct (_ && _).
    + rewrite IH. cbn [cells set_cells set_cursor_x]. apply store_cell_length.
    + cbn [cells set_cells set_cursor_x]. apply store_cell_length.
Qed.

Lemma wrap_length vt :
  length (cells (if VTERM_COLS <=? cursor_x vt then newline vt else vt))
  = length (cells vt).
Proof. destruct (VTERM_COLS <=? cursor_x vt); [apply newline_length | reflexivity]. Qed.

Lemma putchar_internal_length vt c :
  length (cells (vterm_putchar_internal vt c)) = length (cells vt).
Proof.
  unfold vterm_putchar_internal.
  destruct (code c =? 10); [apply newline_length|].
  destruct (code c =? 13); [reflexivity|].
  destruct (code c =? 8).
  { destruct (0 <? cursor_x vt); [|reflexivity].
    cbn [cells set_cells set_cursor_x]. apply store_cell_length. }
  destruct (code c =? 9).
  { rewrite wrap_length. apply tab_loop_length. }
  destruct (is_printable c); [|reflexivity].
  rewrite wrap_length. cbn [cells set_cells set_cursor_x]. apply store_cell_length.
Qed.

Lemma clear_internal_length vt :
  length (cells (vterm_clear_internal vt)) = length (cells vt).
Proof.
  unfold vterm_clear_internal.
  cbn [cells set_cells set_cursor_x set_cursor_y set_current_attr].
  apply fill_cells_length.
Qed.

Lemma clear_rows_length cs y0 y1 : length (clear_rows cs y0 y1) = length cs.
Proof.
  unfold clear_rows. generalize (seqZ y0 (y1 - y0)) as l. intros l. revert cs.
  induction l as [|y l IH]; intros cs; cbn [foldl]; [reflexivity|].
  rewrite IH. apply fill_cells_length.
Qed.

Lemma index_down_length vt : length (cells (index_down vt)) = length (cells vt).
Proof.
  unfold index_down. destruct (_ <=? _); [apply scroll_length | reflexivity].
Qed.

Lemma reverse_index_length vt : length (cells (reverse_index vt)) = length (cells vt).
Proof.
  unfold reverse_index. destruct (_ <=? _); [|reflexivity].
  cbn [cells set_cells]. rewrite fill_cells_length. apply memmove_cells_length.
Qed.

Lemma apply_sgr_cells vt s v : vterm_apply_sgr vt s = Some v -> cells v = cells vt.
Proof.
  unfold vterm_apply_sgr. destruct (sgr_attr _ _); [|discriminate].
  intros [= <-]. reflexivity.
Qed.

Lemma csi_dispatch_length vt c v o :
  csi_dispatch vt c = Some (v, o) -> length (cells v) = length (cells vt).
Proof.
  unfold csi_dispatch.
  destruct (ascii_eqb c "m").
  { destruct (vterm_apply_sgr vt _) as [w|] eqn:E; [|discriminate].
    intros [= <- _]. rewrite (apply_sgr_cells _ _ _ E). reflexivity. }
  destruct (ascii_eqb c "J").
  { destruct (_ || _); intros [= <- _]; [apply clear_internal_length | reflexivity]. }
  destruct (ascii_eqb c "H" || ascii_eqb c "f").
  { destruct (_ || _); [intros [= <- _]; reflexivity|].
    destruct (sscanf_row_col _ 1 1) as [row col]. cbv zeta.
    intros [= <- _].
    repeat (case_inner_if; cbn [cells cursor_x cursor_y set_cursor_x set_cursor_y]);
      reflexivity. }
  destruct (ascii_eqb c "A"); [intros [= <- _]; cbv zeta; case_inner_if; reflexivity|].
  destruct (ascii_eqb c "B"); [intros [= <- _]; cbv zeta; case_inner_if; reflexivity|].
  destruct (ascii_eqb c "C"); [intros [= <- _]; cbv zeta; case_inner_if; reflexivity|].
  destruct (ascii_eqb c "D"); [intros [= <- _]; cbv zeta; case_inner_if; reflexivity|].
  destruct (ascii_eqb c "K").
  { intros [= <- _]. cbn [cells set_cells]. apply fill_cells_length. }
  destruct (ascii_eqb c "X").
  { intros [= <- _]. cbn [cells set_cells]. apply fill_cells_length. }
  destruct (ascii_eqb c "L").
  { intros [= <- _]. cbn [cells set_cells]. rewrite clear_rows_length.
    destruct (0 <? _); [apply memmove_cells_length | reflexivity]. }
  destruct (ascii_eqb c "M").
  { intros [= <- _]. cbn [cells set_cells]. rewrite clear_rows_length.
    destruct (0 <? _); [apply memmove_cells_length | reflexivity]. }
  destruct (ascii_eqb c "n"); [destruct (_ && _)|]; intros [= <- _]; reflexivity.
Qed.

Lemma handle_escape_length vt c h v o :
  vterm_handle_escape vt c = Some (h, v, o) -> length (cells v) = length (cells vt).
Proof.
  unfold vterm_handle_escape.
  destruct (escape_state vt =? 0).
  { destruct (ascii_eqb c ESC); intros [= _ <- _]; reflexivity. }
  destruct (escape_state vt =? 1).
  { destruct (ascii_eqb c "["); [intros [= _ <- _]; reflexivity|].
    destruct (ascii_eqb c "D"); [intros [= _ <- _]; apply index_down_length|].
    destruct (ascii_eqb c "M"); [intros [= _ <- _]; apply reverse_index_length|].
    destruct (ascii_eqb c "E");
      [intros [= _ <- _]; apply (index_down_length (set_cursor_x vt 0))|].
    intros [= _ <- _]. reflexivity. }
  cbv zeta.
  assert (Hc : cells (escape_collect vt c) = cells vt).
  { unfold escape_collect. destruct (_ <? 31); reflexivity. }
  destruct (is_alpha c); [|intros [= _ <- _]; rewrite Hc; reflexivity].
  destruct (ascii_eqb _ "?"); [intros [= _ <- _]; cbn; rewrite Hc; reflexivity|].
  destruct (csi_dispatch _ c) as [[w o']|] eqn:E; [|discriminate].
  intros [= _ <- _]. cbn [escape_done cells set_escape_len set_escape_state].
  rewrite (csi_dispatch_length _ _ _ _ E). cbn. rewrite Hc. reflexivity.
Qed.

Lemma putchar_body_length vt c v o :
  putchar_body vt c = Some (v, o) -> length (cells v) = length (cells vt).
Proof.
  unfold putchar_body.
  destruct (vterm_handle_escape vt c) as [[[h w] o']|] eqn:E; [|discriminate].
  intros [= <- _]. cbn [cells set_dirty].
  rewrite <- (handle_escape_length _ _ _ _ _ E).
  destruct h; [reflexivity | apply putchar_internal_length].
Qed.

Lemma write_loop_length data : forall vt cx cy a e cptr rend out v o,
  write_loop data vt cx cy a e cptr rend out = Some (v, o) ->
  length (cells v) = length (cells vt).
Proof.
  induction data as [|c rest IH]; intros vt cx cy a e cptr rend out v o;
    cbn [write_loop].
  - intros [= <- _]. reflexivity.
  - destruct ((e =? 0) && is_printable c).
    + destruct (rend <=? cptr + 1); [destruct (VTERM_ROWS <=? int_add cy 1)|];
        intros H; apply IH in H; rewrite H; rewrite ?scroll_length;
        cbn [cells set_cells set_cursor_x set_cursor_y]; apply store_cell_length.
    + destruct (vterm_handle_escape _ c) as [[[h w] o']|] eqn:E; [|discriminate].
      apply handle_escape_length in E. cbn in E.
      destruct (_ || _); intros H; apply IH in H; rewrite H, <- E;
        destruct h; try reflexivity; apply putchar_internal_length.
Qed.

Lemma write_body_length vt data v o :
  write_body vt data = Some (v, o) -> length (cells v) = length (cells vt).
Proof. apply write_loop_length. Qed.

(** ** The buffer swap *)

(** A pool as [vterm_init] and the operations keep it: [VTERM_COUNT]
    sessions, every buffer one grid large, and the active session, and
    only it, pointing at the fast buffer. *)
Definition pool_ok (p : vterm_pool) : Prop :=
  Z.of_nat (length (s_vterms p)) = VTERM_COUNT /\
  0 <= s_active_vt p < VTERM_COUNT /\
  Z.of_nat (length (s_iram_buffer p)) = GRID_CELLS /\
  forall (k : nat) s, s_vterms p !! k = Some s ->
    Z.of_nat (length (cells (fields s))) = GRID_CELLS /\
    (cells_at s = IN_IRAM <-> Z.of_nat k = s_active_vt p).

Lemma valid_id_range k : valid_id k = true <-> 0 <= k < VTERM_COUNT.
Proof. unfold valid_id. rewrite andb_true_iff, Z.leb_le, Z.ltb_lt. tauto. Qed.

Lemma get_session_lookup p k s :
  get_session p k = Some s <-> 0 <= k /\ s_vterms p !! Z.to_nat k = Some s.
Proof.
  unfold get_session. destruct (Z.leb_spec 0 k); split; try tauto.
  - discriminate.
  - intros [? _]. lia.
Qed.

Lemma pool_ok_get p k :
  pool_ok p -> valid_id k = true -> exists s, get_session p k = Some s.
Proof.
  intros (Hn & _) Hk. apply valid_id_range in Hk.
  destruct (lookup_lt_is_Some_2 (s_vterms p) (Z.to_nat k) ltac:(lia)) as [s Hs].
  exists s. apply get_session_lookup. split; [lia | exact Hs].
Qed.

Lemma pool_ok_session p k s :
  pool_ok p -> get_session p k = Some s ->
  Z.of_nat (length (cells (fields s))) = GRID_CELLS /\
  (cells_at s = IN_IRAM <-> k = s_active_vt p).
Proof.
  intros (_ & _ & _ & H) Hs. apply get_session_lookup in Hs as [Hk Hs].
  destruct (H _ _ Hs) as [H1 H2]. split; [exact H1|].
  rewrite H2. rewrite Z2Nat.id by exact Hk. reflexivity.
Qed.

Lemma pool_ok_view_grid p k s : pool_ok p -> get_session p k = Some s -> grid_ok (view p s).
Proof.
  intros Hok Hs. destruct (pool_ok_session p k s Hok Hs) as [Hl _].
  destruct Hok as (_ & _ & Hi & _). unfold grid_ok, view.
  destruct (cells_at s); [exact Hi | exact Hl].
Qed.

Lemma pool_ok_put p k s s0 :
  pool_ok p -> get_session p k = Some s0 ->
  cells_at s = cells_at s0 ->
  Z.of_nat (length (cells (fields s))) = GRID_CELLS ->
  pool_ok (put_session p k s).
Proof.
  intros (Hn & Ha & Hi & H) Hs0 Hp Hl. apply get_session_lookup in Hs0 as [Hk Hs0].
  unfold pool_ok, put_session. cbn [s_vterms s_active_vt s_iram_buffer set_vterms].
  rewrite length_insert. do 3 (split; [assumption|]).
  intros j t Ht. destruct (Nat.eq_dec (Z.to_nat k) j) as [<-|Hne].
  - rewrite list_lookup_insert_eq in Ht by (eapply lookup_lt_Some, Hs0).
    injection Ht as <-. split; [exact Hl|]. rewrite Hp. apply (H _ _ Hs0).
  - rewrite list_lookup_insert_ne in Ht by exact Hne. apply (H _ _ Ht).
Qed.

Lemma pool_ok_set_iram p v :
  pool_ok p -> Z.of_nat (length v) = GRID_CELLS -> pool_ok (set_iram p v).
Proof.
  intros (Hn & Ha & Hi & H) Hv. unfold pool_ok.
  do 2 (split; [assumption|]). split; [exact Hv|]. exact H.
Qed.

Lemma pool_ok_store_view p k vt :
  pool_ok p -> Z.of_nat (length (cells vt)) = GRID_CELLS -> pool_ok (store_view p k vt).
Proof.
  intros Hok Hl. unfold store_view.
  destruct (get_session p k) as [s|] eqn:Hs; [|exact Hok].
  destruct (pool_ok_session p k s Hok Hs) as [Hls _].
  rewrite commit_as_put. unfold committed.
  destruct (cells_at s) eqn:E.
  - eapply pool_ok_put; [apply pool_ok_set_iram; eassumption | exact Hs | | ].
    + cbn. congruence.
    + cbn. exact Hls.
  - eapply pool_ok_put; [exact Hok | exact Hs | cbn; congruence | exact Hl].
Qed.

Lemma pool_ok_send p act c : pool_ok p -> pool_ok (vterm_send_input p act c).
Proof.
  intros Hok. rewrite send_input_as_put. destruct (valid_id act); [|exact Hok].
  destruct (get_session p act) as [s|] eqn:Hs; [|exact Hok].
  eapply pool_ok_put; [exact Hok | exact Hs | reflexivity|].
  apply (pool_ok_session p act s Hok Hs).
Qed.

Lemma pool_ok_send_all out : forall p act, pool_ok p -> pool_ok (send_all p act out).
Proof.
  induction out as [|c out IH]; intros p act Hok; [exact Hok|].
  unfold send_all in *. cbn [foldl]. apply IH, pool_ok_send, Hok.
Qed.

(** A write keeps the pool in order and touches no other session. *)
Lemma vterm_write_pool p i d p' :
  pool_ok p -> valid_id i = true -> vterm_write p i d = Some p' ->
  pool_ok p' /\
  forall k, valid_id k = true -> k <> i -> session_view p' k = session_view p k.
Proof.
  intros Hok Hi Hw. destruct (pool_ok_get p i Hok Hi) as [s Hs].
  rewrite (vterm_write_store p i d s Hi Hs) in Hw.
  destruct (write_body (view p s) d) as [[vt out]|] eqn:Hb; [|discriminate].
  injection Hw as <-.
  pose proof (write_body_length _ _ _ _ Hb) as Hl.
  pose proof (pool_ok_view_grid p i s Hok Hs) as Hg. unfold grid_ok in Hg.
  split.
  - apply pool_ok_send_all, pool_ok_store_view; [exact Hok | lia].
  - intros k Hk Hne. rewrite view_send_all.
    destruct (pool_ok_get p k Hok Hk) as [sk Hsk].
    apply (view_store_view_other p i vt k s sk Hs Hsk); [congruence|].
    intros Hx. destruct (pool_ok_session p i s Hok Hs) as [_ [Hia _]].
    destruct (pool_ok_session p k sk Hok Hsk) as [_ [Hka _]].
    destruct (cells_at sk); [|reflexivity].
    specialize (Hia Hx). specialize (Hka eq_refl). congruence.
Qed.

(** What a write leaves in the addressed session depends on that session
    alone. *)
Lemma vterm_write_congr p q i d :
  pool_ok p -> pool_ok q -> valid_id i = true ->
  session_view p i = session_view q i ->
  match vterm_write p i d, vterm_write q i d with
  | Some p', Some q' => session_view p' i = session_view q' i
  | None, None => True
  | _, _ => False
  end.
Proof.
  intros Hp Hq Hi Hv.
  destruct (pool_ok_get p i Hp Hi) as [s Hs]. destruct (pool_ok_get q i Hq Hi) as [t Ht].
  rewrite (vterm_write_store p i d s Hi Hs), (vterm_write_store q i d t Hi Ht).
  unfold session_view in Hv. rewrite Hs, Ht in Hv. injection Hv as ->.
  destruct (write_body (view q t) d) as [[vt out]|]; [|exact I].
  rewrite !view_send_all.
  rewrite (view_store_view p i vt s Hs), (view_store_view q i vt t Ht). reflexivity.
Qed.

Lemma memcpy_cells_grid dst src :
  Z.of_nat (length dst) = GRID_CELLS -> Z.of_nat (length src) = GRID_CELLS ->
  memcpy_cells dst src GRID_CELLS = src.
Proof.
  intros Hd Hs. rewrite <- Hs at 1. apply memcpy_cells_all. lia.
Qed.

(** The pool [vterm_switch] builds when it does swap. *)
Definition swapped (p : vterm_pool) (vt_id : Z) (old_vt new_vt : session) : vterm_pool :=
  set_active
    (put_session
       (put_session (set_iram p (cells (fields new_vt))) (s_active_vt p)
          (Session IN_STORAGE (set_cells (fields old_vt) (s_iram_buffer p))
             (input_queue old_vt)))
       vt_id (Session IN_IRAM (fields new_vt) (input_queue new_vt)))
    vt_id.

Lemma vterm_switch_swapped p j :
  pool_ok p -> valid_id j = true -> j <> s_active_vt p ->
  exists old_vt new_vt,
    get_session p (s_active_vt p) = Some old_vt /\ get_session p j = Some new_vt /\
    vterm_switch p j =
    (if s_on_switch_cb p
     then set_calls (swapped p j old_vt new_vt) (calls p ++ [SwitchCb j])
     else swapped p j old_vt new_vt).
Proof.
  intros Hok Hj Hne. pose proof Hok as (Hn & Ha & Hi & _).
  assert (Hav : valid_id (s_active_vt p) = true) by (apply valid_id_range; exact Ha).
  destruct (pool_ok_get p _ Hok Hav) as [old_vt Ho].
  destruct (pool_ok_get p j Hok Hj) as [new_vt Hnw].
  exists old_vt, new_vt. split; [exact Ho|]. split; [exact Hnw|].
  destruct (pool_ok_session p _ _ Hok Ho) as [Hlo _].
  destruct (pool_ok_session p _ _ Hok Hnw) as [Hln _].
  unfold vterm_switch. apply valid_id_range in Hj.
  destruct (Z.ltb_spec j 0); [lia|]. destruct (Z.leb_spec VTERM_COUNT j); [lia|].
  cbn [orb]. destruct (Z.eqb_spec j (s_active_vt p)); [contradiction|].
  rewrite Ho, Hnw.
  rewrite (memcpy_cells_grid _ _ Hlo Hi), (memcpy_cells_grid _ _ Hi Hln).
  reflexivity.
Qed.

Lemma session_view_set_calls p v k : session_view (set_calls p v) k = session_view p k.
Proof. reflexivity. Qed.

Lemma session_view_set_active p v k : session_view (set_active p v) k = session_view p k.
Proof. reflexivity. Qed.

Lemma pool_ok_set_calls p v : pool_ok p -> pool_ok (set_calls p v).
Proof. intros H. exact H. Qed.

Lemma swapped_views p j old_vt new_vt :
  pool_ok p -> valid_id j = true -> j <> s_active_vt p ->
  get_session p (s_active_vt p) = Some old_vt -> get_session p j = Some new_vt ->
  forall k, session_view (swapped p j old_vt new_vt) k = session_view p k.
Proof.
  intros Hok Hj Hne Ho Hnw k. pose proof Hok as (Hn & Ha & Hi & _).
  apply valid_id_range in Hj.
  destruct (pool_ok_session p _ _ Hok Ho) as [_ [_ Hoi]].
  destruct (pool_ok_session p _ _ Hok Hnw) as [_ [Hni _]].
  assert (Hns : cells_at new_vt = IN_STORAGE).
  { destruct (cells_at new_vt); [|reflexivity]. specialize (Hni eq_refl). contradiction. }
  unfold swapped. rewrite session_view_set_active. unfold session_view.
  destruct (Z.eq_dec k j) as [->|Hkj].
  - erewrite get_put_eq.
    2:{ rewrite get_put_ne by lia. rewrite get_session_set_iram. exact Hnw. }
    rewrite Hnw. unfold view. cbn [cells_at fields]. rewrite Hns.
    cbn [s_iram_buffer put_session set_vterms set_iram].
    rewrite set_cells_self. reflexivity.
  - destruct (Z.le_gt_cases 0 k) as [Hk|Hk].
    2:{ unfold get_session. destruct (Z.leb_spec 0 k); [lia|reflexivity]. }
    rewrite get_put_ne by lia.
    destruct (Z.eq_dec k (s_active_vt p)) as [->|Hka].
    + erewrite get_put_eq by (rewrite get_session_set_iram; exact Ho).
      rewrite Ho. unfold view. cbn [cells_at fields]. rewrite (Hoi eq_refl).
      reflexivity.
    + rewrite get_put_ne by lia. rewrite get_session_set_iram.
      destruct (get_session p k) as [s|] eqn:Hs; [|reflexivity].
      destruct (pool_ok_session p _ _ Hok Hs) as [_ [Hsi _]].
      unfold view. destruct (cells_at s); [specialize (Hsi eq_refl); contradiction|].
      reflexivity.
Qed.

Lemma swapped_ok p j old_vt new_vt :
  pool_ok p -> valid_id j = true -> j <> s_active_vt p ->
  get_session p (s_active_vt p) = Some old_vt -> get_session p j = Some new_vt ->
  pool_ok (swapped p j old_vt new_vt).
Proof.
  intros Hok Hj Hne Ho Hnw. pose proof Hok as (Hn & Ha & Hi & Hall).
  destruct (pool_ok_session p _ _ Hok Ho) as [Hlo _].
  destruct (pool_ok_session p _ _ Hok Hnw) as [Hln _].
  apply get_session_lookup in Ho as [_ Ho]. apply get_session_lookup in Hnw as [Hj0 Hnw].
  apply valid_id_range in Hj.
  unfold pool_ok, swapped, put_session.
  cbn [s_vterms s_active_vt s_iram_buffer set_vterms set_iram set_active].
  rewrite !length_insert. split; [exact Hn|]. split; [exact Hj|]. split; [exact Hln|].
  intros k s Hs.
  destruct (Nat.eq_dec (Z.to_nat j) k) as [<-|Hkj].
  - rewrite list_lookup_insert_eq in Hs
      by (rewrite length_insert; eapply lookup_lt_Some, Hnw).
    injection Hs as <-. cbn. split; [exact Hln|]. split; intros _; [lia|reflexivity].
  - rewrite list_lookup_insert_ne in Hs by exact Hkj.
    destruct (Nat.eq_dec (Z.to_nat (s_active_vt p)) k) as [<-|Hka].
    + rewrite list_lookup_insert_eq in Hs by (eapply lookup_lt_Some, Ho).
      injection Hs as <-. cbn. split; [exact Hi|]. split; [discriminate|lia].
    + rewrite list_lookup_insert_ne in Hs by exact Hka.
      destruct (Hall _ _ Hs) as [Hl Hiff]. split; [exact Hl|].
      rewrite Hiff. split; intros; lia.
Qed.

(** A switch moves no content: every session shows what it showed. *)
Lemma vterm_switch_views p j :
  pool_ok p -> valid_id j = true ->
  pool_ok (vterm_switch p j) /\ s_active_vt (vterm_switch p j) = j /\
  forall k, session_view (vterm_switch p j) k = session_view p k.
Proof.
  intros Hok Hj. destruct (Z.eq_dec j (s_active_vt p)) as [E|Hne].
  - assert (Hsame : vterm_switch p j = p).
    { unfold vterm_switch. apply valid_id_range in Hj.
      destruct (Z.ltb_spec j 0); [lia|]. destruct (Z.leb_spec VTERM_COUNT j); [lia|].
      cbn [orb]. destruct (Z.eqb_spec j (s_active_vt p)); [reflexivity|contradiction]. }
    rewrite Hsame. auto.
  - destruct (vterm_switch_swapped p j Hok Hj Hne) as (o & n & Ho & Hn & ->).
    pose proof (swapped_ok p j o n Hok Hj Hne Ho Hn) as Hok'.
    pose proof (swapped_views p j o n Hok Hj Hne Ho Hn) as Hv.
    destruct (s_on_switch_cb p); (split; [exact Hok'|split; [reflexivity|exact Hv]]).
Qed.

Lemma pool_ok_init : pool_ok vterm_init.
Proof.
  pose proof fresh_fields_grid as Hf. unfold grid_ok in Hf.
  unfold pool_ok, vterm_init.
  cbn [s_vterms s_active_vt s_iram_buffer]. split; [reflexivity|].
  split; [unfold VTERM_COUNT; lia|]. split.
  - rewrite memcpy_cells_length, length_replicate. rewrite grid_cells_value. lia.
  - revert Hf. generalize fresh_fields. intros f Hf k s Hs.
    destruct k as [|[|[|[|k]]]]; cbn [lookup list_lookup] in Hs; try discriminate Hs;
      injection Hs as <-; cbn [fields cells_at]; (split; [exact Hf|]);
      split; intros H; try discriminate H; try reflexivity; lia.
Qed.

(** Printable bytes written to an idle session whose cursor is in the
    grid: the run stays in the grid, the call returns, the bytes are on the
    session's grid as [typed_into] says, the session is again idle with its
    cursor in the grid, and the other sessions and the active one are as
    before. *)
Lemma printable_write_on_pool p i v data :
  pool_ok p -> valid_id i = true -> session_view p i = Some v ->
  cursor_ok v -> escape_state v = 0 ->
  Forall (fun c => is_printable c = true) data ->
  stays_in_grid_at p i data = true /\
  exists p1 v1,
    vterm_write p i data = Some p1 /\ pool_ok p1 /\
    session_view p1 i = Some v1 /\ cursor_ok v1 /\ escape_state v1 = 0 /\
    (forall k, valid_id k = true -> k <> i -> session_view p1 k = session_view p k) /\
    typed_into v v1 data /\ s_active_vt p1 = s_active_vt p.
Proof.
  intros Hok Hi Hv Hc He Hp.
  destruct (session_view_get _ _ _ Hv) as (s & Hs & Hview). subst v.
  pose proof (pool_ok_view_grid p i s Hok Hs) as Hg.
  pose proof (printable_stays_in_grid data (view p s) Hc Hg He Hp) as Hstay.
  split; [rewrite (stays_in_grid_at_view p i s data Hs); exact Hstay|].
  destruct (printable_run_typed (view p s) data [] Hc Hg He Hp) as (vt' & Hrun & Ht).
  assert (Hw : vterm_write p i data
               = Some (send_all (store_view p i (nd vt')) (s_active_vt p) [])).
  { rewrite (vterm_write_store p i data s Hi Hs).
    rewrite (write_body_putchar_seq _ _ Hstay), Hrun. reflexivity. }
  destruct (vterm_write_pool p i data _ Hok Hi Hw) as (Hok1 & Hoth).
  pose proof Ht as (Hc' & _ & _ & _ & He' & _).
  eexists. exists (nd vt'). split; [exact Hw|]. split; [exact Hok1|].
  split; [rewrite view_send_all; eapply view_store_view, Hs|].
  split; [exact Hc'|]. split; [exact He'|]. split; [exact Hoth|].
  split; [exact Ht|]. rewrite active_send_all. apply active_store_view.
Qed.

Lemma printable_AB : Forall (fun c => is_printable c = true) (str "AB").
Proof. repeat constructor. Qed.

Lemma printable_xy : Forall (fun c => is_printable c = true) (str "xy").
Proof. repeat constructor. Qed.

Lemma fresh_fields_cursor : cursor_ok fresh_fields.
Proof. apply in_grid_cursor_ok. reflexivity. Qed.

(** "AB" written to session 0 of the pool of [vterm_init]: the pool that
    results shows "A" in the first cell of session 0, which is still the
    active one, and session 1 is as [vterm_init] left it. *)
Lemma init_AB_written :
  stays_in_grid_at vterm_init 0 (str "AB") = true /\
  exists p v,
    vterm_write vterm_init 0 (str "AB") = Some p /\ pool_ok p /\ s_active_vt p = 0 /\
    session_view p 0 = Some v /\ cursor_ok v /\ escape_state v = 0 /\
    cells v !! 0%nat = Some (Cell "A" VTERM_DEFAULT_ATTR) /\
    session_view p 1 = Some fresh_fields.
Proof.
  assert (Hv0 : session_view vterm_init 0 = Some (view vterm_init session0))
    by reflexivity.
  destruct (printable_write_on_pool vterm_init 0 _ (str "AB") pool_ok_init eq_refl Hv0
              init_view0_cursor init_view0_idle printable_AB)
    as (Hin & p & v & Hw & Hok & Hv & Hc & He & Hoth & Ht & Hact).
  split; [exact Hin|]. exists p, v.
  split; [exact Hw|]. split; [exact Hok|]. split; [exact Hact|].
  split; [exact Hv|]. split; [exact Hc|]. split; [exact He|]. split.
  - destruct Ht as (_ & _ & _ & _ & _ & _ & Hns).
    exact (Hns ltac:(rewrite grid_cells_value; reflexivity) 0%nat).
  - rewrite (Hoth 1 eq_refl ltac:(discriminate)). reflexivity.
Qed.

(** C2: for distinct sessions i and j of a pool, switch(j) then switch(i)
    leaves every session's grid, cursor and attribute exactly as they
    were (session i's and session j's in particular) and makes i the
    active session; what is written to j in between is kept, and a write to
    i after the round trip leaves what the same write leaves without the
    switches, for any write made to i before.  The writes are those whose
    run keeps the cursor inside the grid. *)
Theorem switch_round_trip p i j :
  pool_ok p -> valid_id i = true -> valid_id j = true -> i <> j ->
  (forall k, session_view (vterm_switch (vterm_switch p j) i) k = session_view p k) /\
  s_active_vt (vterm_switch (vterm_switch p j) i) = i /\
  (forall dj pj,
      stays_in_grid_at (vterm_switch p j) j dj = true ->
      vterm_write (vterm_switch p j) j dj = Some pj ->
      session_view (vterm_switch pj i) i = session_view p i /\
      session_view (vterm_switch pj i) j = session_view pj j) /\
  (forall d1 d2 p1,
      stays_in_grid_at p i d1 = true ->
      vterm_write p i d1 = Some p1 ->
      stays_in_grid_at p1 i d2 = true ->
      let q := vterm_switch (vterm_switch p1 j) i in
      (forall k, session_view q k = session_view p1 k) /\
      match vterm_write q i d2, vterm_write p1 i d2 with
      | Some r, Some r0 =>
          forall k, valid_id k = true -> session_view r k = session_view r0 k
      | None, None => True
      | _, _ => False
      end).
Proof.
  intros Hok Hi Hj Hne.
  destruct (vterm_switch_views p j Hok Hj) as (Hok1 & Ha1 & Hv1).
  destruct (vterm_switch_views _ i Hok1 Hi) as (Hok2 & Ha2 & Hv2).
  split; [intros k; rewrite Hv2; apply Hv1|]. split; [exact Ha2|]. split.
  - intros dj pj _ Hw.
    destruct (vterm_write_pool _ j dj pj Hok1 Hj Hw) as (Hokj & Hother).
    destruct (vterm_switch_views pj i Hokj Hi) as (_ & _ & Hv3).
    rewrite !Hv3. split; [|reflexivity].
    rewrite (Hother i Hi Hne). apply Hv1.
  - intros d1 d2 p1 _ Hw _. cbv zeta.
    destruct (vterm_write_pool p i d1 p1 Hok Hi Hw) as (Hokp1 & _).
    destruct (vterm_switch_views p1 j Hokp1 Hj) as (Hok3 & _ & Hv3).
    destruct (vterm_switch_views _ i Hok3 Hi) as (Hok4 & _ & Hv4).
    set (q := vterm_switch (vterm_switch p1 j) i) in *.
    assert (Hq : forall k, session_view q k = session_view p1 k)
      by (intros k; rewrite Hv4; apply Hv3).
    split; [exact Hq|].
    pose proof (vterm_write_congr q p1 i d2 Hok4 Hokp1 Hi (Hq i)) as Hc.
    destruct (vterm_write q i d2) as [r|] eqn:Hr;
      destruct (vterm_write p1 i d2) as [r0|] eqn:Hr0; try exact Hc.
    intros k Hk. destruct (Z.eq_dec k i) as [->|Hki]; [exact Hc|].
    destruct (vterm_write_pool q i d2 r Hok4 Hi Hr) as (_ & Ho1).
    destruct (vterm_write_pool p1 i d2 r0 Hokp1 Hi Hr0) as (_ & Ho2).
    rewrite (Ho1 k Hk Hki), (Ho2 k Hk Hki). apply Hq.
Qed.

(** Session 0 of the pool of [vterm_init] shows "AB"; "xy" is written to
    session 1 while it is the active one, and "C", then "!" to session 0
    without and with the round trip. *)
Lemma switch_round_trip_witness :
  exists p v pj p1 r r0,
    vterm_write vterm_init 0 (str "AB") = Some p /\
    session_view p 0 = Some v /\
    cells v !! 0%nat = Some (Cell "A" VTERM_DEFAULT_ATTR) /\
    (forall k, session_view (vterm_switch (vterm_switch p 1) 0) k = session_view p k) /\
    s_active_vt (vterm_switch (vterm_switch p 1) 0) = 0 /\
    vterm_write (vterm_switch p 1) 1 (str "xy") = Some pj /\
    session_view (vterm_switch pj 0) 0 = session_view p 0 /\
    session_view (vterm_switch pj 0) 1 = session_view pj 1 /\
    vterm_write p 0 (str "C") = Some p1 /\
    vterm_write (vterm_switch (vterm_switch p1 1) 0) 0 (str "!") = Some r /\
    vterm_write p1 0 (str "!") = Some r0 /\
    forall k, valid_id k = true -> session_view r k = session_view r0 k.
Proof.
  destruct init_AB_written as (_ & p & v & Hw & Hok & _ & Hv & Hc & He & HA & Hp1).
  destruct (switch_round_trip p 0 1 Hok eq_refl eq_refl ltac:(discriminate))
    as (R1 & R2 & R3 & R4).
  destruct (vterm_switch_views p 1 Hok eq_refl) as (Hok1 & _ & Hv1).
  assert (Hs1 : session_view (vterm_switch p 1) 1 = Some fresh_fields).
  { rewrite Hv1. exact Hp1. }
  destruct (printable_write_on_pool (vterm_switch p 1) 1 fresh_fields (str "xy") Hok1
              eq_refl Hs1 fresh_fields_cursor eq_refl printable_xy)
    as (Hin1 & pj & vj & Hwj & _).
  destruct (R3 (str "xy") pj Hin1 Hwj) as [A B].
  destruct (printable_write_on_pool p 0 v (str "C") Hok eq_refl Hv Hc He
              ltac:(repeat constructor))
    as (Hin0 & p1 & v1 & Hw1 & Hokp1 & Hvp1 & Hc1 & He1 & _).
  destruct (printable_write_on_pool p1 0 v1 (str "!") Hokp1 eq_refl Hvp1 Hc1 He1
              ltac:(repeat constructor))
    as (Hin2 & r0 & _ & Hwr0 & _).
  pose proof (R4 (str "C") (str "!") p1 Hin0 Hw1 Hin2) as Q. cbv zeta in Q.
  destruct Q as [_ Q].
  destruct (vterm_write (vterm_switch (vterm_switch p1 1) 0) 0 (str "!")) as [r|] eqn:Hr;
    rewrite Hwr0 in Q; [|contradiction].
  exists p, v, pj, p1, r, r0.
  split; [exact Hw|]. split; [exact Hv|]. split; [exact HA|].
  split; [exact R1|]. split; [exact R2|]. split; [exact Hwj|].
  split; [exact A|]. split; [exact B|]. split; [exact Hw1|].
  split; [exact Hr|]. split; [exact Hwr0|]. exact Q.
Defined.

(** ** Collecting a CSI sequence *)

Lemma store_char_nat buf (n : nat) c : store_char buf (Z.of_nat n) c = <[n := c]> buf.
Proof.
  unfold store_char. destruct (Z.leb_spec 0 (Z.of_nat n)); [|lia].
  rewrite Nat2Z.id. reflexivity.
Qed.

Lemma store_char_length buf i c : length (store_char buf i c) = length buf.
Proof. unfold store_char. destruct (0 <=? i); [apply length_insert | reflexivity]. Qed.

(** The state [escape_collect] leaves after one more byte. *)
Lemma escape_collect_step vt c (n : nat) :
  length (escape_buf vt) = 32%nat -> escape_len vt = Z.of_nat n -> (n < 31)%nat ->
  let vt' := escape_collect vt c in
  cells vt' = cells vt /\ cursor_x vt' = cursor_x vt /\ cursor_y vt' = cursor_y vt /\
  current_attr vt' = current_attr vt /\ escape_state vt' = escape_state vt /\
  length (escape_buf vt') = 32%nat /\ escape_len vt' = Z.of_nat (S n) /\
  take (S n) (escape_buf vt') = take n (escape_buf vt) ++ [c].
Proof.
  intros Hl Hn Hlt. cbv zeta. unfold escape_collect. rewrite Hn.
  destruct (Z.ltb_spec (Z.of_nat n) 31); [|lia].
  cbn [cells cursor_x cursor_y current_attr escape_state escape_buf escape_len
       set_escape_buf set_escape_len].
  rewrite Hn. rewrite int_add_small by (unfold INT_MIN, INT_MAX; lia).
  replace (Z.of_nat n + 1) with (Z.of_nat (S n)) by lia.
  rewrite !store_char_nat.
  do 5 (split; [reflexivity|]). split; [rewrite !length_insert; exact Hl|].
  split; [reflexivity|].
  rewrite take_insert_ge by lia.
  erewrite take_S_r by (apply list_lookup_insert_eq; lia).
  rewrite take_insert_ge by lia. reflexivity.
Qed.

(** Parameter bytes of a CSI sequence are appended to [escape_buf]. *)
Lemma collect_run s : forall vt out (n : nat),
  escape_state vt = 2 -> length (escape_buf vt) = 32%nat ->
  escape_len vt = Z.of_nat n -> (n + length s <= 31)%nat ->
  Forall (fun c => is_alpha c = false) s ->
  exists vt',
    putchar_seq vt s out = Some (vt', out) /\
    cells vt' = cells vt /\ cursor_x vt' = cursor_x vt /\ cursor_y vt' = cursor_y vt /\
    current_attr vt' = current_attr vt /\ escape_state vt' = 2 /\
    length (escape_buf vt') = 32%nat /\ escape_len vt' = Z.of_nat (n + length s) /\
    take (n + length s) (escape_buf vt') = take n (escape_buf vt) ++ s.
Proof.
  induction s as [|c s IH]; intros vt out n Hs Hl Hn Hfit Hna.
  - exists vt. cbn [putchar_seq length]. rewrite Nat.add_0_r, app_nil_r.
    repeat split; assumption.
  - inversion Hna as [|? ? Hc Hrest]; subst. cbn [length] in Hfit.
    destruct (escape_collect_step vt c n Hl Hn ltac:(lia))
      as (C1 & C2 & C3 & C4 & C5 & C6 & C7 & C8).
    assert (Hb : putchar_body vt c = Some (set_dirty (escape_collect vt c) 1, [])).
    { unfold putchar_body, vterm_handle_escape. rewrite Hs. cbn [Z.eqb].
      cbv zeta. rewrite Hc. reflexivity. }
    cbn [putchar_seq]. rewrite Hb, app_nil_r.
    destruct (IH (set_dirty (escape_collect vt c) 1) out (S n))
      as (vt' & Hrun & D1 & D2 & D3 & D4 & D5 & D6 & D7 & D8);
      try assumption.
    + cbn [escape_state set_dirty]. congruence.
    + lia.
    + exists vt'. cbn [cells cursor_x cursor_y current_attr escape_buf set_dirty] in *.
      cbn [length]. replace (n + S (length s))%nat with (S n + length s)%nat by lia.
      split; [exact Hrun|]. do 4 (split; [congruence|]).
      split; [exact D5|]. split; [exact D6|]. split; [exact D7|].
      rewrite D8, C8, <- app_assoc. reflexivity.
Qed.

(** The final byte: the dispatcher sees the collected parameters as a C
    string. *)
Lemma final_byte_buffer vt f (n : nat) :
  length (escape_buf vt) = 32%nat -> escape_len vt = Z.of_nat n -> (n < 31)%nat ->
  let vt' := escape_cut (escape_collect vt f) in
  cells vt' = cells vt /\ cursor_x vt' = cursor_x vt /\ cursor_y vt' = cursor_y vt /\
  current_attr vt' = current_attr vt /\
  length (escape_buf vt') = 32%nat /\
  exists rest, escape_buf vt' = take n (escape_buf vt) ++ NUL :: rest.
Proof.
  intros Hl Hn Hlt.
  destruct (escape_collect_step vt f n Hl Hn Hlt) as (C1 & C2 & C3 & C4 & C5 & C6 & C7 & C8).
  cbv zeta. unfold escape_cut.
  cbn [cells cursor_x cursor_y current_attr escape_buf set_escape_buf].
  do 4 (split; [assumption|]).
  split; [rewrite store_char_length; exact C6|].
  rewrite C7. replace (Z.of_nat (S n) - 1) with (Z.of_nat n) by lia.
  rewrite store_char_nat.
  set (b := escape_buf (escape_collect vt f)) in *.
  exists (drop (S n) (<[n := NUL]> b)).
  rewrite <- (take_drop n (<[n := NUL]> b)) at 1.
  rewrite take_insert_ge by lia.
  rewrite (drop_S (<[n := NUL]> b) NUL n) by (apply list_lookup_insert_eq; lia).
  f_equal.
  assert (E : take n (take (S n) b) = take n (take n (escape_buf vt) ++ [f])) by (rewrite C8; reflexivity).
  rewrite take_take, Nat.min_l in E by lia.
  rewrite take_app_le in E by (rewrite length_take; lia).
  rewrite take_take, Nat.min_id in E. exact E.
Qed.

Lemma c_string_app s rest :
  Forall (fun c => c <> NUL) s -> c_string (s ++ NUL :: rest) = s.
Proof.
  induction 1 as [|c s Hc _ IH]; cbn [c_string app].
  - reflexivity.
  - unfold ascii_eqb. destruct (Ascii.eqb_spec c NUL); [contradiction|].
    rewrite IH. reflexivity.
Qed.

Lemma char_at_app s rest (k : nat) :
  char_at (s ++ NUL :: rest) (Z.of_nat k) = nth k (s ++ NUL :: rest) NUL.
Proof.
  unfold char_at. destruct (Z.leb_spec 0 (Z.of_nat k)); [|lia].
  rewrite Nat2Z.id. reflexivity.
Qed.

(** A complete sequence ESC [ params final, fed to an idle session: the
    dispatcher runs on the session with [params] in its buffer. *)
Lemma csi_sequence vt params f out :
  escape_state vt = 0 -> length (escape_buf vt) = 32%nat ->
  (length params <= 30)%nat ->
  Forall (fun c => is_alpha c = false) params ->
  is_alpha f = true ->
  exists vt2 rest,
    cells vt2 = cells vt /\ cursor_x vt2 = cursor_x vt /\ cursor_y vt2 = cursor_y vt /\
    current_attr vt2 = current_attr vt /\
    length (escape_buf vt2) = 32%nat /\
    escape_buf vt2 = params ++ NUL :: rest /\
    putchar_seq vt (ESC :: "["%char :: params ++ [f]) out =
    if ascii_eqb (nth 0 (params ++ NUL :: rest) NUL) "?"
    then Some (set_dirty (escape_done vt2) 1, out)
    else match csi_dispatch vt2 f with
         | Some (v, o) => Some (set_dirty (escape_done v) 1, out ++ o)
         | None => None
         end.
Proof.
  intros Hs Hl Hfit Hna Hf.
  set (vt1 := set_dirty (set_escape_state
                (set_dirty (set_escape_len (set_escape_state vt 1) 0) 1) 2) 1).
  assert (Hstart : forall tail,
             putchar_seq vt (ESC :: "["%char :: tail) out = putchar_seq vt1 tail out).
  { intros tail.
    assert (Hb1 : putchar_body vt ESC
                  = Some (set_dirty (set_escape_len (set_escape_state vt 1) 0) 1, [])).
    { unfold putchar_body, vterm_handle_escape. rewrite Hs. reflexivity. }
    assert (Hb2 : putchar_body (set_dirty (set_escape_len (set_escape_state vt 1) 0) 1)
                    "["%char = Some (vt1, [])) by reflexivity.
    cbn [putchar_seq]. rewrite Hb1, app_nil_r, Hb2, app_nil_r. reflexivity. }
  rewrite Hstart.
  destruct (collect_run params vt1 out 0) as (vt' & Hrun & D1 & D2 & D3 & D4 & D5 & D6 & D7 & D8);
    try reflexivity; try assumption; try (cbn; lia).
  cbn [Nat.add] in D7, D8. rewrite take_0 in D8. cbn [app] in D8.
  destruct (final_byte_buffer vt' f (length params) D6 D7 ltac:(lia))
    as (F1 & F2 & F3 & F4 & F6 & rest & F5).
  rewrite D8 in F5.
  exists (escape_cut (escape_collect vt' f)), rest.
  split; [rewrite F1, D1; reflexivity|]. split; [rewrite F2, D2; reflexivity|].
  split; [rewrite F3, D3; reflexivity|]. split; [rewrite F4, D4; reflexivity|].
  split; [exact F6|]. split; [exact F5|].
  assert (Happ : forall v o tl, putchar_seq v (params ++ tl) o =
                   match putchar_seq v params o with
                   | Some (v', o') => putchar_seq v' tl o'
                   | None => None
                   end).
  { clear. induction params as [|c s IH]; intros v o tl; [reflexivity|].
    cbn [putchar_seq app]. destruct (putchar_body v c) as [[w o']|]; [apply IH|reflexivity]. }
  set (vt2 := escape_cut (escape_collect vt' f)) in *.
  assert (Hfin : putchar_body vt' f =
                 if ascii_eqb (nth 0 (params ++ NUL :: rest) NUL) "?"
                 then Some (set_dirty (escape_done vt2) 1, [])
                 else match csi_dispatch vt2 f with
                      | Some (v, o) => Some (set_dirty (escape_done v) 1, o)
                      | None => None
                      end).
  { unfold putchar_body, vterm_handle_escape. rewrite D5.
    change (2 =? 0) with false. change (2 =? 1) with false. cbv iota zeta.
    rewrite Hf. fold vt2. rewrite F5, <- (char_at_app params rest 0).
    change (Z.of_nat 0) with 0.
    destruct (ascii_eqb (char_at (params ++ NUL :: rest) 0) "?"); [reflexivity|].
    destruct (csi_dispatch vt2 f) as [[v o]|]; reflexivity. }
  rewrite Happ, Hrun. cbn [putchar_seq]. rewrite Hfin.
  destruct (ascii_eqb (nth 0 (params ++ NUL :: rest) NUL) "?");
    [rewrite app_nil_r; reflexivity|].
  destruct (csi_dispatch vt2 f) as [[v o]|]; reflexivity.
Qed.

(** ** SGR sequences *)

(** Parameter text that fits the collecting buffer, holds no final byte
    and no NUL, and does not start a private-mode sequence. *)
Definition csi_params_ok (params : list ascii) : bool :=
  (Z.of_nat (length params) <=? 30)
  && forallb (fun c => negb (is_alpha c) && negb (ascii_eqb c NUL)) params
  && negb (ascii_eqb (nth 0 params NUL) "?").

Lemma csi_params_ok_spec params :
  csi_params_ok params = true ->
  (length params <= 30)%nat /\
  Forall (fun c => is_alpha c = false) params /\
  Forall (fun c => c <> NUL) params /\
  forall rest, ascii_eqb (nth 0 (params ++ NUL :: rest) NUL) "?" = false.
Proof.
  unfold csi_params_ok. rewrite !andb_true_iff, forallb_forall.
  intros [[Hl Hall] Hq]. apply Z.leb_le in Hl.
  split; [lia|]. split; [|split].
  - apply List.Forall_forall. intros c Hc. specialize (Hall c Hc).
    apply andb_true_iff in Hall as [Ha _]. destruct (is_alpha c); [discriminate|reflexivity].
  - apply List.Forall_forall. intros c Hc. specialize (Hall c Hc).
    apply andb_true_iff in Hall as [_ Hn]. intros ->.
    unfold ascii_eqb in Hn. rewrite Ascii.eqb_refl in Hn. discriminate.
  - intros rest. destruct params as [|c params]; [reflexivity|].
    cbn [nth app] in *. destruct (ascii_eqb c "?"); [discriminate|reflexivity].
Qed.

(** ESC [ params m *)
Definition sgr_sequence (params : list ascii) : list ascii :=
  ESC :: "["%char :: params ++ ["m"%char].

Lemma sgr_sequence_run vt params out a' :
  escape_state vt = 0 -> length (escape_buf vt) = 32%nat ->
  csi_params_ok params = true ->
  sgr_attr (current_attr vt) params = Some a' ->
  exists v,
    putchar_seq vt (sgr_sequence params) out = Some (v, out) /\
    cells v = cells vt /\ cursor_x v = cursor_x vt /\ cursor_y v = cursor_y vt /\
    current_attr v = a' /\ escape_state v = 0 /\ length (escape_buf v) = 32%nat.
Proof.
  intros Hs Hl Hok Ha.
  destruct (csi_params_ok_spec params Hok) as (Hfit & Hna & Hnn & Hq).
  destruct (csi_sequence vt params "m" out Hs Hl Hfit Hna eq_refl)
    as (vt2 & rest & E1 & E2 & E3 & E4 & E6 & E5 & Hrun).
  unfold sgr_sequence. rewrite Hrun, Hq.
  assert (Hd : csi_dispatch vt2 "m" = Some (set_current_attr vt2 a', [])).
  { unfold csi_dispatch. change (ascii_eqb "m" "m") with true. cbv iota.
    rewrite E5, (c_string_app _ _ Hnn). unfold vterm_apply_sgr. rewrite E4, Ha.
    reflexivity. }
  rewrite Hd, app_nil_r. eexists. split; [reflexivity|].
  cbn [cells cursor_x cursor_y current_attr escape_state escape_buf escape_done
       set_dirty set_escape_len set_escape_state set_current_attr].
  do 3 (split; [assumption|]). do 2 (split; [reflexivity|]). exact E6.
Qed.

Lemma putchar_seq_app d1 : forall vt out d2,
  putchar_seq vt (d1 ++ d2) out =
  match putchar_seq vt d1 out with
  | Some (v, o) => putchar_seq v d2 o
  | None => None
  end.
Proof.
  induction d1 as [|c d1 IH]; intros vt out d2; [reflexivity|].
  cbn [putchar_seq app]. destruct (putchar_body vt c) as [[w o]|]; [apply IH|reflexivity].
Qed.

(** The attribute after a series of SGR sequences, each given by its
    parameter text. *)
Fixpoint sgr_attrs (current : Z) (seqs : list (list ascii)) : option Z :=
  match seqs with
  | [] => Some current
  | params :: rest =>
      if csi_params_ok params then
        match sgr_attr current params with
        | Some a => sgr_attrs a rest
        | None => None
        end
      else None
  end.

Lemma sgr_sequences_run seqs : forall vt out a',
  escape_state vt = 0 -> length (escape_buf vt) = 32%nat ->
  sgr_attrs (current_attr vt) seqs = Some a' ->
  exists v,
    putchar_seq vt (concat (map sgr_sequence seqs)) out = Some (v, out) /\
    cells v = cells vt /\ cursor_x v = cursor_x vt /\ cursor_y v = cursor_y vt /\
    current_attr v = a' /\ escape_state v = 0.
Proof.
  induction seqs as [|params rest IH]; intros vt out a' Hs Hl Ha.
  - cbn in Ha. injection Ha as <-. exists vt. repeat split; assumption.
  - cbn [sgr_attrs] in Ha.
    destruct (csi_params_ok params) eqn:Hok; [|discriminate].
    destruct (sgr_attr (current_attr vt) params) as [a1|] eqn:Ha1; [|discriminate].
    destruct (sgr_sequence_run vt params out a1 Hs Hl Hok Ha1)
      as (v1 & Hrun1 & C1 & C2 & C3 & C4 & C5 & C6).
    rewrite <- C4 in Ha.
    destruct (IH v1 out a' C5 C6 Ha) as (v & Hrun & D1 & D2 & D3 & D4 & D5).
    exists v. cbn [map concat]. rewrite putchar_seq_app, Hrun1.
    split; [exact Hrun|]. repeat split; congruence.
Qed.

(** SGR sequences, then one printable byte: the cell under the cursor
    takes the byte with the attribute the sequences selected. *)
Lemma sgr_then_print vt seqs c a' :
  cursor_ok vt -> grid_ok vt -> escape_state vt = 0 ->
  length (escape_buf vt) = 32%nat -> lin vt + 1 < GRID_CELLS ->
  is_printable c = true ->
  sgr_attrs (current_attr vt) seqs = Some a' ->
  exists v,
    putchar_seq vt (concat (map sgr_sequence seqs) ++ [c]) [] = Some (v, []) /\
    cells v !! Z.to_nat (lin vt) = Some (Cell c a').
Proof.
  intros Hc Hg Hs Hl Hroom Hp Ha.
  destruct (sgr_sequences_run seqs vt [] a' Hs Hl Ha) as (v1 & Hrun & C1 & C2 & C3 & C4 & C5).
  assert (Hc1 : cursor_ok v1) by (unfold cursor_ok in *; rewrite C2, C3; exact Hc).
  assert (Hg1 : grid_ok v1) by (unfold grid_ok in *; rewrite C1; exact Hg).
  assert (Hlin : lin v1 = lin vt) by (unfold lin; rewrite C2, C3; reflexivity).
  rewrite putchar_seq_app, Hrun. cbn [putchar_seq].
  rewrite putchar_body_printable by assumption.
  eexists. split; [reflexivity|]. cbn [cells set_dirty].
  destruct (put_printable_step v1 c Hc1 Hg1) as (_ & _ & _ & _ & _ & _ & Hstep).
  rewrite Hlin in Hstep. destruct Hstep as [(_ & _ & ->) | (Heq & _)]; [|lia].
  rewrite C1, C4. apply store_cell_lookup_eq.
  pose proof (lin_bounds vt Hc). unfold grid_ok in Hg. lia.
Qed.

Definition bright_red_on_black : Z := VTERM_ATTR (Z.lor VTERM_RED VTERM_BRIGHT) VTERM_BLACK.
Definition red_on_black : Z := VTERM_ATTR VTERM_RED VTERM_BLACK.


(** ** Decimal text *)

Lemma digit_char_code d : 0 <= d <= 9 -> code (digit_char d) = 48 + d.
Proof.
  intros H.
  assert (E : d = 0 \/ d = 1 \/ d = 2 \/ d = 3 \/ d = 4 \/ d = 5 \/ d = 6 \/ d = 7
              \/ d = 8 \/ d = 9) by lia.
  repeat (destruct E as [->|E]; [reflexivity|]). subst d. reflexivity.
Qed.

Lemma digit_char_is_digit d : 0 <= d <= 9 -> is_digit (digit_char d) = true.
Proof.
  intros H. unfold is_digit. rewrite (digit_char_code d H).
  apply andb_true_iff. rewrite Z.leb_le, Z.leb_le. lia.
Qed.

Lemma mod10_digit n : 0 <= n mod 10 <= 9.
Proof. pose proof (Z.mod_pos_bound n 10 ltac:(lia)). lia. Qed.

(** The digits printed for [n] are read back as [n]. *)
Lemma digits_value_dec fuel : forall n acc a,
  0 <= n < 10 ^ (Z.of_nat fuel + 1) ->
  exists k, 0 <= k /\
    digits_value (dec_digits fuel n acc) a = digits_value acc (a * 10 ^ k + n).
Proof.
  induction fuel as [|fuel IH]; intros n acc a Hn.
  - cbn [dec_digits digits_value]. rewrite (digit_char_is_digit _ (mod10_digit n)).
    rewrite (digit_char_code _ (mod10_digit n)).
    exists 1. split; [lia|]. f_equal.
    change (10 ^ (Z.of_nat 0 + 1)) with 10 in Hn. rewrite Z.mod_small by lia. lia.
  - cbn [dec_digits]. destruct (Z.ltb_spec n 10) as [Hlt|Hge].
    + cbn [digits_value]. rewrite (digit_char_is_digit _ (mod10_digit n)).
      rewrite (digit_char_code _ (mod10_digit n)).
      exists 1. split; [lia|]. f_equal. rewrite Z.mod_small by lia. lia.
    + assert (Hq : 0 <= n / 10 < 10 ^ (Z.of_nat fuel + 1)).
      { split; [apply Z.div_pos; lia|].
        apply Z.div_lt_upper_bound; [lia|].
        replace (Z.of_nat (S fuel) + 1) with (Z.succ (Z.of_nat fuel + 1)) in Hn by lia.
        rewrite Z.pow_succ_r in Hn by lia. lia. }
      destruct (IH (n / 10) (digit_char (n mod 10) :: acc) a Hq) as (k & Hk & E).
      exists (k + 1). split; [lia|]. rewrite E. cbn [digits_value].
      rewrite (digit_char_is_digit _ (mod10_digit n)).
      rewrite (digit_char_code _ (mod10_digit n)). f_equal.
      rewrite Z.pow_add_r by lia. pose proof (Z.div_mod n 10 ltac:(lia)). lia.
Qed.

Lemma dec_digits_shape fuel : forall n acc,
  exists d ds, dec_digits fuel n acc = d :: ds ++ acc /\
               is_digit d = true /\ Forall (fun c => is_digit c = true) ds.
Proof.
  induction fuel as [|fuel IH]; intros n acc.
  - exists (digit_char (n mod 10)), []. cbn [dec_digits app].
    split; [reflexivity|]. split; [apply digit_char_is_digit, mod10_digit|constructor].
  - cbn [dec_digits]. destruct (n <? 10).
    + exists (digit_char (n mod 10)), []. cbn [app].
      split; [reflexivity|]. split; [apply digit_char_is_digit, mod10_digit|constructor].
    + destruct (IH (n / 10) (digit_char (n mod 10) :: acc)) as (d & ds & E & Hd & Hds).
      exists d, (ds ++ [digit_char (n mod 10)]). rewrite E, <- app_assoc.
      split; [reflexivity|]. split; [exact Hd|].
      apply Forall_app. split; [exact Hds|].
      constructor; [apply digit_char_is_digit, mod10_digit|constructor].
Qed.

Lemma log2_fuel n : 0 <= n -> n < 10 ^ (Z.of_nat (Z.to_nat (Z.log2 n)) + 1).
Proof.
  intros Hn. rewrite Z2Nat.id by apply Z.log2_nonneg.
  destruct (Z.eq_dec n 0) as [->|Hz]; [reflexivity|].
  pose proof (Z.log2_spec n ltac:(lia)) as [_ Hup].
  eapply Z.lt_le_trans; [exact Hup|].
  rewrite <- Z.add_1_r. apply Z.pow_le_mono_l.
  pose proof (Z.log2_nonneg n). lia.
Qed.

Lemma dec_digits_acc fuel : forall n acc,
  dec_digits fuel n acc = dec_digits fuel n [] ++ acc.
Proof.
  induction fuel as [|f IH]; intros n acc; cbn [dec_digits]; [reflexivity|].
  destruct (n <? 10); [reflexivity|].
  rewrite IH. rewrite (IH _ [digit_char (n mod 10)]). rewrite <- app_assoc. reflexivity.
Qed.

(** What [%d] reads from the decimal text of a positive number followed
    by a non-digit or the end of the string. *)
Lemma scan_int_dec n rest :
  0 <= n ->
  match rest with [] => True | c :: _ => is_digit c = false end ->
  scan_int (dec_chars n ++ rest) = Some (clamp_int n, rest).
Proof.
  intros Hn Hrest. unfold dec_chars. destruct (Z.ltb_spec n 0); [lia|].
  destruct (dec_digits_shape (Z.to_nat (Z.log2 n)) n []) as (d & ds & E & Hd & Hds).
  destruct (digits_value_dec (Z.to_nat (Z.log2 n)) n rest 0
              (conj Hn (log2_fuel n Hn))) as (k & Hk & Hv).
  rewrite dec_digits_acc in Hv. cbn [Z.mul Z.add] in Hv.
  rewrite E in *. cbn [app] in *.
  assert (Hd' : 48 <= code d <= 57).
  { unfold is_digit in Hd. apply andb_true_iff in Hd. rewrite !Z.leb_le in Hd. exact Hd. }
  unfold scan_int. cbn [skip_spaces].
  assert (Hsp : is_space d = false).
  { unfold is_space. case_cmp; try reflexivity; lia. }
  rewrite Hsp.
  rewrite (ascii_eqb_code_ne d "-") by (change (code "-") with 45; lia).
  rewrite (ascii_eqb_code_ne d "+") by (change (code "+") with 43; lia).
  rewrite Hd, Hv.
  destruct rest as [|c rest']; cbn [digits_value]; [reflexivity|].
  rewrite Hrest. reflexivity.
Qed.

Lemma dec_chars_digits n :
  0 <= n -> exists d ds, dec_chars n = d :: ds /\ is_digit d = true /\
                         Forall (fun c => is_digit c = true) ds.
Proof.
  intros Hn. unfold dec_chars. destruct (Z.ltb_spec n 0); [lia|].
  destruct (dec_digits_shape (Z.to_nat (Z.log2 n)) n []) as (d & ds & E & Hd & Hds).
  rewrite app_nil_r in E. exists d, ds. auto.
Qed.

Lemma digit_plain c :
  is_digit c = true -> is_alpha c = false /\ c <> NUL /\ ascii_eqb c "?" = false.
Proof.
  intros H. unfold is_digit in H. apply andb_true_iff in H. rewrite !Z.leb_le in H.
  split; [|split].
  - unfold is_alpha, is_upper, is_lower. case_cmp; try reflexivity; lia.
  - intros ->. change (code NUL) with 0 in H. lia.
  - apply ascii_eqb_code_ne. change (code "?") with 63. lia.
Qed.

Lemma sscanf_dec r c row col :
  0 <= r -> 0 <= c ->
  sscanf_row_col (dec_chars r ++ ";"%char :: dec_chars c) row col
  = (clamp_int r, clamp_int c).
Proof.
  intros Hr Hc. unfold sscanf_row_col.
  rewrite (scan_int_dec r (";"%char :: dec_chars c) Hr eq_refl).
  change (ascii_eqb ";" ";") with true. cbv iota.
  rewrite <- (app_nil_r (dec_chars c)), (scan_int_dec c [] Hc I). reflexivity.
Qed.

Lemma str_eqb_eq a : forall b, str_eqb a b = true -> a = b.
Proof.
  induction a as [|x a IH]; intros [|y b] H; cbn [str_eqb] in H;
    try discriminate; [reflexivity|].
  apply andb_true_iff in H as [Hx Hab]. unfold ascii_eqb in Hx.
  apply Ascii.eqb_eq in Hx. rewrite Hx, (IH b Hab). reflexivity.
Qed.

(** ** Cursor addressing *)

(** ESC [ r ; c H with both numbers in decimal. *)
Definition cup_params (r c : Z) : list ascii := dec_chars r ++ ";"%char :: dec_chars c.

Definition cup_sequence (r c : Z) : list ascii :=
  ESC :: "["%char :: cup_params r c ++ ["H"%char].

Lemma cup_params_plain r c :
  0 <= r -> 0 <= c ->
  Forall (fun a => is_alpha a = false) (cup_params r c) /\
  Forall (fun a => a <> NUL) (cup_params r c) /\
  (forall rest, ascii_eqb (nth 0 (cup_params r c ++ NUL :: rest) NUL) "?" = false) /\
  (forall rest, char_at (cup_params r c ++ NUL :: rest) 0 <> NUL).
Proof.
  intros Hr Hc. unfold cup_params.
  destruct (dec_chars_digits r Hr) as (d & ds & -> & Hd & Hds).
  destruct (dec_chars_digits c Hc) as (e & es & -> & He & Hes).
  assert (Hall : Forall (fun a => is_alpha a = false /\ a <> NUL)
                        ((d :: ds) ++ ";"%char :: e :: es)).
  { apply Forall_app. split.
    - constructor; [split; apply (digit_plain d Hd)|].
      eapply Forall_impl; [exact Hds|]. intros a Ha. split; apply (digit_plain a Ha).
    - constructor; [split; [reflexivity|discriminate]|].
      constructor; [split; apply (digit_plain e He)|].
      eapply Forall_impl; [exact Hes|]. intros a Ha. split; apply (digit_plain a Ha). }
  split; [eapply Forall_impl; [exact Hall|]; intros a Ha; apply Ha|].
  split; [eapply Forall_impl; [exact Hall|]; intros a Ha; apply Ha|].
  split; intros rest; cbn [app nth]; [apply (digit_plain d Hd)|].
  unfold char_at. cbn. apply (digit_plain d Hd).
Qed.

(** The sequence leaves the cursor on the addressed cell, each coordinate
    held inside the grid. *)
Lemma cup_sequence_run vt r c out :
  escape_state vt = 0 -> length (escape_buf vt) = 32%nat ->
  1 <= r -> 1 <= c -> (length (cup_params r c) <= 30)%nat ->
  exists v,
    putchar_seq vt (cup_sequence r c) out = Some (v, out) /\
    cells v = cells vt /\
    cursor_x v = Z.min c VTERM_COLS - 1 /\ cursor_y v = Z.min r VTERM_ROWS - 1 /\
    current_attr v = current_attr vt /\ escape_state v = 0 /\
    length (escape_buf v) = 32%nat.
Proof.
  intros Hs Hl Hr Hc Hfit.
  destruct (cup_params_plain r c ltac:(lia) ltac:(lia)) as (Hna & Hnn & Hq & H0).
  destruct (csi_sequence vt (cup_params r c) "H" out Hs Hl Hfit Hna eq_refl)
    as (vt2 & rest & E1 & E2 & E3 & E4 & E6 & E5 & Hrun).
  unfold cup_sequence. rewrite Hrun, Hq. clear Hrun.
  unfold csi_dispatch. change (ascii_eqb "H" "m") with false.
  change (ascii_eqb "H" "J") with false. change (ascii_eqb "H" "H") with true.
  cbv iota. cbn [orb]. rewrite E5, (c_string_app _ _ Hnn).
  specialize (H0 rest). unfold ascii_eqb at 1.
  destruct (Ascii.eqb_spec (char_at (cup_params r c ++ NUL :: rest) 0) NUL) as [|_];
    [contradiction|]. cbn [orb].
  pose proof (sscanf_dec r c 1 1 ltac:(lia) ltac:(lia)) as Hscan.
  fold (cup_params r c) in Hscan.
  assert (Hrow : clamp_int r = Z.min r INT_MAX)
    by (unfold clamp_int, INT_MIN, INT_MAX; lia).
  assert (Hcol : clamp_int c = Z.min c INT_MAX)
    by (unfold clamp_int, INT_MIN, INT_MAX; lia).
  destruct (str_eqb (cup_params r c) (str "1;1")) eqn:Hone.
  - apply str_eqb_eq in Hone. rewrite Hone in Hscan.
    assert (Hv : (1, 1) = (clamp_int r, clamp_int c)) by exact Hscan.
    injection Hv as Hv1 Hv2.
    assert (r = 1) by (unfold INT_MAX in *; lia).
    assert (c = 1) by (unfold INT_MAX in *; lia). subst r c.
    rewrite app_nil_r. eexists. split; [reflexivity|].
    cbn [cells cursor_x cursor_y current_attr escape_state escape_buf escape_done
         set_dirty set_escape_len set_escape_state set_cursor_x set_cursor_y].
    repeat split; assumption.
  - rewrite Hscan, Hrow, Hcol.
    destruct (Z.ltb_spec 0 (Z.min r INT_MAX)); [|unfold INT_MAX in *; lia].
    destruct (Z.ltb_spec 0 (Z.min c INT_MAX)); [|unfold INT_MAX in *; lia].
    rewrite !int_sub_small by (unfold INT_MIN, INT_MAX in *; lia).
    cbn [cursor_x cursor_y set_cursor_x set_cursor_y].
    rewrite app_nil_r.
    destruct (Z.leb_spec VTERM_ROWS (Z.min r INT_MAX - 1));
      cbn [cursor_x cursor_y set_cursor_x set_cursor_y];
      destruct (Z.leb_spec VTERM_COLS (Z.min c INT_MAX - 1));
      (eexists; split; [reflexivity|]);
      cbn [cells cursor_x cursor_y current_attr escape_state escape_buf escape_done
           set_dirty set_escape_len set_escape_state set_cursor_x set_cursor_y];
      unfold VTERM_ROWS, VTERM_COLS, INT_MAX in *;
      repeat split; try assumption; lia.
Qed.

(** The sequence followed by one printable byte.  [P] is the row-major
    index of the addressed cell.  On the last cell of the grid the byte is
    stored, the line wraps at once and the grid scrolls, so the byte ends
    one row higher and the addressed cell is blank again. *)
Lemma cup_then_char vt r c ch :
  grid_ok vt -> escape_state vt = 0 -> length (escape_buf vt) = 32%nat ->
  1 <= r -> 1 <= c -> (length (cup_params r c) <= 30)%nat ->
  is_printable ch = true ->
  let P := (Z.min r VTERM_ROWS - 1) * VTERM_COLS + (Z.min c VTERM_COLS - 1) in
  exists v,
    putchar_seq vt (cup_sequence r c ++ [ch]) [] = Some (v, []) /\
    (P + 1 < GRID_CELLS -> cells v !! Z.to_nat P = Some (Cell ch (current_attr vt))) /\
    (P + 1 = GRID_CELLS ->
     cells v !! Z.to_nat (P - VTERM_COLS) = Some (Cell ch (current_attr vt)) /\
     forall k, 0 <= k < VTERM_COLS ->
       cells v !! Z.to_nat ((VTERM_ROWS - 1) * VTERM_COLS + k) = Some blank_cell).
Proof.
  intros Hg Hs Hl Hr Hc Hfit Hp P.
  destruct (cup_sequence_run vt r c [] Hs Hl Hr Hc Hfit)
    as (v1 & Hrun & C1 & C2 & C3 & C4 & C5 & C6).
  assert (Hc1 : cursor_ok v1).
  { unfold cursor_ok. rewrite C2, C3. unfold VTERM_COLS, VTERM_ROWS. lia. }
  assert (Hg1 : grid_ok v1) by (unfold grid_ok in *; rewrite C1; exact Hg).
  assert (Hlin : lin v1 = P) by (unfold lin, P; rewrite C2, C3; reflexivity).
  rewrite putchar_seq_app, Hrun. cbn [putchar_seq].
  rewrite putchar_body_printable by assumption.
  eexists. split; [reflexivity|]. cbn [cells set_dirty].
  pose proof (lin_bounds v1 Hc1) as Hb. unfold grid_ok in Hg1.
  destruct (put_printable_step v1 ch Hc1 Hg1) as (_ & _ & _ & _ & _ & _ & Hstep).
  rewrite Hlin, C4 in *.
  assert (Hst : store_cell (cells v1) P (Cell ch (current_attr vt)) !! Z.to_nat P
                = Some (Cell ch (current_attr vt)))
    by (apply store_cell_lookup_eq; lia).
  destruct Hstep as [(Hlt & _ & ->) | (Heq & _ & Hcells)].
  - split; [intros _; exact Hst|intros; lia].
  - split; [intros; lia|]. intros _.
    rewrite grid_cells_value in *. unfold VTERM_COLS, VTERM_ROWS in *.
    split.
    + rewrite Hcells.
      destruct (Z.ltb_spec (Z.of_nat (Z.to_nat (P - 128))) (4736 - 128)); [|lia].
      replace (Z.to_nat (Z.of_nat (Z.to_nat (P - 128)) + 128)) with (Z.to_nat P) by lia.
      exact Hst.
    + intros k Hk. rewrite Hcells.
      destruct (Z.ltb_spec (Z.of_nat (Z.to_nat ((37 - 1) * 128 + k))) (4736 - 128)); [lia|].
      destruct (Z.ltb_spec (Z.of_nat (Z.to_nat ((37 - 1) * 128 + k))) 4736);
        [reflexivity|lia].
Qed.

(** ** The cursor invariant *)

(** [cursor_y += n] with the largest count [atoi] returns. *)
Lemma int_add_overflow y :
  1 <= y <= INT_MAX -> int_add y INT_MAX = y - 2147483649.
Proof.
  unfold int_add, wrap_int, INT_MAX. intros H.
  replace (y + 2147483647 + 2147483648) with (y - 1 + 1 * 4294967296) by lia.
  rewrite Z.mod_add by lia. rewrite Z.mod_small by lia. lia.
Qed.

(** ESC [ 2147483647 B, cursor down by the largest [int], on an idle
    session whose cursor is in the grid below the first row: the addition
    [cursor_y += n] exceeds [int], the sum comes out negative and the
    comparison with [VTERM_ROWS] that follows does not catch it. *)
Lemma cursor_down_run vt :
  cursor_ok vt -> escape_state vt = 0 -> length (escape_buf vt) = 32%nat ->
  1 <= cursor_y vt ->
  exists v,
    putchar_seq vt (ESC :: str "[2147483647B") [] = Some (v, []) /\
    cursor_x v = cursor_x vt /\ cursor_y v = cursor_y vt - 2147483649 /\
    ~ cursor_ok v.
Proof.
  intros [Hx Hy] Hs Hl H1.
  destruct (csi_sequence vt (str "2147483647") "B" [] Hs Hl) as
    (vt2 & rest & E1 & E2 & E3 & E4 & E6 & E5 & Hrun);
    [cbn; lia | repeat constructor | reflexivity |].
  change (ESC :: str "[2147483647B")
    with (ESC :: "["%char :: str "2147483647" ++ ["B"%char]).
  rewrite Hrun. clear Hrun.
  change (ascii_eqb (nth 0 (str "2147483647" ++ NUL :: rest) NUL) "?") with false.
  cbv iota.
  assert (Hn : csi_count (escape_buf vt2) = INT_MAX).
  { unfold csi_count. rewrite E5.
    change (ascii_eqb (char_at (str "2147483647" ++ NUL :: rest) 0) NUL) with false.
    cbv iota. rewrite c_string_app by (repeat constructor; discriminate).
    reflexivity. }
  assert (Hd : csi_dispatch vt2 "B"
               = Some (set_cursor_y vt2 (cursor_y vt - 2147483649), [])).
  { unfold csi_dispatch.
    change (ascii_eqb "B" "m") with false. change (ascii_eqb "B" "J") with false.
    change (ascii_eqb "B" "H") with false. change (ascii_eqb "B" "f") with false.
    change (ascii_eqb "B" "A") with false. change (ascii_eqb "B" "B") with true.
    cbv iota. cbn [orb]. cbv iota.
    rewrite Hn, E3, int_add_overflow by (unfold VTERM_ROWS, INT_MAX in *; lia).
    cbn [cursor_y set_cursor_y].
    destruct (Z.leb_spec VTERM_ROWS (cursor_y vt - 2147483649));
      [unfold VTERM_ROWS in *; lia | reflexivity]. }
  rewrite Hd. eexists. split; [reflexivity|].
  cbn [cursor_x cursor_y escape_done set_dirty set_escape_len set_escape_state
       set_cursor_y].
  split; [exact E2|]. split; [reflexivity|].
  unfold cursor_ok. cbn [cursor_x cursor_y escape_done set_dirty set_escape_len
                         set_escape_state set_cursor_y].
  unfold VTERM_ROWS in *. lia.
Qed.


(** ** Callbacks and the dirty flag *)

(** The registered callbacks and the calls made to them so far. *)
Definition callback_state (p : vterm_pool) : bool * bool * list callback_call :=
  (s_on_switch_cb p, s_on_render_cb p, calls p).

Lemma callback_state_send p act c :
  callback_state (vterm_send_input p act c) = callback_state p.
Proof.
  unfold vterm_send_input. destruct (valid_id act); [|reflexivity].
  destruct (get_session p act); reflexivity.
Qed.

Lemma callback_state_send_all out : forall p act,
  callback_state (send_all p act out) = callback_state p.
Proof.
  induction out as [|c out IH]; intros p act; [reflexivity|].
  unfold send_all in *. cbn [foldl]. rewrite IH. apply callback_state_send.
Qed.

Lemma callback_state_commit p vt_id s vt :
  callback_state (commit p vt_id s vt) = callback_state p.
Proof. unfold commit. destruct (cells_at s); reflexivity. Qed.

Lemma vterm_putchar_callbacks p vt_id c p' :
  vterm_putchar p vt_id c = Some p' -> callback_state p' = callback_state p.
Proof.
  unfold vterm_putchar. destruct ((vt_id <? 0) || (VTERM_COUNT <=? vt_id)).
  { intros [= <-]. reflexivity. }
  destruct (get_session p vt_id) as [s|]; [|intros [= <-]; reflexivity].
  destruct (putchar_body (view p s) c) as [[vt out]|]; [|discriminate].
  intros [= <-]. rewrite callback_state_send_all. apply callback_state_commit.
Qed.

Lemma putchar_each_callbacks data : forall p vt_id p',
  putchar_each p vt_id data = Some p' -> callback_state p' = callback_state p.
Proof.
  induction data as [|c rest IH]; intros p vt_id p'; cbn [putchar_each].
  { intros [= <-]. reflexivity. }
  destruct (vterm_putchar p vt_id c) as [p1|] eqn:E; [|discriminate].
  intros H. rewrite (IH _ _ _ H). eapply vterm_putchar_callbacks, E.
Qed.

Lemma vterm_write_callbacks p vt_id data p' :
  vterm_write p vt_id data = Some p' -> callback_state p' = callback_state p.
Proof.
  unfold vterm_write. destruct ((vt_id <? 0) || (VTERM_COUNT <=? vt_id)).
  { intros [= <-]. reflexivity. }
  destruct (get_session p vt_id) as [s|]; [|intros [= <-]; reflexivity].
  destruct (write_body (view p s) data) as [[vt out]|]; [|discriminate].
  intros [= <-]. rewrite callback_state_send_all. apply callback_state_commit.
Qed.

(** [vt->dirty = 1] is the last statement of the loop's function. *)
Lemma write_loop_dirty data : forall vt cx cy a e cptr rend out v o,
  write_loop data vt cx cy a e cptr rend out = Some (v, o) -> dirty v = 1.
Proof.
  induction data as [|c rest IH]; intros vt cx cy a e cptr rend out v o;
    cbn [write_loop].
  { intros [= <- _]. reflexivity. }
  destruct ((e =? 0) && is_printable c).
  - destruct (rend <=? cptr + 1); [|apply IH].
    destruct (VTERM_ROWS <=? int_add cy 1); apply IH.
  - destruct (vterm_handle_escape _ c) as [[[h w] o1]|]; [|discriminate].
    match goal with |- context [if ?b then _ else _] => destruct b end; apply IH.
Qed.

Lemma vterm_write_dirty p vt_id s data p' :
  valid_id vt_id = true -> get_session p vt_id = Some s ->
  vterm_write p vt_id data = Some p' ->
  exists v, session_view p' vt_id = Some v /\ dirty v = 1.
Proof.
  intros Hv Hs. rewrite (vterm_write_store p vt_id data s Hv Hs).
  destruct (write_body (view p s) data) as [[vt out]|] eqn:E; [|discriminate].
  intros [= <-]. exists vt. split.
  - rewrite view_send_all. eapply view_store_view, Hs.
  - eapply write_loop_dirty, E.
Qed.

Lemma putchar_each_dirty p vt_id s data p' :
  valid_id vt_id = true -> get_session p vt_id = Some s -> data <> [] ->
  putchar_each p vt_id data = Some p' ->
  exists v, session_view p' vt_id = Some v /\ dirty v = 1.
Proof.
  intros Hv Hs Hne. rewrite (putchar_each_session p vt_id data s Hv Hs).
  destruct (putchar_seq (view p s) data []) as [[vt out]|] eqn:E; [|discriminate].
  intros [= <-]. exists vt. split.
  - rewrite view_send_all. eapply view_store_view, Hs.
  - eapply putchar_seq_dirty; eassumption.
Qed.

(** One printable byte on an idle session, away from the last cell of
    the grid: where it is stored. *)
Lemma printable_byte_stored vt c :
  cursor_ok vt -> grid_ok vt -> escape_state vt = 0 ->
  lin vt + 1 < GRID_CELLS -> is_printable c = true ->
  exists v,
    putchar_seq vt [c] [] = Some (v, []) /\
    cells v !! Z.to_nat (lin vt) = Some (Cell c (current_attr vt)).
Proof.
  intros Hc Hg He Hroom Hp.
  assert (Hall : Forall (fun b => is_printable b = true) [c])
    by (constructor; [exact Hp | constructor]).
  destruct (printable_run_typed vt [c] [] Hc Hg He Hall) as (v & Hrun & Ht).
  exists v. split; [exact Hrun|].
  destruct Ht as (_ & _ & _ & _ & _ & _ & Hcells).
  pose proof (lin_bounds vt Hc) as Hb.
  rewrite Hcells by (cbn [length]; lia). cbn [length].
  rewrite Z2Nat.id by lia.
  destruct (Z.leb_spec (lin vt) (lin vt)); [|lia].
  destruct (Z.ltb_spec (lin vt) (lin vt + Z.of_nat 1)); [|lia].
  cbn [andb]. rewrite Z.sub_diag. reflexivity.
Qed.

(** C10: the render callback is not called.  With a callback registered,
    one printable byte written to an idle session whose cursor is inside
    the grid and not on its last cell, by [vterm_write] or by
    [vterm_putchar], is stored in the cell under the cursor, and when the
    call returns the callback is still registered and no call to it has
    been made: [s_on_render_cb] is assigned by [vterm_set_render_callback]
    and read nowhere in the file. *)
Theorem render_callback_not_invoked p vt_id s c :
  valid_id vt_id = true -> get_session p vt_id = Some s ->
  cursor_ok (view p s) -> grid_ok (view p s) -> escape_state (view p s) = 0 ->
  lin (view p s) + 1 < GRID_CELLS ->
  is_printable c = true -> s_on_render_cb p = true ->
  let stored v :=
    cells v !! Z.to_nat (lin (view p s)) = Some (Cell c (current_attr (view p s))) in
  (exists p1 v1,
     vterm_write p vt_id [c] = Some p1 /\ session_view p1 vt_id = Some v1 /\
     stored v1 /\ s_on_render_cb p1 = true /\ calls p1 = calls p) /\
  (exists p2 v2,
     vterm_putchar p vt_id c = Some p2 /\ session_view p2 vt_id = Some v2 /\
     stored v2 /\ s_on_render_cb p2 = true /\ calls p2 = calls p).
Proof.
  intros Hv Hs Hc Hg He Hroom Hp Hcb stored.
  destruct (printable_byte_stored (view p s) c Hc Hg He Hroom Hp) as (v & Hrun & Hcell).
  assert (Hstay : stays_in_grid (view p s) [c] = true)
    by (apply stays_in_grid_last, Hc).
  split.
  - assert (Hw : vterm_write p vt_id [c]
                 = Some (send_all (store_view p vt_id (nd v)) (s_active_vt p) [])).
    { rewrite (vterm_write_store p vt_id [c] s Hv Hs).
      rewrite (write_body_putchar_seq _ _ Hstay), Hrun. reflexivity. }
    pose proof (vterm_write_callbacks _ _ _ _ Hw) as Hk.
    unfold callback_state in Hk. injection Hk as _ Hr Hcl.
    eexists. exists (nd v). split; [exact Hw|].
    split; [rewrite view_send_all; eapply view_store_view, Hs|].
    split; [exact Hcell|]. split; [exact (eq_trans Hr Hcb) | exact Hcl].
  - assert (Hw : vterm_putchar p vt_id c
                 = Some (send_all (store_view p vt_id v) (s_active_vt p) [])).
    { rewrite (vterm_putchar_store p vt_id c s Hv Hs).
      cbn [putchar_seq] in Hrun.
      destruct (putchar_body (view p s) c) as [[w o]|]; [|discriminate].
      injection Hrun as -> Ho. cbn [app] in Ho. subst o. reflexivity. }
    pose proof (vterm_putchar_callbacks _ _ _ _ Hw) as Hk.
    unfold callback_state in Hk. injection Hk as _ Hr Hcl.
    eexists. exists v. split; [exact Hw|].
    split; [rewrite view_send_all; eapply view_store_view, Hs|].
    split; [exact Hcell|]. split; [exact (eq_trans Hr Hcb) | exact Hcl].
Qed.

(** The pool of [vterm_init] with a render callback registered. *)
Definition init_with_render_cb : vterm_pool := vterm_set_render_callback vterm_init true.

Lemma init_with_render_cb_session0 :
  get_session init_with_render_cb 0 = Some session0 /\
  view init_with_render_cb session0 = view vterm_init session0.
Proof. split; reflexivity. Qed.

Lemma init_view0_blank (j : nat) :
  cells (view vterm_init session0) !! j =
  if Z.of_nat j <? GRID_CELLS then Some blank_cell else None.
Proof.
  unfold view, session0, vterm_init.
  cbn [cells_at fields s_iram_buffer cells set_cells].
  rewrite memcpy_cells_grid.
  - apply clear_internal_lookup. unfold grid_ok. cbn [cells].
    rewrite length_replicate. apply Z2Nat.id. rewrite grid_cells_value. lia.
  - rewrite length_replicate. apply Z2Nat.id. rewrite grid_cells_value. lia.
  - apply fresh_fields_grid.
Qed.

(** Session 0 of that pool is blank; "A" is written to it, by either
    call: the first cell shows "A", the callback is registered and has not
    been called. *)
Lemma render_callback_not_invoked_witness :
  s_on_render_cb init_with_render_cb = true /\
  session_view init_with_render_cb 0 = Some (view vterm_init session0) /\
  cells (view vterm_init session0) !! 0%nat = Some blank_cell /\
  (exists p1 v1,
     vterm_write init_with_render_cb 0 ["A"%char] = Some p1 /\
     session_view p1 0 = Some v1 /\
     cells v1 !! 0%nat = Some (Cell "A" VTERM_DEFAULT_ATTR) /\
     s_on_render_cb p1 = true /\ calls p1 = []) /\
  (exists p2 v2,
     vterm_putchar init_with_render_cb 0 "A" = Some p2 /\
     session_view p2 0 = Some v2 /\
     cells v2 !! 0%nat = Some (Cell "A" VTERM_DEFAULT_ATTR) /\
     s_on_render_cb p2 = true /\ calls p2 = []).
Proof.
  split; [reflexivity|]. split; [reflexivity|].
  split; [exact (init_view0_blank 0)|].
  exact (render_callback_not_invoked init_with_render_cb 0 session0 "A" eq_refl
           (proj1 init_with_render_cb_session0) init_view0_cursor init_view0_grid
           init_view0_idle (proj1 (proj2 init_view0_state)) eq_refl eq_refl).
Defined.

(** ** The hotkey detector *)

(** What every session's input queue holds. *)
Definition input_queues (p : vterm_pool) : list (list ascii) :=
  map input_queue (s_vterms p).

Lemma vterm_switch_queues p j : input_queues (vterm_switch p j) = input_queues p.
Proof.
  unfold vterm_switch.
  destruct ((j <? 0) || (VTERM_COUNT <=? j)); [reflexivity|].
  destruct (Z.eqb_spec j (s_active_vt p)) as [|Hne]; [reflexivity|].
  destruct (get_session p (s_active_vt p)) as [o|] eqn:Ho; [|reflexivity].
  destruct (get_session p j) as [n|] eqn:Hn; [|reflexivity].
  apply get_session_lookup in Ho as [Ha Ho]. apply get_session_lookup in Hn as [Hj Hn].
  cbv zeta.
  match goal with |- context [if ?b then _ else _] => destruct b end;
    unfold input_queues, put_session;
    cbn [s_vterms set_vterms set_iram set_active set_calls];
    rewrite list_fmap_insert, list_fmap_insert; cbn [input_queue];
    rewrite (list_insert_id (map input_queue (s_vterms p)) (Z.to_nat (s_active_vt p)))
      by (rewrite list_lookup_fmap, Ho; reflexivity);
    apply list_insert_id; rewrite list_lookup_fmap, Hn; reflexivity.
Qed.

Lemma vterm_switch_esc p j :
  s_esc_buf (vterm_switch p j) = s_esc_buf p /\
  s_esc_len (vterm_switch p j) = s_esc_len p /\
  s_esc_start (vterm_switch p j) = s_esc_start p.
Proof.
  unfold vterm_switch.
  destruct ((j <? 0) || (VTERM_COUNT <=? j)); [auto|].
  destruct (j =? s_active_vt p); [auto|].
  destruct (get_session p (s_active_vt p)); [|auto].
  destruct (get_session p j); [|auto]. cbv zeta.
  match goal with |- context [if ?b then _ else _] => destruct b end; auto.
Qed.

(** ESC arriving while nothing is buffered starts a sequence. *)
Lemma feed_start hz p now :
  s_esc_len p = 0 ->
  vterm_input_feed hz p now ESC =
  (0, set_esc_start (set_esc p (store_char (s_esc_buf p) 0 ESC) 1) now).
Proof.
  intros H. unfold vterm_input_feed. rewrite H.
  change (0 <? 0) with false. cbn [andb]. cbv iota. rewrite H. reflexivity.
Qed.

(** A byte arriving while a sequence is buffered and has not timed out. *)
Lemma feed_buffering hz p now c :
  0 < s_esc_len p < 15 ->
  ticks_since now (s_esc_start p) <= pdMS_TO_TICKS hz 20 ->
  vterm_input_feed hz p now c =
  let len := s_esc_len p + 1 in
  let '(vt, buf) := match_vt_hotkey (store_char (s_esc_buf p) (s_esc_len p) c) len in
  if 0 <=? vt then (1, vterm_switch (set_esc p buf 0) vt)
  else if could_be_hotkey buf len then (0, set_esc p buf len)
  else (0, flush_input_buffer (set_esc p buf len)).
Proof.
  intros Hl Ht. apply Z.ltb_ge in Ht. unfold vterm_input_feed.
  rewrite Ht, andb_false_r. cbv iota.
  destruct (Z.eqb_spec (s_esc_len p) 0); [lia|]. cbn [andb]. cbv iota.
  destruct (Z.ltb_spec 0 (s_esc_len p)); [|lia].
  destruct (Z.ltb_spec (s_esc_len p) 15); [|lia].
  cbn [s_esc_buf s_esc_len set_esc].
  rewrite int_add_small by (unfold INT_MIN, INT_MAX; lia).
  cbv zeta.
  destruct (match_vt_hotkey _ _) as [vt buf].
  cbn [s_esc_buf s_esc_len set_esc]. reflexivity.
Qed.

(** Evaluation of the detector on a buffer whose bytes are known. *)
Ltac eval_detector :=
  repeat match goal with
  | |- context [store_char ?b ?i ?c] =>
      let r := eval cbv in (store_char b i c) in change (store_char b i c) with r
  end;
  match goal with
  | |- context [match_vt_hotkey ?b ?l] =>
      let r := eval cbv in (match_vt_hotkey b l) in change (match_vt_hotkey b l) with r
  end;
  cbv iota beta;
  try match goal with
  | |- context [could_be_hotkey ?b ?l] =>
      let r := eval cbv in (could_be_hotkey b l) in change (could_be_hotkey b l) with r
  end;
  cbv iota beta.

(** Evaluation of [match_vt_hotkey] alone. *)
Ltac eval_detector_match :=
  repeat match goal with
  | |- context [store_char ?b ?i ?c] =>
      let r := eval cbv in (store_char b i c) in change (store_char b i c) with r
  end;
  match goal with
  | |- context [match_vt_hotkey ?b ?l] =>
      let r := eval cbv in (match_vt_hotkey b l) in change (match_vt_hotkey b l) with r
  end;
  cbv iota beta.

Ltac feed_step H :=
  rewrite feed_buffering;
  cbn [s_esc_buf s_esc_len s_esc_start set_esc set_esc_start];
  [ | lia | exact H ];
  cbv zeta; eval_detector;
  cbn [Z.leb Z.compare Z.add Pos.add Pos.succ Pos.compare Pos.compare_cont];
  cbv iota.

(** The 16 bytes of [s_esc_buf], one variable each. *)
Ltac split_esc_buf p H :=
  let buf := fresh "buf" in
  let len := fresh "len" in
  destruct p as [? ? ? ? ? ? buf len ?];
  cbn [s_esc_len s_esc_buf s_vterms s_active_vt s_iram_buffer] in *;
  do 17 (destruct buf as [|? buf]; try discriminate H).

Lemma pool_ok_esc p buf len start :
  pool_ok p -> pool_ok (set_esc (set_esc_start p start) buf len).
Proof. intros H. exact H. Qed.

Lemma switch_to_session p j :
  pool_ok p -> valid_id j = true ->
  s_active_vt (vterm_switch p j) = j /\ s_esc_len (vterm_switch p j) = s_esc_len p /\
  input_queues (vterm_switch p j) = input_queues p.
Proof.
  intros Hok Hj. destruct (vterm_switch_views p j Hok Hj) as (_ & Ha & _).
  destruct (vterm_switch_esc p j) as (_ & Hl & _).
  split; [exact Ha|]. split; [exact Hl|]. apply vterm_switch_queues.
Qed.

(** The five bytes of the vt-style F1 sequence, each arriving before the
    timeout: four calls return 0 and buffer, the fifth calls
    [vterm_switch(0)] with the buffer emptied and returns 1. *)
Lemma f1_sequence_run hz p t0 t1 t2 t3 t4 :
  s_esc_len p = 0 -> length (s_esc_buf p) = 16%nat ->
  ticks_since t1 t0 <= pdMS_TO_TICKS hz 20 ->
  ticks_since t2 t0 <= pdMS_TO_TICKS hz 20 ->
  ticks_since t3 t0 <= pdMS_TO_TICKS hz 20 ->
  ticks_since t4 t0 <= pdMS_TO_TICKS hz 20 ->
  exists buf,
    feed_all hz p [(t0, ESC); (t1, "["%char); (t2, "1"%char); (t3, "1"%char);
                   (t4, "~"%char)]
    = ([0; 0; 0; 0; 1], vterm_switch (set_esc (set_esc_start p t0) buf 0) 0).
Proof.
  intros Hlen Hbuf H1 H2 H3 H4.
  split_esc_buf p Hbuf. subst.
  eexists. cbn [feed_all].
  rewrite feed_start by reflexivity.
  cbn [s_esc_buf s_esc_len set_esc set_esc_start].
  feed_step H1. feed_step H2. feed_step H3. feed_step H4.
  reflexivity.
Qed.

(** C8: on a pool whose detector is idle, the bytes ESC [ 1 1 ~ fed one
    at a time, each within the timeout of the first, are consumed: the
    calls return 0, 0, 0, 0, 1, no input queue receives a byte, and the
    last call is a [vterm_switch(0)] that leaves session 0 active. *)
Theorem f1_sequence_consumed hz p t0 t1 t2 t3 t4 :
  pool_ok p -> s_esc_len p = 0 -> length (s_esc_buf p) = 16%nat ->
  Forall (fun t => ticks_since t t0 <= pdMS_TO_TICKS hz 20) [t1; t2; t3; t4] ->
  exists p' buf,
    feed_all hz p [(t0, ESC); (t1, "["%char); (t2, "1"%char); (t3, "1"%char);
                   (t4, "~"%char)]
    = ([0; 0; 0; 0; 1], p') /\
    p' = vterm_switch (set_esc (set_esc_start p t0) buf 0) 0 /\
    input_queues p' = input_queues p /\
    s_active_vt p' = 0 /\ s_esc_len p' = 0.
Proof.
  intros Hok Hlen Hbuf Ht.
  inversion Ht as [|? ? H1 Ht1]; subst. inversion Ht1 as [|? ? H2 Ht2]; subst.
  inversion Ht2 as [|? ? H3 Ht3]; subst. inversion Ht3 as [|? ? H4 _]; subst.
  destruct (f1_sequence_run hz p t0 t1 t2 t3 t4 Hlen Hbuf H1 H2 H3 H4) as (buf & Hrun).
  destruct (switch_to_session _ 0 (pool_ok_esc p buf 0 t0 Hok) eq_refl)
    as (Ha & Hl & Hq).
  eexists. exists buf. split; [exact Hrun|]. split; [reflexivity|].
  split; [exact Hq|]. split; [exact Ha|exact Hl].
Qed.

(** The pool of [vterm_init] after a switch to session 2. *)
Definition on_session2 : vterm_pool := vterm_switch vterm_init 2.

Lemma on_session2_state :
  pool_ok on_session2 /\ s_active_vt on_session2 = 2 /\
  s_esc_len on_session2 = 0 /\ length (s_esc_buf on_session2) = 16%nat.
Proof.
  destruct (vterm_switch_views vterm_init 2 pool_ok_init eq_refl) as (Hok & Ha & _).
  destruct (vterm_switch_esc vterm_init 2) as (Hb & Hl & _).
  unfold on_session2. rewrite Hb, Hl.
  split; [exact Hok|]. split; [exact Ha|]. split; reflexivity.
Qed.

Lemma ticks_in_time (d : Z) :
  0 <= d <= 20 -> ticks_since (100 + d) 100 <= pdMS_TO_TICKS 1000 20.
Proof.
  intros H. unfold ticks_since, pdMS_TO_TICKS.
  replace (100 + d - 100) with d by lia. rewrite Z.mod_small by lia.
  change (20 * 1000 / 1000) with 20. lia.
Qed.

(** One tick per millisecond, the five bytes one tick apart, session 2
    active beforehand. *)
Lemma f1_sequence_consumed_witness :
  exists p' buf,
    feed_all 1000 on_session2
      [(100, ESC); (100 + 1, "["%char); (100 + 2, "1"%char); (100 + 3, "1"%char);
       (100 + 4, "~"%char)]
    = ([0; 0; 0; 0; 1], p') /\
    p' = vterm_switch (set_esc (set_esc_start on_session2 100) buf 0) 0 /\
    input_queues p' = input_queues on_session2 /\
    s_active_vt p' = 0 /\ s_esc_len p' = 0.
Proof.
  destruct on_session2_state as (Hok & _ & Hl & Hb).
  apply (f1_sequence_consumed 1000 on_session2 100 _ _ _ _ Hok Hl Hb).
  repeat constructor; apply ticks_in_time; lia.
Defined.

(** ** Sequences the detector should give up on *)

(** ESC [ 1 1 x does not end the buffering, and a [~] that follows within
    the timeout is taken for the end of F1: [match_vt_hotkey] reads the
    number 11 and never looks at what stands between it and the [~]. *)
Lemma f1_through_garbage_run hz p t0 t1 t2 t3 t4 t5 :
  s_esc_len p = 0 -> length (s_esc_buf p) = 16%nat ->
  ticks_since t1 t0 <= pdMS_TO_TICKS hz 20 ->
  ticks_since t2 t0 <= pdMS_TO_TICKS hz 20 ->
  ticks_since t3 t0 <= pdMS_TO_TICKS hz 20 ->
  ticks_since t4 t0 <= pdMS_TO_TICKS hz 20 ->
  ticks_since t5 t0 <= pdMS_TO_TICKS hz 20 ->
  exists buf,
    feed_all hz p [(t0, ESC); (t1, "["%char); (t2, "1"%char); (t3, "1"%char);
                   (t4, "x"%char); (t5, "~"%char)]
    = ([0; 0; 0; 0; 0; 1], vterm_switch (set_esc (set_esc_start p t0) buf 0) 0).
Proof.
  intros Hlen Hbuf H1 H2 H3 H4 H5.
  split_esc_buf p Hbuf. subst.
  eexists. cbn [feed_all].
  rewrite feed_start by reflexivity.
  cbn [s_esc_buf s_esc_len set_esc set_esc_start].
  feed_step H1. feed_step H2. feed_step H3. feed_step H4. feed_step H5.
  reflexivity.
Qed.

(** C9: ESC [ 1 1 followed by the byte x, which is neither [~], a digit
    nor [;], and then by [~], all within the timeout: the sixth call
    returns 1 and switches to session 0, the buffer is emptied and none of
    the buffered bytes is delivered to any input queue. *)
Theorem f1_matched_through_garbage hz p t0 t1 t2 t3 t4 t5 :
  pool_ok p -> s_esc_len p = 0 -> length (s_esc_buf p) = 16%nat ->
  Forall (fun t => ticks_since t t0 <= pdMS_TO_TICKS hz 20) [t1; t2; t3; t4; t5] ->
  exists p' buf,
    feed_all hz p [(t0, ESC); (t1, "["%char); (t2, "1"%char); (t3, "1"%char);
                   (t4, "x"%char); (t5, "~"%char)]
    = ([0; 0; 0; 0; 0; 1], p') /\
    p' = vterm_switch (set_esc (set_esc_start p t0) buf 0) 0 /\
    input_queues p' = input_queues p /\
    s_active_vt p' = 0 /\ s_esc_len p' = 0.
Proof.
  intros Hok Hlen Hbuf Ht.
  inversion Ht as [|? ? H1 Ht1]; subst. inversion Ht1 as [|? ? H2 Ht2]; subst.
  inversion Ht2 as [|? ? H3 Ht3]; subst. inversion Ht3 as [|? ? H4 Ht4]; subst.
  inversion Ht4 as [|? ? H5 _]; subst.
  destruct (f1_through_garbage_run hz p t0 t1 t2 t3 t4 t5 Hlen Hbuf H1 H2 H3 H4 H5)
    as (buf & Hrun).
  destruct (switch_to_session _ 0 (pool_ok_esc p buf 0 t0 Hok) eq_refl)
    as (Ha & Hl & Hq).
  eexists. exists buf. split; [exact Hrun|]. split; [reflexivity|].
  split; [exact Hq|]. split; [exact Ha|exact Hl].
Qed.

Lemma f1_matched_through_garbage_witness :
  exists p' buf,
    feed_all 1000 on_session2
      [(100, ESC); (100 + 1, "["%char); (100 + 2, "1"%char); (100 + 3, "1"%char);
       (100 + 4, "x"%char); (100 + 5, "~"%char)]
    = ([0; 0; 0; 0; 0; 1], p') /\
    p' = vterm_switch (set_esc (set_esc_start on_session2 100) buf 0) 0 /\
    input_queues p' = input_queues on_session2 /\
    s_active_vt p' = 0 /\ s_esc_len p' = 0.
Proof.
  destruct on_session2_state as (Hok & _ & Hl & Hb).
  apply (f1_matched_through_garbage 1000 on_session2 100 _ _ _ _ _ Hok Hl Hb).
  repeat constructor; apply ticks_in_time; lia.
Defined.

(** ** From one session to the two write calls *)

Lemma stays_in_grid_app d1 : forall vt out d2,
  stays_in_grid vt (d1 ++ d2) =
  stays_in_grid vt d1 &&
  match putchar_seq vt d1 out with
  | Some (v, _) => stays_in_grid v d2
  | None => true
  end.
Proof.
  induction d1 as [|c d1 IH]; intros vt out d2; [reflexivity|].
  cbn [app stays_in_grid putchar_seq].
  destruct (putchar_body vt c) as [[w o]|].
  - rewrite (IH w (out ++ o) d2), andb_assoc. reflexivity.
  - rewrite !andb_true_r. reflexivity.
Qed.

(** While parameter bytes are collected the cursor does not move. *)
Lemma collect_stays s : forall vt (n : nat),
  escape_state vt = 2 -> length (escape_buf vt) = 32%nat ->
  escape_len vt = Z.of_nat n -> (n + length s <= 31)%nat ->
  Forall (fun c => is_alpha c = false) s -> cursor_ok vt ->
  stays_in_grid vt s = true.
Proof.
  induction s as [|c s IH]; intros vt n Hs Hl Hn Hfit Hna Hc; [reflexivity|].
  inversion Hna as [|? ? Hca Hrest]; subst. cbn [length] in Hfit.
  destruct (escape_collect_step vt c n Hl Hn ltac:(lia))
    as (C1 & C2 & C3 & C4 & C5 & C6 & C7 & C8).
  assert (Hb : putchar_body vt c = Some (set_dirty (escape_collect vt c) 1, [])).
  { unfold putchar_body, vterm_handle_escape. rewrite Hs. cbn [Z.eqb].
    cbv zeta. rewrite Hca. reflexivity. }
  cbn [stays_in_grid]. rewrite Hb.
  apply andb_true_iff. split; [apply in_grid_cursor_ok, Hc|].
  apply (IH _ (S n)); try assumption.
  - cbn [escape_state set_dirty]. congruence.
  - lia.
  - unfold cursor_ok in *. cbn [cursor_x cursor_y set_dirty]. rewrite C2, C3. exact Hc.
Qed.

(** A whole CSI sequence fed to an idle session whose cursor is in the
    grid: the cursor is in the grid before each of its bytes. *)
Lemma csi_stays vt params f :
  cursor_ok vt -> escape_state vt = 0 -> length (escape_buf vt) = 32%nat ->
  (length params <= 30)%nat ->
  Forall (fun c => is_alpha c = false) params ->
  stays_in_grid vt (ESC :: "["%char :: params ++ [f]) = true.
Proof.
  intros Hc Hs Hl Hfit Hna.
  set (vt1 := set_dirty (set_escape_state
                (set_dirty (set_escape_len (set_escape_state vt 1) 0) 1) 2) 1).
  assert (Hb1 : putchar_body vt ESC
                = Some (set_dirty (set_escape_len (set_escape_state vt 1) 0) 1, [])).
  { unfold putchar_body, vterm_handle_escape. rewrite Hs. reflexivity. }
  assert (Hb2 : putchar_body (set_dirty (set_escape_len (set_escape_state vt 1) 0) 1)
                  "["%char = Some (vt1, [])) by reflexivity.
  assert (Hc1 : cursor_ok vt1) by exact Hc.
  cbn [stays_in_grid]. rewrite Hb1, Hb2.
  apply andb_true_iff. split; [apply in_grid_cursor_ok, Hc|].
  apply andb_true_iff. split; [apply in_grid_cursor_ok, Hc|].
  rewrite (stays_in_grid_app params vt1 [] [f]).
  apply andb_true_iff. split.
  - apply (collect_stays params vt1 0); try assumption; try reflexivity. cbn. lia.
  - destruct (collect_run params vt1 [] 0)
      as (vt' & Hrun & D1 & D2 & D3 & _); try assumption; try reflexivity; [cbn; lia|].
    rewrite Hrun. cbn [stays_in_grid].
    assert (Hin : in_grid vt' = true).
    { apply in_grid_cursor_ok. unfold cursor_ok in *. rewrite D2, D3. exact Hc1. }
    rewrite Hin. destruct (putchar_body vt' f) as [[w o]|]; reflexivity.
Qed.

(** What a run on the addressed session means for [vterm_write] and for
    [vterm_putchar] called byte by byte. *)
Lemma run_on_pool p vt_id s data v out :
  valid_id vt_id = true -> get_session p vt_id = Some s ->
  stays_in_grid (view p s) data = true ->
  putchar_seq (view p s) data [] = Some (v, out) ->
  (exists p1, vterm_write p vt_id data = Some p1 /\
              session_view p1 vt_id = Some (nd v)) /\
  (exists p2, putchar_each p vt_id data = Some p2 /\
              session_view p2 vt_id = Some v).
Proof.
  intros Hv Hs Hstay Hrun. split.
  - rewrite (vterm_write_store p vt_id data s Hv Hs).
    rewrite (write_body_putchar_seq _ _ Hstay), Hrun. cbn [nd_result].
    eexists. split; [reflexivity|].
    rewrite view_send_all. eapply view_store_view, Hs.
  - rewrite (putchar_each_session p vt_id data s Hv Hs), Hrun.
    eexists. split; [reflexivity|].
    rewrite view_send_all. eapply view_store_view, Hs.
Qed.

(** [written p vt_id data Q]: [vterm_write] on [data], and [vterm_putchar]
    on each byte of [data], both return, and [Q] holds of session [vt_id]
    after either. *)
Definition written (p : vterm_pool) (vt_id : Z) (data : list ascii)
  (Q : vterm_t -> Prop) : Prop :=
  (exists p1 v1, vterm_write p vt_id data = Some p1 /\
                 session_view p1 vt_id = Some v1 /\ Q v1) /\
  (exists p2 v2, putchar_each p vt_id data = Some p2 /\
                 session_view p2 vt_id = Some v2 /\ Q v2).

Lemma written_of_run p vt_id s data v out (Q : vterm_t -> Prop) :
  valid_id vt_id = true -> get_session p vt_id = Some s ->
  stays_in_grid (view p s) data = true ->
  putchar_seq (view p s) data [] = Some (v, out) ->
  Q v -> Q (nd v) -> written p vt_id data Q.
Proof.
  intros Hv Hs Hstay Hrun HQ HQn.
  destruct (run_on_pool p vt_id s data v out Hv Hs Hstay Hrun)
    as [(p1 & Hw & Hv1) (p2 & Hp & Hv2)].
  split; [exists p1, (nd v) | exists p2, v]; auto.
Qed.

Lemma written_impl p vt_id data (Q Q' : vterm_t -> Prop) :
  (forall v, Q v -> Q' v) -> written p vt_id data Q -> written p vt_id data Q'.
Proof.
  intros H [(p1 & v1 & A1 & B1 & C1) (p2 & v2 & A2 & B2 & C2)].
  split; [exists p1, v1 | exists p2, v2]; auto.
Qed.

(** *** SGR sequences, then a byte *)

Lemma sgr_sequences_stay seqs : forall vt a' c,
  cursor_ok vt -> escape_state vt = 0 -> length (escape_buf vt) = 32%nat ->
  sgr_attrs (current_attr vt) seqs = Some a' ->
  stays_in_grid vt (concat (map sgr_sequence seqs) ++ [c]) = true.
Proof.
  induction seqs as [|params rest IH]; intros vt a' c Hc Hs Hl Ha.
  - apply stays_in_grid_last, Hc.
  - cbn [sgr_attrs] in Ha.
    destruct (csi_params_ok params) eqn:Hok; [|discriminate].
    destruct (sgr_attr (current_attr vt) params) as [a1|] eqn:Ha1; [|discriminate].
    destruct (csi_params_ok_spec params Hok) as (Hfit & Hna & _ & _).
    destruct (sgr_sequence_run vt params [] a1 Hs Hl Hok Ha1)
      as (v1 & Hrun1 & C1 & C2 & C3 & C4 & C5 & C6).
    cbn [map concat]. rewrite <- app_assoc.
    rewrite (stays_in_grid_app (sgr_sequence params) vt []), Hrun1.
    apply andb_true_iff. split.
    + apply csi_stays; assumption.
    + rewrite <- C4 in Ha. apply (IH v1 a' c); try assumption.
      unfold cursor_ok in *. rewrite C2, C3. exact Hc.
Qed.

Lemma sgr_then_print_written p vt_id s seqs c a' :
  valid_id vt_id = true -> get_session p vt_id = Some s ->
  cursor_ok (view p s) -> grid_ok (view p s) -> escape_state (view p s) = 0 ->
  length (escape_buf (view p s)) = 32%nat -> lin (view p s) + 1 < GRID_CELLS ->
  is_printable c = true ->
  sgr_attrs (current_attr (view p s)) seqs = Some a' ->
  written p vt_id (concat (map sgr_sequence seqs) ++ [c])
    (fun v => cells v !! Z.to_nat (lin (view p s)) = Some (Cell c a')).
Proof.
  intros Hv Hs Hc Hg He Hl Hroom Hp Ha.
  destruct (sgr_then_print (view p s) seqs c a' Hc Hg He Hl Hroom Hp Ha)
    as (v & Hrun & Hcell).
  apply (written_of_run p vt_id s _ v [] _ Hv Hs); try assumption.
  apply (sgr_sequences_stay seqs (view p s) a' c); assumption.
Qed.

(** C6: on an idle session with the default attribute, ESC[31m ESC[1m and
    then a printable byte, written by either call, give a bright-red cell on
    the default background, and so do ESC[1;31m and ESC[31;1m; but ESC[1m
    followed by the separate sequence ESC[31m gives plain red: the bright
    flag set by code 1 is a local of one [vterm_apply_sgr] call and is
    lost to the next sequence. *)
Theorem sgr_bold_lost_between_sequences p vt_id s :
  valid_id vt_id = true -> get_session p vt_id = Some s ->
  cursor_ok (view p s) -> grid_ok (view p s) -> escape_state (view p s) = 0 ->
  length (escape_buf (view p s)) = 32%nat -> lin (view p s) + 1 < GRID_CELLS ->
  current_attr (view p s) = VTERM_DEFAULT_ATTR ->
  let gives seqs a :=
    written p vt_id (concat (map sgr_sequence seqs) ++ ["A"%char])
      (fun v => cells v !! Z.to_nat (lin (view p s)) = Some (Cell "A" a)) in
  gives [str "31"; str "1"] bright_red_on_black /\
  gives [str "1;31"] bright_red_on_black /\
  gives [str "31;1"] bright_red_on_black /\
  gives [str "1"; str "31"] red_on_black.
Proof.
  intros Hv Hs Hc Hg He Hl Hroom Ha. cbv zeta.
  split; [|split; [|split]];
    (apply sgr_then_print_written; try assumption; [reflexivity|]);
    rewrite Ha; reflexivity.
Qed.

(** Session 0 of the pool of [vterm_init]: ESC[1m, ESC[31m and "A". *)
Lemma sgr_bold_lost_between_sequences_witness :
  written vterm_init 0
    (sgr_sequence (str "1") ++ sgr_sequence (str "31") ++ ["A"%char])
    (fun v => cells v !! 0%nat = Some (Cell "A" red_on_black)).
Proof.
  destruct init_view0_state as (Hl & Hroom & Ha).
  exact (proj2 (proj2 (proj2
    (sgr_bold_lost_between_sequences vterm_init 0 session0 eq_refl init_session0
       init_view0_cursor init_view0_grid init_view0_idle Hl Hroom Ha)))).
Defined.

(** *** Cursor addressing, then a byte *)

Lemma cup_then_char_stays vt r c ch :
  cursor_ok vt -> escape_state vt = 0 -> length (escape_buf vt) = 32%nat ->
  1 <= r -> 1 <= c -> (length (cup_params r c) <= 30)%nat ->
  stays_in_grid vt (cup_sequence r c ++ [ch]) = true.
Proof.
  intros Hc Hs Hl Hr Hcc Hfit.
  destruct (cup_params_plain r c ltac:(lia) ltac:(lia)) as (Hna & _).
  destruct (cup_sequence_run vt r c [] Hs Hl Hr Hcc Hfit)
    as (v1 & Hrun & _ & C2 & C3 & _).
  rewrite (stays_in_grid_app (cup_sequence r c) vt []), Hrun.
  apply andb_true_iff. split.
  - apply csi_stays; assumption.
  - apply stays_in_grid_last. unfold cursor_ok. rewrite C2, C3.
    unfold VTERM_COLS, VTERM_ROWS. lia.
Qed.

Lemma cup_then_char_written p vt_id s r c ch :
  valid_id vt_id = true -> get_session p vt_id = Some s ->
  cursor_ok (view p s) -> grid_ok (view p s) -> escape_state (view p s) = 0 ->
  length (escape_buf (view p s)) = 32%nat ->
  1 <= r -> 1 <= c -> (length (cup_params r c) <= 30)%nat ->
  is_printable ch = true ->
  let P := (Z.min r VTERM_ROWS - 1) * VTERM_COLS + (Z.min c VTERM_COLS - 1) in
  let a := current_attr (view p s) in
  written p vt_id (cup_sequence r c ++ [ch])
    (fun v =>
       (P + 1 < GRID_CELLS -> cells v !! Z.to_nat P = Some (Cell ch a)) /\
       (P + 1 = GRID_CELLS ->
        cells v !! Z.to_nat (P - VTERM_COLS) = Some (Cell ch a) /\
        forall k, 0 <= k < VTERM_COLS ->
          cells v !! Z.to_nat ((VTERM_ROWS - 1) * VTERM_COLS + k) = Some blank_cell)).
Proof.
  intros Hv Hs Hc Hg He Hl Hr Hcc Hfit Hp P a.
  destruct (cup_then_char (view p s) r c ch Hg He Hl Hr Hcc Hfit Hp)
    as (v & Hrun & Hin & Hlast).
  apply (written_of_run p vt_id s _ v [] _ Hv Hs).
  - apply cup_then_char_stays; assumption.
  - exact Hrun.
  - split; assumption.
  - split; assumption.
Qed.

(** C7 (as amended): for 1-based [r] and [c] whose text [r;c] fits the
    30 bytes the collecting buffer keeps, ESC [ r ; c H followed by one
    printable byte, written by either call to an idle session whose cursor
    is inside the grid, stores the byte with the current attribute at
    column [min(c, COLS) - 1] of row [min(r, ROWS) - 1]; when that is the
    last cell of the grid the write wraps and scrolls the grid at once, so
    that the byte is found one row higher and every cell of the last row is
    blank. *)
Theorem cursor_position_then_char p vt_id s r c ch :
  valid_id vt_id = true -> get_session p vt_id = Some s ->
  cursor_ok (view p s) -> grid_ok (view p s) -> escape_state (view p s) = 0 ->
  length (escape_buf (view p s)) = 32%nat ->
  1 <= r -> 1 <= c -> (length (cup_params r c) <= 30)%nat ->
  is_printable ch = true ->
  let x := Z.min c VTERM_COLS - 1 in
  let y := Z.min r VTERM_ROWS - 1 in
  let last := (x =? VTERM_COLS - 1) && (y =? VTERM_ROWS - 1) in
  let y' := if last then y - 1 else y in
  written p vt_id (cup_sequence r c ++ [ch])
    (fun v =>
       cells v !! Z.to_nat (y' * VTERM_COLS + x)
       = Some (Cell ch (current_attr (view p s))) /\
       (last = true ->
        forall k, 0 <= k < VTERM_COLS ->
          cells v !! Z.to_nat ((VTERM_ROWS - 1) * VTERM_COLS + k) = Some blank_cell)).
Proof.
  intros Hv Hs Hc Hg He Hl Hr Hcc Hfit Hp x y last y'.
  eapply written_impl;
    [|exact (cup_then_char_written p vt_id s r c ch Hv Hs Hc Hg He Hl Hr Hcc Hfit Hp)].
  intros v [Hin Hlast]. subst x y last y'.
  rewrite grid_cells_value in *. unfold VTERM_COLS, VTERM_ROWS in *.
  destruct (Z.eqb_spec (Z.min c 128 - 1) (128 - 1)) as [Ex|Ex];
    destruct (Z.eqb_spec (Z.min r 37 - 1) (37 - 1)) as [Ey|Ey]; cbn [andb].
  - destruct Hlast as [Hcell Hrow]; [lia|]. split; [|intros _; exact Hrow].
    replace ((Z.min r 37 - 1 - 1) * 128 + (Z.min c 128 - 1))
      with ((Z.min r 37 - 1) * 128 + (Z.min c 128 - 1) - 128) by lia.
    exact Hcell.
  - split; [apply Hin; lia | discriminate].
  - split; [apply Hin; lia | discriminate].
  - split; [apply Hin; lia | discriminate].
Qed.

Lemma cup_params_5_70 : (length (cup_params 5 70) <= 30)%nat.
Proof. cbv. lia. Qed.

Lemma cup_params_corner : (length (cup_params 37 128) <= 30)%nat.
Proof. cbv. lia. Qed.

(** ESC [ 5 ; 70 H and then "A" on session 0 of the pool of [vterm_init];
    and ESC [ 99 ; 999 H, clamped to the last cell of the grid. *)
Lemma cursor_position_then_char_witness :
  written vterm_init 0 (cup_sequence 5 70 ++ ["A"%char])
    (fun v => cells v !! Z.to_nat (4 * VTERM_COLS + 69)
              = Some (Cell "A" VTERM_DEFAULT_ATTR)) /\
  written vterm_init 0 (cup_sequence 99 999 ++ ["A"%char])
    (fun v => cells v !! Z.to_nat (35 * VTERM_COLS + 127)
              = Some (Cell "A" VTERM_DEFAULT_ATTR) /\
              forall k, 0 <= k < VTERM_COLS ->
                cells v !! Z.to_nat (36 * VTERM_COLS + k) = Some blank_cell).
Proof.
  split.
  - eapply written_impl;
      [|exact (cursor_position_then_char vterm_init 0 session0 5 70 "A" eq_refl
                 init_session0 init_view0_cursor init_view0_grid init_view0_idle
                 (proj1 init_view0_state) ltac:(lia) ltac:(lia) cup_params_5_70 eq_refl)].
    intros v [H _]. exact H.
  - eapply written_impl;
      [|exact (cursor_position_then_char vterm_init 0 session0 99 999 "A" eq_refl
                 init_session0 init_view0_cursor init_view0_grid init_view0_idle
                 (proj1 init_view0_state) ltac:(lia) ltac:(lia)
                 ltac:(cbv; lia) eq_refl)].
    intros v [H1 H2]. split; [exact H1 | exact (H2 eq_refl)].
Defined.

(** ESC [ 37 ; 128 H and then "A" on session 0 of the pool of
    [vterm_init], by either call: the cell at column 127 of row 36, where
    the byte was addressed, is blank afterwards, and the byte is at column
    127 of row 35. *)
Lemma cursor_position_then_char_counterexample :
  written vterm_init 0 (cup_sequence 37 128 ++ ["A"%char])
    (fun v => cells v !! Z.to_nat (36 * VTERM_COLS + 127) = Some blank_cell /\
              cells v !! Z.to_nat (35 * VTERM_COLS + 127)
              = Some (Cell "A" VTERM_DEFAULT_ATTR)).
Proof.
  eapply written_impl;
    [|exact (cup_then_char_written vterm_init 0 session0 37 128 "A" eq_refl init_session0
               init_view0_cursor init_view0_grid init_view0_idle (proj1 init_view0_state)
               ltac:(lia) ltac:(lia) cup_params_corner eq_refl)].
  intros v [_ Hlast]. destruct Hlast as [Hup Hrow]; [reflexivity|].
  split; [|exact Hup]. apply (Hrow 127). unfold VTERM_COLS. lia.
Qed.

(** *** A line feed, then cursor down *)

Definition LF : ascii := "010"%char.

Lemma line_feed_step vt :
  escape_state vt = 0 ->
  putchar_body vt LF = Some (set_dirty (newline vt) 1, []).
Proof.
  intros Hs. unfold putchar_body.
  rewrite handle_escape_normal by (auto; change (code LF) with 10; lia).
  reflexivity.
Qed.

Lemma newline_state vt :
  cursor_ok vt ->
  cursor_x (newline vt) = 0 /\
  cursor_y (newline vt) = Z.min (cursor_y vt + 1) (VTERM_ROWS - 1) /\
  escape_state (newline vt) = escape_state vt /\
  escape_buf (newline vt) = escape_buf vt.
Proof.
  intros [_ Hy]. unfold newline.
  cbn [cursor_x cursor_y set_cursor_x set_cursor_y].
  rewrite int_add_small by (unfold INT_MIN, INT_MAX, VTERM_ROWS in *; lia).
  destruct (Z.leb_spec VTERM_ROWS (cursor_y vt + 1)).
  - match goal with |- context [vterm_scroll ?x] => set (w := x) end.
    destruct (vterm_scroll_fields w) as (Fx & Fy & _ & Fs & Fb & _).
    rewrite Fx, Fy, Fs, Fb. unfold VTERM_ROWS in *.
    repeat split; try reflexivity. lia.
  - cbn [cursor_x cursor_y escape_state escape_buf set_cursor_x set_cursor_y].
    unfold VTERM_ROWS in *. repeat split; try reflexivity. lia.
Qed.

Definition cursor_down_max : list ascii := LF :: ESC :: str "[2147483647B".

(** C4: a line feed and then ESC [ 2147483647 B, cursor down by the
    largest [int], written by either call to an idle session whose cursor
    is in the grid: the addition [cursor_y += n] exceeds [int], the sum
    comes out negative, the comparison with [VTERM_ROWS] that follows does
    not catch it, and the session is left with its cursor above the grid. *)
Theorem cursor_down_leaves_grid p vt_id s :
  valid_id vt_id = true -> get_session p vt_id = Some s ->
  cursor_ok (view p s) -> escape_state (view p s) = 0 ->
  length (escape_buf (view p s)) = 32%nat ->
  written p vt_id cursor_down_max
    (fun v => cursor_x v = 0 /\
              cursor_y v = Z.min (cursor_y (view p s) + 1) (VTERM_ROWS - 1) - 2147483649 /\
              ~ cursor_ok v).
Proof.
  intros Hv Hs Hc He Hl.
  pose proof (line_feed_step (view p s) He) as Hlf.
  destruct (newline_state (view p s) Hc) as (Nx & Ny & Ns & Nb).
  set (v1 := set_dirty (newline (view p s)) 1) in *.
  assert (Hc1 : cursor_ok v1).
  { unfold cursor_ok, v1. cbn [cursor_x cursor_y set_dirty]. rewrite Nx, Ny.
    destruct Hc as [_ Hy]. unfold VTERM_COLS, VTERM_ROWS in *. lia. }
  assert (He1 : escape_state v1 = 0) by (unfold v1; cbn [escape_state set_dirty]; congruence).
  assert (Hl1 : length (escape_buf v1) = 32%nat)
    by (unfold v1; cbn [escape_buf set_dirty]; congruence).
  assert (Hy1 : 1 <= cursor_y v1).
  { unfold v1. cbn [cursor_y set_dirty]. rewrite Ny.
    destruct Hc as [_ Hy]. unfold VTERM_ROWS in *. lia. }
  destruct (cursor_down_run v1 Hc1 He1 Hl1 Hy1) as (v & Hrun & Hx & Hy & Hbad).
  assert (Hfinal : cursor_x v = 0 /\
                   cursor_y v = Z.min (cursor_y (view p s) + 1) (VTERM_ROWS - 1) - 2147483649).
  { split; [rewrite Hx; exact Nx | rewrite Hy; unfold v1; cbn [cursor_y set_dirty];
                                   rewrite Ny; reflexivity]. }
  apply (written_of_run p vt_id s _ v [] _ Hv Hs).
  - unfold cursor_down_max. cbn [stays_in_grid]. rewrite Hlf.
    apply andb_true_iff. split; [apply in_grid_cursor_ok, Hc|].
    apply (csi_stays v1 (str "2147483647") "B" Hc1 He1 Hl1); [cbn; lia|repeat constructor].
  - unfold cursor_down_max. cbn [putchar_seq]. rewrite Hlf. exact Hrun.
  - destruct Hfinal. repeat split; assumption.
  - destruct Hfinal. repeat split; assumption.
Qed.

(** Session 0 of the pool of [vterm_init]. *)
Lemma cursor_down_leaves_grid_witness :
  written vterm_init 0 cursor_down_max
    (fun v => cursor_x v = 0 /\ cursor_y v = -2147483648 /\ ~ cursor_ok v).
Proof.
  exact (cursor_down_leaves_grid vterm_init 0 session0 eq_refl init_session0
           init_view0_cursor init_view0_idle (proj1 init_view0_state)).
Defined.

(** * Further properties of vterm.c *)

(** ** When [vterm_apply_sgr] returns *)

(** The bytes [sgr_parse_num] can step over. *)
Definition sgr_byte (c : ascii) : bool := is_digit c || ascii_eqb c ";".

(** [rest] is what is left of [p] after stepping over such bytes only. *)
Definition steps_over (p rest : list ascii) : Prop :=
  exists pre, p = pre ++ rest /\ Forall (fun c => sgr_byte c = true) pre.

Lemma steps_over_refl p : steps_over p p.
Proof. exists []. split; [reflexivity|constructor]. Qed.

Lemma steps_over_trans p q r : steps_over p q -> steps_over q r -> steps_over p r.
Proof.
  intros (a & -> & Ha) (b & -> & Hb). exists (a ++ b).
  split; [apply app_assoc|apply Forall_app; auto].
Qed.

Lemma steps_over_cons c p rest :
  sgr_byte c = true -> steps_over p rest -> steps_over (c :: p) rest.
Proof.
  intros Hc (pre & -> & Hp). exists (c :: pre). split; [reflexivity|constructor; auto].
Qed.

Lemma steps_over_length p rest : steps_over p rest -> (length rest <= length p)%nat.
Proof. intros (pre & -> & _). rewrite length_app. lia. Qed.

Lemma steps_over_Forall p rest :
  steps_over p rest ->
  (Forall (fun c => sgr_byte c = true) p <-> Forall (fun c => sgr_byte c = true) rest).
Proof.
  intros (pre & -> & Hp). rewrite Forall_app. tauto.
Qed.

Lemma sgr_digits_steps p : forall num,
  steps_over p (snd (sgr_digits p num)) /\
  match p with
  | c :: _ => is_digit c = true -> (length (snd (sgr_digits p num)) < length p)%nat
  | [] => True
  end.
Proof.
  induction p as [|c p IH]; intros num; cbn [sgr_digits].
  - split; [apply steps_over_refl|exact I].
  - destruct (is_digit c) eqn:Hd.
    + destruct (IH (int_add (int_mul num 10) (int_sub (code c) 48))) as [Hs _].
      split.
      * apply steps_over_cons; [unfold sgr_byte; rewrite Hd; reflexivity | exact Hs].
      * intros _. apply steps_over_length in Hs. cbn [length]. lia.
    + split; [apply steps_over_refl|discriminate].
Qed.

Lemma sgr_parse_num_steps p :
  steps_over p (snd (sgr_parse_num p)) /\
  match p with
  | c :: _ => sgr_byte c = true -> (length (snd (sgr_parse_num p)) < length p)%nat
  | [] => True
  end.
Proof.
  unfold sgr_parse_num.
  destruct (sgr_digits_steps p 0) as [Hs Hlt].
  destruct (sgr_digits p 0) as [num q] eqn:E. cbn [snd] in *.
  destruct q as [|d q'].
  - split; [exact Hs|]. destruct p as [|c p']; [exact I|].
    intros Hc. unfold sgr_byte in Hc. destruct (is_digit c) eqn:Hd.
    + apply Hlt. reflexivity.
    + cbn [sgr_digits] in E. rewrite Hd in E. discriminate E.
  - destruct (ascii_eqb d ";") eqn:Hsemi; cbn [snd].
    + split.
      * eapply steps_over_trans; [exact Hs|].
        exists [d]. split; [reflexivity|].
        constructor; [unfold sgr_byte; rewrite Hsemi; apply orb_true_r|constructor].
      * destruct p as [|c p']; [exact I|]. intros _.
        apply steps_over_length in Hs. cbn [length] in *. lia.
    + split; [exact Hs|]. destruct p as [|c p']; [exact I|].
      intros Hc. unfold sgr_byte in Hc. destruct (is_digit c) eqn:Hd.
      * apply Hlt. reflexivity.
      * cbn [sgr_digits] in E. rewrite Hd in E. inversion E; subst.
        cbn [orb] in Hc. congruence.
Qed.

Lemma sgr_skip_extended_steps p : steps_over p (sgr_skip_extended p).
Proof.
  unfold sgr_skip_extended.
  pose proof (sgr_parse_num_steps p) as [H1 _].
  destruct (sgr_parse_num p) as [mode q]. cbn [snd] in H1.
  destruct (mode =? 5).
  - eapply steps_over_trans; [exact H1|apply sgr_parse_num_steps].
  - destruct (mode =? 2); [|exact H1].
    eapply steps_over_trans; [exact H1|].
    eapply steps_over_trans; [apply sgr_parse_num_steps|].
    eapply steps_over_trans; apply sgr_parse_num_steps.
Qed.

Lemma sgr_code_steps attr bright num p :
  steps_over p (snd (sgr_code attr bright num p)).
Proof.
  unfold sgr_code.
  repeat match goal with
         | |- context [if ?b then _ else _] => destruct b
         end; cbn [snd]; first [apply steps_over_refl | apply sgr_skip_extended_steps].
Qed.

Lemma sgr_code_range attr bright num p :
  0 <= attr <= 255 -> 0 <= fst (fst (sgr_code attr bright num p)) <= 255.
Proof.
  intros H. unfold sgr_code, to_uint8.
  repeat match goal with
         | |- context [if ?b then _ else _] => destruct b
         end; cbn [fst];
    first [ exact H
          | change VTERM_DEFAULT_ATTR with 7; lia
          | match goal with
            | |- 0 <= ?x mod 256 <= 255 =>
                pose proof (Z.mod_pos_bound x 256 ltac:(lia)); lia
            end ].
Qed.

(** With digits and semicolons only, the parameter loop ends: every turn
    steps over at least one byte. *)
Lemma sgr_loop_returns fuel : forall p attr bright,
  (length p <= fuel)%nat -> Forall (fun c => sgr_byte c = true) p ->
  exists a, sgr_loop fuel attr bright p = Some a.
Proof.
  induction fuel as [|fuel IH]; intros p attr bright Hlen Hp.
  - destruct p; [|cbn in Hlen; lia]. exists attr. reflexivity.
  - destruct p as [|c p']; [exists attr; reflexivity|].
    inversion Hp as [|? ? Hc Hrest]; subst.
    cbn [sgr_loop]. fold (sgr_byte c). rewrite Hc. cbn [negb].
    destruct (sgr_parse_num_steps (c :: p')) as [Hs Hlt]. specialize (Hlt Hc).
    destruct (sgr_parse_num (c :: p')) as [num p1]. cbn [snd] in *.
    pose proof (sgr_code_steps attr bright num p1) as Hs2.
    destruct (sgr_code attr bright num p1) as [[attr' bright'] p2]. cbn [snd] in Hs2.
    apply IH.
    + apply steps_over_length in Hs2. cbn [length] in *. lia.
    + apply (steps_over_Forall _ _ Hs2). apply (steps_over_Forall _ _ Hs). exact Hp.
Qed.

(** Any other byte stops the pointer for good: the loop returns only when
    there is none. *)
Lemma sgr_loop_bytes fuel : forall p attr bright a,
  sgr_loop fuel attr bright p = Some a -> Forall (fun c => sgr_byte c = true) p.
Proof.
  induction fuel as [|fuel IH]; intros p attr bright a H.
  - destruct p as [|c p']; [constructor|]. cbn [sgr_loop] in H.
    destruct (negb _); discriminate.
  - destruct p as [|c p']; [constructor|]. cbn [sgr_loop] in H.
    fold (sgr_byte c) in H. destruct (sgr_byte c) eqn:Hc; [|discriminate].
    cbn [negb] in H.
    destruct (sgr_parse_num_steps (c :: p')) as [Hs _].
    destruct (sgr_parse_num (c :: p')) as [num p1]. cbn [snd] in *.
    pose proof (sgr_code_steps attr bright num p1) as Hs2.
    destruct (sgr_code attr bright num p1) as [[attr' bright'] p2]. cbn [snd] in Hs2.
    apply (steps_over_Forall _ _ Hs). apply (steps_over_Forall _ _ Hs2).
    eapply IH, H.
Qed.

Lemma sgr_loop_range fuel : forall p attr bright a,
  0 <= attr <= 255 -> sgr_loop fuel attr bright p = Some a -> 0 <= a <= 255.
Proof.
  induction fuel as [|fuel IH]; intros p attr bright a Ha H.
  - destruct p as [|c p']; cbn [sgr_loop] in H.
    + injection H as <-. exact Ha.
    + destruct (negb _); discriminate.
  - destruct p as [|c p']; cbn [sgr_loop] in H.
    + injection H as <-. exact Ha.
    + destruct (negb _); [discriminate|].
      destruct (sgr_parse_num (c :: p')) as [num p1].
      pose proof (sgr_code_range attr bright num p1 Ha) as Hr.
      destruct (sgr_code attr bright num p1) as [[attr' bright'] p2]. cbn [fst] in Hr.
      eapply IH; eassumption.
Qed.

(** The text the loop starts on, after the leading reset. *)
Lemma sgr_attr_start current params :
  exists attr p,
    sgr_attr current params = sgr_loop (length p) attr 0 p /\
    steps_over params p /\
    (attr = current \/ attr = VTERM_DEFAULT_ATTR).
Proof.
  unfold sgr_attr.
  destruct params as [|c rest].
  - exists VTERM_DEFAULT_ATTR, []. split; [reflexivity|].
    split; [apply steps_over_refl|auto].
  - destruct (ascii_eqb c "0") eqn:H0; cbn [andb].
    + assert (Hc : sgr_byte c = true).
      { unfold ascii_eqb in H0. apply Ascii.eqb_eq in H0. subst c. reflexivity. }
      destruct rest as [|d rest'].
      * exists VTERM_DEFAULT_ATTR, []. split; [reflexivity|].
        split; [|auto]. apply steps_over_cons; [exact Hc|apply steps_over_refl].
      * destruct (ascii_eqb d ";") eqn:Hd.
        -- exists VTERM_DEFAULT_ATTR, rest'. split; [reflexivity|]. split; [|auto].
           apply steps_over_cons; [exact Hc|].
           apply steps_over_cons; [unfold sgr_byte; rewrite Hd; apply orb_true_r|].
           apply steps_over_refl.
        -- exists current, (c :: d :: rest'). split; [reflexivity|].
           split; [apply steps_over_refl|auto].
    + exists current, (c :: rest). split; [reflexivity|].
      split; [apply steps_over_refl|auto].
Qed.

Lemma sgr_attr_returns_iff current params :
  (exists a, sgr_attr current params = Some a) <->
  Forall (fun c => sgr_byte c = true) params.
Proof.
  destruct (sgr_attr_start current params) as (attr & p & -> & Hs & _).
  rewrite (steps_over_Forall _ _ Hs). split.
  - intros [a Ha]. eapply sgr_loop_bytes, Ha.
  - intros Hp. apply sgr_loop_returns; [lia|exact Hp].
Qed.

Lemma sgr_attr_range current params a :
  0 <= current <= 255 -> sgr_attr current params = Some a -> 0 <= a <= 255.
Proof.
  intros Hc. destruct (sgr_attr_start current params) as (attr & p & -> & _ & Ha).
  apply sgr_loop_range. destruct Ha as [-> | ->]; [exact Hc|].
  change VTERM_DEFAULT_ATTR with 7. lia.
Qed.

Lemma sgr_sequence_hangs vt params out :
  escape_state vt = 0 -> length (escape_buf vt) = 32%nat ->
  csi_params_ok params = true ->
  sgr_attr (current_attr vt) params = None ->
  putchar_seq vt (sgr_sequence params) out = None.
Proof.
  intros Hs Hl Hok Ha.
  destruct (csi_params_ok_spec params Hok) as (Hfit & Hna & Hnn & Hq).
  destruct (csi_sequence vt params "m" out Hs Hl Hfit Hna eq_refl)
    as (vt2 & rest & E1 & E2 & E3 & E4 & E6 & E5 & Hrun).
  unfold sgr_sequence. rewrite Hrun, Hq.
  assert (Hd : csi_dispatch vt2 "m" = None).
  { unfold csi_dispatch. change (ascii_eqb "m" "m") with true. cbv iota.
    rewrite E5, (c_string_app _ _ Hnn). unfold vterm_apply_sgr. rewrite E4, Ha.
    reflexivity. }
  rewrite Hd. reflexivity.
Qed.

Lemma sgr_sequence_on_pool p vt_id s params :
  valid_id vt_id = true -> get_session p vt_id = Some s ->
  cursor_ok (view p s) -> escape_state (view p s) = 0 ->
  length (escape_buf (view p s)) = 32%nat -> csi_params_ok params = true ->
  match sgr_attr (current_attr (view p s)) params with
  | Some a =>
      written p vt_id (sgr_sequence params)
        (fun v => current_attr v = a /\ cells v = cells (view p s) /\
                  cursor_x v = cursor_x (view p s) /\ cursor_y v = cursor_y (view p s) /\
                  escape_state v = 0)
  | None =>
      vterm_write p vt_id (sgr_sequence params) = None /\
      putchar_each p vt_id (sgr_sequence params) = None
  end.
Proof.
  intros Hv Hs Hc He Hl Hok.
  destruct (csi_params_ok_spec params Hok) as (Hfit & Hna & _ & _).
  assert (Hstay : stays_in_grid (view p s) (sgr_sequence params) = true)
    by (apply csi_stays; assumption).
  destruct (sgr_attr (current_attr (view p s)) params) as [a|] eqn:Ha.
  - destruct (sgr_sequence_run (view p s) params [] a He Hl Hok Ha)
      as (v & Hrun & C1 & C2 & C3 & C4 & C5 & _).
    apply (written_of_run p vt_id s _ v [] _ Hv Hs Hstay Hrun); repeat split; assumption.
  - pose proof (sgr_sequence_hangs (view p s) params [] He Hl Hok Ha) as Hrun.
    split.
    + rewrite (vterm_write_store p vt_id _ s Hv Hs).
      rewrite (write_body_putchar_seq _ _ Hstay), Hrun. reflexivity.
    + rewrite (putchar_each_session p vt_id _ s Hv Hs), Hrun. reflexivity.
Qed.

(** X1: for parameter text that reaches [vterm_apply_sgr] as it was sent
    (at most 30 bytes, none of them a letter or a NUL, the first not a
    question mark), the SGR sequence ESC [ params m written to an idle
    session whose cursor is inside the grid returns, from [vterm_write] as
    from [vterm_putchar] byte by byte, exactly when the text consists of
    digits and semicolons.  On any other byte of such a text (as in
    ESC [ > 4 ; 2 m or ESC [ 38 : 5 : 1 m) [sgr_parse_num] stops advancing
    and the loop of [vterm_apply_sgr] never ends. *)
Theorem sgr_sequence_returns_iff p vt_id s params :
  valid_id vt_id = true -> get_session p vt_id = Some s ->
  cursor_ok (view p s) -> escape_state (view p s) = 0 ->
  length (escape_buf (view p s)) = 32%nat -> csi_params_ok params = true ->
  (is_Some (vterm_write p vt_id (sgr_sequence params)) <->
   Forall (fun c => sgr_byte c = true) params) /\
  (is_Some (putchar_each p vt_id (sgr_sequence params)) <->
   Forall (fun c => sgr_byte c = true) params).
Proof.
  intros Hv Hs Hc He Hl Hok.
  pose proof (sgr_sequence_on_pool p vt_id s params Hv Hs Hc He Hl Hok) as H.
  pose proof (sgr_attr_returns_iff (current_attr (view p s)) params) as Hiff.
  destruct (sgr_attr (current_attr (view p s)) params) as [a|].
  - destruct H as [(p1 & v1 & Hw & _) (p2 & v2 & Hp & _)].
    rewrite Hw, Hp. split; (split; [intros _; apply Hiff; eauto | intros _; eauto]).
  - destruct H as [Hw Hp]. rewrite Hw, Hp.
    split; (split; [intros [x Hx]; discriminate Hx|]);
      intros Hall; apply Hiff in Hall; destruct Hall as [a Ha]; discriminate Ha.
Qed.

(** ESC [ > 4 ; 2 m on session 0 of the pool of [vterm_init]. *)
Lemma sgr_sequence_returns_iff_witness :
  (is_Some (vterm_write vterm_init 0 (sgr_sequence (str ">4;2"))) <->
   Forall (fun c => sgr_byte c = true) (str ">4;2")) /\
  (is_Some (putchar_each vterm_init 0 (sgr_sequence (str ">4;2"))) <->
   Forall (fun c => sgr_byte c = true) (str ">4;2")).
Proof.
  exact (sgr_sequence_returns_iff vterm_init 0 session0 (str ">4;2") eq_refl init_session0
           init_view0_cursor init_view0_idle (proj1 init_view0_state) eq_refl).
Defined.

(** ** Numbers in parameter text *)

Lemma digits_value_ge s : forall acc, 0 <= acc -> acc <= fst (digits_value s acc).
Proof.
  induction s as [|c s IH]; intros acc Ha; cbn [digits_value]; [cbn; lia|].
  destruct (is_digit c) eqn:Hd; [|cbn; lia].
  unfold is_digit in Hd. apply andb_true_iff in Hd. rewrite !Z.leb_le in Hd.
  specialize (IH (acc * 10 + (code c - 48)) ltac:(lia)). lia.
Qed.

(** [sgr_parse_num] and [atoi] read the same number as long as it fits [int]. *)
Lemma sgr_digits_value s : forall acc,
  0 <= acc -> fst (digits_value s acc) <= INT_MAX ->
  sgr_digits s acc = digits_value s acc.
Proof.
  induction s as [|c s IH]; intros acc Ha Hfit; cbn [sgr_digits digits_value] in *;
    [reflexivity|].
  destruct (is_digit c) eqn:Hd; [|reflexivity].
  unfold is_digit in Hd. apply andb_true_iff in Hd. rewrite !Z.leb_le in Hd.
  pose proof (digits_value_ge s (acc * 10 + (code c - 48)) ltac:(lia)) as Hge.
  rewrite int_sub_small by (unfold INT_MIN, INT_MAX in *; lia).
  rewrite int_mul_small by (unfold INT_MIN, INT_MAX in *; lia).
  rewrite int_add_small by (unfold INT_MIN, INT_MAX in *; lia).
  apply IH; [lia|exact Hfit].
Qed.

Lemma digits_value_dec_chars n rest :
  0 <= n ->
  match rest with [] => True | c :: _ => is_digit c = false end ->
  digits_value (dec_chars n ++ rest) 0 = (n, rest).
Proof.
  intros Hn Hrest. unfold dec_chars. destruct (Z.ltb_spec n 0); [lia|].
  destruct (digits_value_dec (Z.to_nat (Z.log2 n)) n rest 0
              (conj Hn (log2_fuel n Hn))) as (k & Hk & Hv).
  rewrite dec_digits_acc in Hv. cbn [Z.mul Z.add] in Hv. rewrite Hv.
  destruct rest as [|c rest']; cbn [digits_value]; [reflexivity|].
  rewrite Hrest. reflexivity.
Qed.

Lemma sgr_digits_dec_chars n rest :
  0 <= n <= INT_MAX ->
  match rest with [] => True | c :: _ => is_digit c = false end ->
  sgr_digits (dec_chars n ++ rest) 0 = (n, rest).
Proof.
  intros Hn Hrest.
  pose proof (digits_value_dec_chars n rest ltac:(lia) Hrest) as Hv.
  rewrite sgr_digits_value; [exact Hv|lia|rewrite Hv; cbn; lia].
Qed.

(** [atoi] of the decimal text of a count. *)
Lemma atoi_dec_chars n : 0 <= n -> atoi (dec_chars n) = clamp_int n.
Proof.
  intros Hn. unfold atoi.
  rewrite <- (app_nil_r (dec_chars n)), (scan_int_dec n [] Hn I). reflexivity.
Qed.

Lemma dec_chars_plain n :
  0 <= n ->
  Forall (fun c => is_digit c = true) (dec_chars n) /\ dec_chars n <> [].
Proof.
  intros Hn. destruct (dec_chars_digits n Hn) as (d & ds & -> & Hd & Hds).
  split; [constructor; assumption|discriminate].
Qed.

(** ** What the SGR codes select *)

(** The attribute [r] an SGR call returned has the given foreground and
    background nibbles. *)
Definition nibbles_are (r : option Z) (fg bg : Z) : Prop :=
  exists a, r = Some a /\ VTERM_ATTR_FG a = fg /\ VTERM_ATTR_BG a = bg.

Definition nibbles_areb (r : option Z) (fg bg : Z) : bool :=
  match r with
  | Some a => (VTERM_ATTR_FG a =? fg) && (VTERM_ATTR_BG a =? bg)
  | None => false
  end.

Lemma nibbles_areb_spec r fg bg : nibbles_areb r fg bg = true -> nibbles_are r fg bg.
Proof.
  unfold nibbles_areb, nibbles_are. destruct r as [a|]; [|discriminate].
  rewrite andb_true_iff, !Z.eqb_eq. intros [H1 H2]. eauto.
Qed.

Lemma forallb_seqZ (f : Z -> bool) m n :
  forallb f (seqZ m n) = true -> forall z, m <= z < m + n -> f z = true.
Proof.
  intros H z Hz. rewrite forallb_forall in H. apply H.
  apply list_elem_of_In, elem_of_seqZ. exact Hz.
Qed.

(** Every single-code SGR call checked on one attribute byte and one
    colour index. *)
Definition sgr_codes_check (a k : Z) : bool :=
  let after s := sgr_attr a s in
  let fg := VTERM_ATTR_FG a in
  let bg := VTERM_ATTR_BG a in
  nibbles_areb (after (dec_chars (30 + k))) k bg
  && nibbles_areb (after (dec_chars (90 + k))) (k + 8) bg
  && nibbles_areb (after (dec_chars (40 + k))) fg k
  && nibbles_areb (after (dec_chars (100 + k))) fg (k + 8)
  && nibbles_areb (after (str "39")) VTERM_WHITE bg
  && nibbles_areb (after (str "49")) fg VTERM_BLACK
  && nibbles_areb (after (str "1")) (Z.lor fg VTERM_BRIGHT) bg
  && nibbles_areb (after (str "22")) (Z.land fg 7) bg
  && nibbles_areb (after (str "0")) VTERM_WHITE VTERM_BLACK
  && nibbles_areb (after []) VTERM_WHITE VTERM_BLACK.

Lemma sgr_codes_check_all :
  forallb (fun a => forallb (sgr_codes_check a) (seqZ 0 8)) (seqZ 0 256) = true.
Proof. vm_compute. reflexivity. Qed.

(** X2: what one SGR code does to an attribute byte [a], for each colour
    index [k] in 0..7: 30+k and 90+k set the foreground nibble to [k] and
    [k+8] and keep the background; 40+k and 100+k set the background nibble
    to [k] and [k+8] and keep the foreground; 39 and 49 select white
    foreground and black background; 1 sets and 22 clears the bright bit of
    the foreground; 0 and the empty parameter give white on black. *)
Theorem sgr_codes_select_nibbles a k :
  0 <= a <= 255 -> 0 <= k <= 7 ->
  let after s := sgr_attr a s in
  let fg := VTERM_ATTR_FG a in
  let bg := VTERM_ATTR_BG a in
  nibbles_are (after (dec_chars (30 + k))) k bg /\
  nibbles_are (after (dec_chars (90 + k))) (k + 8) bg /\
  nibbles_are (after (dec_chars (40 + k))) fg k /\
  nibbles_are (after (dec_chars (100 + k))) fg (k + 8) /\
  nibbles_are (after (str "39")) VTERM_WHITE bg /\
  nibbles_are (after (str "49")) fg VTERM_BLACK /\
  nibbles_are (after (str "1")) (Z.lor fg VTERM_BRIGHT) bg /\
  nibbles_are (after (str "22")) (Z.land fg 7) bg /\
  nibbles_are (after (str "0")) VTERM_WHITE VTERM_BLACK /\
  nibbles_are (after []) VTERM_WHITE VTERM_BLACK.
Proof.
  intros Ha Hk. cbv zeta.
  pose proof (forallb_seqZ _ 0 8
                (forallb_seqZ _ 0 256 sgr_codes_check_all a ltac:(lia)) k ltac:(lia)) as H.
  unfold sgr_codes_check in H. cbv zeta in H.
  repeat (apply andb_true_iff in H; destruct H as [H ?]).
  repeat split; apply nibbles_areb_spec; assumption.
Qed.

(** Cyan on a blue background, and the colour index 5. *)
Lemma sgr_codes_select_nibbles_witness :
  nibbles_are (sgr_attr 70 (str "35")) 5 4 /\
  nibbles_are (sgr_attr 70 (str "95")) 13 4 /\
  nibbles_are (sgr_attr 70 (str "45")) 6 5 /\
  nibbles_are (sgr_attr 70 (str "105")) 6 13.
Proof.
  destruct (sgr_codes_select_nibbles 70 5 ltac:(lia) ltac:(lia))
    as (H1 & H2 & H3 & H4 & _).
  repeat split; assumption.
Defined.

(** Numbers joined by semicolons, as SGR parameters are written. *)
Fixpoint join_params (ns : list Z) : list ascii :=
  match ns with
  | [] => []
  | [n] => dec_chars n
  | n :: rest => dec_chars n ++ ";"%char :: join_params rest
  end.

(** The codes [vterm_apply_sgr] has a case for, the two extended-colour
    introducers apart. *)
Definition sgr_supported (n : Z) : bool :=
  (n =? 0) || (n =? 1) || (n =? 22) || (n =? 39) || (n =? 49)
  || ((30 <=? n) && (n <=? 37)) || ((40 <=? n) && (n <=? 47))
  || ((90 <=? n) && (n <=? 97)) || ((100 <=? n) && (n <=? 107)).

Lemma sgr_parse_num_last n :
  0 <= n <= INT_MAX -> sgr_parse_num (dec_chars n) = (n, []).
Proof.
  intros Hn. unfold sgr_parse_num.
  rewrite <- (app_nil_r (dec_chars n)), (sgr_digits_dec_chars n [] Hn I). reflexivity.
Qed.

Lemma sgr_parse_num_next n rest :
  0 <= n <= INT_MAX -> sgr_parse_num (dec_chars n ++ ";"%char :: rest) = (n, rest).
Proof.
  intros Hn. unfold sgr_parse_num.
  rewrite (sgr_digits_dec_chars n (";"%char :: rest) Hn eq_refl). reflexivity.
Qed.

(** No leading reset unless the text is "0" or starts with "0;". *)
Lemma sgr_attr_no_reset current c rest :
  ascii_eqb c "0" = false ->
  sgr_attr current (c :: rest) = sgr_loop (S (length rest)) current 0 (c :: rest).
Proof. intros H. unfold sgr_attr. rewrite H. reflexivity. Qed.

(** The decimal text of a positive number is not taken for a reset. *)
Lemma sgr_attr_single current n :
  0 < n ->
  sgr_attr current (dec_chars n) =
  sgr_loop (length (dec_chars n)) current 0 (dec_chars n).
Proof.
  intros Hn. destruct (dec_chars_digits n ltac:(lia)) as (d & ds & E & Hd & Hds).
  pose proof (digits_value_dec_chars n [] ltac:(lia) I) as Hv.
  rewrite app_nil_r, E in Hv. rewrite E. unfold sgr_attr.
  destruct (ascii_eqb d "0") eqn:H0; [|reflexivity].
  destruct ds as [|e ds'].
  - exfalso. unfold ascii_eqb in H0. apply Ascii.eqb_eq in H0. subst d.
    change (digits_value ["0"%char] 0) with (0, @nil ascii) in Hv.
    injection Hv as Hv. lia.
  - inversion Hds as [|? ? He _]; subst.
    assert (Hsemi : ascii_eqb e ";" = false).
    { apply ascii_eqb_code_ne. unfold is_digit in He. apply andb_true_iff in He.
      rewrite !Z.leb_le in He. change (code ";") with 59. lia. }
    rewrite Hsemi. reflexivity.
Qed.

Lemma sgr_code_ignored attr bright n :
  sgr_supported n = false -> sgr_code attr bright n [] = (attr, bright, []).
Proof.
  unfold sgr_supported, sgr_code. intros H.
  repeat (apply orb_false_iff in H; destruct H as [H ?]).
  repeat match goal with
         | H : ?b = false |- context [if ?b then _ else _] => rewrite H
         end.
  destruct (n =? 38); [reflexivity|]. destruct (n =? 48); reflexivity.
Qed.

(** X3: SGR codes the terminal has no case for (italic 3, underline 4,
    reverse video 7 and so on; 38 and 48 without sub-parameters) leave the
    attribute as it is, and so do the 256-colour and true-colour selections
    38;5;i, 48;5;i, 38;2;r;g;b and 48;2;r;g;b, whose sub-parameters are read
    and dropped. *)
Theorem sgr_unsupported_codes_ignored a n i r g b :
  0 < n <= INT_MAX -> sgr_supported n = false ->
  0 <= i <= INT_MAX -> 0 <= r <= INT_MAX -> 0 <= g <= INT_MAX -> 0 <= b <= INT_MAX ->
  sgr_attr a (dec_chars n) = Some a /\
  sgr_attr a (join_params [38; 5; i]) = Some a /\
  sgr_attr a (join_params [48; 5; i]) = Some a /\
  sgr_attr a (join_params [38; 2; r; g; b]) = Some a /\
  sgr_attr a (join_params [48; 2; r; g; b]) = Some a.
Proof.
  intros Hn Hsup Hi Hr Hg Hb.
  assert (H5 : 0 <= 5 <= INT_MAX) by (unfold INT_MAX; lia).
  assert (H2 : 0 <= 2 <= INT_MAX) by (unfold INT_MAX; lia).
  assert (Hext : forall intro tail,
             (intro = 38 \/ intro = 48) ->
             sgr_skip_extended tail = [] ->
             sgr_attr a (dec_chars intro ++ ";"%char :: tail) = Some a).
  { intros intro tail Hin Hskip.
    assert (Hint : 0 <= intro <= INT_MAX) by (unfold INT_MAX; lia).
    assert (Hcode : sgr_code a 0 intro tail = (a, 0, [])).
    { destruct Hin as [-> | ->]; unfold sgr_code; cbn; rewrite Hskip; reflexivity. }
    assert (Hstart : sgr_attr a (dec_chars intro ++ ";"%char :: tail)
                     = sgr_loop (length (dec_chars intro ++ ";"%char :: tail)) a 0
                                (dec_chars intro ++ ";"%char :: tail)).
    { destruct Hin as [-> | ->]; reflexivity. }
    rewrite Hstart.
    assert (Hhead : exists c rest, dec_chars intro ++ ";"%char :: tail = c :: rest /\
                                   sgr_byte c = true).
    { destruct Hin as [-> | ->]; eexists _, _; split; reflexivity. }
    destruct Hhead as (c & rest & E & Hc).
    pose proof (sgr_parse_num_next intro tail Hint) as Hp. rewrite E in *.
    cbn [length sgr_loop]. fold (sgr_byte c). rewrite Hc. cbn [negb].
    rewrite Hp, Hcode. destruct (length rest); reflexivity. }
  split; [|split; [|split; [|split]]].
  - rewrite sgr_attr_single by lia.
    destruct (dec_chars_digits n ltac:(lia)) as (d & ds & E & Hd & _).
    pose proof (sgr_parse_num_last n ltac:(lia)) as Hp. rewrite E in *.
    cbn [length sgr_loop]. rewrite Hd. cbn [orb negb].
    rewrite Hp, (sgr_code_ignored a 0 n Hsup). destruct (length ds); reflexivity.
  - apply Hext; [auto|]. unfold sgr_skip_extended. cbn [join_params].
    rewrite (sgr_parse_num_next 5 _ H5). change (5 =? 5) with true. cbv iota.
    rewrite (sgr_parse_num_last i Hi). reflexivity.
  - apply Hext; [auto|]. unfold sgr_skip_extended. cbn [join_params].
    rewrite (sgr_parse_num_next 5 _ H5). change (5 =? 5) with true. cbv iota.
    rewrite (sgr_parse_num_last i Hi). reflexivity.
  - apply Hext; [auto|]. unfold sgr_skip_extended. cbn [join_params].
    rewrite (sgr_parse_num_next 2 _ H2). change (2 =? 5) with false.
    change (2 =? 2) with true. cbv iota.
    rewrite (sgr_parse_num_next r _ Hr). cbn [snd].
    rewrite (sgr_parse_num_next g _ Hg). cbn [snd].
    rewrite (sgr_parse_num_last b Hb). reflexivity.
  - apply Hext; [auto|]. unfold sgr_skip_extended. cbn [join_params].
    rewrite (sgr_parse_num_next 2 _ H2). change (2 =? 5) with false.
    change (2 =? 2) with true. cbv iota.
    rewrite (sgr_parse_num_next r _ Hr). cbn [snd].
    rewrite (sgr_parse_num_next g _ Hg). cbn [snd].
    rewrite (sgr_parse_num_last b Hb). reflexivity.
Qed.

(** Underline, and the colours 196 and (255, 128, 0), on a cyan-on-blue
    attribute. *)
Lemma sgr_unsupported_codes_ignored_witness :
  sgr_attr 70 (str "4") = Some 70 /\
  sgr_attr 70 (str "38;5;196") = Some 70 /\
  sgr_attr 70 (str "48;5;196") = Some 70 /\
  sgr_attr 70 (str "38;2;255;128;0") = Some 70 /\
  sgr_attr 70 (str "48;2;255;128;0") = Some 70.
Proof.
  apply (sgr_unsupported_codes_ignored 70 4 196 255 128 0);
    first [reflexivity | unfold INT_MAX; lia].
Defined.

(** ** The hotkey detector between calls *)

Lemma send_input_globals p vt_id c :
  s_active_vt (vterm_send_input p vt_id c) = s_active_vt p /\
  s_esc_buf (vterm_send_input p vt_id c) = s_esc_buf p /\
  s_esc_len (vterm_send_input p vt_id c) = s_esc_len p /\
  s_esc_start (vterm_send_input p vt_id c) = s_esc_start p.
Proof.
  unfold vterm_send_input. destruct (valid_id vt_id); [|auto].
  destruct (get_session p vt_id); auto.
Qed.

Lemma send_all_globals out : forall p vt_id,
  s_active_vt (send_all p vt_id out) = s_active_vt p /\
  s_esc_buf (send_all p vt_id out) = s_esc_buf p /\
  s_esc_len (send_all p vt_id out) = s_esc_len p /\
  s_esc_start (send_all p vt_id out) = s_esc_start p.
Proof.
  induction out as [|c out IH]; intros p vt_id; [auto|].
  unfold send_all in *. cbn [foldl].
  destruct (IH (vterm_send_input p vt_id c) vt_id) as (A & B & C & D).
  destruct (send_input_globals p vt_id c) as (A' & B' & C' & D').
  rewrite A, B, C, D. auto.
Qed.

(** The bytes [flush_input_buffer] sends: the first [s_esc_len] bytes of
    [s_esc_buf], in order, to the active session. *)
Definition buffered (p : vterm_pool) : list ascii :=
  map (char_at (s_esc_buf p)) (seqZ 0 (s_esc_len p)).

Lemma flush_as_send_all p :
  flush_input_buffer p =
  set_esc (send_all p (s_active_vt p) (buffered p)) (s_esc_buf p) 0.
Proof.
  unfold flush_input_buffer, buffered.
  generalize (seqZ 0 (s_esc_len p)) as idx. intros idx.
  assert (G : forall q,
             s_active_vt q = s_active_vt p -> s_esc_buf q = s_esc_buf p ->
             foldl (fun p0 i => vterm_send_input p0 (s_active_vt p0)
                                  (char_at (s_esc_buf p0) i)) q idx
             = send_all q (s_active_vt p) (map (char_at (s_esc_buf p)) idx)).
  { induction idx as [|i idx IH]; intros q Ha Hb; [reflexivity|].
    cbn [foldl map]. unfold send_all. cbn [foldl]. rewrite Ha, Hb.
    destruct (send_input_globals q (s_active_vt p) (char_at (s_esc_buf p) i))
      as (A & B & _).
    apply IH; congruence. }
  rewrite (G p eq_refl eq_refl).
  destruct (send_all_globals (map (char_at (s_esc_buf p)) idx) p (s_active_vt p))
    as (_ & B & _).
  rewrite B. reflexivity.
Qed.

Lemma match_vt_hotkey_length buf len :
  length (snd (match_vt_hotkey buf len)) = length buf.
Proof.
  unfold match_vt_hotkey.
  destruct (len <? 2); [reflexivity|].
  destruct (negb _); [reflexivity|].
  destruct (match_ss3 buf len); [reflexivity|].
  destruct (_ && _); [|reflexivity].
  destruct (match_xterm _ len); [apply store_char_length|].
  destruct (match_tilde _ len); [apply store_char_length|].
  destruct (match_csi_u _ len); apply store_char_length.
Qed.

Lemma could_be_hotkey_bound buf len :
  could_be_hotkey buf len = true -> len <= 10 \/ len = 1.
Proof.
  unfold could_be_hotkey.
  destruct (len =? 0); [discriminate|].
  destruct (negb _); [discriminate|].
  destruct (Z.eqb_spec len 1); [auto|].
  destruct (_ || _); [|discriminate].
  destruct (Z.ltb_spec 10 len); [discriminate|]. intros _. lia.
Qed.

(** The state of the detector between two calls of [vterm_input_feed]. *)
Definition detector_ok (p : vterm_pool) : Prop :=
  length (s_esc_buf p) = 16%nat /\ 0 <= s_esc_len p <= 10.

Lemma input_feed_detector hz p now c :
  detector_ok p ->
  detector_ok (snd (vterm_input_feed hz p now c)) /\
  (fst (vterm_input_feed hz p now c) = 0 \/ fst (vterm_input_feed hz p now c) = 1).
Proof.
  intros [Hb Hl]. unfold vterm_input_feed.
  set (p1 := if (0 <? s_esc_len p) && (pdMS_TO_TICKS hz 20 <? ticks_since now (s_esc_start p))
             then flush_input_buffer p else p).
  assert (H1 : detector_ok p1).
  { unfold p1. destruct (_ && _); [|split; assumption].
    rewrite flush_as_send_all. split; cbn [s_esc_buf s_esc_len set_esc]; [exact Hb|lia]. }
  clearbody p1. clear p Hb Hl. destruct H1 as [Hb Hl].
  destruct ((s_esc_len p1 =? 0) && ascii_eqb c ESC) eqn:Hstart.
  - apply andb_true_iff in Hstart as [Hz _]. apply Z.eqb_eq in Hz.
    cbn [fst snd]. split; [|auto]. unfold detector_ok.
    cbn [s_esc_buf s_esc_len set_esc set_esc_start]. rewrite Hz.
    split; [rewrite store_char_length; exact Hb|]. change (int_add 0 1) with 1. lia.
  - destruct (Z.ltb_spec 0 (s_esc_len p1)) as [Hpos|Hzero].
    + destruct (Z.ltb_spec (s_esc_len p1) 15); [|lia].
      cbn [s_esc_buf s_esc_len set_esc].
      rewrite int_add_small by (unfold INT_MIN, INT_MAX; lia).
      pose proof (match_vt_hotkey_length
                    (store_char (s_esc_buf p1) (s_esc_len p1) c) (s_esc_len p1 + 1)) as Hml.
      rewrite store_char_length, Hb in Hml.
      destruct (match_vt_hotkey _ _) as [vt buf]. cbn [snd] in Hml.
      cbn [s_esc_buf s_esc_len set_esc].
      destruct (0 <=? vt).
      * cbn [fst snd]. split; [|auto].
        match goal with
        | |- context [vterm_switch ?q vt] =>
            destruct (vterm_switch_esc q vt) as (E1 & E2 & _)
        end.
        unfold detector_ok. rewrite E1, E2. cbn [s_esc_buf s_esc_len set_esc].
        split; [exact Hml|lia].
      * destruct (could_be_hotkey buf (s_esc_len p1 + 1)) eqn:Hcb; cbn [fst snd].
        -- split; [|auto]. apply could_be_hotkey_bound in Hcb.
           unfold detector_ok. cbn [s_esc_buf s_esc_len set_esc].
           split; [exact Hml|lia].
        -- split; [|auto]. rewrite flush_as_send_all.
           unfold detector_ok. cbn [s_esc_buf s_esc_len set_esc].
           split; [exact Hml|lia].
    + cbn [fst snd]. split; [|auto].
      destruct (send_input_globals p1 (s_active_vt p1) c) as (_ & B & C & _).
      unfold detector_ok. rewrite B, C. split; [exact Hb|lia].
Qed.

(** X4: whatever bytes arrive and whenever, the detector never overruns
    its buffer: from a state with at most 10 bytes buffered in the 16-byte
    [s_esc_buf] (as after [vterm_init]) every call of [vterm_input_feed]
    leaves such a state again, and returns 0 or 1. *)
Theorem detector_never_overruns hz input : forall p,
  detector_ok p ->
  detector_ok (snd (feed_all hz p input)) /\
  Forall (fun r => r = 0 \/ r = 1) (fst (feed_all hz p input)).
Proof.
  induction input as [|[now c] rest IH]; intros p Hok.
  - cbn [feed_all fst snd]. split; [exact Hok|constructor].
  - cbn [feed_all].
    destruct (input_feed_detector hz p now c Hok) as [Hok1 Hr].
    destruct (vterm_input_feed hz p now c) as [r p1]. cbn [fst snd] in *.
    destruct (IH p1 Hok1) as [Hok2 Hrs].
    destruct (feed_all hz p1 rest) as [rs p2]. cbn [fst snd] in *.
    split; [exact Hok2|constructor; assumption].
Qed.

Lemma detector_ok_init : detector_ok vterm_init.
Proof. split; [reflexivity|]. change (s_esc_len vterm_init) with 0. lia. Qed.

(** Twelve digits after ESC [, one tick apart, on the pool of [vterm_init]. *)
Lemma detector_never_overruns_witness :
  let input := imap (fun i c => (100 + Z.of_nat i, c)) (ESC :: str "[123456789012") in
  detector_ok (snd (feed_all 1000 vterm_init input)) /\
  Forall (fun r => r = 0 \/ r = 1) (fst (feed_all 1000 vterm_init input)).
Proof.
  intros input. exact (detector_never_overruns 1000 input vterm_init detector_ok_init).
Defined.

(** ** Input queues *)

(** What session [k]'s input queue holds. *)
Definition queue_of (p : vterm_pool) (k : Z) : option (list ascii) :=
  input_queue <$> get_session p k.

(** The queue after [bytes] have been offered in turn. *)
Definition queue_after (q bytes : list ascii) : list ascii :=
  q ++ take (Z.to_nat (INPUT_QUEUE_SIZE - Z.of_nat (length q))) bytes.

Lemma queue_send_all_after bytes : forall q,
  Z.of_nat (length q) <= INPUT_QUEUE_SIZE ->
  foldl queue_send q bytes = queue_after q bytes.
Proof.
  unfold queue_after, INPUT_QUEUE_SIZE.
  induction bytes as [|c bytes IH]; intros q Hq; cbn [foldl].
  - rewrite take_nil, app_nil_r. reflexivity.
  - unfold queue_send at 2. unfold INPUT_QUEUE_SIZE.
    destruct (Z.ltb_spec (Z.of_nat (length q)) 64) as [Hlt|Hge].
    + rewrite IH by (rewrite length_app; cbn; lia).
      rewrite length_app. cbn [length].
      replace (Z.to_nat (64 - Z.of_nat (length q)))
        with (S (Z.to_nat (64 - Z.of_nat (length q + 1)))) by lia.
      cbn [take]. rewrite <- app_assoc. reflexivity.
    + rewrite IH by exact Hq.
      replace (Z.to_nat (64 - Z.of_nat (length q))) with 0%nat by lia.
      rewrite !take_0. reflexivity.
Qed.

Lemma queue_of_send p vt_id c k :
  queue_of (vterm_send_input p vt_id c) k =
  if valid_id vt_id && (k =? vt_id)
  then (fun q => queue_send q c) <$> queue_of p k
  else queue_of p k.
Proof.
  unfold queue_of. rewrite send_input_as_put.
  destruct (valid_id vt_id) eqn:Hv; [|reflexivity]. cbn [andb].
  assert (Hid : 0 <= vt_id) by (unfold valid_id in Hv; lia).
  destruct (Z.eqb_spec k vt_id) as [->|Hne].
  - destruct (get_session p vt_id) as [s|] eqn:Hs; [|rewrite Hs; reflexivity].
    rewrite (get_put_eq _ _ _ _ Hs). reflexivity.
  - destruct (get_session p vt_id) as [s|] eqn:Hs; [|reflexivity].
    destruct (Z.le_gt_cases 0 k).
    + rewrite get_put_ne by auto. reflexivity.
    + unfold get_session. destruct (Z.leb_spec 0 k); [lia|reflexivity].
Qed.

Lemma queue_of_send_all bytes : forall p vt_id k,
  queue_of (send_all p vt_id bytes) k =
  if valid_id vt_id && (k =? vt_id)
  then (fun q => foldl queue_send q bytes) <$> queue_of p k
  else queue_of p k.
Proof.
  induction bytes as [|c bytes IH]; intros p vt_id k.
  - cbn [send_all foldl]. unfold send_all. cbn [foldl].
    destruct (_ && _); [|reflexivity]. destruct (queue_of p k); reflexivity.
  - unfold send_all in *. cbn [foldl]. rewrite IH, queue_of_send.
    destruct (valid_id vt_id && (k =? vt_id)); [|reflexivity].
    destruct (queue_of p k); reflexivity.
Qed.

(** A byte that is not ESC, arriving while nothing is buffered. *)
Lemma feed_plain hz p now c :
  s_esc_len p = 0 -> c <> ESC ->
  vterm_input_feed hz p now c = (0, vterm_send_input p (s_active_vt p) c).
Proof.
  intros Hl Hc. unfold vterm_input_feed. rewrite Hl.
  change (0 <? 0) with false. cbn [andb]. cbv iota. rewrite Hl.
  unfold ascii_eqb. destruct (Ascii.eqb_spec c ESC); [contradiction|].
  rewrite andb_false_r. reflexivity.
Qed.

Lemma feed_all_plain hz bytes : forall p times,
  s_esc_len p = 0 -> Forall (fun c => c <> ESC) bytes ->
  length times = length bytes ->
  feed_all hz p (zip times bytes)
  = (replicate (length bytes) 0, send_all p (s_active_vt p) bytes).
Proof.
  induction bytes as [|c bytes IH]; intros p times Hl Hb Hlen.
  - destruct times; reflexivity.
  - destruct times as [|t times]; [discriminate|].
    inversion Hb as [|? ? Hc Hrest]; subst.
    cbn [zip zip_with feed_all]. rewrite (feed_plain hz p t c Hl Hc).
    destruct (send_input_globals p (s_active_vt p) c) as (A & _ & C & _).
    rewrite (IH (vterm_send_input p (s_active_vt p) c) times); try assumption.
    + rewrite A. reflexivity.
    + congruence.
    + cbn in Hlen. lia.
Qed.

(** X5: bytes other than ESC fed to an idle detector are all passed on
    (each call returns 0): the active session's queue receives them in
    order for as long as it holds fewer than 64 bytes, the rest is dropped;
    no other queue and no screen changes, and the detector stays idle. *)
Theorem plain_input_is_queued hz bytes times p s :
  s_esc_len p = 0 -> Forall (fun c => c <> ESC) bytes ->
  length times = length bytes ->
  valid_id (s_active_vt p) = true -> get_session p (s_active_vt p) = Some s ->
  Z.of_nat (length (input_queue s)) <= INPUT_QUEUE_SIZE ->
  let r := feed_all hz p (zip times bytes) in
  fst r = replicate (length bytes) 0 /\
  queue_of (snd r) (s_active_vt p) = Some (queue_after (input_queue s) bytes) /\
  (forall k, k <> s_active_vt p -> queue_of (snd r) k = queue_of p k) /\
  (forall k, session_view (snd r) k = session_view p k) /\
  s_esc_len (snd r) = 0.
Proof.
  intros Hl Hb Hlen Hv Hs Hq r. subst r.
  rewrite (feed_all_plain hz bytes p times Hl Hb Hlen). cbn [fst snd].
  split; [reflexivity|]. split; [|split; [|split]].
  - rewrite queue_of_send_all, Hv, Z.eqb_refl. cbn [andb].
    unfold queue_of at 1. rewrite Hs. cbn. rewrite queue_send_all_after by exact Hq.
    reflexivity.
  - intros k Hk. rewrite queue_of_send_all.
    destruct (Z.eqb_spec k (s_active_vt p)); [contradiction|].
    rewrite andb_false_r. reflexivity.
  - intros k. apply view_send_all.
  - destruct (send_all_globals bytes p (s_active_vt p)) as (_ & _ & C & _).
    rewrite C. exact Hl.
Qed.

(** Seventy bytes "x" typed on the pool of [vterm_init]: 64 are queued. *)
Lemma plain_input_is_queued_witness :
  let bytes := replicate 70 "x"%char in
  let r := feed_all 1000 vterm_init (zip (replicate 70 100) bytes) in
  fst r = replicate (length bytes) 0 /\
  queue_of (snd r) 0 = Some (replicate 64 "x"%char) /\
  (forall k, k <> 0 -> queue_of (snd r) k = queue_of vterm_init k) /\
  (forall k, session_view (snd r) k = session_view vterm_init k) /\
  s_esc_len (snd r) = 0.
Proof.
  intros bytes.
  apply (plain_input_is_queued 1000 bytes (replicate 70 100) vterm_init session0).
  - reflexivity.
  - apply Forall_replicate. discriminate.
  - reflexivity.
  - reflexivity.
  - exact init_session0.
  - cbn. unfold INPUT_QUEUE_SIZE. lia.
Defined.

(** ** What the detector gives up on *)

(** Two pools that differ in the detector's own variables at most. *)
Definition same_but_detector (p q : vterm_pool) : Prop :=
  s_iram_buffer p = s_iram_buffer q /\ s_vterms p = s_vterms q /\
  s_active_vt p = s_active_vt q /\ callback_state p = callback_state q.

Lemma same_but_detector_refl p : same_but_detector p p.
Proof. repeat split. Qed.

Lemma same_but_detector_send p q vt_id c :
  same_but_detector p q ->
  same_but_detector (vterm_send_input p vt_id c) (vterm_send_input q vt_id c).
Proof.
  intros (A & B & C & D). unfold vterm_send_input.
  destruct (valid_id vt_id); [|repeat split; assumption].
  unfold get_session, put_session. rewrite B.
  destruct (if 0 <=? vt_id then s_vterms q !! Z.to_nat vt_id else None);
    unfold same_but_detector, callback_state in *;
    cbn [s_iram_buffer s_vterms s_active_vt s_on_switch_cb s_on_render_cb calls set_vterms];
    rewrite ?B; repeat split; assumption.
Qed.

Lemma same_but_detector_send_all out : forall p q vt_id,
  same_but_detector p q ->
  same_but_detector (send_all p vt_id out) (send_all q vt_id out).
Proof.
  induction out as [|c out IH]; intros p q vt_id H; [exact H|].
  unfold send_all in *. cbn [foldl]. apply IH, same_but_detector_send, H.
Qed.

Lemma same_but_detector_set_esc p buf len start :
  same_but_detector (set_esc_start (set_esc p buf len) start) p.
Proof. repeat split. Qed.

(** A call made after the timeout first delivers what is buffered. *)
Lemma feed_timeout hz p now c :
  0 < s_esc_len p ->
  pdMS_TO_TICKS hz 20 < ticks_since now (s_esc_start p) ->
  vterm_input_feed hz p now c = vterm_input_feed hz (flush_input_buffer p) now c.
Proof.
  intros Hl Ht. apply Z.ltb_lt in Hl, Ht.
  unfold vterm_input_feed at 1 2. rewrite Hl, Ht. cbn [andb]. cbv iota.
  rewrite flush_as_send_all. cbn [s_esc_len set_esc]. reflexivity.
Qed.

(** X6: a call of [vterm_input_feed] that comes more than 20 ms after the
    start of a buffered sequence first sends the buffered bytes, in order,
    to the active session; a byte other than ESC is then sent after them
    and the detector is idle, while an ESC starts a new sequence.  Either
    way the call returns 0. *)
Theorem timeout_flushes_buffer hz p now c :
  length (s_esc_buf p) = 16%nat -> 0 < s_esc_len p ->
  pdMS_TO_TICKS hz 20 < ticks_since now (s_esc_start p) ->
  let r := vterm_input_feed hz p now c in
  fst r = 0 /\
  if ascii_eqb c ESC
  then same_but_detector (snd r) (send_all p (s_active_vt p) (buffered p)) /\
       s_esc_len (snd r) = 1 /\ char_at (s_esc_buf (snd r)) 0 = ESC /\
       s_esc_start (snd r) = now
  else same_but_detector (snd r) (send_all p (s_active_vt p) (buffered p ++ [c])) /\
       s_esc_len (snd r) = 0.
Proof.
  intros Hb Hl Ht r. subst r. rewrite (feed_timeout hz p now c Hl Ht).
  rewrite flush_as_send_all.
  set (q := set_esc (send_all p (s_active_vt p) (buffered p)) (s_esc_buf p) 0).
  assert (Hq : same_but_detector q (send_all p (s_active_vt p) (buffered p)))
    by (repeat split).
  assert (Hql : s_esc_len q = 0) by reflexivity.
  assert (Hqb : s_esc_buf q = s_esc_buf p) by reflexivity.
  assert (Hqa : s_active_vt q = s_active_vt p).
  { unfold q. cbn [s_active_vt set_esc].
    apply (send_all_globals (buffered p) p (s_active_vt p)). }
  clearbody q.
  destruct (ascii_eqb c ESC) eqn:Hc.
  - unfold ascii_eqb in Hc. apply Ascii.eqb_eq in Hc. subst c.
    rewrite (feed_start hz q now Hql). cbn [fst snd]. split; [reflexivity|].
    split; [|split; [|split]].
    + destruct Hq as (A & B & C & D). repeat split; assumption.
    + reflexivity.
    + cbn [s_esc_buf set_esc set_esc_start]. rewrite Hqb.
      destruct (s_esc_buf p) as [|b0 rest]; [discriminate Hb|reflexivity].
    + reflexivity.
  - assert (Hne : c <> ESC).
    { intros ->. unfold ascii_eqb in Hc. rewrite Ascii.eqb_refl in Hc. discriminate. }
    rewrite (feed_plain hz q now c Hql Hne). cbn [fst snd]. split; [reflexivity|].
    split.
    + rewrite send_all_app, Hqa. unfold send_all at 1. cbn [foldl].
      apply same_but_detector_send, Hq.
    + destruct (send_input_globals q (s_active_vt q) c) as (_ & _ & C & _).
      rewrite C. exact Hql.
Qed.

(** ESC and "[" buffered at ticks 100 and 101, then "x" at tick 200, one
    tick per millisecond. *)
Definition two_buffered : vterm_pool :=
  snd (feed_all 1000 vterm_init [(100, ESC); (101, "["%char)]).

Lemma two_buffered_state :
  length (s_esc_buf two_buffered) = 16%nat /\ s_esc_len two_buffered = 2 /\
  s_esc_start two_buffered = 100 /\ buffered two_buffered = [ESC; "["%char] /\
  s_active_vt two_buffered = 0.
Proof. repeat split. Qed.

Lemma timeout_flushes_buffer_witness :
  let r := vterm_input_feed 1000 two_buffered 200 "x" in
  fst r = 0 /\
  same_but_detector (snd r) (send_all two_buffered 0 [ESC; "["%char; "x"%char]) /\
  s_esc_len (snd r) = 0.
Proof.
  destruct two_buffered_state as (Hb & Hl & Hs & _).
  apply (timeout_flushes_buffer 1000 two_buffered 200 "x" Hb).
  - rewrite Hl. lia.
  - rewrite Hs. reflexivity.
Defined.

Lemma ascii_eqb_ne a b : a <> b -> ascii_eqb a b = false.
Proof.
  intros H. unfold ascii_eqb. destruct (Ascii.eqb_spec a b); [contradiction|reflexivity].
Qed.

Lemma could_be_hotkey_second buf :
  char_at buf 0 = ESC ->
  ascii_eqb (char_at buf 1) "O" = false -> ascii_eqb (char_at buf 1) "[" = false ->
  could_be_hotkey buf 2 = false.
Proof. intros H0 H1 H2. unfold could_be_hotkey. rewrite H0, H1, H2. reflexivity. Qed.

(** X7: ESC followed by a byte that is none of "O", "[" and ESC is no
    hotkey: after the second call both bytes have been sent, in order, to
    the active session, whether the second byte came before the timeout
    (the detector gives up at once) or after it (the ESC is flushed first);
    both calls return 0 and the detector is idle again. *)
Theorem escape_then_other_is_delivered hz p t0 t1 x :
  s_esc_len p = 0 -> length (s_esc_buf p) = 16%nat ->
  x <> ESC -> x <> "O"%char -> x <> "["%char ->
  let r := feed_all hz p [(t0, ESC); (t1, x)] in
  fst r = [0; 0] /\
  same_but_detector (snd r) (send_all p (s_active_vt p) [ESC; x]) /\
  s_esc_len (snd r) = 0.
Proof.
  intros Hl Hb Hx HO Hbr r. subst r.
  pose proof (ascii_eqb_ne _ _ HO) as EO. pose proof (ascii_eqb_ne _ _ Hbr) as Ebr.
  cbn [feed_all]. rewrite (feed_start hz p t0 Hl).
  split_esc_buf p Hb. subst.
  cbn [s_esc_buf s_esc_len set_esc set_esc_start].
  match goal with
  | |- context [vterm_input_feed hz ?q t1 x] => set (p1 := q)
  end.
  destruct (Z.lt_ge_cases (pdMS_TO_TICKS hz 20) (ticks_since t1 (s_esc_start p1)))
    as [Hlate|Hintime].
  - rewrite (feed_timeout hz p1 t1 x) by (cbn; auto; lia).
    rewrite flush_as_send_all.
    rewrite feed_plain by (auto; reflexivity).
    cbn [fst snd]. split; [reflexivity|]. split.
    + change (buffered p1) with [ESC].
      unfold send_all. cbn [foldl s_active_vt set_esc].
      rewrite (proj1 (send_input_globals p1 (s_active_vt p1) ESC)).
      apply same_but_detector_send, same_but_detector_send. repeat split.
    + match goal with
      | |- s_esc_len (vterm_send_input ?q ?a ?c) = 0 =>
          destruct (send_input_globals q a c) as (_ & _ & C & _); rewrite C
      end. reflexivity.
  - rewrite (feed_buffering hz p1 t1 x) by (cbn; auto; lia).
    cbn [s_esc_buf s_esc_len p1 set_esc set_esc_start]. cbv zeta.
    eval_detector_match.
    cbn [Z.leb Z.compare]. change (1 + 1) with 2.
    cbv iota.
    match goal with
    | |- context [could_be_hotkey ?b 2] =>
        rewrite (could_be_hotkey_second b eq_refl EO Ebr)
    end.
    rewrite flush_as_send_all.
    cbn [fst snd]. split; [reflexivity|]. split; [|reflexivity].
    cbn [s_active_vt set_esc set_esc_start].
    match goal with
    | |- context [buffered ?q] => change (buffered q) with [ESC; x]
    end.
    apply same_but_detector_send_all. repeat split.
Qed.

(** ESC, and "x" 200 ms later, on the pool of [vterm_init]. *)
Lemma escape_then_other_is_delivered_witness :
  let r := feed_all 1000 vterm_init [(100, ESC); (300, "x"%char)] in
  fst r = [0; 0] /\
  same_but_detector (snd r) (send_all vterm_init 0 [ESC; "x"%char]) /\
  s_esc_len (snd r) = 0.
Proof.
  apply (escape_then_other_is_delivered 1000 vterm_init 100 300 "x");
    first [reflexivity | discriminate].
Defined.

(** ** Every hotkey *)

(** [P], [Q], [R], [S] for sessions 0 to 3. *)
Definition fkey_letter (k : Z) : ascii := ascii_of_N (Z.to_N (80 + k)).

(** The sequences [match_vt_hotkey] takes for the key of session [k]:
    ESC O P, ESC O 5 P, ESC [ 1 ; 5 P, ESC [ 11 ~, ESC [ 11 ; 5 ~ and
    ESC [ 49 ; 5 u for session 0, and so on. *)
Definition hotkey_forms (k : Z) : list (list ascii) :=
  [ [ESC; "O"%char; fkey_letter k];
    [ESC; "O"%char; "5"%char; fkey_letter k];
    ESC :: str "[1;5" ++ [fkey_letter k];
    ESC :: "["%char :: dec_chars (11 + k) ++ ["~"%char];
    ESC :: "["%char :: dec_chars (11 + k) ++ str ";5~";
    ESC :: "["%char :: dec_chars (49 + k) ++ str ";5u" ].

Ltac feed_step_auto :=
  rewrite feed_buffering;
  cbn [s_esc_buf s_esc_len s_esc_start set_esc set_esc_start];
  [ | lia | assumption ];
  cbv zeta; eval_detector;
  cbn [Z.leb Z.compare Z.add Pos.add Pos.succ Pos.compare Pos.compare_cont];
  cbv iota.

Ltac timed_bytes ts Hlen :=
  do 9 (try (destruct ts as [|? ts]; cbn [length] in Hlen;
             [try (exfalso; lia) | try (exfalso; lia)]));
  repeat match goal with
         | H : Forall _ (_ :: _) |- _ => inversion H; clear H; subst
         end.

Lemma hotkey_forms_run hz p k seq t0 ts :
  s_esc_len p = 0 -> length (s_esc_buf p) = 16%nat ->
  0 <= k <= 3 -> In seq (hotkey_forms k) ->
  S (length ts) = length seq ->
  Forall (fun t => ticks_since t t0 <= pdMS_TO_TICKS hz 20) ts ->
  exists buf,
    feed_all hz p (zip (t0 :: ts) seq)
    = (replicate (length ts) 0 ++ [1],
       vterm_switch (set_esc (set_esc_start p t0) buf 0) k).
Proof.
  intros Hlen Hbuf Hk Hin Hts Ht.
  split_esc_buf p Hbuf. subst.
  assert (Hcases : k = 0 \/ k = 1 \/ k = 2 \/ k = 3) by lia.
  destruct Hcases as [-> | [-> | [-> | ->]]];
    cbv in Hin;
    repeat (destruct Hin as [<- | Hin]);
    try contradiction;
    cbn [length] in Hts; timed_bytes ts Hts;
    (eexists; cbn [zip zip_with feed_all length replicate app];
     rewrite feed_start by reflexivity;
     cbn [s_esc_buf s_esc_len set_esc set_esc_start];
     repeat feed_step_auto; reflexivity).
Qed.

(** X8: for each session k in 0..3, each of the six sequences
    [match_vt_hotkey] knows for its key (ESC O P.., ESC O 5 P.., ESC [ 1 ; 5
    P.., ESC [ 11.. ~, ESC [ 11.. ; 5 ~ and ESC [ 49.. ; 5 u), fed to an idle
    detector with every byte within the timeout of the ESC, is consumed: the
    calls return 0 until the last, which returns 1 and is a
    [vterm_switch(k)]; session k is active afterwards, the buffer is empty
    and no input queue has received a byte. *)
Theorem hotkey_forms_switch hz p k seq t0 ts :
  pool_ok p -> s_esc_len p = 0 -> length (s_esc_buf p) = 16%nat ->
  0 <= k <= 3 -> In seq (hotkey_forms k) ->
  S (length ts) = length seq ->
  Forall (fun t => ticks_since t t0 <= pdMS_TO_TICKS hz 20) ts ->
  exists p' buf,
    feed_all hz p (zip (t0 :: ts) seq) = (replicate (length ts) 0 ++ [1], p') /\
    p' = vterm_switch (set_esc (set_esc_start p t0) buf 0) k /\
    input_queues p' = input_queues p /\
    s_active_vt p' = k /\ s_esc_len p' = 0.
Proof.
  intros Hok Hlen Hbuf Hk Hin Hts Ht.
  destruct (hotkey_forms_run hz p k seq t0 ts Hlen Hbuf Hk Hin Hts Ht) as (buf & Hrun).
  assert (Hv : valid_id k = true) by (apply valid_id_range; unfold VTERM_COUNT; lia).
  destruct (switch_to_session _ k (pool_ok_esc p buf 0 t0 Hok) Hv) as (Ha & Hl & Hq).
  eexists. exists buf. split; [exact Hrun|]. split; [reflexivity|].
  split; [exact Hq|]. split; [exact Ha|exact Hl].
Qed.

(** Ctrl+F3 in its CSI u form, ESC [ 51 ; 5 u, on the pool of
    [vterm_init], the bytes one tick apart. *)
Lemma hotkey_forms_switch_witness :
  exists p' buf,
    feed_all 1000 vterm_init
      (zip [100; 100 + 1; 100 + 2; 100 + 3; 100 + 4; 100 + 5; 100 + 6]
           (ESC :: str "[51;5u"))
    = ([0; 0; 0; 0; 0; 0; 1], p') /\
    p' = vterm_switch (set_esc (set_esc_start vterm_init 100) buf 0) 2 /\
    input_queues p' = input_queues vterm_init /\
    s_active_vt p' = 2 /\ s_esc_len p' = 0.
Proof.
  apply (hotkey_forms_switch 1000 vterm_init 2 (ESC :: str "[51;5u") 100
           [100 + 1; 100 + 2; 100 + 3; 100 + 4; 100 + 5; 100 + 6]).
  - exact pool_ok_init.
  - reflexivity.
  - reflexivity.
  - lia.
  - do 5 right. left. reflexivity.
  - reflexivity.
  - repeat constructor; apply ticks_in_time; lia.
Defined.

(** ** The pool under every call *)

Lemma vterm_write_keeps_pool p i d p' :
  pool_ok p -> vterm_write p i d = Some p' -> pool_ok p'.
Proof.
  intros Hok Hw. destruct (valid_id i) eqn:Hi.
  - apply (vterm_write_pool p i d p' Hok Hi Hw).
  - unfold vterm_write in Hw. unfold valid_id in Hi.
    destruct (Z.ltb_spec i 0), (Z.leb_spec VTERM_COUNT i); cbn [orb] in Hw;
      try (injection Hw as <-; exact Hok).
    apply andb_false_iff in Hi. rewrite Z.leb_gt, Z.ltb_ge in Hi. lia.
Qed.

Lemma vterm_putchar_keeps_pool p i c p' :
  pool_ok p -> vterm_putchar p i c = Some p' -> pool_ok p'.
Proof.
  intros Hok Hw. unfold vterm_putchar in Hw.
  destruct ((i <? 0) || (VTERM_COUNT <=? i)); [injection Hw as <-; exact Hok|].
  destruct (get_session p i) as [s|] eqn:Hs; [|injection Hw as <-; exact Hok].
  destruct (putchar_body (view p s) c) as [[vt out]|] eqn:Hb; [|discriminate].
  injection Hw as <-. apply pool_ok_send_all.
  pose proof (pool_ok_store_view p i vt Hok) as H. unfold store_view in H.
  rewrite Hs in H. apply H.
  rewrite (putchar_body_length _ _ _ _ Hb). apply (pool_ok_view_grid p i s Hok Hs).
Qed.

Lemma putchar_each_keeps_pool d : forall p i p',
  pool_ok p -> putchar_each p i d = Some p' -> pool_ok p'.
Proof.
  induction d as [|c d IH]; intros p i p' Hok H; cbn [putchar_each] in H.
  - injection H as <-. exact Hok.
  - destruct (vterm_putchar p i c) as [p1|] eqn:E; [|discriminate].
    eapply IH; [|exact H]. eapply vterm_putchar_keeps_pool; eassumption.
Qed.

Lemma vterm_clear_keeps_pool p i : pool_ok p -> pool_ok (vterm_clear p i).
Proof.
  intros Hok. unfold vterm_clear.
  destruct ((i <? 0) || (VTERM_COUNT <=? i)); [exact Hok|].
  destruct (get_session p i) as [s|] eqn:Hs; [|exact Hok].
  pose proof (pool_ok_store_view p i (vterm_clear_internal (view p s)) Hok) as H.
  unfold store_view in H. rewrite Hs in H. apply H.
  rewrite clear_internal_length. apply (pool_ok_view_grid p i s Hok Hs).
Qed.

Lemma vterm_switch_keeps_pool p j : pool_ok p -> pool_ok (vterm_switch p j).
Proof.
  intros Hok. destruct (valid_id j) eqn:Hj.
  - apply (vterm_switch_views p j Hok Hj).
  - unfold vterm_switch. unfold valid_id in Hj.
    destruct (Z.ltb_spec j 0), (Z.leb_spec VTERM_COUNT j); cbn [orb]; try exact Hok.
    apply andb_false_iff in Hj. rewrite Z.leb_gt, Z.ltb_ge in Hj. lia.
Qed.

Lemma flush_keeps_pool p : pool_ok p -> pool_ok (flush_input_buffer p).
Proof.
  intros Hok. rewrite flush_as_send_all.
  exact (pool_ok_send_all (buffered p) p (s_active_vt p) Hok).
Qed.

Lemma input_feed_keeps_pool hz p now c :
  pool_ok p -> pool_ok (snd (vterm_input_feed hz p now c)).
Proof.
  intros Hok. unfold vterm_input_feed.
  set (p1 := if (0 <? s_esc_len p) && (pdMS_TO_TICKS hz 20 <? ticks_since now (s_esc_start p))
             then flush_input_buffer p else p).
  assert (H1 : pool_ok p1).
  { unfold p1. destruct (_ && _); [apply flush_keeps_pool, Hok|exact Hok]. }
  clearbody p1. clear p Hok.
  destruct (_ && ascii_eqb c ESC); [exact H1|].
  destruct (0 <? s_esc_len p1); [|apply pool_ok_send, H1].
  set (p2 := if s_esc_len p1 <? 15 then _ else p1).
  assert (H2 : pool_ok p2) by (unfold p2; destruct (_ <? 15); exact H1).
  clearbody p2.
  destruct (match_vt_hotkey (s_esc_buf p2) (s_esc_len p2)) as [vt buf].
  destruct (0 <=? vt); cbn [snd].
  - apply vterm_switch_keeps_pool. exact H2.
  - destruct (could_be_hotkey _ _); cbn [snd]; [exact H2|].
    apply flush_keeps_pool. exact H2.
Qed.

Lemma feed_all_keeps_pool hz input : forall p,
  pool_ok p -> pool_ok (snd (feed_all hz p input)).
Proof.
  induction input as [|[now c] rest IH]; intros p Hok; [exact Hok|].
  cbn [feed_all].
  pose proof (input_feed_keeps_pool hz p now c Hok) as H1.
  destruct (vterm_input_feed hz p now c) as [r p1]. cbn [snd] in H1.
  specialize (IH p1 H1). destruct (feed_all hz p1 rest) as [rs p2]. exact IH.
Qed.

(** X9: the shape of the pool is kept by every call: [VTERM_COUNT]
    sessions, every grid of [VTERM_COLS * VTERM_ROWS] cells, the active
    index in range, and the active session, and only it, pointing at the
    fast buffer.  [vterm_init] establishes it; [vterm_switch],
    [vterm_clear], [vterm_send_input] and [vterm_input_feed] keep it for
    every argument, [vterm_write] and [vterm_putchar] for every session and
    every input whose run keeps the cursor inside the grid (outside of it
    the C code stores past the cell array). *)
Theorem pool_shape_is_kept hz p :
  pool_ok p ->
  (forall j, pool_ok (vterm_switch p j)) /\
  (forall i d p', stays_in_grid_at p i d = true ->
                  vterm_write p i d = Some p' -> pool_ok p') /\
  (forall i d p', stays_in_grid_at p i d = true ->
                  putchar_each p i d = Some p' -> pool_ok p') /\
  (forall i, pool_ok (vterm_clear p i)) /\
  (forall i c, pool_ok (vterm_send_input p i c)) /\
  (forall input, pool_ok (snd (feed_all hz p input))).
Proof.
  intros Hok. split; [|split; [|split; [|split; [|split]]]].
  - intros j. apply vterm_switch_keeps_pool, Hok.
  - intros i d p' _. apply vterm_write_keeps_pool, Hok.
  - intros i d p' _. apply putchar_each_keeps_pool, Hok.
  - intros i. apply vterm_clear_keeps_pool, Hok.
  - intros i c. apply pool_ok_send, Hok.
  - intros input. apply feed_all_keeps_pool, Hok.
Qed.

(** The pool of [vterm_init], and the pool after "AB" has been written to
    its session 0. *)
Lemma pool_shape_is_kept_witness :
  pool_ok (vterm_switch vterm_init 1) /\
  (exists p', vterm_write vterm_init 0 (str "AB") = Some p' /\ pool_ok p' /\
              pool_ok (vterm_switch p' 2) /\ pool_ok (vterm_clear p' 0)) /\
  pool_ok (vterm_clear vterm_init 3) /\
  pool_ok (vterm_send_input vterm_init 0 "a") /\
  pool_ok (snd (feed_all 1000 vterm_init [(0, ESC); (5, "a"%char)])).
Proof.
  destruct init_AB_written as (Hin & p & v & Hw & Hok & _).
  destruct (pool_shape_is_kept 1000 vterm_init pool_ok_init)
    as (H1 & H2 & _ & H4 & H5 & H6).
  destruct (pool_shape_is_kept 1000 p (H2 0 (str "AB") p Hin Hw))
    as (K1 & _ & _ & K4 & _).
  split; [apply H1|]. split.
  - exists p. split; [exact Hw|]. split; [exact (H2 0 (str "AB") p Hin Hw)|].
    split; [apply K1 | apply K4].
  - split; [apply H4|]. split; [apply H5 | apply H6].
Defined.

(** ** What a switch does *)

Lemma vterm_switch_noop p j :
  valid_id j = false \/ j = s_active_vt p -> vterm_switch p j = p.
Proof.
  intros H. unfold vterm_switch.
  destruct ((j <? 0) || (VTERM_COUNT <=? j)) eqn:Hr; [reflexivity|].
  destruct H as [H | ->]; [|rewrite Z.eqb_refl; reflexivity].
  unfold valid_id in H. apply orb_false_iff in Hr as [H1 H2].
  apply Z.ltb_ge in H1. apply Z.leb_gt in H2.
  apply andb_false_iff in H. rewrite Z.leb_gt, Z.ltb_ge in H. lia.
Qed.

(** X10: [vterm_switch(j)] does nothing at all, and calls nothing, when
    [j] is out of range or already active.  Otherwise session [j] becomes
    the active one, the fast buffer holds its grid, every session shows
    the grid, cursor and attribute it showed before, no input queue
    changes, and the switch callback, if one is registered, is called once
    with [j]. *)
Theorem vterm_switch_effect p j :
  pool_ok p ->
  (valid_id j = false \/ j = s_active_vt p -> vterm_switch p j = p) /\
  (valid_id j = true -> j <> s_active_vt p ->
   s_active_vt (vterm_switch p j) = j /\
   (exists v, session_view p j = Some v /\
              s_iram_buffer (vterm_switch p j) = cells v) /\
   (forall k, session_view (vterm_switch p j) k = session_view p k) /\
   input_queues (vterm_switch p j) = input_queues p /\
   calls (vterm_switch p j)
   = calls p ++ (if s_on_switch_cb p then [SwitchCb j] else []) /\
   s_on_switch_cb (vterm_switch p j) = s_on_switch_cb p /\
   s_on_render_cb (vterm_switch p j) = s_on_render_cb p).
Proof.
  intros Hok. split; [apply vterm_switch_noop|].
  intros Hj Hne.
  destruct (vterm_switch_views p j Hok Hj) as (_ & Ha & Hviews).
  split; [exact Ha|]. split; [|split; [exact Hviews|split; [apply vterm_switch_queues|]]].
  - destruct (vterm_switch_swapped p j Hok Hj Hne) as (o & n & Ho & Hn & E).
    destruct (pool_ok_session p j n Hok Hn) as [_ Hat].
    assert (Hst : cells_at n = IN_STORAGE).
    { destruct (cells_at n); [|reflexivity]. exfalso. apply Hne, Hat. reflexivity. }
    exists (fields n). split.
    + unfold session_view. rewrite Hn. unfold view. rewrite Hst. reflexivity.
    + rewrite E. destruct (s_on_switch_cb p); reflexivity.
  - destruct (vterm_switch_swapped p j Hok Hj Hne) as (o & n & Ho & Hn & E).
    rewrite E. destruct (s_on_switch_cb p) eqn:Hcb.
    + repeat split; cbn; rewrite ?Hcb; reflexivity.
    + repeat split; cbn; rewrite ?Hcb, ?app_nil_r; reflexivity.
Qed.

(** The pool of [vterm_init] with a switch callback registered, and a
    switch to session 3. *)
Lemma vterm_switch_effect_witness :
  let p := vterm_set_switch_callback vterm_init true in
  s_active_vt (vterm_switch p 3) = 3 /\
  (forall k, session_view (vterm_switch p 3) k = session_view p k) /\
  calls (vterm_switch p 3) = [SwitchCb 3] /\
  vterm_switch p 0 = p /\ vterm_switch p 4 = p.
Proof.
  intros p.
  assert (Hok : pool_ok p) by exact pool_ok_init.
  destruct (vterm_switch_effect p 3 Hok) as [_ H3].
  destruct (H3 eq_refl ltac:(discriminate)) as (Ha & _ & Hv & _ & Hc & _).
  destruct (vterm_switch_effect p 0 Hok) as [H0 _].
  destruct (vterm_switch_effect p 4 Hok) as [H4 _].
  split; [exact Ha|]. split; [exact Hv|]. split; [exact Hc|].
  split; [apply H0; right; reflexivity | apply H4; left; reflexivity].
Defined.

(** ** Writing one session back *)

Lemma store_view_others p i s vt k :
  pool_ok p -> get_session p i = Some s -> k <> i ->
  session_view (store_view p i vt) k = session_view p k.
Proof.
  intros Hok Hs Hne.
  destruct (get_session p k) as [sk|] eqn:Hk.
  - apply (view_store_view_other p i vt k s sk Hs Hk); [auto|].
    intros Hi. destruct (pool_ok_session p i s Hok Hs) as [_ Hai].
    destruct (pool_ok_session p k sk Hok Hk) as [_ Hak].
    destruct (cells_at sk); [|reflexivity]. exfalso.
    apply Hne. rewrite (proj1 Hak eq_refl), (proj1 Hai Hi). reflexivity.
  - unfold session_view, store_view. rewrite Hs, Hk.
    pose proof (get_session_nonneg _ _ _ Hs) as Hi0.
    rewrite commit_as_put.
    destruct (Z.le_gt_cases 0 k).
    + rewrite get_put_ne by auto.
      destruct (cells_at s); [rewrite get_session_set_iram|]; rewrite Hk; reflexivity.
    + unfold get_session. destruct (Z.leb_spec 0 k); [lia|reflexivity].
Qed.

Lemma store_view_queues p i vt : input_queues (store_view p i vt) = input_queues p.
Proof.
  unfold store_view. destruct (get_session p i) as [s|] eqn:Hs; [|reflexivity].
  rewrite commit_as_put. apply get_session_lookup in Hs as [_ Hs].
  unfold input_queues, put_session.
  assert (E : input_queue (committed s vt) = input_queue s)
    by (unfold committed; destruct (cells_at s); reflexivity).
  destruct (cells_at s); cbn [s_vterms set_vterms set_iram];
    rewrite list_fmap_insert, E; apply list_insert_id;
    rewrite list_lookup_fmap, Hs; reflexivity.
Qed.

Lemma store_view_globals p i vt :
  s_active_vt (store_view p i vt) = s_active_vt p /\
  callback_state (store_view p i vt) = callback_state p.
Proof.
  unfold store_view. destruct (get_session p i) as [s|]; [|auto].
  unfold commit. destruct (cells_at s); auto.
Qed.

(** X11: [vterm_clear(id)] on a session of the pool blanks every cell of
    its grid to a space with the default attribute, homes the cursor and
    resets the current attribute; it leaves the escape parser where it was
    (a sequence in progress goes on) and does not set the [dirty] flag; no
    other session, no input queue and no callback is touched.  With [id]
    out of range it does nothing. *)
Theorem vterm_clear_effect p i :
  pool_ok p ->
  (valid_id i = false -> vterm_clear p i = p) /\
  (valid_id i = true ->
   exists v0 v,
     session_view p i = Some v0 /\ session_view (vterm_clear p i) i = Some v /\
     (forall j : nat,
        cells v !! j = if Z.of_nat j <? GRID_CELLS then Some blank_cell else None) /\
     cursor_x v = 0 /\ cursor_y v = 0 /\ current_attr v = VTERM_DEFAULT_ATTR /\
     escape_state v = escape_state v0 /\ escape_buf v = escape_buf v0 /\
     escape_len v = escape_len v0 /\ dirty v = dirty v0 /\
     (forall k, k <> i -> session_view (vterm_clear p i) k = session_view p k) /\
     input_queues (vterm_clear p i) = input_queues p /\
     s_active_vt (vterm_clear p i) = s_active_vt p /\
     callback_state (vterm_clear p i) = callback_state p).
Proof.
  intros Hok. split.
  - intros Hi. unfold vterm_clear. unfold valid_id in Hi.
    destruct (Z.ltb_spec i 0), (Z.leb_spec VTERM_COUNT i); cbn [orb]; try reflexivity.
    apply andb_false_iff in Hi. rewrite Z.leb_gt, Z.ltb_ge in Hi. lia.
  - intros Hi. destruct (pool_ok_get p i Hok Hi) as [s Hs].
    pose proof (pool_ok_view_grid p i s Hok Hs) as Hg.
    rewrite (vterm_clear_store p i s Hi Hs).
    exists (view p s), (vterm_clear_internal (view p s)).
    split; [unfold session_view; rewrite Hs; reflexivity|].
    split; [eapply view_store_view, Hs|].
    split; [intros j; apply clear_internal_lookup, Hg|].
    do 7 (split; [reflexivity|]).
    split; [intros k Hk; apply (store_view_others p i s _ k Hok Hs Hk)|].
    split; [apply store_view_queues|]. apply store_view_globals.
Qed.

Lemma vterm_clear_effect_witness :
  vterm_clear vterm_init 7 = vterm_init /\
  exists v,
    session_view (vterm_clear vterm_init 1) 1 = Some v /\
    cells v !! 5%nat = Some blank_cell /\ cursor_x v = 0 /\ cursor_y v = 0.
Proof.
  destruct (vterm_clear_effect vterm_init 7 pool_ok_init) as [H7 _].
  destruct (vterm_clear_effect vterm_init 1 pool_ok_init) as [_ H1].
  destruct (H1 eq_refl) as (v0 & v & _ & Hv & Hc & Hx & Hy & _).
  split; [apply H7; reflexivity|].
  exists v. split; [exact Hv|]. split; [exact (Hc 5%nat)|]. split; assumption.
Defined.

(** ** Where the cursor can go *)

Lemma clamp_int_range z : INT_MIN <= clamp_int z <= INT_MAX.
Proof. unfold clamp_int, INT_MIN, INT_MAX. lia. Qed.

Lemma scan_int_range s v r : scan_int s = Some (v, r) -> INT_MIN <= v <= INT_MAX.
Proof.
  unfold scan_int.
  destruct (match skip_spaces s with
            | [] => (false, [])
            | c :: s' => _
            end) as [neg body].
  destruct body as [|d body']; [discriminate|].
  destruct (is_digit d); [|discriminate].
  destruct (digits_value (d :: body') 0) as [n rest].
  intros [= <- _]. apply clamp_int_range.
Qed.

Lemma atoi_range s : INT_MIN <= atoi s <= INT_MAX.
Proof.
  unfold atoi. destruct (scan_int s) as [[v r]|] eqn:E.
  - eapply scan_int_range, E.
  - unfold INT_MIN, INT_MAX. lia.
Qed.

Lemma csi_count_range buf : 1 <= csi_count buf <= INT_MAX.
Proof.
  unfold csi_count. pose proof (atoi_range (c_string buf)) as H.
  destruct (ascii_eqb (char_at buf 0) NUL);
    case_cmp; unfold INT_MIN, INT_MAX in *; lia.
Qed.

Lemma sscanf_row_col_range s row col :
  INT_MIN <= row <= INT_MAX -> INT_MIN <= col <= INT_MAX ->
  INT_MIN <= fst (sscanf_row_col s row col) <= INT_MAX /\
  INT_MIN <= snd (sscanf_row_col s row col) <= INT_MAX.
Proof.
  intros Hr Hc. unfold sscanf_row_col.
  destruct (scan_int s) as [[r rest]|] eqn:E; [|cbn; auto].
  pose proof (scan_int_range _ _ _ E) as Hr'.
  destruct rest as [|c rest']; [cbn; auto|].
  destruct (ascii_eqb c ";"); [|cbn; auto].
  destruct (scan_int rest') as [[c2 rest2]|] eqn:E2; [|cbn; auto].
  pose proof (scan_int_range _ _ _ E2). cbn. auto.
Qed.

Lemma newline_cursor vt :
  0 <= cursor_y vt < VTERM_ROWS -> cursor_ok (newline vt).
Proof.
  intros Hy. unfold newline, cursor_ok.
  cbn [cursor_x cursor_y set_cursor_x set_cursor_y].
  rewrite int_add_small by (unfold INT_MIN, INT_MAX, VTERM_ROWS in *; lia).
  destruct (Z.leb_spec VTERM_ROWS (cursor_y vt + 1)).
  - match goal with |- context [vterm_scroll ?x] => set (w := x) end.
    destruct (vterm_scroll_fields w) as (Fx & Fy & _).
    rewrite Fx, Fy. unfold VTERM_COLS, VTERM_ROWS in *. cbn. lia.
  - cbn [cursor_x cursor_y set_cursor_x set_cursor_y].
    unfold VTERM_COLS, VTERM_ROWS in *. lia.
Qed.

Lemma tab_loop_cursor fuel : forall vt cell,
  0 <= cursor_x vt < VTERM_COLS ->
  cursor_x vt < cursor_x (tab_loop fuel vt cell) <= VTERM_COLS /\
  cursor_y (tab_loop fuel vt cell) = cursor_y vt.
Proof.
  induction fuel as [|fuel IH]; intros vt cell Hx; cbn [tab_loop];
    cbn [cursor_x cursor_y set_cursor_x set_cells].
  - rewrite int_add_small by (unfold INT_MIN, INT_MAX, VTERM_COLS in *; lia).
    split; [lia|reflexivity].
  - rewrite int_add_small by (unfold INT_MIN, INT_MAX, VTERM_COLS in *; lia).
    destruct (Z.ltb_spec (cursor_x vt + 1) VTERM_COLS) as [Hlt|Hge]; cbn [andb].
    + destruct (negb _).
      * match goal with
        | |- context [tab_loop fuel ?w ?k] =>
            destruct (IH w k) as [H1 H2];
            [cbn [cursor_x set_cursor_x set_cells]; lia|]
        end.
        cbn [cursor_x cursor_y set_cursor_x set_cells] in *. split; [lia|exact H2].
      * cbn [cursor_x cursor_y set_cursor_x set_cells]. split; [lia|reflexivity].
    + cbn [cursor_x cursor_y set_cursor_x set_cells]. split; [lia|reflexivity].
Qed.

Lemma wrap_cursor vt :
  0 <= cursor_x vt <= VTERM_COLS -> 0 <= cursor_y vt < VTERM_ROWS ->
  cursor_ok (if VTERM_COLS <=? cursor_x vt then newline vt else vt).
Proof.
  intros Hx Hy. destruct (Z.leb_spec VTERM_COLS (cursor_x vt)).
  - apply newline_cursor, Hy.
  - split; [lia|exact Hy].
Qed.

Lemma putchar_internal_cursor vt c :
  cursor_ok vt -> cursor_ok (vterm_putchar_internal vt c).
Proof.
  intros [Hx Hy]. unfold vterm_putchar_internal.
  destruct (code c =? 10); [apply newline_cursor, Hy|].
  destruct (code c =? 13).
  { split; [cbn; unfold VTERM_COLS; lia|exact Hy]. }
  destruct (code c =? 8).
  { destruct (Z.ltb_spec 0 (cursor_x vt)); [|split; assumption].
    unfold cursor_ok. cbn [cursor_x cursor_y set_cursor_x set_cells].
    rewrite int_sub_small by (unfold INT_MIN, INT_MAX, VTERM_COLS in *; lia).
    split; [lia|exact Hy]. }
  destruct (code c =? 9).
  { destruct (tab_loop_cursor 7 vt (cursor_index vt) Hx) as [H1 H2].
    apply wrap_cursor; [lia|rewrite H2; exact Hy]. }
  destruct (is_printable c); [|split; assumption].
  apply wrap_cursor; cbn [cursor_x cursor_y set_cursor_x set_cells]; [|exact Hy].
  rewrite int_add_small by (unfold INT_MIN, INT_MAX, VTERM_COLS in *; lia). lia.
Qed.

Lemma index_down_cursor vt : cursor_ok vt -> cursor_ok (index_down vt).
Proof.
  intros [Hx Hy]. unfold index_down.
  destruct (Z.leb_spec (VTERM_ROWS - 1) (cursor_y vt)).
  - destruct (vterm_scroll_fields vt) as (Fx & Fy & _).
    unfold cursor_ok. rewrite Fx, Fy. unfold VTERM_ROWS in *. split; [exact Hx|lia].
  - unfold cursor_ok. cbn [cursor_x cursor_y set_cursor_y].
    rewrite int_add_small by (unfold INT_MIN, INT_MAX, VTERM_ROWS in *; lia).
    split; [exact Hx|lia].
Qed.

Lemma reverse_index_cursor vt : cursor_ok vt -> cursor_ok (reverse_index vt).
Proof.
  intros [Hx Hy]. unfold reverse_index.
  destruct (Z.leb_spec (cursor_y vt) 0); [split; assumption|].
  unfold cursor_ok. cbn [cursor_x cursor_y set_cursor_y].
  rewrite int_sub_small by (unfold INT_MIN, INT_MAX, VTERM_ROWS in *; lia).
  split; [exact Hx|lia].
Qed.

(** The count of a cursor-down or cursor-forward sequence that
    [cursor += n] can take without leaving [int]. *)
Definition count_fits (vt : vterm_t) (c : ascii) : Prop :=
  ascii_eqb c "B" || ascii_eqb c "C" = true ->
  csi_count (escape_buf vt) <= INT_MAX - VTERM_COLS.

Lemma csi_dispatch_cursor vt c v o :
  cursor_ok vt -> count_fits vt c ->
  csi_dispatch vt c = Some (v, o) -> cursor_ok v.
Proof.
  intros Hc Hfit. pose proof Hc as [Hx Hy].
  pose proof (csi_count_range (escape_buf vt)) as Hn.
  assert (HB : ascii_eqb c "B" = true ->
               csi_count (escape_buf vt) <= INT_MAX - VTERM_COLS)
    by (intros E; apply Hfit; rewrite E; reflexivity).
  assert (HC : ascii_eqb c "C" = true ->
               csi_count (escape_buf vt) <= INT_MAX - VTERM_COLS)
    by (intros E; apply Hfit; rewrite E; apply orb_true_r).
  clear Hfit. unfold csi_dispatch.
  destruct (ascii_eqb c "m").
  { unfold vterm_apply_sgr. destruct (sgr_attr _ _); [|discriminate].
    intros [= <- _]. exact Hc. }
  destruct (ascii_eqb c "J").
  { destruct (_ || _); intros [= <- _]; [|exact Hc].
    split; cbn; unfold VTERM_COLS, VTERM_ROWS; lia. }
  destruct (ascii_eqb c "H" || ascii_eqb c "f").
  { destruct (_ || _).
    { intros [= <- _]. split; cbn; unfold VTERM_COLS, VTERM_ROWS; lia. }
    destruct (sscanf_row_col_range (c_string (escape_buf vt)) 1 1)
      as [Hr Hcl]; try (unfold INT_MIN, INT_MAX; lia).
    destruct (sscanf_row_col _ 1 1) as [row col]. cbn [fst snd] in Hr, Hcl.
    cbv zeta. intros [= <- _]. unfold cursor_ok.
    cbn [cursor_x cursor_y set_cursor_x set_cursor_y].
    destruct (Z.ltb_spec 0 row), (Z.ltb_spec 0 col);
      rewrite ?int_sub_small by (unfold INT_MIN, INT_MAX in *; lia);
      eval_fields; case_cmp; eval_fields;
      unfold VTERM_COLS, VTERM_ROWS in *; lia. }
  destruct (ascii_eqb c "A").
  { intros [= <- _]. cbv zeta. cbn [cursor_y set_cursor_y].
    rewrite int_sub_small by (unfold INT_MIN, INT_MAX, VTERM_ROWS in *; lia).
    destruct (Z.ltb_spec (cursor_y vt - csi_count (escape_buf vt)) 0);
      unfold cursor_ok; cbn [cursor_x cursor_y set_cursor_y];
      unfold VTERM_ROWS in *; split; try exact Hx; lia. }
  destruct (ascii_eqb c "B").
  { specialize (HB eq_refl).
    intros [= <- _]. cbv zeta. cbn [cursor_y set_cursor_y].
    rewrite int_add_small
      by (unfold INT_MIN, INT_MAX, VTERM_ROWS, VTERM_COLS in *; lia).
    destruct (Z.leb_spec VTERM_ROWS (cursor_y vt + csi_count (escape_buf vt)));
      unfold cursor_ok; cbn [cursor_x cursor_y set_cursor_y];
      unfold VTERM_ROWS in *; split; try exact Hx; lia. }
  destruct (ascii_eqb c "C").
  { specialize (HC eq_refl).
    intros [= <- _]. cbv zeta. cbn [cursor_x set_cursor_x].
    rewrite int_add_small
      by (unfold INT_MIN, INT_MAX, VTERM_ROWS, VTERM_COLS in *; lia).
    destruct (Z.leb_spec VTERM_COLS (cursor_x vt + csi_count (escape_buf vt)));
      unfold cursor_ok; cbn [cursor_x cursor_y set_cursor_x];
      unfold VTERM_COLS in *; split; try exact Hy; lia. }
  destruct (ascii_eqb c "D").
  { intros [= <- _]. cbv zeta. cbn [cursor_x set_cursor_x].
    rewrite int_sub_small by (unfold INT_MIN, INT_MAX, VTERM_COLS in *; lia).
    destruct (Z.ltb_spec (cursor_x vt - csi_count (escape_buf vt)) 0);
      unfold cursor_ok; cbn [cursor_x cursor_y set_cursor_x];
      unfold VTERM_COLS in *; split; try exact Hy; lia. }
  destruct (ascii_eqb c "K"); [intros [= <- _]; exact Hc|].
  destruct (ascii_eqb c "X"); [intros [= <- _]; exact Hc|].
  destruct (ascii_eqb c "L"); [intros [= <- _]; exact Hc|].
  destruct (ascii_eqb c "M"); [intros [= <- _]; exact Hc|].
  destruct (ascii_eqb c "n"); [destruct (_ && _)|]; intros [= <- _]; exact Hc.
Qed.

Lemma escape_collect_cursor vt c :
  cursor_x (escape_collect vt c) = cursor_x vt /\
  cursor_y (escape_collect vt c) = cursor_y vt.
Proof. unfold escape_collect. destruct (_ <? 31); split; reflexivity. Qed.

(** The one way out of the grid: see [cursor_down_run]. *)
Definition no_overflow (vt : vterm_t) (c : ascii) : Prop :=
  escape_state vt <> 0 -> escape_state vt <> 1 ->
  count_fits (escape_cut (escape_collect vt c)) c.

Lemma handle_escape_cursor vt c h v o :
  cursor_ok vt -> no_overflow vt c ->
  vterm_handle_escape vt c = Some (h, v, o) -> cursor_ok v.
Proof.
  intros Hc Hno. unfold no_overflow in Hno. unfold vterm_handle_escape.
  destruct (Z.eqb_spec (escape_state vt) 0) as [|H0].
  { destruct (ascii_eqb c ESC); intros [= _ <- _]; exact Hc. }
  destruct (Z.eqb_spec (escape_state vt) 1) as [|H1].
  { destruct (ascii_eqb c "["); [intros [= _ <- _]; exact Hc|].
    destruct (ascii_eqb c "D"); [intros [= _ <- _]; apply (index_down_cursor vt Hc)|].
    destruct (ascii_eqb c "M"); [intros [= _ <- _]; apply (reverse_index_cursor vt Hc)|].
    destruct (ascii_eqb c "E").
    { intros [= _ <- _]. apply (index_down_cursor (set_cursor_x vt 0)).
      destruct Hc as [Hx Hy]. split; [cbn; unfold VTERM_COLS; lia|exact Hy]. }
    intros [= _ <- _]. exact Hc. }
  specialize (Hno H0 H1). cbv zeta.
  destruct (escape_collect_cursor vt c) as [Ex Ey].
  assert (Hc1 : cursor_ok (escape_collect vt c))
    by (unfold cursor_ok; rewrite Ex, Ey; exact Hc).
  destruct (is_alpha c); [|intros [= _ <- _]; exact Hc1].
  assert (Hc2 : cursor_ok (escape_cut (escape_collect vt c))) by exact Hc1.
  destruct (ascii_eqb _ "?"); [intros [= _ <- _]; exact Hc2|].
  destruct (csi_dispatch _ c) as [[w o']|] eqn:E; [|discriminate].
  intros [= _ <- _].
  exact (csi_dispatch_cursor _ c w o' Hc2 Hno E).
Qed.

Lemma putchar_body_cursor vt c v o :
  cursor_ok vt -> no_overflow vt c ->
  putchar_body vt c = Some (v, o) -> cursor_ok v.
Proof.
  intros Hc Hno. unfold putchar_body.
  destruct (vterm_handle_escape vt c) as [[[h w] o']|] eqn:E; [|discriminate].
  pose proof (handle_escape_cursor vt c h w o' Hc Hno E) as Hw.
  intros [= <- _]. destruct h; [exact Hw|].
  exact (putchar_internal_cursor w c Hw).
Qed.

(** X12: [vterm_putchar] keeps the cursor inside the grid, for every byte
    and in every state of the escape parser, with one exception: the final
    byte B or C of a CSI sequence whose count exceeds [INT_MAX - 128]. *)
Theorem cursor_stays_in_grid p i s c p' :
  valid_id i = true -> get_session p i = Some s ->
  cursor_ok (view p s) -> no_overflow (view p s) c ->
  vterm_putchar p i c = Some p' ->
  exists v, session_view p' i = Some v /\ cursor_ok v.
Proof.
  intros Hi Hs Hc Hno Hw.
  rewrite (vterm_putchar_store p i c s Hi Hs) in Hw.
  destruct (putchar_body (view p s) c) as [[v o]|] eqn:E; [|discriminate].
  injection Hw as <-. exists v. split.
  - rewrite view_send_all. eapply view_store_view, Hs.
  - exact (putchar_body_cursor _ c v o Hc Hno E).
Qed.

(** A tab on session 0 of the pool of [vterm_init]. *)
Lemma cursor_stays_in_grid_witness :
  exists p' v,
    vterm_putchar vterm_init 0 "009" = Some p' /\
    session_view p' 0 = Some v /\ cursor_ok v.
Proof.
  destruct (vterm_putchar vterm_init 0 "009") as [p'|] eqn:E.
  - destruct (cursor_stays_in_grid vterm_init 0 session0 "009" p' eq_refl init_session0
                init_view0_cursor) as (v & Hv & Hc); [|exact E|].
    + intros H0. exfalso. apply H0. reflexivity.
    + exists p', v. auto.
  - exfalso. rewrite (vterm_putchar_store vterm_init 0 "009" session0 eq_refl init_session0) in E.
    unfold putchar_body in E.
    rewrite handle_escape_normal in E by (try reflexivity; discriminate).
    discriminate E.
Defined.

(** ** Sequences with one count *)

Lemma dec_digits_length fuel : forall (k : nat) n acc,
  (1 <= k)%nat -> 0 <= n < 10 ^ Z.of_nat k ->
  (length (dec_digits fuel n acc) <= k + length acc)%nat.
Proof.
  induction fuel as [|fuel IH]; intros k n acc Hk Hn; cbn [dec_digits].
  - cbn [length]. lia.
  - destruct (Z.ltb_spec n 10); [cbn [length]; lia|].
    destruct k as [|[|k]]; [lia| |].
    + change (10 ^ Z.of_nat 1) with 10 in Hn. lia.
    + assert (Hq : 0 <= n / 10 < 10 ^ Z.of_nat (S k)).
      { split; [apply Z.div_pos; lia|].
        apply Z.div_lt_upper_bound; [lia|].
        replace (Z.of_nat (S (S k))) with (Z.succ (Z.of_nat (S k))) in Hn by lia.
        rewrite Z.pow_succ_r in Hn by lia. lia. }
      specialize (IH (S k) (n / 10) (digit_char (n mod 10) :: acc) ltac:(lia) Hq).
      cbn [length] in IH. lia.
Qed.

Lemma dec_chars_int_length n :
  0 <= n <= INT_MAX -> (length (dec_chars n) <= 10)%nat.
Proof.
  intros Hn. unfold dec_chars. destruct (Z.ltb_spec n 0); [lia|].
  pose proof (dec_digits_length (Z.to_nat (Z.log2 n)) 10 n [] ltac:(lia)) as Hd.
  cbn [length] in Hd. rewrite Nat.add_0_r in Hd. apply Hd.
  change (10 ^ Z.of_nat 10) with 10000000000. unfold INT_MAX in Hn. lia.
Qed.

(** ESC [ n f *)
Definition csi_with_count (n : Z) (f : ascii) : list ascii :=
  ESC :: "["%char :: dec_chars n ++ [f].

(** Such a sequence on an idle session: the dispatcher runs with the count
    [max n 1]. *)
Lemma csi_with_count_run vt n f :
  escape_state vt = 0 -> length (escape_buf vt) = 32%nat ->
  0 <= n <= INT_MAX -> is_alpha f = true ->
  exists vt2,
    cells vt2 = cells vt /\ cursor_x vt2 = cursor_x vt /\ cursor_y vt2 = cursor_y vt /\
    current_attr vt2 = current_attr vt /\
    csi_count (escape_buf vt2) = Z.max n 1 /\
    putchar_seq vt (csi_with_count n f) [] =
    match csi_dispatch vt2 f with
    | Some (v, o) => Some (set_dirty (escape_done v) 1, o)
    | None => None
    end.
Proof.
  intros Hs Hl Hn Hf.
  destruct (dec_chars_digits n ltac:(lia)) as (d & ds & E & Hd & Hds).
  assert (Hall : Forall (fun c => is_digit c = true) (dec_chars n))
    by (rewrite E; constructor; assumption).
  assert (Hna : Forall (fun c => is_alpha c = false) (dec_chars n)).
  { eapply Forall_impl; [exact Hall|]. intros a Ha. apply (digit_plain a Ha). }
  assert (Hnn : Forall (fun c => c <> NUL) (dec_chars n)).
  { eapply Forall_impl; [exact Hall|]. intros a Ha. apply (digit_plain a Ha). }
  pose proof (dec_chars_int_length n Hn) as Hlen.
  destruct (csi_sequence vt (dec_chars n) f [] Hs Hl ltac:(lia) Hna Hf)
    as (vt2 & rest & E1 & E2 & E3 & E4 & E6 & E5 & Hrun).
  exists vt2. do 4 (split; [assumption|]). split.
  - unfold csi_count. rewrite E5, (c_string_app _ _ Hnn), (atoi_dec_chars n) by lia.
    rewrite E. change (char_at ((d :: ds) ++ NUL :: rest) 0) with d.
    destruct (digit_plain d Hd) as (_ & Hd0 & _).
    rewrite (ascii_eqb_ne d NUL Hd0).
    unfold clamp_int, INT_MIN, INT_MAX in *. case_cmp; lia.
  - unfold csi_with_count. rewrite Hrun. rewrite E. cbn [app nth].
    destruct (digit_plain d Hd) as (_ & _ & Hq). rewrite Hq. reflexivity.
Qed.

Lemma csi_with_count_stays vt n f :
  cursor_ok vt -> escape_state vt = 0 -> length (escape_buf vt) = 32%nat ->
  0 <= n <= INT_MAX ->
  stays_in_grid vt (csi_with_count n f) = true.
Proof.
  intros Hc Hs Hl Hn. apply csi_stays; try assumption.
  - pose proof (dec_chars_int_length n Hn). lia.
  - destruct (dec_chars_plain n ltac:(lia)) as [Hall _].
    eapply Forall_impl; [exact Hall|]. intros a Ha. apply (digit_plain a Ha).
Qed.

(** Where the four cursor-movement sequences leave the cursor. *)
Definition moved_to (vt : vterm_t) (x y : Z) (v : vterm_t) : Prop :=
  cursor_x v = x /\ cursor_y v = y /\ cells v = cells vt /\
  current_attr v = current_attr vt /\ escape_state v = 0.

Lemma cursor_move_run vt n f :
  cursor_ok vt -> escape_state vt = 0 -> length (escape_buf vt) = 32%nat ->
  0 <= n <= INT_MAX - VTERM_COLS ->
  In f ["A"; "B"; "C"; "D"]%char ->
  let k := Z.max n 1 in
  let x := cursor_x vt in
  let y := cursor_y vt in
  exists v,
    putchar_seq vt (csi_with_count n f) [] = Some (v, []) /\
    moved_to vt
      (if ascii_eqb f "C" then Z.min (VTERM_COLS - 1) (x + k)
       else if ascii_eqb f "D" then Z.max 0 (x - k) else x)
      (if ascii_eqb f "A" then Z.max 0 (y - k)
       else if ascii_eqb f "B" then Z.min (VTERM_ROWS - 1) (y + k) else y)
      v.
Proof.
  intros Hc Hs Hl Hn Hf k x y. destruct Hc as [Hx Hy].
  assert (Hn' : 0 <= n <= INT_MAX) by (unfold INT_MAX, VTERM_COLS in *; lia).
  assert (Hal : is_alpha f = true).
  { cbn in Hf. destruct Hf as [<-|[<-|[<-|[<-|[]]]]]; reflexivity. }
  destruct (csi_with_count_run vt n f Hs Hl Hn' Hal)
    as (vt2 & E1 & E2 & E3 & E4 & Ek & Hrun).
  rewrite Hrun. clear Hrun. unfold csi_dispatch.
  cbn in Hf. destruct Hf as [<-|[<-|[<-|[<-|[]]]]];
    repeat match goal with
           | |- context [ascii_eqb ?a ?b] =>
               let r := eval cbv in (ascii_eqb a b) in change (ascii_eqb a b) with r
           end;
    cbv iota; cbn [orb]; cbv iota zeta; rewrite Ek;
    cbn [cursor_x cursor_y set_cursor_x set_cursor_y]; rewrite ?E2, ?E3;
    fold k x y; subst k;
    first [ rewrite int_sub_small
              by (unfold INT_MIN, INT_MAX, VTERM_COLS, VTERM_ROWS in *; lia)
          | rewrite int_add_small
              by (unfold INT_MIN, INT_MAX, VTERM_COLS, VTERM_ROWS in *; lia) ];
    case_cmp; (eexists; split; [reflexivity|]);
    unfold moved_to;
    cbn [cells cursor_x cursor_y current_attr escape_state escape_done set_dirty
         set_escape_len set_escape_state set_cursor_x set_cursor_y];
    rewrite ?E1, ?E2, ?E3, ?E4; subst x y;
    unfold VTERM_COLS, VTERM_ROWS in *; repeat split; lia.
Qed.

(** X13: the cursor-movement sequences ESC [ n A, B, C and D, written by
    either call to an idle session whose cursor is in the grid, move the
    cursor by [max n 1] rows up, rows down, columns right and columns left
    and stop it at the edge of the grid (no wrap, no scroll); a count of 0
    moves by one.  Cells and attribute are unchanged.  For B and C this
    needs [n <= INT_MAX - 128]. *)
Theorem cursor_moves_stop_at_edges p i s n :
  valid_id i = true -> get_session p i = Some s ->
  cursor_ok (view p s) -> escape_state (view p s) = 0 ->
  length (escape_buf (view p s)) = 32%nat ->
  0 <= n <= INT_MAX - VTERM_COLS ->
  let k := Z.max n 1 in
  let x := cursor_x (view p s) in
  let y := cursor_y (view p s) in
  written p i (csi_with_count n "A") (moved_to (view p s) x (Z.max 0 (y - k))) /\
  written p i (csi_with_count n "B")
    (moved_to (view p s) x (Z.min (VTERM_ROWS - 1) (y + k))) /\
  written p i (csi_with_count n "C")
    (moved_to (view p s) (Z.min (VTERM_COLS - 1) (x + k)) y) /\
  written p i (csi_with_count n "D") (moved_to (view p s) (Z.max 0 (x - k)) y).
Proof.
  intros Hi Hs Hc He Hl Hn k x y.
  assert (Hn' : 0 <= n <= INT_MAX) by (unfold INT_MAX, VTERM_COLS in *; lia).
  assert (G : forall f, In f ["A"; "B"; "C"; "D"]%char ->
              written p i (csi_with_count n f)
                (moved_to (view p s)
                   (if ascii_eqb f "C" then Z.min (VTERM_COLS - 1) (x + k)
                    else if ascii_eqb f "D" then Z.max 0 (x - k) else x)
                   (if ascii_eqb f "A" then Z.max 0 (y - k)
                    else if ascii_eqb f "B" then Z.min (VTERM_ROWS - 1) (y + k)
                    else y))).
  { intros f Hf.
    destruct (cursor_move_run (view p s) n f Hc He Hl Hn Hf) as (v & Hrun & Hm).
    apply (written_of_run p i s _ v [] _ Hi Hs); try assumption.
    apply csi_with_count_stays; assumption. }
  split; [|split; [|split]].
  - apply (G "A"%char). cbn. auto.
  - apply (G "B"%char). cbn. auto.
  - apply (G "C"%char). cbn. auto.
  - apply (G "D"%char). cbn. auto.
Qed.

(** ESC [ 5 ; 70 H on session 0 of the pool of [vterm_init] leaves the
    cursor at column 69 of row 4; from there, fifty to each side: up and
    down stop at rows 0 and 36, right and left reach columns 119 and 19. *)
Lemma cursor_moves_stop_at_edges_witness :
  exists p0 s0,
    putchar_each vterm_init 0 (cup_sequence 5 70) = Some p0 /\
    get_session p0 0 = Some s0 /\
    written p0 0 (csi_with_count 50 "A") (moved_to (view p0 s0) 69 0) /\
    written p0 0 (csi_with_count 50 "B") (moved_to (view p0 s0) 69 36) /\
    written p0 0 (csi_with_count 50 "C") (moved_to (view p0 s0) 119 4) /\
    written p0 0 (csi_with_count 50 "D") (moved_to (view p0 s0) 19 4).
Proof.
  destruct (cup_sequence_run (view vterm_init session0) 5 70 [] init_view0_idle
              (proj1 init_view0_state) ltac:(lia) ltac:(lia) cup_params_5_70)
    as (v & Hrun & C1 & C2 & C3 & C4 & C5 & C6).
  pose proof (putchar_each_session vterm_init 0 (cup_sequence 5 70) session0
                eq_refl init_session0) as Hp.
  rewrite Hrun in Hp. cbn [send_all foldl] in Hp. unfold send_all in Hp. cbn [foldl] in Hp.
  pose proof (view_store_view vterm_init 0 v session0 init_session0) as Hv.
  destruct (session_view_get _ _ _ Hv) as (s0 & Hs0 & Hview).
  exists (store_view vterm_init 0 v), s0.
  split; [exact Hp|]. split; [exact Hs0|].
  assert (Hx : cursor_x (view (store_view vterm_init 0 v) s0) = 69)
    by (rewrite Hview, C2; reflexivity).
  assert (Hy : cursor_y (view (store_view vterm_init 0 v) s0) = 4)
    by (rewrite Hview, C3; reflexivity).
  pose proof (cursor_moves_stop_at_edges (store_view vterm_init 0 v) 0 s0 50 eq_refl Hs0)
    as H.
  cbv zeta in H. rewrite Hx, Hy in H.
  change (Z.max 0 (4 - Z.max 50 1)) with 0 in H.
  change (Z.min (VTERM_ROWS - 1) (4 + Z.max 50 1)) with 36 in H.
  change (Z.min (VTERM_COLS - 1) (69 + Z.max 50 1)) with 119 in H.
  change (Z.max 0 (69 - Z.max 50 1)) with 19 in H.
  apply H.
  - unfold cursor_ok. rewrite Hx, Hy. unfold VTERM_COLS, VTERM_ROWS. lia.
  - rewrite Hview. exact C5.
  - rewrite Hview. exact C6.
  - unfold INT_MAX, VTERM_COLS. lia.
Defined.

(** ** CSI sequences on a session of the pool *)

(** A sequence ESC [ params final whose dispatch sends no reply. *)
Lemma csi_written p i s params f (Q : vterm_t -> Prop) :
  valid_id i = true -> get_session p i = Some s ->
  cursor_ok (view p s) -> escape_state (view p s) = 0 ->
  length (escape_buf (view p s)) = 32%nat ->
  (length params <= 30)%nat ->
  Forall (fun c => is_alpha c = false) params ->
  is_alpha f = true ->
  (forall vt2 rest,
     cells vt2 = cells (view p s) -> cursor_x vt2 = cursor_x (view p s) ->
     cursor_y vt2 = cursor_y (view p s) ->
     current_attr vt2 = current_attr (view p s) ->
     escape_buf vt2 = params ++ NUL :: rest ->
     if ascii_eqb (nth 0 (params ++ NUL :: rest) NUL) "?"
     then Q (set_dirty (escape_done vt2) 1)
     else exists v, csi_dispatch vt2 f = Some (v, []) /\
                    Q (set_dirty (escape_done v) 1)) ->
  written p i (ESC :: "["%char :: params ++ [f]) Q.
Proof.
  intros Hi Hs Hc He Hl Hlen Hna Hf HQ.
  destruct (csi_sequence (view p s) params f [] He Hl Hlen Hna Hf)
    as (vt2 & rest & E1 & E2 & E3 & E4 & _ & E5 & Hrun).
  specialize (HQ vt2 rest E1 E2 E3 E4 E5).
  pose proof (csi_stays (view p s) params f Hc He Hl Hlen Hna) as Hstay.
  destruct (ascii_eqb (nth 0 (params ++ NUL :: rest) NUL) "?").
  - apply (written_of_run p i s _ _ [] Q Hi Hs Hstay Hrun); exact HQ.
  - destruct HQ as (v & Hd & HQ). rewrite Hd in Hrun.
    apply (written_of_run p i s _ _ [] Q Hi Hs Hstay Hrun); exact HQ.
Qed.

(** The session shows what [vt] shows and its parser is idle. *)
Definition screen_kept (vt v : vterm_t) : Prop :=
  cells v = cells vt /\ cursor_x v = cursor_x vt /\ cursor_y v = cursor_y vt /\
  current_attr v = current_attr vt /\ escape_state v = 0.

(** X14: DEC private-mode sequences, ESC [ ? parameters letter, are taken
    in and dropped: written by either call to an idle session they leave
    cells, cursor and attribute as they were and the parser idle, whatever
    the final letter and whatever the (at most 29, non-letter) parameter
    bytes; this includes a final [m] with bytes on which an SGR sequence
    without the question mark does not return. *)
Theorem private_mode_sequences_ignored p i s params f :
  valid_id i = true -> get_session p i = Some s ->
  cursor_ok (view p s) -> escape_state (view p s) = 0 ->
  length (escape_buf (view p s)) = 32%nat ->
  (length params <= 29)%nat ->
  Forall (fun c => is_alpha c = false) params ->
  is_alpha f = true ->
  written p i (ESC :: "["%char :: ("?"%char :: params) ++ [f]) (screen_kept (view p s)).
Proof.
  intros Hi Hs Hc He Hl Hlen Hna Hf.
  apply (csi_written p i s ("?"%char :: params) f _ Hi Hs Hc He Hl);
    [cbn [length]; lia | constructor; [reflexivity | exact Hna] | exact Hf |].
  intros vt2 rest E1 E2 E3 E4 E5. cbn [app nth].
  change (ascii_eqb "?" "?") with true. cbv iota.
  unfold screen_kept. repeat split; assumption.
Qed.

Lemma private_mode_sequences_ignored_witness :
  written vterm_init 0 (ESC :: str "[?25h") (screen_kept (view vterm_init session0)) /\
  written vterm_init 0 (ESC :: str "[?>m") (screen_kept (view vterm_init session0)).
Proof.
  destruct init_view0_state as [Hl _].
  split.
  - apply (private_mode_sequences_ignored vterm_init 0 session0 (str "25") "h" eq_refl
             init_session0 init_view0_cursor init_view0_idle Hl);
      [cbn; lia | repeat constructor | reflexivity].
  - apply (private_mode_sequences_ignored vterm_init 0 session0 (str ">") "m" eq_refl
             init_session0 init_view0_cursor init_view0_idle Hl);
      [cbn; lia | repeat constructor | reflexivity].
Defined.

(** Comparisons of the final byte with the letters of the [switch]. *)
Ltac eval_final_byte :=
  repeat match goal with
         | |- context [ascii_eqb ?a ?b] =>
             let r := eval cbv in (ascii_eqb a b) in
             match r with
             | true => change (ascii_eqb a b) with true
             | false => change (ascii_eqb a b) with false
             end
         end;
  cbv iota; cbn [orb andb]; cbv iota.

(** ESC [ final, no parameter. *)
Lemma csi_bare_written p i s f (Q : vterm_t -> Prop) :
  valid_id i = true -> get_session p i = Some s ->
  cursor_ok (view p s) -> escape_state (view p s) = 0 ->
  length (escape_buf (view p s)) = 32%nat ->
  is_alpha f = true ->
  (forall vt2,
     cells vt2 = cells (view p s) -> cursor_x vt2 = cursor_x (view p s) ->
     cursor_y vt2 = cursor_y (view p s) ->
     current_attr vt2 = current_attr (view p s) ->
     c_string (escape_buf vt2) = [] ->
     ascii_eqb (char_at (escape_buf vt2) 0) NUL = true ->
     exists v, csi_dispatch vt2 f = Some (v, []) /\
               Q (set_dirty (escape_done v) 1)) ->
  written p i [ESC; "["%char; f] Q.
Proof.
  intros Hi Hs Hc He Hl Hf HQ.
  apply (csi_written p i s [] f Q Hi Hs Hc He Hl);
    [cbn; lia | constructor | exact Hf |].
  intros vt2 rest E1 E2 E3 E4 E5. cbn [app nth].
  change (ascii_eqb NUL "?") with false. cbv iota.
  apply (HQ vt2 E1 E2 E3 E4); rewrite E5; reflexivity.
Qed.

(** ESC [ n final with [n] in decimal: the dispatcher finds the text of
    [n] in the buffer. *)
Lemma csi_number_written p i s n f (Q : vterm_t -> Prop) :
  valid_id i = true -> get_session p i = Some s ->
  cursor_ok (view p s) -> escape_state (view p s) = 0 ->
  length (escape_buf (view p s)) = 32%nat ->
  0 <= n <= INT_MAX -> is_alpha f = true ->
  (forall vt2,
     cells vt2 = cells (view p s) -> cursor_x vt2 = cursor_x (view p s) ->
     cursor_y vt2 = cursor_y (view p s) ->
     current_attr vt2 = current_attr (view p s) ->
     c_string (escape_buf vt2) = dec_chars n ->
     ascii_eqb (char_at (escape_buf vt2) 0) NUL = false ->
     exists v, csi_dispatch vt2 f = Some (v, []) /\
               Q (set_dirty (escape_done v) 1)) ->
  written p i (csi_with_count n f) Q.
Proof.
  intros Hi Hs Hc He Hl Hn Hf HQ.
  destruct (dec_chars_digits n ltac:(lia)) as (d & ds & E & Hd & Hds).
  assert (Hall : Forall (fun c => is_digit c = true) (dec_chars n))
    by (rewrite E; constructor; assumption).
  pose proof (dec_chars_int_length n Hn) as Hlen.
  apply (csi_written p i s (dec_chars n) f Q Hi Hs Hc He Hl);
    [lia | | exact Hf |].
  { eapply Forall_impl; [exact Hall|]. intros a Ha. apply (digit_plain a Ha). }
  intros vt2 rest E1 E2 E3 E4 E5.
  destruct (digit_plain d Hd) as (_ & Hd0 & Hq).
  rewrite E. cbn [app nth]. rewrite Hq.
  apply (HQ vt2 E1 E2 E3 E4); rewrite E5.
  - apply c_string_app. eapply Forall_impl; [exact Hall|].
    intros a Ha. apply (digit_plain a Ha).
  - rewrite E. change (char_at ((d :: ds) ++ NUL :: rest) 0) with d.
    apply (ascii_eqb_ne d NUL Hd0).
Qed.

(** [dec_chars] gives each count its own text. *)
Lemma dec_chars_inj n m : 0 <= n <= INT_MAX -> 0 <= m <= INT_MAX ->
  dec_chars n = dec_chars m -> n = m.
Proof.
  intros Hn Hm E. pose proof (atoi_dec_chars n ltac:(lia)) as A.
  rewrite E, (atoi_dec_chars m) in A by lia.
  unfold clamp_int, INT_MIN, INT_MAX in *. lia.
Qed.

(** ** Erase in display *)

(** A blank grid with the cursor at home and the default attribute. *)
Definition display_cleared (v : vterm_t) : Prop :=
  (forall j : nat,
     cells v !! j = if Z.of_nat j <? GRID_CELLS then Some blank_cell else None) /\
  cursor_x v = 0 /\ cursor_y v = 0 /\ current_attr v = VTERM_DEFAULT_ATTR /\
  escape_state v = 0.

Lemma clear_internal_cleared vt :
  grid_ok vt -> display_cleared (set_dirty (escape_done (vterm_clear_internal vt)) 1).
Proof.
  intros Hg. split; [|repeat split].
  intros j. apply (clear_internal_lookup vt j Hg).
Qed.

(** X15: erase in display.  ESC [ J and ESC [ 2 J blank the whole grid to
    spaces with the default attribute, home the cursor and also reset the
    current attribute to the default.  ESC [ n J with any other decimal
    [n] (0, 1 and 3 included) changes nothing on the screen. *)
Theorem erase_display_modes p i s :
  pool_ok p -> valid_id i = true -> get_session p i = Some s ->
  cursor_ok (view p s) -> escape_state (view p s) = 0 ->
  length (escape_buf (view p s)) = 32%nat ->
  written p i [ESC; "["%char; "J"%char] display_cleared /\
  forall n, 0 <= n <= INT_MAX ->
    written p i (csi_with_count n "J")
      (if n =? 2 then display_cleared else screen_kept (view p s)).
Proof.
  intros Hok Hi Hs Hc He Hl.
  pose proof (pool_ok_view_grid p i s Hok Hs) as Hg.
  split.
  - apply (csi_bare_written p i s "J" _ Hi Hs Hc He Hl eq_refl).
    intros vt2 E1 E2 E3 E4 E5 E6. unfold csi_dispatch. eval_final_byte.
    rewrite E5. cbn [str_eqb orb]. rewrite orb_true_r.
    eexists. split; [reflexivity|].
    apply clear_internal_cleared. unfold grid_ok. rewrite E1. exact Hg.
  - intros n Hn.
    apply (csi_number_written p i s n "J" _ Hi Hs Hc He Hl Hn eq_refl).
    intros vt2 E1 E2 E3 E4 E5 E6. unfold csi_dispatch. eval_final_byte.
    rewrite E5. destruct (Z.eqb_spec n 2) as [->|Hne].
    + change (str_eqb (dec_chars 2) (str "2")) with true. cbn [orb].
      eexists. split; [reflexivity|].
      apply clear_internal_cleared. unfold grid_ok. rewrite E1. exact Hg.
    + destruct (str_eqb (dec_chars n) (str "2")) eqn:H2.
      { apply str_eqb_eq in H2. exfalso. apply Hne.
        apply (dec_chars_inj n 2 Hn); [unfold INT_MAX; lia | exact H2]. }
      destruct (str_eqb (dec_chars n) []) eqn:H0.
      { apply str_eqb_eq in H0.
        destruct (dec_chars_plain n ltac:(lia)) as [_ Hne0]. contradiction. }
      cbn [orb]. eexists. split; [reflexivity|].
      unfold screen_kept. repeat split; assumption.
Qed.

Lemma erase_display_modes_witness :
  written vterm_init 0 (ESC :: str "[J") display_cleared /\
  written vterm_init 0 (ESC :: str "[2J") display_cleared /\
  written vterm_init 0 (ESC :: str "[0J") (screen_kept (view vterm_init session0)).
Proof.
  destruct (erase_display_modes vterm_init 0 session0 pool_ok_init eq_refl init_session0
              init_view0_cursor init_view0_idle (proj1 init_view0_state)) as [H0 H].
  split; [exact H0|]. split.
  - apply (H 2). unfold INT_MAX. lia.
  - apply (H 0). unfold INT_MAX. lia.
Defined.

(** ** Erasing within the cursor's row *)

(** Columns [from .. to - 1] of the row the cursor of [vt] is in hold a
    space with the current attribute of [vt]; every other cell is that of
    [vt]. *)
Definition span_erased (vt : vterm_t) (from to : Z) (v : vterm_t) : Prop :=
  forall j : nat,
    cells v !! j =
    if (cursor_y vt * VTERM_COLS + from <=? Z.of_nat j)
       && (Z.of_nat j <? cursor_y vt * VTERM_COLS + to)
    then Some (Cell " " (current_attr vt)) else cells vt !! j.

(** The same, with the cursor and the attribute left as they were. *)
Definition row_erased (vt : vterm_t) (from to : Z) (v : vterm_t) : Prop :=
  span_erased vt from to v /\
  cursor_x v = cursor_x vt /\ cursor_y v = cursor_y vt /\
  current_attr v = current_attr vt /\ escape_state v = 0.

Lemma fill_span_erased vt from to v :
  grid_ok vt -> cursor_ok vt -> 0 <= from -> to <= VTERM_COLS ->
  cells v = fill_cells (cells vt) (cursor_y vt * VTERM_COLS) from to
              (Cell " " (current_attr vt)) ->
  span_erased vt from to v.
Proof.
  intros Hg [Hx Hy] Hfrom Hto Hv j. rewrite Hv, fill_cells_lookup.
  unfold grid_ok in Hg. rewrite Hg, grid_cells_value.
  destruct (Z.ltb_spec (Z.of_nat j) 4736); [rewrite andb_true_r; reflexivity|].
  rewrite andb_false_r.
  destruct (_ && _) eqn:Hin; [|reflexivity].
  apply andb_true_iff in Hin as [_ Hin]. apply Z.ltb_lt in Hin.
  unfold VTERM_COLS, VTERM_ROWS in *. lia.
Qed.

Lemma fill_row_erased vt vt2 from to :
  grid_ok vt -> cursor_ok vt -> 0 <= from -> to <= VTERM_COLS ->
  cells vt2 = cells vt -> cursor_x vt2 = cursor_x vt ->
  cursor_y vt2 = cursor_y vt -> current_attr vt2 = current_attr vt ->
  row_erased vt from to
    (set_dirty (escape_done
       (set_cells vt2 (fill_cells (cells vt2) (int_mul (cursor_y vt2) VTERM_COLS)
                         from to (Cell " " (current_attr vt2))))) 1).
Proof.
  intros Hg Hc Hfrom Hto E1 E2 E3 E4. pose proof Hc as [Hx Hy].
  split; [|repeat split; assumption].
  apply (fill_span_erased vt from to _ Hg Hc Hfrom Hto).
  cbn [cells set_dirty escape_done set_escape_len set_escape_state set_cells].
  rewrite E1, E3, E4.
  rewrite int_mul_small by (unfold INT_MIN, INT_MAX, VTERM_COLS, VTERM_ROWS in *; lia).
  reflexivity.
Qed.

(** X16: erase in line.  ESC [ K and ESC [ 0 K blank the cursor's row
    from the cursor to the end of the row, ESC [ 1 K from the start of the
    row up to and including the cursor, and ESC [ n K for every other
    decimal [n] the whole row.  The erased cells take the current
    attribute, not the default one; no other cell changes and the cursor
    stays. *)
Theorem erase_in_line_modes p i s :
  pool_ok p -> valid_id i = true -> get_session p i = Some s ->
  cursor_ok (view p s) -> escape_state (view p s) = 0 ->
  length (escape_buf (view p s)) = 32%nat ->
  let x := cursor_x (view p s) in
  written p i [ESC; "["%char; "K"%char] (row_erased (view p s) x VTERM_COLS) /\
  forall n, 0 <= n <= INT_MAX ->
    written p i (csi_with_count n "K")
      (row_erased (view p s) (if n =? 0 then x else 0)
                             (if n =? 1 then x + 1 else VTERM_COLS)).
Proof.
  intros Hok Hi Hs Hc He Hl x.
  pose proof (pool_ok_view_grid p i s Hok Hs) as Hg.
  pose proof Hc as [Hx Hy]. fold x in Hx.
  split.
  - apply (csi_bare_written p i s "K" _ Hi Hs Hc He Hl eq_refl).
    intros vt2 E1 E2 E3 E4 E5 E6. unfold csi_dispatch. eval_final_byte.
    rewrite E6. cbv iota. cbn [Z.eqb]. cbv iota. rewrite E2. fold x.
    eexists. split; [reflexivity|].
    apply fill_row_erased; try assumption; lia.
  - intros n Hn.
    apply (csi_number_written p i s n "K" _ Hi Hs Hc He Hl Hn eq_refl).
    intros vt2 E1 E2 E3 E4 E5 E6. unfold csi_dispatch. eval_final_byte.
    rewrite E6, E5, (atoi_dec_chars n) by lia. cbv iota.
    replace (clamp_int n) with n by (unfold clamp_int, INT_MIN, INT_MAX in *; lia).
    rewrite E2. fold x.
    rewrite int_add_small by (unfold INT_MIN, INT_MAX, VTERM_COLS in *; lia).
    eexists. split; [reflexivity|].
    destruct (Z.eqb_spec n 0) as [->|H0].
    + cbn [Z.eqb]. apply fill_row_erased; try assumption; lia.
    + destruct (Z.eqb_spec n 1) as [->|H1];
        apply fill_row_erased; try assumption; lia.
Qed.

Lemma erase_in_line_modes_witness :
  written vterm_init 0 (ESC :: str "[K") (row_erased (view vterm_init session0) 0 128) /\
  written vterm_init 0 (ESC :: str "[1K") (row_erased (view vterm_init session0) 0 1) /\
  written vterm_init 0 (ESC :: str "[7K") (row_erased (view vterm_init session0) 0 128).
Proof.
  destruct (erase_in_line_modes vterm_init 0 session0 pool_ok_init eq_refl init_session0
              init_view0_cursor init_view0_idle (proj1 init_view0_state)) as [H0 H].
  split; [exact H0|]. split.
  - apply (H 1). unfold INT_MAX. lia.
  - apply (H 7). unfold INT_MAX. lia.
Defined.

(** X17: erase characters.  ESC [ n X blanks [max n 1] cells of the
    cursor's row starting under the cursor, cut off at the end of the row
    (nothing wraps to the next row), with the current attribute; ESC [ X
    blanks one.  The cursor stays.  Stated for [n <= INT_MAX - 128]. *)
Theorem erase_characters p i s n :
  pool_ok p -> valid_id i = true -> get_session p i = Some s ->
  cursor_ok (view p s) -> escape_state (view p s) = 0 ->
  length (escape_buf (view p s)) = 32%nat ->
  0 <= n <= INT_MAX - VTERM_COLS ->
  let x := cursor_x (view p s) in
  written p i [ESC; "["%char; "X"%char] (row_erased (view p s) x (x + 1)) /\
  written p i (csi_with_count n "X")
    (row_erased (view p s) x (Z.min VTERM_COLS (x + Z.max n 1))).
Proof.
  intros Hok Hi Hs Hc He Hl Hn x.
  pose proof (pool_ok_view_grid p i s Hok Hs) as Hg.
  pose proof Hc as [Hx Hy]. fold x in Hx.
  assert (Hn' : 0 <= n <= INT_MAX) by (unfold INT_MAX, VTERM_COLS in *; lia).
  split.
  - apply (csi_bare_written p i s "X" _ Hi Hs Hc He Hl eq_refl).
    intros vt2 E1 E2 E3 E4 E5 E6. unfold csi_dispatch. eval_final_byte.
    unfold csi_count. rewrite E6. cbv iota.
    change (if 1 <? 1 then 1 else 1) with 1.
    rewrite E2. fold x.
    rewrite int_add_small by (unfold INT_MIN, INT_MAX, VTERM_COLS in *; lia).
    eexists. split; [reflexivity|].
    destruct (Z.ltb_spec VTERM_COLS (x + 1)); [unfold VTERM_COLS in *; lia|].
    apply fill_row_erased; try assumption; lia.
  - apply (csi_number_written p i s n "X" _ Hi Hs Hc He Hl Hn' eq_refl).
    intros vt2 E1 E2 E3 E4 E5 E6. unfold csi_dispatch. eval_final_byte.
    unfold csi_count. rewrite E6, E5, (atoi_dec_chars n) by lia. cbv iota.
    replace (clamp_int n) with n by (unfold clamp_int, INT_MIN, INT_MAX in *; lia).
    rewrite E2. fold x.
    replace (if n <? 1 then 1 else n) with (Z.max n 1)
      by (destruct (Z.ltb_spec n 1); lia).
    rewrite int_add_small by (unfold INT_MIN, INT_MAX, VTERM_COLS in *; lia).
    eexists. split; [reflexivity|].
    replace (if VTERM_COLS <? x + Z.max n 1 then VTERM_COLS else x + Z.max n 1)
      with (Z.min VTERM_COLS (x + Z.max n 1))
      by (destruct (Z.ltb_spec VTERM_COLS (x + Z.max n 1)); lia).
    apply fill_row_erased; try assumption; lia.
Qed.

Lemma erase_characters_witness :
  written vterm_init 0 (ESC :: str "[X") (row_erased (view vterm_init session0) 0 1) /\
  written vterm_init 0 (ESC :: str "[300X") (row_erased (view vterm_init session0) 0 128).
Proof.
  apply (erase_characters vterm_init 0 session0 300 pool_ok_init eq_refl init_session0
           init_view0_cursor init_view0_idle (proj1 init_view0_state)).
  unfold INT_MAX, VTERM_COLS. lia.
Defined.

(** ** The cursor position report *)

(** The pools the two write paths return for a run on the addressed
    session. *)
Lemma run_on_pool_out p vt_id s data v out :
  valid_id vt_id = true -> get_session p vt_id = Some s ->
  stays_in_grid (view p s) data = true ->
  putchar_seq (view p s) data [] = Some (v, out) ->
  vterm_write p vt_id data
    = Some (send_all (store_view p vt_id (nd v)) (s_active_vt p) out) /\
  putchar_each p vt_id data
    = Some (send_all (store_view p vt_id v) (s_active_vt p) out).
Proof.
  intros Hv Hs Hstay Hrun. split.
  - rewrite (vterm_write_store p vt_id data s Hv Hs).
    rewrite (write_body_putchar_seq _ _ Hstay), Hrun. reflexivity.
  - rewrite (putchar_each_session p vt_id data s Hv Hs), Hrun. reflexivity.
Qed.

Lemma queue_of_store_view p i vt k : queue_of (store_view p i vt) k = queue_of p k.
Proof.
  pose proof (store_view_queues p i vt) as H. unfold input_queues in H.
  unfold queue_of, get_session. destruct (0 <=? k); [|reflexivity].
  apply (f_equal (fun l => l !! Z.to_nat k)) in H.
  change (map input_queue ?l) with (input_queue <$> l) in H.
  rewrite !list_lookup_fmap in H. exact H.
Qed.

(** ESC [ row ; col R with the 1-based position of the cursor of [vt]. *)
Definition cursor_report (vt : vterm_t) : list ascii :=
  ESC :: "["%char :: dec_chars (cursor_y vt + 1)
    ++ ";"%char :: dec_chars (cursor_x vt + 1) ++ ["R"%char].

Lemma cursor_report_run vt :
  cursor_ok vt -> escape_state vt = 0 -> length (escape_buf vt) = 32%nat ->
  exists v, putchar_seq vt (ESC :: str "[6n") [] = Some (v, cursor_report vt) /\
            screen_kept vt v.
Proof.
  intros [Hx Hy] He Hl.
  destruct (csi_sequence vt ["6"%char] "n" [] He Hl ltac:(cbn; lia)
              ltac:(repeat constructor) eq_refl)
    as (vt2 & rest & E1 & E2 & E3 & E4 & _ & E5 & Hrun).
  change (ESC :: "["%char :: ["6"%char] ++ ["n"%char]) with (ESC :: str "[6n") in Hrun.
  rewrite Hrun. cbn [app nth]. change (ascii_eqb "6" "?") with false. cbv iota.
  unfold csi_dispatch. eval_final_byte. rewrite E5.
  change (char_at (["6"%char] ++ NUL :: rest) 0) with "6"%char.
  change (char_at (["6"%char] ++ NUL :: rest) 1) with NUL.
  eval_final_byte. rewrite E2, E3.
  rewrite !int_add_small by (unfold INT_MIN, INT_MAX, VTERM_COLS, VTERM_ROWS in *; lia).
  eexists. split.
  - cbn [app]. rewrite take_ge; [reflexivity|].
    cbn [length]. rewrite length_app. cbn [length]. rewrite length_app. cbn [length].
    pose proof (dec_chars_int_length (cursor_y vt + 1)
                  ltac:(unfold INT_MAX, VTERM_ROWS in *; lia)).
    pose proof (dec_chars_int_length (cursor_x vt + 1)
                  ltac:(unfold INT_MAX, VTERM_COLS in *; lia)).
    lia.
  - unfold screen_kept. repeat split; assumption.
Qed.

(** What [p'] holds once session [i], showing [vt], has answered: the
    session shows what it did, and the report is in the input queue of the
    session that was active in [p]; space permitting, as always. *)
Definition report_delivered (p : vterm_pool) (i : Z) (vt : vterm_t)
  (p' : vterm_pool) : Prop :=
  (exists v, session_view p' i = Some v /\ screen_kept vt v) /\
  forall k q, queue_of p k = Some q ->
    Z.of_nat (length q) <= INPUT_QUEUE_SIZE ->
    queue_of p' k
    = Some (if k =? s_active_vt p then queue_after q (cursor_report vt) else q).

Lemma report_delivered_send p i s v :
  pool_ok p -> get_session p i = Some s -> screen_kept (view p s) v ->
  report_delivered p i (view p s)
    (send_all (store_view p i v) (s_active_vt p) (cursor_report (view p s))).
Proof.
  intros Hok Hs Hk. split.
  - exists v. split; [|exact Hk]. rewrite view_send_all. eapply view_store_view, Hs.
  - intros k q Hq Hlen. rewrite queue_of_send_all, queue_of_store_view, Hq.
    destruct Hok as (_ & Ha & _).
    rewrite (proj2 (valid_id_range (s_active_vt p)) Ha). cbn [andb].
    destruct (k =? s_active_vt p); [|reflexivity].
    cbn [fmap option_fmap option_map]. rewrite queue_send_all_after by exact Hlen.
    reflexivity.
Qed.

(** X18: the cursor position report.  ESC [ 6 n written to session [i]
    (by either call) queues the answer ESC [ row ; col R, with the 1-based
    cursor position of session [i], on the input queue of the session that
    is active at that moment, which need not be [i]; bytes that do not fit
    the 64-byte queue are lost.  No other queue changes and session [i]
    shows what it showed. *)
Theorem cursor_report_goes_to_active_session p i s :
  pool_ok p -> valid_id i = true -> get_session p i = Some s ->
  cursor_ok (view p s) -> escape_state (view p s) = 0 ->
  length (escape_buf (view p s)) = 32%nat ->
  (exists p1, vterm_write p i (ESC :: str "[6n") = Some p1 /\
              report_delivered p i (view p s) p1) /\
  (exists p2, putchar_each p i (ESC :: str "[6n") = Some p2 /\
              report_delivered p i (view p s) p2).
Proof.
  intros Hok Hi Hs Hc He Hl.
  destruct (cursor_report_run (view p s) Hc He Hl) as (v & Hrun & Hk).
  assert (Hstay : stays_in_grid (view p s) (ESC :: str "[6n") = true).
  { apply (csi_stays (view p s) ["6"%char] "n" Hc He Hl); [cbn; lia|].
    repeat constructor. }
  destruct (run_on_pool_out p i s _ v _ Hi Hs Hstay Hrun) as [Hw Hp].
  split; eexists; (split; [eassumption|]);
    apply report_delivered_send; assumption.
Qed.

(** Session 1 of the pool of [vterm_init] is asked while session 0 is
    active: the answer ESC [ 1 ; 1 R is queued for session 0, nothing for
    session 1. *)
Lemma cursor_report_goes_to_active_session_witness :
  exists p1, vterm_write vterm_init 1 (ESC :: str "[6n") = Some p1 /\
             queue_of p1 0 = Some (ESC :: str "[1;1R") /\ queue_of p1 1 = Some [].
Proof.
  assert (Hs : get_session vterm_init 1 = Some (Session IN_STORAGE fresh_fields []))
    by reflexivity.
  destruct (cursor_report_goes_to_active_session vterm_init 1 _ pool_ok_init eq_refl Hs)
    as [(p1 & Hw & _ & Hq) _].
  - apply in_grid_cursor_ok. reflexivity.
  - reflexivity.
  - reflexivity.
  - exists p1. split; [exact Hw|]. split.
    + apply (Hq 0 [] eq_refl). cbn. unfold INPUT_QUEUE_SIZE. lia.
    + apply (Hq 1 [] eq_refl). cbn. unfold INPUT_QUEUE_SIZE. lia.
Defined.

(** ** Control bytes *)

Definition BS : ascii := "008"%char.
Definition TAB : ascii := "009"%char.
Definition CR : ascii := "013"%char.

(** One byte other than ESC on an idle session. *)
Lemma plain_byte_written p i s c (Q : vterm_t -> Prop) :
  valid_id i = true -> get_session p i = Some s ->
  cursor_ok (view p s) -> escape_state (view p s) = 0 ->
  code c <> 27 ->
  Q (set_dirty (vterm_putchar_internal (view p s) c) 1) ->
  written p i [c] Q.
Proof.
  intros Hi Hs Hc He Hne HQ.
  apply (written_of_run p i s [c] (set_dirty (vterm_putchar_internal (view p s) c) 1)
           [] Q Hi Hs (stays_in_grid_last _ c Hc)); [|exact HQ|exact HQ].
  cbn [putchar_seq]. unfold putchar_body.
  rewrite (handle_escape_normal _ c He Hne). reflexivity.
Qed.

(** X19: control bytes on an idle session.  CR moves the cursor to
    column 0.  BS moves it one column left and blanks the cell it arrives
    on with the current attribute; in column 0 it does nothing.  Every
    other byte that is not printable (32 .. 126) and not one of BS, TAB,
    LF, CR, ESC is dropped without any effect on the screen: the other C0
    controls, DEL and all bytes from 128 on. *)
Theorem control_bytes p i s :
  valid_id i = true -> get_session p i = Some s ->
  cursor_ok (view p s) -> escape_state (view p s) = 0 ->
  let vt := view p s in
  written p i [CR] (moved_to vt 0 (cursor_y vt)) /\
  written p i [BS]
    (fun v =>
       cursor_x v = Z.max 0 (cursor_x vt - 1) /\ cursor_y v = cursor_y vt /\
       cells v = (if 0 <? cursor_x vt
                  then <[Z.to_nat (lin vt - 1) := Cell " " (current_attr vt)]> (cells vt)
                  else cells vt) /\
       current_attr v = current_attr vt /\ escape_state v = 0) /\
  forall c, is_printable c = false -> ~ In (code c) [8; 9; 10; 13; 27] ->
            written p i [c] (screen_kept vt).
Proof.
  intros Hi Hs Hc He vt. pose proof Hc as [Hx Hy]. fold vt in Hx, Hy, He.
  split; [|split].
  - apply (plain_byte_written p i s CR _ Hi Hs Hc He); [discriminate|].
    fold vt. unfold moved_to. repeat split. exact He.
  - apply (plain_byte_written p i s BS _ Hi Hs Hc He); [discriminate|].
    fold vt. unfold vterm_putchar_internal.
    change (code BS =? 10) with false. change (code BS =? 13) with false.
    change (code BS =? 8) with true. cbv iota.
    rewrite (cursor_index_lin vt Hc).
    destruct (Z.ltb_spec 0 (cursor_x vt)) as [Hpos|Hz].
    + cbn [cells cursor_x cursor_y current_attr escape_state set_dirty set_cells
           set_cursor_x].
      rewrite int_sub_small by (unfold INT_MIN, INT_MAX, VTERM_COLS in *; lia).
      unfold store_cell.
      destruct (Z.leb_spec 0 (lin vt - 1)) as [_|Hneg];
        [|unfold lin, VTERM_COLS in *; lia].
      repeat split; [lia | exact He].
    + cbn [cells cursor_x cursor_y current_attr escape_state set_dirty].
      repeat split; [lia | exact He].
  - intros c Hnp Hcode. cbn [In] in Hcode.
    apply (plain_byte_written p i s c _ Hi Hs Hc He); [lia|].
    fold vt. unfold vterm_putchar_internal. rewrite Hnp.
    destruct (Z.eqb_spec (code c) 10); [exfalso; lia|].
    destruct (Z.eqb_spec (code c) 13); [exfalso; lia|].
    destruct (Z.eqb_spec (code c) 8); [exfalso; lia|].
    destruct (Z.eqb_spec (code c) 9); [exfalso; lia|].
    unfold screen_kept. repeat split. exact He.
Qed.

(** On the blank pool of [vterm_init]: a backspace in column 0 changes
    nothing, and neither do BEL, DEL and the byte 233. *)
Lemma control_bytes_witness :
  written vterm_init 0 [BS]
    (fun v => cursor_x v = 0 /\ cells v = cells (view vterm_init session0)) /\
  written vterm_init 0 ["007"%char] (screen_kept (view vterm_init session0)) /\
  written vterm_init 0 ["127"%char] (screen_kept (view vterm_init session0)) /\
  written vterm_init 0 ["233"%char] (screen_kept (view vterm_init session0)).
Proof.
  destruct (control_bytes vterm_init 0 session0 eq_refl init_session0
              init_view0_cursor init_view0_idle) as (_ & Hb & Ho).
  split; [|split; [|split]].
  - revert Hb. apply written_impl. intros v (H1 & _ & H3 & _). split; assumption.
  - apply Ho; [reflexivity|]. vm_compute. lia.
  - apply Ho; [reflexivity|]. vm_compute. lia.
  - apply Ho; [reflexivity|]. vm_compute. lia.
Defined.

(** ** Tab stops *)

(** The first column after [x] that is a multiple of eight. *)
Definition tab_stop (x : Z) : Z := 8 * (x / 8 + 1).

Lemma fill_cells_first cs base n v :
  0 <= n ->
  fill_cells cs base 0 (n + 1) v = fill_cells (store_cell cs base v) (base + 1) 0 n v.
Proof.
  intros Hn. apply list_eq. intros j.
  rewrite !fill_cells_lookup, store_cell_length, store_cell_lookup.
  destruct (Z.ltb_spec (Z.of_nat j) (Z.of_nat (length cs)));
    rewrite ?andb_true_r, ?andb_false_r; [|reflexivity].
  case_cmp; try reflexivity; lia.
Qed.

Lemma fill_cells_one cs base v : fill_cells cs base 0 1 v = store_cell cs base v.
Proof.
  unfold fill_cells. change (seqZ 0 (1 - 0)) with [0]. cbn [foldl].
  rewrite Z.add_0_r. reflexivity.
Qed.

(** The loop of the tab case in closed form. *)
Lemma tab_loop_fill fuel : forall vt cell,
  0 <= cursor_x vt < VTERM_COLS ->
  tab_stop (cursor_x vt) - cursor_x vt <= Z.of_nat fuel + 1 ->
  tab_loop fuel vt cell
  = set_cursor_x
      (set_cells vt (fill_cells (cells vt) cell 0 (tab_stop (cursor_x vt) - cursor_x vt)
                       (Cell " " (current_attr vt))))
      (tab_stop (cursor_x vt)).
Proof.
  induction fuel as [|fuel IH]; intros vt cell Hx Hf; cbn [tab_loop];
    cbn [cursor_x cells current_attr set_cursor_x set_cells].
  - rewrite int_add_small by (unfold INT_MIN, INT_MAX, VTERM_COLS in *; lia).
    assert (E : tab_stop (cursor_x vt) = cursor_x vt + 1)
      by (unfold tab_stop in *; Z.div_mod_to_equations; lia).
    rewrite E. replace (cursor_x vt + 1 - cursor_x vt) with 1 by lia.
    rewrite fill_cells_one. reflexivity.
  - rewrite int_add_small by (unfold INT_MIN, INT_MAX, VTERM_COLS in *; lia).
    destruct (Z.ltb_spec (cursor_x vt + 1) VTERM_COLS) as [Hlt|Hge]; cbn [andb].
    + destruct (Z.eqb_spec (Z.rem (cursor_x vt + 1) 8) 0) as [Hr|Hr]; cbn [negb].
      * rewrite Z.rem_mod_nonneg in Hr by lia.
        assert (E : tab_stop (cursor_x vt) = cursor_x vt + 1)
          by (unfold tab_stop in *; Z.div_mod_to_equations; lia).
        rewrite E. replace (cursor_x vt + 1 - cursor_x vt) with 1 by lia.
        rewrite fill_cells_one. reflexivity.
      * rewrite Z.rem_mod_nonneg in Hr by lia.
        assert (E : tab_stop (cursor_x vt + 1) = tab_stop (cursor_x vt))
          by (unfold tab_stop in *; Z.div_mod_to_equations; lia).
        rewrite IH; cbn [cursor_x cells current_attr set_cursor_x set_cells];
          [|lia|rewrite E; lia].
        rewrite E.
        replace (tab_stop (cursor_x vt) - cursor_x vt)
          with (tab_stop (cursor_x vt) - (cursor_x vt + 1) + 1) by lia.
        rewrite fill_cells_first
          by (unfold tab_stop; Z.div_mod_to_equations; lia).
        reflexivity.
    + assert (E : tab_stop (cursor_x vt) = cursor_x vt + 1)
        by (unfold tab_stop, VTERM_COLS in *; Z.div_mod_to_equations; lia).
      rewrite E. replace (cursor_x vt + 1 - cursor_x vt) with 1 by lia.
      rewrite fill_cells_one. reflexivity.
Qed.

(** X20: a tab blanks the cells from the cursor up to the next column
    that is a multiple of eight, with the current attribute, and leaves
    the cursor on that column; from the last eight columns of a row it
    blanks the rest of the row and the cursor goes to the start of the
    next row.  Stated for every cursor position but the last eight columns
    of the last row, from where the tab also scrolls the grid. *)
Theorem tab_fills_to_next_stop p i s :
  pool_ok p -> valid_id i = true -> get_session p i = Some s ->
  cursor_ok (view p s) -> escape_state (view p s) = 0 ->
  tab_stop (cursor_x (view p s)) < VTERM_COLS \/ cursor_y (view p s) < VTERM_ROWS - 1 ->
  let vt := view p s in
  let t := tab_stop (cursor_x vt) in
  written p i [TAB]
    (fun v =>
       span_erased vt (cursor_x vt) t v /\
       cursor_x v = (if t <? VTERM_COLS then t else 0) /\
       cursor_y v = (if t <? VTERM_COLS then cursor_y vt else cursor_y vt + 1) /\
       current_attr v = current_attr vt /\ escape_state v = 0).
Proof.
  intros Hok Hi Hs Hc He Hrow vt t.
  pose proof (pool_ok_view_grid p i s Hok Hs) as Hg.
  pose proof Hc as [Hx Hy]. fold vt in Hx, Hy, He, Hg, Hrow. fold t in Hrow.
  assert (Ht : cursor_x vt < t <= cursor_x vt + 8 /\ t <= VTERM_COLS)
    by (unfold t, tab_stop, VTERM_COLS in *; Z.div_mod_to_equations; lia).
  apply (plain_byte_written p i s TAB _ Hi Hs Hc He); [discriminate|].
  fold vt. unfold vterm_putchar_internal.
  change (code TAB =? 10) with false. change (code TAB =? 13) with false.
  change (code TAB =? 8) with false. change (code TAB =? 9) with true. cbv iota zeta.
  rewrite (cursor_index_lin vt Hc).
  rewrite (tab_loop_fill 7 vt (lin vt) Hx) by (fold t; cbn; lia).
  fold t. cbn [cursor_x set_cursor_x].
  assert (Hspan : forall v,
            cells v = fill_cells (cells vt) (lin vt) 0 (t - cursor_x vt)
                        (Cell " " (current_attr vt)) ->
            span_erased vt (cursor_x vt) t v).
  { intros v Hv j. rewrite Hv, fill_cells_lookup.
    unfold grid_ok in Hg. rewrite Hg, grid_cells_value. unfold lin.
    replace (cursor_y vt * VTERM_COLS + cursor_x vt + 0)
      with (cursor_y vt * VTERM_COLS + cursor_x vt) by lia.
    replace (cursor_y vt * VTERM_COLS + cursor_x vt + (t - cursor_x vt))
      with (cursor_y vt * VTERM_COLS + t) by lia.
    destruct (Z.ltb_spec (Z.of_nat j) 4736); [rewrite andb_true_r; reflexivity|].
    rewrite andb_false_r.
    destruct (_ && _) eqn:Hin; [|reflexivity].
    apply andb_true_iff in Hin as [_ Hin]. apply Z.ltb_lt in Hin.
    unfold VTERM_COLS, VTERM_ROWS in *. lia. }
  destruct (Z.leb_spec VTERM_COLS t) as [Hwrap|Hin].
  - destruct (Z.ltb_spec t VTERM_COLS); [lia|].
    unfold newline.
    cbn [cells cursor_x cursor_y current_attr escape_state set_dirty set_cells
         set_cursor_x set_cursor_y].
    rewrite int_add_small by (unfold INT_MIN, INT_MAX, VTERM_ROWS in *; lia).
    destruct (Z.leb_spec VTERM_ROWS (cursor_y vt + 1)); [lia|].
    cbn [cells cursor_x cursor_y current_attr escape_state set_dirty set_cells
         set_cursor_x set_cursor_y].
    split; [apply Hspan; reflexivity|]. repeat split. exact He.
  - destruct (Z.ltb_spec t VTERM_COLS); [|lia].
    cbn [cells cursor_x cursor_y current_attr escape_state set_dirty set_cells
         set_cursor_x set_cursor_y].
    split; [apply Hspan; reflexivity|]. repeat split. exact He.
Qed.

(** From column 0 of the blank pool a tab leads to column 8. *)
Lemma tab_fills_to_next_stop_witness :
  written vterm_init 0 [TAB] (fun v => cursor_x v = 8 /\ cursor_y v = 0).
Proof.
  pose proof (tab_fills_to_next_stop vterm_init 0 session0 pool_ok_init eq_refl
                init_session0 init_view0_cursor init_view0_idle) as H.
  cbv zeta in H. eapply written_impl; [|apply H].
  - intros v (_ & Hx & Hy & _). split; [exact Hx | exact Hy].
  - left. reflexivity.
Defined.

(** ** The two-byte sequences ESC D, ESC M and ESC E *)

(** ESC and one more byte on an idle session: the second byte is handled
    in state 1 of the parser. *)
Lemma two_byte_written p i s c v (Q : vterm_t -> Prop) :
  valid_id i = true -> get_session p i = Some s ->
  cursor_ok (view p s) -> escape_state (view p s) = 0 ->
  vterm_handle_escape
    (set_dirty (set_escape_len (set_escape_state (view p s) 1) 0) 1) c
  = Some (true, v, []) ->
  Q (set_dirty v 1) ->
  written p i [ESC; c] Q.
Proof.
  intros Hi Hs Hc He Hh HQ.
  assert (H1 : putchar_body (view p s) ESC
               = Some (set_dirty (set_escape_len (set_escape_state (view p s) 1) 0) 1, [])).
  { unfold putchar_body, vterm_handle_escape. rewrite He. reflexivity. }
  apply (written_of_run p i s [ESC; c] (set_dirty v 1) [] Q Hi Hs);
    [| |exact HQ|exact HQ].
  - cbn [stays_in_grid]. rewrite H1.
    apply in_grid_cursor_ok in Hc. rewrite Hc.
    assert (Hc' : in_grid (set_dirty (set_escape_len (set_escape_state (view p s) 1) 0) 1)
                  = true) by exact Hc.
    rewrite Hc'. destruct (putchar_body _ c) as [[w o]|]; reflexivity.
  - cbn [putchar_seq]. rewrite H1. cbn [app].
    unfold putchar_body. rewrite Hh. reflexivity.
Qed.

Lemma next_line_as_newline vt :
  cursor_ok vt -> index_down (set_cursor_x vt 0) = newline vt.
Proof.
  intros [_ Hy]. unfold index_down, newline.
  cbn [cursor_x cursor_y set_cursor_x set_cursor_y].
  rewrite int_add_small by (unfold INT_MIN, INT_MAX, VTERM_ROWS in *; lia).
  destruct (Z.leb_spec (VTERM_ROWS - 1) (cursor_y vt)),
           (Z.leb_spec VTERM_ROWS (cursor_y vt + 1)); try lia; reflexivity.
Qed.

Lemma index_as_newline vt :
  cursor_ok vt ->
  cells (index_down vt) = cells (newline vt) /\
  cursor_y (index_down vt) = cursor_y (newline vt) /\
  cursor_x (index_down vt) = cursor_x vt /\
  current_attr (index_down vt) = current_attr (newline vt).
Proof.
  intros [_ Hy]. unfold index_down, newline.
  cbn [cursor_x cursor_y set_cursor_x set_cursor_y].
  rewrite int_add_small by (unfold INT_MIN, INT_MAX, VTERM_ROWS in *; lia).
  destruct (Z.leb_spec (VTERM_ROWS - 1) (cursor_y vt)),
           (Z.leb_spec VTERM_ROWS (cursor_y vt + 1)); try lia; repeat split.
Qed.

Lemma index_down_parser vt a b c :
  index_down (set_dirty (set_escape_len (set_escape_state vt a) b) c)
  = set_dirty (set_escape_len (set_escape_state (index_down vt) a) b) c.
Proof.
  unfold index_down. cbn [cursor_y set_dirty set_escape_len set_escape_state].
  destruct (_ <=? _); reflexivity.
Qed.

Lemma reverse_index_parser vt a b c :
  reverse_index (set_dirty (set_escape_len (set_escape_state vt a) b) c)
  = set_dirty (set_escape_len (set_escape_state (reverse_index vt) a) b) c.
Proof.
  unfold reverse_index. cbn [cursor_y set_dirty set_escape_len set_escape_state].
  destruct (_ <=? _); reflexivity.
Qed.

(** X21: ESC E acts as a line feed does: after either, the session shows
    the same cells, cursor and attribute (a line feed here includes the
    carriage return, and both scroll on the last row).  ESC D differs from
    them only in keeping the cursor's column. *)
Theorem next_line_and_index_as_line_feed p i s :
  valid_id i = true -> get_session p i = Some s ->
  cursor_ok (view p s) -> escape_state (view p s) = 0 ->
  exists v,
    written p i [LF] (screen_kept v) /\
    written p i [ESC; "E"%char] (screen_kept v) /\
    written p i [ESC; "D"%char]
      (fun w => cells w = cells v /\ cursor_y w = cursor_y v /\
                cursor_x w = cursor_x (view p s) /\
                current_attr w = current_attr v /\ escape_state w = 0).
Proof.
  intros Hi Hs Hc He. exists (newline (view p s)).
  destruct (newline_state (view p s) Hc) as (_ & _ & Hst & _).
  split; [|split].
  - apply (plain_byte_written p i s LF _ Hi Hs Hc He); [discriminate|].
    change (vterm_putchar_internal (view p s) LF) with (newline (view p s)).
    unfold screen_kept. repeat split. cbn [escape_state set_dirty]. congruence.
  - eapply (two_byte_written p i s "E" _ _ Hi Hs Hc He); [reflexivity|].
    change (index_down (set_cursor_x
              (set_dirty (set_escape_len (set_escape_state (view p s) 1) 0) 1) 0))
      with (index_down (set_dirty (set_escape_len (set_escape_state
              (set_cursor_x (view p s) 0) 1) 0) 1)).
    rewrite index_down_parser, (next_line_as_newline _ Hc).
    unfold screen_kept. repeat split.
  - eapply (two_byte_written p i s "D" _ _ Hi Hs Hc He); [reflexivity|].
    rewrite index_down_parser.
    destruct (index_as_newline _ Hc) as (I1 & I2 & I3 & I4).
    cbn [cells cursor_x cursor_y current_attr escape_state set_dirty set_escape_len
         set_escape_state].
    repeat split; assumption.
Qed.

Lemma next_line_and_index_as_line_feed_witness :
  exists v,
    written vterm_init 0 [LF] (screen_kept v) /\
    written vterm_init 0 [ESC; "E"%char] (screen_kept v) /\
    written vterm_init 0 [ESC; "D"%char]
      (fun w => cells w = cells v /\ cursor_y w = cursor_y v /\
                cursor_x w = 0 /\
                current_attr w = current_attr v /\ escape_state w = 0).
Proof.
  exact (next_line_and_index_as_line_feed vterm_init 0 session0 eq_refl init_session0
           init_view0_cursor init_view0_idle).
Defined.

(** ** Reverse index *)

Lemma reverse_index_top vt (j : nat) :
  grid_ok vt -> cursor_y vt <= 0 ->
  cells (reverse_index vt) !! j =
  if Z.of_nat j <? VTERM_COLS then Some blank_cell
  else if Z.of_nat j <? GRID_CELLS then cells vt !! Z.to_nat (Z.of_nat j - VTERM_COLS)
  else None.
Proof.
  intros Hg Hy. unfold grid_ok in Hg. unfold reverse_index.
  destruct (Z.leb_spec (cursor_y vt) 0); [|lia]. cbn [cells set_cells].
  rewrite fill_cells_lookup, memmove_cells_length, Hg.
  rewrite memmove_cells_lookup
    by (rewrite ?Hg, ?grid_cells_value; unfold VTERM_COLS, VTERM_ROWS; lia).
  rewrite grid_cells_value in *. unfold VTERM_COLS, VTERM_ROWS.
  case_cmp; try reflexivity; try lia.
  - f_equal. lia.
  - apply lookup_ge_None. lia.
Qed.

(** X22: reverse index, ESC M.  Below the top row the cursor moves one
    row up and no cell changes.  On the top row the grid scrolls down
    instead: every row moves to the row below it, the last row is lost,
    row 0 becomes blank with the default attribute and the cursor
    stays. *)
Theorem reverse_index_scrolls_down p i s :
  pool_ok p -> valid_id i = true -> get_session p i = Some s ->
  cursor_ok (view p s) -> escape_state (view p s) = 0 ->
  let vt := view p s in
  written p i [ESC; "M"%char]
    (fun v =>
       cursor_x v = cursor_x vt /\ cursor_y v = Z.max 0 (cursor_y vt - 1) /\
       current_attr v = current_attr vt /\ escape_state v = 0 /\
       forall j : nat,
         cells v !! j =
         if 0 <? cursor_y vt then cells vt !! j
         else if Z.of_nat j <? VTERM_COLS then Some blank_cell
         else if Z.of_nat j <? GRID_CELLS
              then cells vt !! Z.to_nat (Z.of_nat j - VTERM_COLS)
              else None).
Proof.
  intros Hok Hi Hs Hc He vt.
  pose proof (pool_ok_view_grid p i s Hok Hs) as Hg.
  pose proof Hc as [Hx Hy]. fold vt in Hx, Hy, He, Hg.
  eapply (two_byte_written p i s "M" _ _ Hi Hs Hc He); [reflexivity|].
  fold vt.
  rewrite reverse_index_parser.
  cbn [cells cursor_x cursor_y current_attr escape_state set_dirty set_escape_len
       set_escape_state].
  destruct (Z.ltb_spec 0 (cursor_y vt)) as [Hpos|Htop].
  - unfold reverse_index. destruct (Z.leb_spec (cursor_y vt) 0); [lia|].
    cbn [cells cursor_x cursor_y current_attr set_cursor_y].
    rewrite int_sub_small by (unfold INT_MIN, INT_MAX, VTERM_ROWS in *; lia).
    repeat split. lia.
  - split; [|split; [|split; [|split]]].
    + unfold reverse_index. destruct (Z.leb_spec (cursor_y vt) 0); [|lia]. reflexivity.
    + unfold reverse_index. destruct (Z.leb_spec (cursor_y vt) 0); [|lia].
      cbn [cursor_y set_cells]. lia.
    + unfold reverse_index. destruct (Z.leb_spec (cursor_y vt) 0); [|lia]. reflexivity.
    + reflexivity.
    + intros j. apply reverse_index_top; [exact Hg | lia].
Qed.

(** On the top row of the pool of [vterm_init]: the cursor stays, row 0
    is blank. *)
Lemma reverse_index_scrolls_down_witness :
  written vterm_init 0 [ESC; "M"%char]
    (fun v => cursor_y v = 0 /\ cells v !! 5%nat = Some blank_cell).
Proof.
  pose proof (reverse_index_scrolls_down vterm_init 0 session0 pool_ok_init eq_refl
                init_session0 init_view0_cursor init_view0_idle) as H.
  cbv zeta in H. revert H. apply written_impl.
  intros v (_ & Hy & _ & _ & Hc). split; [exact Hy | exact (Hc 5%nat)].
Defined.

(** ** Inserting and deleting lines *)

Lemma clear_rows_fold (n : nat) : forall y0 cs (j : nat),
  0 <= y0 -> y0 + Z.of_nat n <= VTERM_ROWS ->
  foldl (fun acc y => fill_cells acc (int_mul y VTERM_COLS) 0 VTERM_COLS blank_cell)
        cs (seqZ y0 (Z.of_nat n)) !! j =
  if (y0 * VTERM_COLS <=? Z.of_nat j) && (Z.of_nat j <? (y0 + Z.of_nat n) * VTERM_COLS)
     && (Z.of_nat j <? Z.of_nat (length cs))
  then Some blank_cell else cs !! j.
Proof.
  induction n as [|n IH]; intros y0 cs j H0 H1.
  - rewrite seqZ_nil by lia. cbn [foldl]. case_cmp; try reflexivity; lia.
  - rewrite seqZ_cons by lia. cbn [foldl].
    replace (Z.pred (Z.of_nat (S n))) with (Z.of_nat n) by lia.
    rewrite IH by lia. rewrite fill_cells_length, fill_cells_lookup.
    rewrite int_mul_small by (unfold INT_MIN, INT_MAX, VTERM_COLS, VTERM_ROWS in *; lia).
    destruct (Z.ltb_spec (Z.of_nat j) (Z.of_nat (length cs))).
    + rewrite !andb_true_r. unfold VTERM_COLS in *. case_cmp; try reflexivity; lia.
    + rewrite !andb_false_r. reflexivity.
Qed.

Lemma clear_rows_lookup cs y0 y1 (j : nat) :
  0 <= y0 <= y1 -> y1 <= VTERM_ROWS ->
  clear_rows cs y0 y1 !! j =
  if (y0 * VTERM_COLS <=? Z.of_nat j) && (Z.of_nat j <? y1 * VTERM_COLS)
     && (Z.of_nat j <? Z.of_nat (length cs))
  then Some blank_cell else cs !! j.
Proof.
  intros H0 H1. unfold clear_rows.
  rewrite <- (Z2Nat.id (y1 - y0)) by lia.
  rewrite clear_rows_fold by lia.
  rewrite Z2Nat.id by lia. replace (y0 + (y1 - y0)) with y1 by lia. reflexivity.
Qed.

(** [k] blank rows have been put in at the row of the cursor of [vt]; the
    rows from there on moved down by [k], the last [k] of the grid lost. *)
Definition lines_inserted (vt : vterm_t) (k : Z) (v : vterm_t) : Prop :=
  (forall j : nat,
     cells v !! j =
     if Z.of_nat j <? cursor_y vt * VTERM_COLS then cells vt !! j
     else if Z.of_nat j <? (cursor_y vt + k) * VTERM_COLS then Some blank_cell
     else if Z.of_nat j <? GRID_CELLS
          then cells vt !! Z.to_nat (Z.of_nat j - k * VTERM_COLS)
          else None) /\
  cursor_x v = cursor_x vt /\ cursor_y v = cursor_y vt /\
  current_attr v = current_attr vt /\ escape_state v = 0.

(** [k] rows have been taken out at the row of the cursor of [vt]; the
    rows below moved up by [k], the last [k] of the grid blank. *)
Definition lines_deleted (vt : vterm_t) (k : Z) (v : vterm_t) : Prop :=
  (forall j : nat,
     cells v !! j =
     if Z.of_nat j <? cursor_y vt * VTERM_COLS then cells vt !! j
     else if Z.of_nat j <? (VTERM_ROWS - k) * VTERM_COLS
          then cells vt !! Z.to_nat (Z.of_nat j + k * VTERM_COLS)
          else if Z.of_nat j <? GRID_CELLS then Some blank_cell else None) /\
  cursor_x v = cursor_x vt /\ cursor_y v = cursor_y vt /\
  current_attr v = current_attr vt /\ escape_state v = 0.

Ltac small_int a :=
  first [ rewrite (int_sub_small a)
            by (unfold INT_MIN, INT_MAX, VTERM_COLS, VTERM_ROWS in *; lia)
        | rewrite (int_add_small a)
            by (unfold INT_MIN, INT_MAX, VTERM_COLS, VTERM_ROWS in *; lia)
        | rewrite (int_mul_small a)
            by (unfold INT_MIN, INT_MAX, VTERM_COLS, VTERM_ROWS in *; lia) ].

Ltac finish_lookup :=
  try reflexivity; try lia;
  first [ f_equal; lia
        | apply lookup_ge_None; lia
        | symmetry; apply lookup_ge_None; lia ].

(** X23: insert and delete lines.  With [k] the count [max n 1] cut to
    the number of rows from the cursor's row to the end of the grid,
    ESC [ n L moves the rows from the cursor's row on down by [k], losing
    the last [k], and blanks [k] rows at the cursor's row; ESC [ n M moves
    the rows below up by [k] and blanks the last [k] rows of the grid.
    Blank rows have the default attribute; rows above the cursor and the
    cursor itself do not change.  For every count from 0 to INT_MAX. *)
Theorem insert_and_delete_lines p i s n :
  pool_ok p -> valid_id i = true -> get_session p i = Some s ->
  cursor_ok (view p s) -> escape_state (view p s) = 0 ->
  length (escape_buf (view p s)) = 32%nat ->
  0 <= n <= INT_MAX ->
  let vt := view p s in
  let k := Z.min (Z.max n 1) (VTERM_ROWS - cursor_y vt) in
  written p i (csi_with_count n "L") (lines_inserted vt k) /\
  written p i (csi_with_count n "M") (lines_deleted vt k).
Proof.
  intros Hok Hi Hs Hc He Hl Hn vt k.
  pose proof (pool_ok_view_grid p i s Hok Hs) as Hg.
  pose proof Hc as [Hx Hy]. fold vt in Hx, Hy, Hg. unfold grid_ok in Hg.
  rewrite grid_cells_value in *.
  assert (Hk : 1 <= k <= VTERM_ROWS - cursor_y vt) by (unfold k; lia).
  split.
  - apply (csi_number_written p i s n "L" _ Hi Hs Hc He Hl Hn eq_refl).
    fold vt. intros vt2 E1 E2 E3 E4 E5 E6. unfold csi_dispatch. eval_final_byte.
    unfold csi_count. rewrite E6, E5, (atoi_dec_chars n) by lia. cbv iota.
    replace (clamp_int n) with n by (unfold clamp_int, INT_MIN, INT_MAX in *; lia).
    replace (if n <? 1 then 1 else n) with (Z.max n 1)
      by (destruct (Z.ltb_spec n 1); lia).
    cbv zeta. rewrite E1, E3. small_int VTERM_ROWS.
    replace (if VTERM_ROWS - cursor_y vt <? Z.max n 1
             then VTERM_ROWS - cursor_y vt else Z.max n 1) with k
      by (unfold k; destruct (Z.ltb_spec (VTERM_ROWS - cursor_y vt) (Z.max n 1)); lia).
    small_int (VTERM_ROWS - cursor_y vt). repeat small_int (cursor_y vt).
    repeat small_int (cursor_y vt + k). repeat small_int (VTERM_ROWS - cursor_y vt - k).
    repeat small_int VTERM_ROWS.
    eexists. split; [reflexivity|].
    unfold lines_inserted.
    cbn [cells cursor_x cursor_y current_attr escape_state escape_done set_dirty
         set_escape_len set_escape_state set_cells].
    split; [|repeat split; assumption].
    intros j. rewrite clear_rows_lookup by lia.
    destruct (Z.ltb_spec 0 (VTERM_ROWS - cursor_y vt - k)) as [Hmv|Hmv].
    + rewrite memmove_cells_length, Hg.
      rewrite memmove_cells_lookup
        by (rewrite ?Hg; unfold VTERM_COLS, VTERM_ROWS in *; lia).
      rewrite ?grid_cells_value.
      unfold VTERM_COLS, VTERM_ROWS in *. case_cmp; finish_lookup.
    + rewrite Hg, ?grid_cells_value.
      unfold VTERM_COLS, VTERM_ROWS in *. case_cmp; finish_lookup.
  - apply (csi_number_written p i s n "M" _ Hi Hs Hc He Hl Hn eq_refl).
    fold vt. intros vt2 E1 E2 E3 E4 E5 E6. unfold csi_dispatch. eval_final_byte.
    unfold csi_count. rewrite E6, E5, (atoi_dec_chars n) by lia. cbv iota.
    replace (clamp_int n) with n by (unfold clamp_int, INT_MIN, INT_MAX in *; lia).
    replace (if n <? 1 then 1 else n) with (Z.max n 1)
      by (destruct (Z.ltb_spec n 1); lia).
    cbv zeta. rewrite E1, E3. small_int VTERM_ROWS.
    replace (if VTERM_ROWS - cursor_y vt <? Z.max n 1
             then VTERM_ROWS - cursor_y vt else Z.max n 1) with k
      by (unfold k; destruct (Z.ltb_spec (VTERM_ROWS - cursor_y vt) (Z.max n 1)); lia).
    small_int (VTERM_ROWS - cursor_y vt). repeat small_int (cursor_y vt).
    repeat small_int (cursor_y vt + k). repeat small_int (VTERM_ROWS - cursor_y vt - k).
    repeat small_int VTERM_ROWS.
    eexists. split; [reflexivity|].
    unfold lines_deleted.
    cbn [cells cursor_x cursor_y current_attr escape_state escape_done set_dirty
         set_escape_len set_escape_state set_cells].
    split; [|repeat split; assumption].
    intros j. rewrite clear_rows_lookup by lia.
    destruct (Z.ltb_spec 0 (VTERM_ROWS - cursor_y vt - k)) as [Hmv|Hmv].
    + rewrite memmove_cells_length, Hg.
      rewrite memmove_cells_lookup
        by (rewrite ?Hg; unfold VTERM_COLS, VTERM_ROWS in *; lia).
      rewrite ?grid_cells_value.
      unfold VTERM_COLS, VTERM_ROWS in *. case_cmp; finish_lookup.
    + rewrite Hg, ?grid_cells_value.
      unfold VTERM_COLS, VTERM_ROWS in *. case_cmp; finish_lookup.
Qed.

(** On the top row of the pool of [vterm_init], a count of 100 is cut to
    the 37 rows of the grid. *)
Lemma insert_and_delete_lines_witness :
  written vterm_init 0 (ESC :: str "[100L") (lines_inserted (view vterm_init session0) 37) /\
  written vterm_init 0 (ESC :: str "[100M") (lines_deleted (view vterm_init session0) 37).
Proof.
  apply (insert_and_delete_lines vterm_init 0 session0 100 pool_ok_init eq_refl
           init_session0 init_view0_cursor init_view0_idle (proj1 init_view0_state)).
  unfold INT_MAX. lia.
Defined.

(** ** The escape parser stays within its buffer *)

(** The parser fields of a session: a 32-byte [escape_buf] with
    [escape_len] leaving room for the terminating NUL, a state of the
    three the parser has, and an attribute that fits its [uint8_t]. *)
Definition parser_ok (vt : vterm_t) : Prop :=
  length (escape_buf vt) = 32%nat /\ 0 <= escape_len vt <= 31 /\
  0 <= escape_state vt <= 2 /\ 0 <= current_attr vt <= 255.

Definition same_parser (v vt : vterm_t) : Prop :=
  escape_state v = escape_state vt /\ escape_buf v = escape_buf vt /\
  escape_len v = escape_len vt /\ current_attr v = current_attr vt.

Lemma same_parser_ok v vt : same_parser v vt -> parser_ok vt -> parser_ok v.
Proof. unfold same_parser, parser_ok. intros (-> & -> & -> & ->). tauto. Qed.

Lemma newline_parser vt : same_parser (newline vt) vt.
Proof. unfold newline. destruct (_ <=? _); repeat split. Qed.

Lemma tab_loop_parser fuel : forall vt cell, same_parser (tab_loop fuel vt cell) vt.
Proof.
  induction fuel as [|fuel IH]; intros vt cell; cbn [tab_loop]; [repeat split|].
  destruct (_ && _); [|repeat split].
  destruct (IH (set_cursor_x
                  (set_cells vt (store_cell (cells vt) cell (Cell " " (current_attr vt))))
                  (int_add (cursor_x vt) 1)) (cell + 1)) as (H1 & H2 & H3 & H4).
  repeat split; assumption.
Qed.

Lemma putchar_internal_parser vt c : same_parser (vterm_putchar_internal vt c) vt.
Proof.
  unfold vterm_putchar_internal.
  destruct (code c =? 10); [apply newline_parser|].
  destruct (code c =? 13); [repeat split|].
  destruct (code c =? 8); [destruct (0 <? _); repeat split|].
  destruct (code c =? 9).
  { cbv zeta. destruct (tab_loop_parser 7 vt (cursor_index vt)) as (H1 & H2 & H3 & H4).
    destruct (_ <=? _); [|repeat split; assumption].
    destruct (newline_parser (tab_loop 7 vt (cursor_index vt))) as (N1 & N2 & N3 & N4).
    repeat split; congruence. }
  destruct (is_printable c); [|repeat split].
  cbv zeta. destruct (_ <=? _); [|repeat split].
  match goal with |- same_parser (newline ?w) _ =>
    destruct (newline_parser w) as (N1 & N2 & N3 & N4) end.
  repeat split; assumption.
Qed.

Lemma index_down_same_parser vt : same_parser (index_down vt) vt.
Proof. unfold index_down. destruct (_ <=? _); repeat split. Qed.

Lemma reverse_index_same_parser vt : same_parser (reverse_index vt) vt.
Proof. unfold reverse_index. destruct (_ <=? _); repeat split. Qed.

Lemma csi_dispatch_parser vt c v o :
  csi_dispatch vt c = Some (v, o) ->
  escape_state v = escape_state vt /\ escape_buf v = escape_buf vt /\
  escape_len v = escape_len vt /\
  (0 <= current_attr vt <= 255 -> 0 <= current_attr v <= 255).
Proof.
  unfold csi_dispatch.
  destruct (ascii_eqb c "m").
  { unfold vterm_apply_sgr.
    destruct (sgr_attr _ _) as [a|] eqn:E; [|discriminate].
    intros [= <- _]. do 3 (split; [reflexivity|]). intros Ha.
    apply (sgr_attr_range _ _ _ Ha E). }
  destruct (ascii_eqb c "J").
  { destruct (_ || _); intros [= <- _]; do 3 (split; [reflexivity|]);
      [intros _; change (0 <= 7 <= 255); lia | tauto]. }
  destruct (ascii_eqb c "H" || ascii_eqb c "f").
  { destruct (_ || _); [intros [= <- _]; repeat split; tauto|].
    destruct (sscanf_row_col _ 1 1) as [row col]. cbv zeta.
    intros [= <- _].
    repeat (case_inner_if; cbn [cells cursor_x cursor_y set_cursor_x set_cursor_y]);
      repeat split; tauto. }
  destruct (ascii_eqb c "A");
    [intros [= <- _]; cbv zeta; case_inner_if; repeat split; tauto|].
  destruct (ascii_eqb c "B");
    [intros [= <- _]; cbv zeta; case_inner_if; repeat split; tauto|].
  destruct (ascii_eqb c "C");
    [intros [= <- _]; cbv zeta; case_inner_if; repeat split; tauto|].
  destruct (ascii_eqb c "D");
    [intros [= <- _]; cbv zeta; case_inner_if; repeat split; tauto|].
  destruct (ascii_eqb c "K"); [intros [= <- _]; repeat split; tauto|].
  destruct (ascii_eqb c "X"); [intros [= <- _]; repeat split; tauto|].
  destruct (ascii_eqb c "L"); [intros [= <- _]; repeat split; tauto|].
  destruct (ascii_eqb c "M"); [intros [= <- _]; repeat split; tauto|].
  destruct (ascii_eqb c "n"); [destruct (_ && _)|]; intros [= <- _];
    repeat split; tauto.
Qed.

Lemma escape_collect_parser vt c :
  parser_ok vt ->
  length (escape_buf (escape_collect vt c)) = 32%nat /\
  (escape_len vt < 31 -> escape_len (escape_collect vt c) = escape_len vt + 1) /\
  (31 <= escape_len vt -> escape_len (escape_collect vt c) = escape_len vt) /\
  escape_state (escape_collect vt c) = escape_state vt /\
  current_attr (escape_collect vt c) = current_attr vt.
Proof.
  intros (Hl & Hn & Hs & Ha). unfold escape_collect.
  destruct (Z.ltb_spec (escape_len vt) 31).
  - cbn [escape_buf escape_len escape_state current_attr set_escape_buf set_escape_len].
    rewrite !store_char_length.
    rewrite int_add_small by (unfold INT_MIN, INT_MAX; lia).
    repeat split; try assumption; lia.
  - repeat split; try assumption; lia.
Qed.

Lemma handle_escape_parser vt c h v o :
  vterm_handle_escape vt c = Some (h, v, o) -> parser_ok vt -> parser_ok v.
Proof.
  unfold vterm_handle_escape. intros H Hok. pose proof Hok as (Hl & Hn & Hs & Ha).
  destruct (escape_state vt =? 0).
  { destruct (ascii_eqb c ESC); injection H as _ <- _; [|exact Hok].
    unfold parser_ok. cbn. repeat split; try assumption; lia. }
  destruct (escape_state vt =? 1).
  { assert (G : forall w, same_parser w vt ->
                parser_ok (set_escape_state (set_dirty w 1) 0)).
    { intros w (W1 & W2 & W3 & W4). unfold parser_ok.
      cbn [escape_buf escape_len escape_state current_attr set_escape_state set_dirty].
      rewrite W2, W3, W4. repeat split; try assumption; lia. }
    destruct (ascii_eqb c "[").
    { injection H as _ <- _. unfold parser_ok. cbn. repeat split; try assumption; lia. }
    destruct (ascii_eqb c "D");
      [injection H as _ <- _; apply G, index_down_same_parser|].
    destruct (ascii_eqb c "M");
      [injection H as _ <- _; apply G, reverse_index_same_parser|].
    destruct (ascii_eqb c "E").
    { injection H as _ <- _. apply G.
      destruct (index_down_same_parser (set_cursor_x vt 0)) as (I1 & I2 & I3 & I4).
      repeat split; assumption. }
    injection H as _ <- _. unfold parser_ok. cbn. repeat split; try assumption; lia. }
  cbv zeta in H.
  destruct (escape_collect_parser vt c Hok) as (C1 & C2 & C3 & C4 & C5).
  assert (Clen : 0 <= escape_len (escape_collect vt c) <= 31)
    by (destruct (Z.lt_ge_cases (escape_len vt) 31);
        [rewrite C2 by assumption | rewrite C3 by assumption]; lia).
  destruct (is_alpha c).
  - assert (Hcut : length (escape_buf (escape_cut (escape_collect vt c))) = 32%nat)
      by (unfold escape_cut; cbn [escape_buf set_escape_buf];
          rewrite store_char_length; exact C1).
    destruct (ascii_eqb _ "?").
    { injection H as _ <- _. unfold parser_ok.
      cbn [escape_buf escape_len escape_state current_attr escape_done
           set_escape_len set_escape_state].
      split; [exact Hcut|]. cbn [escape_cut current_attr set_escape_buf].
      rewrite C5. repeat split; try assumption; lia. }
    destruct (csi_dispatch _ c) as [[w o']|] eqn:E; [|discriminate].
    injection H as _ <- _.
    destruct (csi_dispatch_parser _ _ _ _ E) as (D1 & D2 & D3 & D4).
    unfold parser_ok.
    cbn [escape_buf escape_len escape_state current_attr escape_done
         set_escape_len set_escape_state].
    rewrite D2. split; [exact Hcut|].
    repeat split; try lia; apply D4; cbn [escape_cut current_attr set_escape_buf];
      rewrite C5; assumption.
  - injection H as _ <- _. unfold parser_ok. rewrite C4, C5.
    repeat split; try assumption; lia.
Qed.

Lemma handled_or_internal_parser vt c h v o :
  vterm_handle_escape vt c = Some (h, v, o) -> parser_ok vt ->
  parser_ok (if h then v else vterm_putchar_internal v c).
Proof.
  intros H Hok. pose proof (handle_escape_parser _ _ _ _ _ H Hok) as Hv.
  destruct h; [exact Hv|].
  apply (same_parser_ok _ v (putchar_internal_parser v c) Hv).
Qed.

Lemma putchar_body_parser vt c v o :
  putchar_body vt c = Some (v, o) -> parser_ok vt -> parser_ok v.
Proof.
  unfold putchar_body.
  destruct (vterm_handle_escape vt c) as [[[h w] o']|] eqn:E; [|discriminate].
  intros [= <- _] Hok. apply (handled_or_internal_parser _ _ _ _ _ E Hok).
Qed.

Lemma write_loop_parser data : forall vt cx cy a e cptr rend out v o,
  write_loop data vt cx cy a e cptr rend out = Some (v, o) ->
  length (escape_buf vt) = 32%nat -> 0 <= escape_len vt <= 31 ->
  0 <= e <= 2 -> 0 <= a <= 255 ->
  parser_ok v.
Proof.
  induction data as [|c rest IH]; intros vt cx cy a e cptr rend out v o;
    cbn [write_loop].
  - intros [= <- _] Hl Hn He Ha. unfold parser_ok. cbn. auto.
  - destruct ((e =? 0) && is_printable c).
    + destruct (rend <=? cptr + 1); [destruct (VTERM_ROWS <=? int_add cy 1)|];
        intros H Hl Hn He Ha; apply IH in H; auto.
    + destruct (vterm_handle_escape _ c) as [[[h w] o']|] eqn:E; [|discriminate].
      intros H Hl Hn He Ha.
      assert (Hw : parser_ok (if h then w else vterm_putchar_internal w c)).
      { apply (handled_or_internal_parser _ _ _ _ _ E). unfold parser_ok. cbn. auto. }
      destruct Hw as (W1 & W2 & W3 & W4).
      destruct (_ || _); apply IH in H; auto.
Qed.

(** X24: while the cursor is inside the grid, the escape parser of a
    session stays within its 32-byte buffer whatever the bytes are: after
    [vterm_putchar] of any byte, and after [vterm_write] of any input whose
    run keeps the cursor inside the grid, when they return, [escape_buf]
    still has 32 bytes, [escape_len] lies in 0 .. 31 (a sequence longer
    than that is cut, not written past the end), [escape_state] is 0, 1 or
    2 and the current attribute fits a byte. *)
Theorem parser_stays_within_buffer p i s :
  valid_id i = true -> get_session p i = Some s -> parser_ok (view p s) ->
  cursor_ok (view p s) ->
  (forall c p', vterm_putchar p i c = Some p' ->
     exists v, session_view p' i = Some v /\ parser_ok v) /\
  (forall data p', stays_in_grid (view p s) data = true ->
     vterm_write p i data = Some p' ->
     exists v, session_view p' i = Some v /\ parser_ok v).
Proof.
  intros Hi Hs Hok _. split.
  - intros c p'. rewrite (vterm_putchar_store p i c s Hi Hs).
    destruct (putchar_body (view p s) c) as [[v o]|] eqn:E; [|discriminate].
    intros [= <-]. exists v. split.
    + rewrite view_send_all. eapply view_store_view, Hs.
    + apply (putchar_body_parser _ _ _ _ E Hok).
  - intros data p' _. rewrite (vterm_write_store p i data s Hi Hs).
    destruct (write_body (view p s) data) as [[v o]|] eqn:E; [|discriminate].
    intros [= <-]. exists v. split.
    + rewrite view_send_all. eapply view_store_view, Hs.
    + destruct Hok as (H1 & H2 & H3 & H4).
      apply (write_loop_parser _ _ _ _ _ _ _ _ _ _ _ E); assumption.
Qed.

Lemma init_parser_ok : parser_ok (view vterm_init session0).
Proof.
  split; [reflexivity|].
  change (0 <= 0 <= 31 /\ 0 <= 0 <= 2 /\ 0 <= 7 <= 255). lia.
Qed.

(** ESC, and "AB", written to session 0 of the pool of [vterm_init]. *)
Lemma parser_stays_within_buffer_witness :
  (exists p' v,
     vterm_putchar vterm_init 0 ESC = Some p' /\
     session_view p' 0 = Some v /\ parser_ok v) /\
  (exists p' v,
     vterm_write vterm_init 0 (str "AB") = Some p' /\
     session_view p' 0 = Some v /\ parser_ok v).
Proof.
  destruct (parser_stays_within_buffer vterm_init 0 session0 eq_refl init_session0
              init_parser_ok init_view0_cursor) as [H H'].
  split.
  - destruct (vterm_putchar vterm_init 0 ESC) as [p'|] eqn:E.
    + destruct (H _ _ E) as (v & Hv & Hok). exists p', v. auto.
    + exfalso.
      rewrite (vterm_putchar_store vterm_init 0 ESC session0 eq_refl init_session0) in E.
      unfold putchar_body, vterm_handle_escape in E. rewrite init_view0_idle in E.
      discriminate E.
  - destruct init_AB_written as (Hin & p & _ & Hw & _).
    rewrite (stays_in_grid_at_view vterm_init 0 session0 _ init_session0) in Hin.
    destruct (H' _ _ Hin Hw) as (v & Hv & Hok). exists p, v. auto.
Defined.

(** ** Reading input back *)

(** Taking a byte changes the queue of that session and nothing else. *)
Definition same_but_queue (p p' : vterm_pool) (i : Z) : Prop :=
  (forall k, session_view p' k = session_view p k) /\
  (forall k, k <> i -> queue_of p' k = queue_of p k) /\
  s_active_vt p' = s_active_vt p /\ calls p' = calls p.

Lemma same_but_queue_refl p i : same_but_queue p p i.
Proof. repeat split. Qed.

Lemma same_but_queue_trans p1 p2 p3 i :
  same_but_queue p1 p2 i -> same_but_queue p2 p3 i -> same_but_queue p1 p3 i.
Proof.
  intros (A1 & A2 & A3 & A4) (B1 & B2 & B3 & B4). repeat split.
  - intros k. rewrite B1. apply A1.
  - intros k Hk. rewrite B2 by exact Hk. apply A2, Hk.
  - congruence.
  - congruence.
Qed.

Lemma getchar_pop p i s c q t :
  valid_id i = true -> get_session p i = Some s -> input_queue s = c :: q ->
  exists p', vterm_getchar p i t = Some (code c, p') /\
             queue_of p' i = Some q /\ same_but_queue p p' i.
Proof.
  intros Hi Hs Hq. apply valid_id_range in Hi. unfold vterm_getchar.
  destruct (Z.ltb_spec i 0), (Z.leb_spec VTERM_COUNT i); try lia. cbn [orb].
  rewrite Hs, Hq. eexists. split; [reflexivity|]. split; [|repeat split].
  - unfold queue_of. rewrite (get_put_eq _ _ _ _ Hs). reflexivity.
  - intros k. unfold session_view.
    destruct (Z.eq_dec i k) as [<-|Hne].
    + rewrite (get_put_eq _ _ _ _ Hs), Hs. reflexivity.
    + destruct (Z.le_gt_cases 0 k).
      * rewrite get_put_ne by lia. destruct (get_session p k); reflexivity.
      * unfold get_session. destruct (Z.leb_spec 0 k); [lia|reflexivity].
  - intros k Hk. unfold queue_of.
    destruct (Z.le_gt_cases 0 k).
    + rewrite get_put_ne by lia. reflexivity.
    + unfold get_session. destruct (Z.leb_spec 0 k); [lia|reflexivity].
Qed.

Lemma getchar_empty p i t :
  valid_id i = true -> queue_of p i = Some [] ->
  vterm_getchar p i t = if t <? 0 then None else Some (-1, p).
Proof.
  intros Hi Hq. apply valid_id_range in Hi. unfold vterm_getchar.
  destruct (Z.ltb_spec i 0), (Z.leb_spec VTERM_COUNT i); try lia. cbn [orb].
  unfold queue_of in Hq. destruct (get_session p i) as [s|]; [|discriminate].
  cbn in Hq. injection Hq as ->. reflexivity.
Qed.

(** Reading [n] times with a timeout: the queued bytes, oldest first, then
    -1 for every call that found the queue empty. *)
Lemma getchar_each_queue n : forall p i q t,
  valid_id i = true -> queue_of p i = Some q -> 0 <= t ->
  exists p',
    getchar_each p i t n
    = Some (map code (take n q) ++ replicate (n - length q) (-1), p') /\
    queue_of p' i = Some (drop n q) /\ same_but_queue p p' i.
Proof.
  induction n as [|n IH]; intros p i q t Hi Hq Ht.
  - exists p. cbn [getchar_each take map replicate app Nat.sub drop].
    split; [reflexivity|]. split; [exact Hq | apply same_but_queue_refl].
  - cbn [getchar_each]. destruct q as [|c q].
    + rewrite (getchar_empty p i t Hi Hq).
      destruct (Z.ltb_spec t 0); [lia|].
      destruct (IH p i [] t Hi Hq Ht) as (p' & E & Hq' & Hs).
      rewrite E. exists p'. rewrite take_nil, drop_nil in *.
      cbn [map app length Nat.sub] in *. rewrite Nat.sub_0_r in *.
      split; [reflexivity|]. split; assumption.
    + unfold queue_of in Hq. destruct (get_session p i) as [s|] eqn:Hs; [|discriminate].
      cbn in Hq. injection Hq as Hq.
      destruct (getchar_pop p i s c q t Hi Hs Hq) as (p1 & E1 & Hq1 & S1).
      rewrite E1.
      destruct (IH p1 i q t Hi Hq1 Ht) as (p' & E & Hq' & S2).
      rewrite E. exists p'. cbn [take map app length Nat.sub drop].
      split; [reflexivity|]. split; [exact Hq'|].
      apply (same_but_queue_trans p p1 p' i S1 S2).
Qed.

(** X25: input sent to a session whose queue is empty is read back by
    [vterm_getchar] in the order sent, as values 0 .. 255; of more than 64
    bytes only the first 64 are kept, and each further read with a
    non-negative timeout returns -1.  Reading changes no screen and no
    other queue.  On an empty queue a call with a negative timeout does
    not return (nothing else sending). *)
Theorem sent_input_is_read_in_order p i bytes t :
  valid_id i = true -> queue_of p i = Some [] ->
  (0 <= t ->
   exists p',
     getchar_each (send_all p i bytes) i t (length bytes)
     = Some (map code (take 64 bytes) ++ replicate (length bytes - 64) (-1), p') /\
     queue_of p' i = Some [] /\ same_but_queue p p' i) /\
  (t < 0 -> vterm_getchar p i t = None).
Proof.
  intros Hi Hq. split.
  - intros Ht.
    assert (Hq1 : queue_of (send_all p i bytes) i = Some (take 64 bytes)).
    { rewrite queue_of_send_all, Hi, Z.eqb_refl, Hq. cbn [andb fmap option_fmap option_map].
      rewrite queue_send_all_after by (unfold INPUT_QUEUE_SIZE; cbn [length]; lia).
      reflexivity. }
    destruct (getchar_each_queue (length bytes) _ i _ t Hi Hq1 Ht) as (p' & E & Hq' & S').
    exists p'. rewrite E. split; [|split].
    + rewrite (take_ge (take 64 bytes)) by (rewrite length_take; lia).
      rewrite length_take.
      replace (length bytes - 64 `min` length bytes)%nat with (length bytes - 64)%nat
        by lia.
      reflexivity.
    + rewrite Hq'. f_equal. apply drop_ge. rewrite length_take. lia.
    + destruct S' as (A1 & A2 & A3 & A4). repeat split.
      * intros k. rewrite A1. apply view_send_all.
      * intros k Hk. rewrite A2 by exact Hk. rewrite queue_of_send_all.
        destruct (Z.eqb_spec k i); [contradiction|]. rewrite andb_false_r. reflexivity.
      * rewrite A3. apply active_send_all.
      * rewrite A4. pose proof (callback_state_send_all bytes p i) as Hcb.
        unfold callback_state in Hcb. congruence.
  - intros Ht. rewrite (getchar_empty p i t Hi Hq).
    destruct (Z.ltb_spec t 0); [reflexivity|lia].
Qed.

Lemma sent_input_is_read_in_order_witness :
  (exists p',
     getchar_each (send_all vterm_init 2 (str "ls")) 2 10 2 = Some ([108; 115], p') /\
     queue_of p' 2 = Some []) /\
  vterm_getchar vterm_init 2 (-1) = None.
Proof.
  destruct (sent_input_is_read_in_order vterm_init 2 (str "ls") 10 eq_refl eq_refl)
    as [H _].
  destruct (sent_input_is_read_in_order vterm_init 2 (str "ls") (-1) eq_refl eq_refl)
    as [_ H'].
  split; [|apply H'; lia].
  destruct (H ltac:(lia)) as (p' & E & Hq & _). exists p'. split; [exact E | exact Hq].
Defined.

(** ** Bindings of tasks *)

(** The handles in the map, entry by entry. *)
Definition tasks (m : list task_map_entry_t) : list Z := map task m.

(** Index of the first entry of [m] that holds [t]. *)
Fixpoint first_with (m : list task_map_entry_t) (t : Z) : option nat :=
  match m with
  | [] => None
  | e :: m' => if task e =? t then Some O else S <$> first_with m' t
  end.

Lemma first_with_None m t : first_with m t = None <-> ~ In t (tasks m).
Proof.
  induction m as [|e m IH]; cbn [first_with tasks map In]; [tauto|].
  destruct (Z.eqb_spec (task e) t) as [E|E].
  - split; [discriminate|]. intros H. exfalso. apply H. left. exact E.
  - destruct (first_with m t); cbn.
    + split; [discriminate|]. intros H. exfalso.
      assert (~ In t (tasks m)) by tauto. apply IH in H0. discriminate.
    + split; [|reflexivity]. intros _ [H|H]; [contradiction|].
      revert H. apply IH. reflexivity.
Qed.

Lemma first_with_Some m t : forall k,
  first_with m t = Some k ->
  (exists e, m !! k = Some e /\ task e = t) /\
  forall j e, (j < k)%nat -> m !! j = Some e -> task e <> t.
Proof.
  induction m as [|e m IH]; intros k; cbn [first_with]; [discriminate|].
  destruct (Z.eqb_spec (task e) t) as [E|E].
  - intros [= <-]. split; [exists e; auto|]. intros j e' Hj. lia.
  - destruct (first_with m t) as [k'|]; cbn; [|discriminate].
    intros [= <-]. destruct (IH k' eq_refl) as [H1 H2]. split; [exact H1|].
    intros [|j] e' Hj; cbn.
    + intros [= <-]. exact E.
    + apply H2. lia.
Qed.

Lemma set_task_scan_first m : forall i es t,
  0 <= i ->
  set_task_scan m i es t =
  match first_with m t with
  | Some k => inl (i + Z.of_nat k)
  | None =>
      inr (if es <? 0
           then match first_with m NULL with
                | Some k => i + Z.of_nat k
                | None => es
                end
           else es)
  end.
Proof.
  induction m as [|e m IH]; intros i es t Hi; cbn [set_task_scan first_with].
  - destruct (es <? 0); reflexivity.
  - destruct (Z.eqb_spec (task e) t) as [E|E]; [rewrite Z.add_0_r; reflexivity|].
    rewrite IH by lia.
    destruct (first_with m t) as [k|]; cbn.
    + f_equal. lia.
    + f_equal. destruct (Z.ltb_spec es 0) as [Hes|Hes]; cbn [andb].
      * destruct (Z.eqb_spec (task e) NULL) as [E0|E0].
        -- destruct (Z.ltb_spec i 0); lia.
        -- destruct (Z.ltb_spec es 0); [|lia].
           destruct (first_with m NULL); cbn; lia.
      * destruct (Z.ltb_spec es 0); [lia|reflexivity].
Qed.

(** [vterm_set_task] stores at the first entry that holds the task, else at
    the first free entry, else nowhere. *)
Lemma vterm_set_task_first m t v :
  vterm_set_task m t v =
  match first_with m t with
  | Some k => alter (fun e => Entry (task e) v) k m
  | None =>
      match first_with m NULL with
      | Some k => <[k := Entry t v]> m
      | None => m
      end
  end.
Proof.
  unfold vterm_set_task. rewrite set_task_scan_first by lia.
  destruct (first_with m t) as [k|].
  - rewrite Z.add_0_l, Nat2Z.id. reflexivity.
  - change (-1 <? 0) with true. cbv iota.
    destruct (first_with m NULL) as [k|]; [|reflexivity].
    rewrite Z.add_0_l, Nat2Z.id.
    destruct (Z.leb_spec 0 (Z.of_nat k)); [reflexivity|lia].
Qed.

Lemma get_task_vt_missing m t : ~ In t (tasks m) -> vterm_get_task_vt m t = -1.
Proof.
  induction m as [|e m IH]; cbn [vterm_get_task_vt tasks map In]; [reflexivity|].
  intros H. destruct (Z.eqb_spec (task e) t); [tauto|]. apply IH. tauto.
Qed.

Lemma get_task_vt_insert m e' : forall k,
  (k < length m)%nat ->
  (forall j e, (j < k)%nat -> m !! j = Some e -> task e <> task e') ->
  vterm_get_task_vt (<[k := e']> m) (task e') = vt_id e'.
Proof.
  induction m as [|e m IH]; intros k Hk Hbefore; cbn [length] in Hk; [lia|].
  destruct k as [|k]; cbn [insert list_insert vterm_get_task_vt].
  - rewrite Z.eqb_refl. reflexivity.
  - destruct (Z.eqb_spec (task e) (task e')) as [E|E].
    + exfalso. apply (Hbefore 0%nat e); [lia|reflexivity|exact E].
    + apply IH; [lia|]. intros j e0 Hj Hl. apply (Hbefore (S j) e0); [lia|exact Hl].
Qed.

Lemma get_task_vt_insert_other m e' t' : forall k e,
  m !! k = Some e -> task e <> t' -> task e' <> t' ->
  vterm_get_task_vt (<[k := e']> m) t' = vterm_get_task_vt m t'.
Proof.
  induction m as [|e0 m IH]; intros k e Hk He He'; [discriminate|].
  destruct k as [|k]; cbn [insert list_insert vterm_get_task_vt].
  - cbn in Hk. injection Hk as ->.
    destruct (Z.eqb_spec (task e') t'), (Z.eqb_spec (task e) t'); try contradiction.
    reflexivity.
  - destruct (task e0 =? t'); [reflexivity|]. apply (IH k e Hk He He').
Qed.

Lemma alter_as_insert (m : list task_map_entry_t) k e v :
  m !! k = Some e ->
  alter (fun e => Entry (task e) v) k m = <[k := Entry (task e) v]> m.
Proof.
  revert k. induction m as [|e0 m IH]; intros [|k] H; try discriminate.
  - cbn in H. injection H as ->. reflexivity.
  - cbn in *. f_equal. apply IH, H.
Qed.

(** X26: binding a task to a session.  After [vterm_set_task(t, v)],
    [vterm_get_task_vt(t)] is [v], provided the map already holds [t] or
    has a free entry; [vterm_get_current_vt] for that task is then [v], or
    the active session when [v] is negative.  When the eight entries are
    taken by other tasks the call changes nothing and [t] stays unbound
    (-1, so the current session is the active one).  The bindings of the
    other tasks are not affected. *)
Theorem task_binding_round_trip m t v :
  Z.of_nat (length m) = MAX_TASKS ->
  Z.of_nat (length (vterm_set_task m t v)) = MAX_TASKS /\
  (In t (tasks m) \/ In NULL (tasks m) ->
   vterm_get_task_vt (vterm_set_task m t v) t = v /\
   forall p, vterm_get_current_vt (vterm_set_task m t v) p t
             = if 0 <=? v then v else s_active_vt p) /\
  (~ In t (tasks m) -> ~ In NULL (tasks m) ->
   vterm_set_task m t v = m /\ vterm_get_task_vt m t = -1 /\
   forall p, vterm_get_current_vt m p t = s_active_vt p) /\
  (forall t', t' <> t -> t' <> NULL ->
     vterm_get_task_vt (vterm_set_task m t v) t' = vterm_get_task_vt m t').
Proof.
  intros Hlen. rewrite vterm_set_task_first.
  destruct (first_with m t) as [k|] eqn:Ft.
  - destruct (first_with_Some m t k Ft) as [(e & Hk & He) Hbefore].
    rewrite (alter_as_insert m k e v Hk), He.
    assert (Hget : vterm_get_task_vt (<[k := Entry t v]> m) t = v).
    { apply (get_task_vt_insert m (Entry t v) k);
        [eapply lookup_lt_Some, Hk | exact Hbefore]. }
    split; [rewrite length_insert; exact Hlen|]. split; [|split].
    + intros _. split; [exact Hget|]. intros p. unfold vterm_get_current_vt.
      rewrite Hget. reflexivity.
    + intros Hnot. apply first_with_None in Hnot. congruence.
    + intros t' Ht' _.
      apply (get_task_vt_insert_other m (Entry t v) t' k e Hk); cbn; congruence.
  - pose proof (proj1 (first_with_None m t) Ft) as Hnot.
    destruct (first_with m NULL) as [k|] eqn:F0.
    + destruct (first_with_Some m NULL k F0) as [(e & Hk & He) Hbefore].
      assert (Hget : vterm_get_task_vt (<[k := Entry t v]> m) t = v).
      { apply (get_task_vt_insert m (Entry t v) k); [eapply lookup_lt_Some, Hk|].
        intros j e0 Hj Hl E. apply Hnot. cbn in E. rewrite <- E.
        apply in_map. apply list_elem_of_In. eapply list_elem_of_lookup_2, Hl. }
      split; [rewrite length_insert; exact Hlen|]. split; [|split].
      * intros _. split; [exact Hget|]. intros p. unfold vterm_get_current_vt.
        rewrite Hget. reflexivity.
      * intros _ H0. apply first_with_None in H0. congruence.
      * intros t' Ht' Hn'.
        apply (get_task_vt_insert_other m (Entry t v) t' k e Hk); cbn; congruence.
    + pose proof (proj1 (first_with_None m NULL) F0) as Hfull.
      split; [exact Hlen|]. split; [|split].
      * intros [H|H]; contradiction.
      * intros _ _. split; [reflexivity|].
        split; [apply get_task_vt_missing, Hnot|].
        intros p. unfold vterm_get_current_vt.
        rewrite (get_task_vt_missing m t Hnot). reflexivity.
      * intros t' _ _. reflexivity.
Qed.

(** Task 4096 bound to session 2 in the map of [vterm_init]. *)
Lemma task_binding_round_trip_witness :
  vterm_get_task_vt (vterm_set_task task_map_init 4096 2) 4096 = 2 /\
  vterm_get_current_vt (vterm_set_task task_map_init 4096 (-1)) vterm_init 4096 = 0.
Proof.
  destruct (task_binding_round_trip task_map_init 4096 2 eq_refl) as (_ & H2 & _).
  destruct (task_binding_round_trip task_map_init 4096 (-1) eq_refl) as (_ & H1 & _).
  split.
  - apply H2. right. left. reflexivity.
  - apply (proj2 (H1 ltac:(right; left; reflexivity)) vterm_init).
Defined.

(** ** Palette entries *)

Lemma palette_get_set pal i c j :
  length pal = 16%nat ->
  vterm_get_palette_color (vterm_set_palette_color pal i c) j
  = if (j =? i) && (0 <=? j) && (j <? 16) then c else vterm_get_palette_color pal j.
Proof.
  intros Hlen. unfold vterm_get_palette_color, vterm_set_palette_color.
  destruct (Z.leb_spec 0 j), (Z.ltb_spec j 16); cbn [andb];
    rewrite ?andb_false_r; try reflexivity.
  destruct (Z.eqb_spec j i) as [->|Hne]; cbn [andb].
  - destruct (Z.leb_spec 0 i), (Z.ltb_spec i 16); try lia. cbn [andb].
    rewrite list_lookup_insert_eq by lia. reflexivity.
  - destruct (Z.leb_spec 0 i), (Z.ltb_spec i 16); cbn [andb]; try reflexivity.
    rewrite list_lookup_insert_ne by lia. reflexivity.
Qed.

(** X27: the palette.  [vterm_get_palette_color] after
    [vterm_set_palette_color(i, c)] returns [c] at index [i] and the old
    colour at every other index; an index outside 0 .. 15 is ignored by
    the setter and read as 0.  Both nibbles of every attribute byte are
    indices the palette has.  After [vterm_set_palette] every index reads
    as in the array passed. *)
Theorem palette_round_trip pal i c :
  length pal = 16%nat ->
  length (vterm_set_palette_color pal i c) = 16%nat /\
  (forall j, vterm_get_palette_color (vterm_set_palette_color pal i c) j
             = if (j =? i) && (0 <=? j) && (j <? 16) then c
               else vterm_get_palette_color pal j) /\
  (forall a, 0 <= a <= 255 ->
     let fg := VTERM_ATTR_FG a in
     let bg := VTERM_ATTR_BG a in
     vterm_get_palette_color (vterm_set_palette_color pal fg c) fg = c /\
     vterm_get_palette_color (vterm_set_palette_color pal bg c) bg = c) /\
  (forall palette j, length palette = 16%nat ->
     vterm_get_palette_color (vterm_set_palette pal palette) j
     = vterm_get_palette_color palette j).
Proof.
  intros Hlen.
  split; [|split; [intros j; apply palette_get_set, Hlen|split]].
  - unfold vterm_set_palette_color. destruct (_ && _); [rewrite length_insert|]; exact Hlen.
  - intros a Ha fg bg.
    assert (Hfg : 0 <= fg < 16).
    { unfold fg, VTERM_ATTR_FG. change 15 with (Z.ones 4).
      rewrite Z.land_ones by lia. apply Z.mod_pos_bound. reflexivity. }
    assert (Hbg : 0 <= bg < 16).
    { unfold bg, VTERM_ATTR_BG. change 15 with (Z.ones 4).
      rewrite Z.land_ones by lia. apply Z.mod_pos_bound. reflexivity. }
    rewrite !palette_get_set, !Z.eqb_refl by exact Hlen.
    destruct (Z.leb_spec 0 fg), (Z.ltb_spec fg 16),
             (Z.leb_spec 0 bg), (Z.ltb_spec bg 16); try lia.
    split; reflexivity.
  - intros palette j Hp. unfold vterm_get_palette_color, vterm_set_palette.
    destruct (Z.leb_spec 0 j), (Z.ltb_spec j 16); cbn [andb]; try reflexivity.
    rewrite list_lookup_imap.
    destruct (lookup_lt_is_Some_2 pal (Z.to_nat j) ltac:(lia)) as [x Hx].
    destruct (lookup_lt_is_Some_2 palette (Z.to_nat j) ltac:(lia)) as [y Hy].
    rewrite Hx, Hy. cbn. destruct (Z.ltb_spec (Z.of_nat (Z.to_nat j)) 16); [reflexivity|lia].
Qed.

Lemma palette_round_trip_witness :
  vterm_get_palette_color (vterm_set_palette_color s_palette 1 0xF800) 1 = 0xF800 /\
  vterm_get_palette_color (vterm_set_palette_color s_palette 16 0xF800) 16 = 0 /\
  vterm_get_palette_color (vterm_set_palette_color s_palette 1 0xF800) 7 = 0xC618.
Proof.
  destruct (palette_round_trip s_palette 1 0xF800 eq_refl) as (_ & H1 & _).
  destruct (palette_round_trip s_palette 16 0xF800 eq_refl) as (_ & H16 & _).
  split; [exact (H1 1)|]. split; [exact (H16 16) | exact (H1 7)].
Defined.

(** ** The display buffer and the sessions *)

Lemma direct_buffer_send p k c :
  vterm_get_direct_buffer (vterm_send_input p k c) = vterm_get_direct_buffer p.
Proof.
  unfold vterm_send_input. destruct (valid_id k); [|reflexivity].
  destruct (get_session p k); reflexivity.
Qed.

Lemma direct_buffer_send_all out : forall p k,
  vterm_get_direct_buffer (send_all p k out) = vterm_get_direct_buffer p.
Proof.
  induction out as [|c out IH]; intros p k; [reflexivity|].
  unfold send_all in *. cbn [foldl]. rewrite IH. apply direct_buffer_send.
Qed.

Lemma direct_buffer_active p :
  pool_ok p ->
  exists v, session_view p (s_active_vt p) = Some v /\
            cells v = vterm_get_direct_buffer p.
Proof.
  intros Hok. pose proof Hok as (_ & Ha & _).
  destruct (pool_ok_get p (s_active_vt p) Hok (proj2 (valid_id_range _) Ha)) as [s Hs].
  destruct (pool_ok_session p _ s Hok Hs) as [_ Hat].
  exists (view p s). unfold session_view. rewrite Hs. split; [reflexivity|].
  unfold view. rewrite (proj2 Hat eq_refl). reflexivity.
Qed.

Lemma direct_buffer_commit p i s vt :
  pool_ok p -> get_session p i = Some s -> i <> s_active_vt p ->
  vterm_get_direct_buffer (commit p i s vt) = vterm_get_direct_buffer p.
Proof.
  intros Hok Hs Hne. destruct (pool_ok_session p i s Hok Hs) as [_ Hat].
  unfold commit. destruct (cells_at s); [|reflexivity].
  exfalso. apply Hne, Hat. reflexivity.
Qed.

(** X28: the buffer [vterm_get_direct_buffer] returns holds the grid of
    the active session, before and after every write whose run keeps the
    cursor inside the grid; such a [vterm_write] or [vterm_putchar] on a
    session that is not the active one, and [vterm_clear] on such a
    session, leave that buffer untouched. *)
Theorem display_buffer_shows_active_session p :
  pool_ok p ->
  (exists v, session_view p (s_active_vt p) = Some v /\
             cells v = vterm_get_direct_buffer p) /\
  (forall i data p',
     stays_in_grid_at p i data = true ->
     vterm_write p i data = Some p' ->
     (exists v', session_view p' (s_active_vt p') = Some v' /\
                 cells v' = vterm_get_direct_buffer p') /\
     (i <> s_active_vt p -> vterm_get_direct_buffer p' = vterm_get_direct_buffer p)) /\
  (forall i c p',
     stays_in_grid_at p i [c] = true ->
     vterm_putchar p i c = Some p' ->
     (exists v', session_view p' (s_active_vt p') = Some v' /\
                 cells v' = vterm_get_direct_buffer p') /\
     (i <> s_active_vt p -> vterm_get_direct_buffer p' = vterm_get_direct_buffer p)) /\
  (forall i, i <> s_active_vt p ->
     vterm_get_direct_buffer (vterm_clear p i) = vterm_get_direct_buffer p).
Proof.
  intros Hok. split; [apply direct_buffer_active, Hok|]. split; [|split].
  - intros i data p' _ Hw.
    split; [apply direct_buffer_active, (vterm_write_keeps_pool p i data p' Hok Hw)|].
    intros Hne. unfold vterm_write in Hw.
    destruct ((i <? 0) || (VTERM_COUNT <=? i)); [injection Hw as <-; reflexivity|].
    destruct (get_session p i) as [s|] eqn:Hs; [|injection Hw as <-; reflexivity].
    destruct (write_body (view p s) data) as [[vt out]|]; [|discriminate].
    injection Hw as <-. rewrite direct_buffer_send_all.
    apply (direct_buffer_commit p i s vt Hok Hs Hne).
  - intros i c p' _ Hw.
    split; [apply direct_buffer_active, (vterm_putchar_keeps_pool p i c p' Hok Hw)|].
    intros Hne. unfold vterm_putchar in Hw.
    destruct ((i <? 0) || (VTERM_COUNT <=? i)); [injection Hw as <-; reflexivity|].
    destruct (get_session p i) as [s|] eqn:Hs; [|injection Hw as <-; reflexivity].
    destruct (putchar_body (view p s) c) as [[vt out]|]; [|discriminate].
    injection Hw as <-. rewrite direct_buffer_send_all.
    apply (direct_buffer_commit p i s vt Hok Hs Hne).
  - intros i Hne. unfold vterm_clear.
    destruct ((i <? 0) || (VTERM_COUNT <=? i)); [reflexivity|].
    destruct (get_session p i) as [s|] eqn:Hs; [|reflexivity].
    apply (direct_buffer_commit p i s _ Hok Hs Hne).
Qed.

(** "AB" is written to session 0 of the pool of [vterm_init], the active
    one, and shows in the display buffer; "xy" is then written to session
    1, and the display buffer is as before. *)
Lemma display_buffer_shows_active_session_witness :
  exists p p1,
    vterm_write vterm_init 0 (str "AB") = Some p /\
    vterm_get_direct_buffer p !! 0%nat = Some (Cell "A" VTERM_DEFAULT_ATTR) /\
    vterm_write p 1 (str "xy") = Some p1 /\
    vterm_get_direct_buffer p1 = vterm_get_direct_buffer p.
Proof.
  destruct init_AB_written as (Hin & p & v & Hw & Hok & Hact & Hv & _ & _ & HA & Hp1).
  destruct (display_buffer_shows_active_session vterm_init pool_ok_init) as (_ & H2 & _).
  destruct (H2 0 (str "AB") p Hin Hw) as [(v' & Hv' & Hbuf) _].
  rewrite Hact, Hv in Hv'. injection Hv' as <-.
  destruct (printable_write_on_pool p 1 fresh_fields (str "xy") Hok eq_refl Hp1
              fresh_fields_cursor eq_refl printable_xy)
    as (Hin1 & p1 & _ & Hw1 & _).
  destruct (display_buffer_shows_active_session p Hok) as (_ & K2 & _).
  destruct (K2 1 (str "xy") p1 Hin1 Hw1) as [_ Hsame].
  exists p, p1. split; [exact Hw|]. split; [rewrite <- Hbuf; exact HA|].
  split; [exact Hw1|]. apply Hsame. rewrite Hact. discriminate.
Defined.

(** ** The dirty flag *)

(** Session [k] is marked for redrawing. *)
Definition dirty_at (p : vterm_pool) (k : Z) : Prop :=
  exists v, session_view p k = Some v /\ dirty v = 1.

Lemma dirty_at_store_view p i s vt k :
  pool_ok p -> get_session p i = Some s -> dirty_at p k ->
  (k = i -> dirty vt = 1) -> dirty_at (store_view p i vt) k.
Proof.
  intros Hok Hs (v & Hv & Hd) Hi. destruct (Z.eq_dec k i) as [->|Hne].
  - exists vt. split; [eapply view_store_view, Hs | apply Hi; reflexivity].
  - exists v. split; [|exact Hd].
    rewrite (store_view_others p i s vt k Hok Hs Hne). exact Hv.
Qed.

Lemma dirty_at_send_all p i out k : dirty_at p k -> dirty_at (send_all p i out) k.
Proof. intros (v & Hv & Hd). exists v. rewrite view_send_all. auto. Qed.

Lemma invalid_id_range i :
  valid_id i = false -> (i <? 0) || (VTERM_COUNT <=? i) = true.
Proof.
  unfold valid_id. intros H. apply andb_false_iff in H.
  rewrite Z.leb_gt, Z.ltb_ge in H. apply orb_true_iff.
  rewrite Z.ltb_lt, Z.leb_le. lia.
Qed.

Lemma vterm_refresh_store p s :
  get_session p (s_active_vt p) = Some s ->
  vterm_refresh p = store_view p (s_active_vt p) (set_dirty (view p s) 1).
Proof. intros Hs. unfold vterm_refresh, store_view. rewrite Hs. reflexivity. Qed.

(** X29: no call of the module resets a [dirty] flag.  [vterm_refresh]
    sets the flag of the active session and changes nothing else (every
    session shows what it showed, the other flags and the input queues are
    as before); and a session whose flag is set still has it set after
    [vterm_refresh], [vterm_clear], [vterm_switch] and [vterm_send_input],
    whichever session they address, and after a [vterm_putchar] or a
    [vterm_write] to any session whose run keeps the cursor inside the
    grid. *)
Theorem dirty_flag_is_never_reset p :
  pool_ok p ->
  dirty_at (vterm_refresh p) (s_active_vt p) /\
  (forall k v, session_view p k = Some v ->
     exists v', session_view (vterm_refresh p) k = Some v' /\
                same_terminal_state v v' /\
                (k <> s_active_vt p -> dirty v' = dirty v)) /\
  input_queues (vterm_refresh p) = input_queues p /\
  forall k, dirty_at p k ->
    dirty_at (vterm_refresh p) k /\
    (forall i, dirty_at (vterm_clear p i) k) /\
    (forall j, dirty_at (vterm_switch p j) k) /\
    (forall i c, dirty_at (vterm_send_input p i c) k) /\
    (forall i c p', stays_in_grid_at p i [c] = true ->
                    vterm_putchar p i c = Some p' -> dirty_at p' k) /\
    (forall i d p', stays_in_grid_at p i d = true ->
                    vterm_write p i d = Some p' -> dirty_at p' k).
Proof.
  intros Hok. pose proof Hok as (_ & Ha & _).
  apply valid_id_range in Ha.
  destruct (pool_ok_get p (s_active_vt p) Hok Ha) as [sa Hsa].
  rewrite (vterm_refresh_store p sa Hsa).
  split; [|split; [|split]].
  - eexists. split; [eapply view_store_view, Hsa | reflexivity].
  - intros k v Hv. destruct (Z.eq_dec k (s_active_vt p)) as [->|Hne].
    + exists (set_dirty (view p sa) 1). split; [eapply view_store_view, Hsa|].
      unfold session_view in Hv. rewrite Hsa in Hv. injection Hv as <-.
      split; [repeat split | contradiction].
    + exists v. rewrite (store_view_others p _ sa _ k Hok Hsa Hne).
      split; [exact Hv|]. split; [repeat split | reflexivity].
  - apply store_view_queues.
  - intros k Hk. split; [|split; [|split; [|split; [|split]]]].
    + apply (dirty_at_store_view p _ sa _ k Hok Hsa Hk). reflexivity.
    + intros i. destruct (valid_id i) eqn:Hi.
      * destruct (pool_ok_get p i Hok Hi) as [s Hs].
        rewrite (vterm_clear_store p i s Hi Hs).
        apply (dirty_at_store_view p i s _ k Hok Hs Hk).
        intros ->. destruct Hk as (v & Hv & Hd).
        unfold session_view in Hv. rewrite Hs in Hv. injection Hv as <-. exact Hd.
      * unfold vterm_clear. rewrite (invalid_id_range i Hi). exact Hk.
    + intros j. destruct (valid_id j) eqn:Hj.
      * destruct (vterm_switch_views p j Hok Hj) as (_ & _ & Hviews).
        destruct Hk as (v & Hv & Hd). exists v. rewrite Hviews. auto.
      * rewrite (vterm_switch_noop p j (or_introl Hj)). exact Hk.
    + intros i c. destruct Hk as (v & Hv & Hd). exists v. rewrite view_send. auto.
    + intros i c p' _ Hw. destruct (valid_id i) eqn:Hi.
      * destruct (pool_ok_get p i Hok Hi) as [s Hs].
        rewrite (vterm_putchar_store p i c s Hi Hs) in Hw.
        unfold putchar_body in Hw.
        destruct (vterm_handle_escape (view p s) c) as [[[h w] o]|]; [|discriminate].
        injection Hw as <-. apply dirty_at_send_all.
        apply (dirty_at_store_view p i s _ k Hok Hs Hk). reflexivity.
      * unfold vterm_putchar in Hw. rewrite (invalid_id_range i Hi) in Hw.
        injection Hw as <-. exact Hk.
    + intros i d p' _ Hw. destruct (valid_id i) eqn:Hi.
      * destruct (pool_ok_get p i Hok Hi) as [s Hs].
        destruct (vterm_write_dirty p i s d p' Hi Hs Hw) as (v1 & Hv1 & Hd1).
        destruct (Z.eq_dec k i) as [->|Hne]; [exists v1; auto|].
        rewrite (vterm_write_store p i d s Hi Hs) in Hw.
        destruct (write_body (view p s) d) as [[vt out]|]; [|discriminate].
        injection Hw as <-. apply dirty_at_send_all.
        apply (dirty_at_store_view p i s _ k Hok Hs Hk). intros E. contradiction.
      * unfold vterm_write in Hw. rewrite (invalid_id_range i Hi) in Hw.
        injection Hw as <-. exact Hk.
Qed.

(** After [vterm_init] no session is marked; [vterm_refresh] marks
    session 0, which stays marked over a switch to session 3 and over "xy"
    written to session 1. *)
Lemma dirty_flag_is_never_reset_witness :
  dirty_at (vterm_refresh vterm_init) 0 /\
  dirty_at (vterm_switch (vterm_refresh vterm_init) 3) 0 /\
  exists p, vterm_write (vterm_refresh vterm_init) 1 (str "xy") = Some p /\
            dirty_at p 0.
Proof.
  destruct (dirty_flag_is_never_reset vterm_init pool_ok_init) as (H0 & _).
  split; [exact H0|].
  assert (Hok : pool_ok (vterm_refresh vterm_init)).
  { rewrite (vterm_refresh_store vterm_init session0 init_session0).
    apply pool_ok_store_view; [apply pool_ok_init|]. reflexivity. }
  destruct (dirty_flag_is_never_reset _ Hok) as (_ & _ & _ & H).
  destruct (H 0 H0) as (_ & _ & Hsw & _ & _ & Hwr).
  split; [apply Hsw|].
  assert (Hs1 : session_view (vterm_refresh vterm_init) 1 = Some fresh_fields).
  { rewrite (vterm_refresh_store vterm_init session0 init_session0).
    rewrite (store_view_others vterm_init _ session0 _ 1 pool_ok_init init_session0
               ltac:(discriminate)).
    reflexivity. }
  destruct (printable_write_on_pool _ 1 fresh_fields (str "xy") Hok eq_refl Hs1
              fresh_fields_cursor eq_refl printable_xy)
    as (Hin & p & _ & Hw & _).
  exists p. split; [exact Hw | exact (Hwr 1 (str "xy") p Hin Hw)].
Defined.

(** ** Keys that are not hotkeys *)

Definition upper_letters : list ascii := str "ABCDEFGHIJKLMNOPQRSTUVWXYZ".

Lemma is_upper_letters f : is_upper f = true -> In f upper_letters.
Proof.
  destruct f as [b0 b1 b2 b3 b4 b5 b6 b7].
  destruct b0, b1, b2, b3, b4, b5, b6, b7; intros H;
    first [discriminate H | vm_compute; tauto].
Qed.

(** The pool with its fields, and the 16 bytes of [s_esc_buf], as
    variables. *)
Ltac open_pool p Hbuf :=
  let ir := fresh "ir" in let vts := fresh "vts" in let act := fresh "act" in
  let scb := fresh "scb" in let rcb := fresh "rcb" in let cl := fresh "cl" in
  let buf := fresh "buf" in let len := fresh "len" in let st := fresh "st" in
  destruct p as [ir vts act scb rcb cl buf len st];
  cbn [s_esc_len s_esc_buf s_vterms s_active_vt s_iram_buffer] in *;
  do 17 (destruct buf as [|? buf]; try discriminate Hbuf).

Lemma same_but_detector_esc p q buf len :
  same_but_detector p q -> same_but_detector (set_esc p buf len) q.
Proof. intros H. exact H. Qed.

(** The session [vterm_send_input] is called with does not depend on what
    has been sent. *)
Ltac active_fixed :=
  repeat first
    [ match goal with
      | |- context [s_active_vt (vterm_send_input ?q ?a ?c)] =>
          rewrite (proj1 (send_input_globals q a c))
      end
    | progress cbn [s_active_vt set_esc set_esc_start] ].

Ltac same_sends :=
  repeat first [ apply same_but_detector_send | apply same_but_detector_esc ];
  repeat split.

Ltac delivered :=
  cbn [fst snd]; split; [reflexivity|]; split;
  [ cbn [s_active_vt set_esc set_esc_start];
    repeat match goal with
    | |- context [buffered ?q] =>
        let b := eval cbv in (buffered q) in change (buffered q) with b
    end
  | ].

(** ESC, "[" or "O", and a capital letter, all within the timeout. *)
Lemma key_sequence_in_time hz p c1 f t0 t1 t2 :
  s_esc_len p = 0 -> length (s_esc_buf p) = 16%nat ->
  is_upper f = true ->
  c1 = "["%char \/ c1 = "O"%char /\ fkey f = None ->
  ticks_since t1 t0 <= pdMS_TO_TICKS hz 20 ->
  ticks_since t2 t0 <= pdMS_TO_TICKS hz 20 ->
  let r := feed_all hz p [(t0, ESC); (t1, c1); (t2, f)] in
  fst r = [0; 0; 0] /\
  same_but_detector (snd r) (send_all p (s_active_vt p) [ESC; c1; f]) /\
  s_esc_len (snd r) = 0.
Proof.
  intros Hlen Hbuf Hf Hc H1 H2 r. subst r.
  apply is_upper_letters in Hf.
  open_pool p Hbuf. subst.
  cbv in Hf.
  destruct Hc as [-> | [-> Hk]];
    repeat (destruct Hf as [<- | Hf]); try contradiction; try discriminate Hk;
    (cbn [feed_all];
     rewrite feed_start by reflexivity;
     cbn [s_esc_buf s_esc_len set_esc set_esc_start];
     feed_step_auto; feed_step_auto;
     rewrite flush_as_send_all;
     delivered; [|reflexivity];
     apply same_but_detector_send_all; repeat split).
Qed.

(** The same bytes with the last one after the timeout. *)
Lemma key_sequence_last_late hz p c1 f t0 t1 t2 :
  s_esc_len p = 0 -> length (s_esc_buf p) = 16%nat ->
  f <> ESC -> c1 = "["%char \/ c1 = "O"%char ->
  ticks_since t1 t0 <= pdMS_TO_TICKS hz 20 ->
  pdMS_TO_TICKS hz 20 < ticks_since t2 t0 ->
  let r := feed_all hz p [(t0, ESC); (t1, c1); (t2, f)] in
  fst r = [0; 0; 0] /\
  same_but_detector (snd r) (send_all p (s_active_vt p) [ESC; c1; f]) /\
  s_esc_len (snd r) = 0.
Proof.
  intros Hlen Hbuf Hf Hc H1 H2 r. subst r.
  open_pool p Hbuf. subst.
  destruct Hc as [-> | ->];
    (cbn [feed_all];
     rewrite feed_start by reflexivity;
     cbn [s_esc_buf s_esc_len set_esc set_esc_start];
     feed_step_auto;
     rewrite feed_timeout
       by (cbn [s_esc_len s_esc_start set_esc set_esc_start]; first [lia | exact H2]);
     rewrite flush_as_send_all;
     rewrite feed_plain by (auto; reflexivity);
     delivered;
     [ unfold send_all; cbn [foldl]; active_fixed; same_sends
     | match goal with
       | |- s_esc_len (vterm_send_input ?q ?a ?c) = 0 =>
           rewrite (proj1 (proj2 (proj2 (send_input_globals q a c))))
       end; reflexivity ]).
Qed.

(** The same bytes with the second one after the timeout. *)
Lemma key_sequence_second_late hz p c1 f t0 t1 t2 :
  s_esc_len p = 0 -> length (s_esc_buf p) = 16%nat ->
  f <> ESC -> c1 <> ESC ->
  pdMS_TO_TICKS hz 20 < ticks_since t1 t0 ->
  let r := feed_all hz p [(t0, ESC); (t1, c1); (t2, f)] in
  fst r = [0; 0; 0] /\
  same_but_detector (snd r) (send_all p (s_active_vt p) [ESC; c1; f]) /\
  s_esc_len (snd r) = 0.
Proof.
  intros Hlen Hbuf Hf Hc H1 r. subst r.
  open_pool p Hbuf. subst.
  cbn [feed_all].
  rewrite feed_start by reflexivity.
  cbn [s_esc_buf s_esc_len set_esc set_esc_start].
  rewrite feed_timeout
    by (cbn [s_esc_len s_esc_start set_esc set_esc_start]; first [lia | exact H1]).
  rewrite flush_as_send_all.
  rewrite feed_plain by (auto; reflexivity).
  rewrite feed_plain;
    [ | match goal with
        | |- s_esc_len (vterm_send_input ?q ?a ?c) = 0 =>
            rewrite (proj1 (proj2 (proj2 (send_input_globals q a c))))
        end; reflexivity
      | exact Hf ].
  delivered.
  - unfold send_all. cbn [foldl]. active_fixed. same_sends.
  - repeat match goal with
    | |- s_esc_len (vterm_send_input ?q ?a ?c) = 0 =>
        rewrite (proj1 (proj2 (proj2 (send_input_globals q a c))))
    end. reflexivity.
Qed.

(** X30: keys that are not hotkeys reach the application.  ESC [ and a
    capital letter (the cursor keys ESC [ A .. D, Home, End, ...) and ESC O
    and a capital letter other than P, Q, R, S, fed to an idle detector,
    are sent unchanged and in order to the active session, whatever the
    timing of the three bytes; every call returns 0, the detector is idle
    afterwards and nothing else in the pool changes. *)
Theorem other_keys_pass_through hz p c1 f t0 t1 t2 :
  s_esc_len p = 0 -> length (s_esc_buf p) = 16%nat ->
  is_upper f = true ->
  c1 = "["%char \/ c1 = "O"%char /\ fkey f = None ->
  let r := feed_all hz p [(t0, ESC); (t1, c1); (t2, f)] in
  fst r = [0; 0; 0] /\
  same_but_detector (snd r) (send_all p (s_active_vt p) [ESC; c1; f]) /\
  s_esc_len (snd r) = 0.
Proof.
  intros Hlen Hbuf Hf Hc.
  assert (HfE : f <> ESC) by (intros ->; discriminate Hf).
  destruct (Z.lt_ge_cases (pdMS_TO_TICKS hz 20) (ticks_since t1 t0)) as [L1|I1].
  - apply key_sequence_second_late; try assumption.
    destruct Hc as [-> | [-> _]]; discriminate.
  - destruct (Z.lt_ge_cases (pdMS_TO_TICKS hz 20) (ticks_since t2 t0)) as [L2|I2].
    + apply key_sequence_last_late; try assumption. tauto.
    + apply key_sequence_in_time; assumption.
Qed.

(** The cursor-up key, ESC [ A, typed on the pool of [vterm_init]. *)
Lemma other_keys_pass_through_witness :
  let r := feed_all 1000 vterm_init [(100, ESC); (101, "["%char); (102, "A"%char)] in
  fst r = [0; 0; 0] /\
  same_but_detector (snd r) (send_all vterm_init 0 (ESC :: str "[A")) /\
  s_esc_len (snd r) = 0.
Proof.
  apply (other_keys_pass_through 1000 vterm_init "[" "A" 100 101 102);
    first [reflexivity | left; reflexivity].
Defined.
